(** * kelmore_files: a verification model of [files.py]

    The module is a thin layer over the operating system: every function
    of [files.py] is a few lines of Python around [os], [os.path],
    [shutil] and the built-in [open].  The development has four parts:

    - Python strings and the [posixpath] functions the module calls;
    - a file-system state (a tree of files, directories and symbolic
      links, a working directory, and the table of open file objects)
      with the POSIX name resolution and the primitives of [os],
      [shutil] and [open] on it;
    - the functions of [files.py], one definition per Python function,
      written in a state-and-exception monad over that state;
    - the properties of those functions. *)

From stdpp Require Import base tactics option list strings gmap.
From Stdlib Require Import ZArith Ascii Lia.
From Stdlib Require Import Sorting.Permutation.

Local Open Scope Z_scope.

Set Warnings "-register-all".

(* ================================================================== *)
(** * Python strings *)
(* ================================================================== *)

(** A Python [str] is a [string]; a character is an [ascii], read as the
    code point of the same number. *)

Module Py.

Definition sep : ascii := "/"%char.
Definition extsep : ascii := "."%char.
Definition LF : ascii := "010"%char.
Definition CR : ascii := "013"%char.

Definition ch_eqb (a b : ascii) : bool := bool_decide (a = b).
Definition str_eqb (a b : string) : bool := bool_decide (a = b).

(** [len(s)] *)
Fixpoint len (s : string) : Z :=
  match s with
  | EmptyString => 0
  | String _ r => 1 + len r
  end.

(** [s[:n]] and [s[n:]] for [0 <= n]. *)
Fixpoint take (n : nat) (s : string) : string :=
  match n, s with
  | S k, String c r => String c (take k r)
  | _, _ => EmptyString
  end.

Fixpoint drop (n : nat) (s : string) : string :=
  match n, s with
  | S k, String _ r => drop k r
  | _, _ => s
  end.

Definition slice_to (s : string) (i : Z) : string := take (Z.to_nat i) s.
Definition slice_from (s : string) (i : Z) : string := drop (Z.to_nat i) s.

(** [s.rfind(c)] for a one-character needle: the highest index of [c],
    [-1] when [c] does not occur.  [rfind_from c s i] is that index
    shifted by [i]. *)
Fixpoint rfind_from (c : ascii) (s : string) (i : Z) : Z :=
  match s with
  | EmptyString => -1
  | String x r =>
      let k := rfind_from c r (i + 1) in
      if 0 <=? k then k else if ch_eqb x c then i else -1
  end.

Definition rfind (c : ascii) (s : string) : Z := rfind_from c s 0.

(** [s.startswith(c)], [s.endswith(c)] for a one-character argument. *)
Definition startswith (s : string) (c : ascii) : bool :=
  match s with
  | String x _ => ch_eqb x c
  | EmptyString => false
  end.

Fixpoint endswith (s : string) (c : ascii) : bool :=
  match s with
  | EmptyString => false
  | String x EmptyString => ch_eqb x c
  | String _ r => endswith r c
  end.

(** [s == c * len(s)] *)
Fixpoint all_char (c : ascii) (s : string) : bool :=
  match s with
  | EmptyString => true
  | String x r => ch_eqb x c && all_char c r
  end.

(** [s.rstrip(c)] for a one-character argument. *)
Fixpoint rstrip (c : ascii) (s : string) : string :=
  match s with
  | EmptyString => EmptyString
  | String x r =>
      match rstrip c r with
      | EmptyString => if ch_eqb x c then EmptyString else String x EmptyString
      | r' => String x r'
      end
  end.

(** [s.split(c)] with an explicit one-character separator: the pieces
    between the separators, empty pieces kept. *)
Fixpoint split_on (c : ascii) (s : string) : list string :=
  match s with
  | EmptyString => [EmptyString]
  | String x r =>
      if ch_eqb x c then EmptyString :: split_on c r
      else match split_on c r with
           | t :: ts => String x t :: ts
           | [] => [String x EmptyString]
           end
  end.

(** [str.isspace] of one character, for the code points below 256:
    tab to carriage return, the four separators 28 to 31, the space,
    NEL (133) and the no-break space (160). *)
Definition isspace (c : ascii) : bool :=
  let n := Z.of_nat (nat_of_ascii c) in
  ((9 <=? n) && (n <=? 13)) || ((28 <=? n) && (n <=? 32))
  || (n =? 133) || (n =? 160).

(** [s.split()] with no argument: the maximal runs of characters that
    are not white space. *)
Fixpoint split (s : string) : list string :=
  match s with
  | EmptyString => []
  | String x r =>
      if isspace x then split r
      else match r with
           | EmptyString => [String x EmptyString]
           | String y _ =>
               if isspace y then String x EmptyString :: split r
               else match split r with
                    | t :: ts => String x t :: ts
                    | [] => [String x EmptyString]
                    end
           end
  end.

(** [x in l] for a list of strings. *)
Definition contains (l : list string) (x : string) : bool :=
  bool_decide (x ∈ l).

End Py.

(* ================================================================== *)
(** * [posixpath] *)
(* ================================================================== *)

Module posixpath.

(** [posixpath.split]:
<<
    i = p.rfind(sep) + 1
    head, tail = p[:i], p[i:]
    if head and head != sep*len(head):
        head = head.rstrip(sep)
    return head, tail
>> *)
Definition split (p : string) : string * string :=
  let i := Py.rfind Py.sep p + 1 in
  let head := Py.slice_to p i in
  let tail := Py.slice_from p i in
  (if negb (Py.str_eqb head "") && negb (Py.all_char Py.sep head)
   then Py.rstrip Py.sep head
   else head, tail).

(** [posixpath.dirname]:
<<
    i = p.rfind(sep) + 1
    head = p[:i]
    if head and head != sep*len(head):
        head = head.rstrip(sep)
    return head
>> *)
Definition dirname (p : string) : string :=
  let i := Py.rfind Py.sep p + 1 in
  let head := Py.slice_to p i in
  if negb (Py.str_eqb head "") && negb (Py.all_char Py.sep head)
  then Py.rstrip Py.sep head
  else head.

(** One step of the loop of [posixpath.join]:
<<
    if b.startswith(sep):               path = b
    elif not path or path.endswith(sep): path += b
    else:                                path += sep + b
>> *)
Definition join2 (path b : string) : string :=
  if Py.startswith b Py.sep then b
  else if Py.str_eqb path "" || Py.endswith path Py.sep then path +:+ b
  else path +:+ String Py.sep b.

(** [posixpath.join(a, *p)] *)
Definition join (a : string) (p : list string) : string :=
  fold_left join2 p a.

(** The loop of [genericpath._splitext] that skips the leading dots of
    the file name; [n] bounds the number of iterations. *)
Fixpoint splitext_scan (n : nat) (p : string) (filenameIndex dotIndex : Z)
  : string * string :=
  match n with
  | O => (p, "")
  | S k =>
      if filenameIndex <? dotIndex then
        if negb (Py.str_eqb (Py.take 1 (Py.slice_from p filenameIndex))
                            (String Py.extsep ""))
        then (Py.slice_to p dotIndex, Py.slice_from p dotIndex)
        else splitext_scan k p (filenameIndex + 1) dotIndex
      else (p, "")
  end.

(** [posixpath.splitext]:
<<
    sepIndex = p.rfind(sep)
    dotIndex = p.rfind(extsep)
    if dotIndex > sepIndex:
        filenameIndex = sepIndex + 1
        while filenameIndex < dotIndex:
            if p[filenameIndex:filenameIndex+1] != extsep:
                return p[:dotIndex], p[dotIndex:]
            filenameIndex += 1
    return p, p[:0]
>> *)
Definition splitext (p : string) : string * string :=
  let sepIndex := Py.rfind Py.sep p in
  let dotIndex := Py.rfind Py.extsep p in
  if sepIndex <? dotIndex
  then splitext_scan (Z.to_nat (Py.len p)) p (sepIndex + 1) dotIndex
  else (p, "").

End posixpath.


(* ================================================================== *)
(** * The file system *)
(* ================================================================== *)

(** A file-system object is a regular file with its content, a directory
    with its entries in enumeration order, or a symbolic link with its
    target.  A location is the list of entry names from the root. *)

Inductive node :=
| File (data : string)
| Dir (entries : list (string * node))
| Link (target : string).

Abbreviation path := (list string).

Inductive kind :=
| KFile
| KDir
| KLink (target : string).

Definition kind_of (x : node) : kind :=
  match x with
  | File _ => KFile
  | Dir _ => KDir
  | Link t => KLink t
  end.

Fixpoint find_entry (n : string) (es : list (string * node)) : option node :=
  match es with
  | [] => None
  | (m, x) :: r => if Py.str_eqb m n then Some x else find_entry n r
  end.

(** The object at a location, no link followed. *)
Fixpoint get (t : node) (p : path) : option node :=
  match p with
  | [] => Some t
  | c :: r =>
      match t with
      | Dir es =>
          match find_entry c es with
          | Some x => get x r
          | None => None
          end
      | _ => None
      end
  end.

Definition lkind (t : node) (p : path) : option kind := kind_of <$> get t p.

(** [alter_first c g es]: the entries [es] with [g] applied to the first
    object named [c]. *)
Fixpoint alter_first (c : string) (g : node → node) (es : list (string * node))
  : list (string * node) :=
  match es with
  | [] => []
  | e :: r =>
      if Py.str_eqb e.1 c then (e.1, g e.2) :: r
      else e :: alter_first c g r
  end.

(** [alter_dir f t p]: the tree [t] with the entries [es] of the directory
    at [p] replaced by [f es]; [t] itself when [p] is no directory. *)
Fixpoint alter_dir (f : list (string * node) → list (string * node))
    (t : node) (p : path) : node :=
  match t with
  | Dir es =>
      match p with
      | [] => Dir (f es)
      | c :: r => Dir (alter_first c (λ x, alter_dir f x r) es)
      end
  | _ => t
  end.

Definition remove_name (n : string) (es : list (string * node))
  : list (string * node) :=
  List.filter (λ e, negb (Py.str_eqb e.1 n)) es.

(** A new entry goes to the end of the enumeration; an existing one is
    replaced where it stands. *)
Definition set_name (n : string) (x : node) (es : list (string * node))
  : list (string * node) :=
  match find_entry n es with
  | Some _ => alter_first n (λ _, x) es
  | None => es ++ [(n, x)]
  end.

(** Removing and writing the entry [n] of the directory at [d]. *)
Definition del (t : node) (d : path) (n : string) : node :=
  alter_dir (remove_name n) t d.

Definition put (t : node) (d : path) (n : string) (x : node) : node :=
  alter_dir (set_name n x) t d.

(** The last name of a location and the location of its directory. *)
Definition unsnoc (q : path) : option (path * string) :=
  match reverse q with
  | [] => None
  | n :: rd => Some (reverse rd, n)
  end.

Definition del_at (t : node) (q : path) : node :=
  match unsnoc q with
  | Some (d, n) => del t d n
  | None => t
  end.

Definition put_at (t : node) (q : path) (x : node) : node :=
  match unsnoc q with
  | Some (d, n) => put t d n x
  | None => t
  end.

(** ** Name resolution *)

Inductive errno :=
| ENOENT | ENOTDIR | ELOOP | EISDIR | EEXIST | ENOTEMPTY | EBUSY | EINVAL.

(** The outcome of resolving a path: the location it names; or its last
    component is missing from the existing directory [parent] (with
    [slash] when separators follow it); or the resolution fails. *)
Inductive lookup :=
| Found (q : path)
| Absent (parent : path) (name : string) (slash : bool)
| Failed (e : errno).

Definition is_dot (c : string) : bool :=
  Py.str_eqb c "" || Py.str_eqb c ".".

Definition is_nil {A} (l : list A) : bool :=
  match l with
  | [] => true
  | _ => false
  end.

Section resolution.

(** The resolution reads the tree only through the kind of the object at
    a location. *)
Variable lk : path → option kind.

(** One pass over the components of a path, from the directory [cur].
    Empty and [.] components stay in place, [..] moves to the parent (the
    root is its own parent), a name moves to the entry of that name.  A
    symbolic link is expanded, through [expand], when it is not the last
    component or when [follow] is set: its target's components replace
    it, from the root when the target is absolute. *)
Fixpoint walk_comps (expand : path → list string → lookup) (follow : bool)
    (cur : path) (comps : list string) : lookup :=
  match comps with
  | [] => Found cur
  | c :: rest =>
      match lk cur with
      | Some KDir =>
          if is_dot c then walk_comps expand follow cur rest
          else if Py.str_eqb c ".." then
            walk_comps expand follow (removelast cur) rest
          else
            match lk (cur ++ [c]) with
            | None =>
                if forallb (Py.str_eqb "") rest
                then Absent cur c (negb (is_nil rest))
                else Failed ENOENT
            | Some (KLink t) =>
                if follow || negb (is_nil rest) then
                  if Py.str_eqb t "" then Failed ENOENT
                  else expand (if Py.startswith t Py.sep then [] else cur)
                              (Py.split_on Py.sep t ++ rest)
                else Found (cur ++ [c])
            | Some _ => walk_comps expand follow (cur ++ [c]) rest
            end
      | Some _ => Failed ENOTDIR
      | None => Failed ENOENT
      end
  end.

(** [fuel] bounds the number of links expanded in one resolution. *)
Fixpoint namei (fuel : nat) (follow : bool) (cur : path) (comps : list string)
  : lookup :=
  walk_comps
    (match fuel with
     | O => λ _ _, Failed ELOOP
     | S f => namei f follow
     end)
    follow cur comps.

End resolution.

(** The kernel gives up after 40 links. *)
Definition MAXSYMLINKS : nat := 40.

(** ** The state *)

(** The six modes [FileIO.open] can ask for. *)
Inductive open_mode := mode_r | mode_w | mode_a_plus | mode_rb | mode_wb | mode_ab.

(** An open file object: its descriptor, the location of the file it is
    open on, and its mode. *)
Record file_object := FileObject {
  fileno : nat;
  floc : path;
  fmode : open_mode
}.

(** The state: the tree, the working directory of the process, and the
    file objects that are open. *)
Record world := World {
  root : node;
  cwd : path;
  open_files : list file_object
}.

Definition set_root (w : world) (t : node) : world :=
  {| root := t; cwd := cwd w; open_files := open_files w |}.

Definition resolve (w : world) (follow : bool) (p : string) : lookup :=
  if Py.str_eqb p "" then Failed ENOENT
  else namei (lkind (root w)) MAXSYMLINKS follow
         (if Py.startswith p Py.sep then [] else cwd w)
         (Py.split_on Py.sep p).

(** ** Exceptions and the monad of Python code *)

(** [OSError e] stands for the subclass of [OSError] the interpreter
    raises for the error number [e] ([FileNotFoundError] for [ENOENT],
    [NotADirectoryError] for [ENOTDIR], ...); [IOError msg] is the
    [IOError] (an alias of [OSError]) the module raises itself. *)
Inductive exn :=
| ValueError (msg : string)
| IOError (msg : string)
| OSError (e : errno)
| AttributeError (msg : string)
| TypeError (msg : string)
| UnsupportedOperation.

Inductive result (A : Type) :=
| Ok (a : A)
| Raise (e : exn).
Arguments Ok {A} a.
Arguments Raise {A} e.

(** A computation reads and changes the state and returns or raises; what
    it changed before raising stays changed. *)
Definition M (A : Type) : Type := world → result A * world.

Definition ret {A} (a : A) : M A := λ w, (Ok a, w).
Definition throw {A} (e : exn) : M A := λ w, (Raise e, w).
Definition bind {A B} (c : M A) (k : A → M B) : M B :=
  λ w, match c w with
       | (Ok a, w') => k a w'
       | (Raise e, w') => (Raise e, w')
       end.
Definition query {A} (f : world → A) : M A := λ w, (Ok (f w), w).

Notation "'let*' x := c 'in' k" := (bind c (λ x, k))
  (at level 10, x name, c at level 100, k at level 200).
Notation "c ';;;' k" := (bind c (λ _, k))
  (at level 100, k at level 200, right associativity).

(** [for x in l: body] *)
Fixpoint for_ {A} (l : list A) (body : A → M unit) : M unit :=
  match l with
  | [] => ret tt
  | x :: r => bind (body x) (λ _, for_ r body)
  end.

(* ================================================================== *)
(** * The primitives of [os], [shutil] and [open] *)
(* ================================================================== *)

Module os.

(** [os.stat] and [os.lstat], as far as the kind of the object. *)
Definition stat_kind (w : world) (follow : bool) (p : string) : option kind :=
  match resolve w follow p with
  | Found q => lkind (root w) q
  | _ => None
  end.

(** [os.path.exists], [isfile] and [isdir] follow links; [islink] does
    not.  A path that does not resolve gives [False]. *)
Definition path_exists (w : world) (p : string) : bool :=
  match stat_kind w true p with
  | Some _ => true
  | None => false
  end.

Definition path_isfile (w : world) (p : string) : bool :=
  match stat_kind w true p with
  | Some KFile => true
  | _ => false
  end.

Definition path_isdir (w : world) (p : string) : bool :=
  match stat_kind w true p with
  | Some KDir => true
  | _ => false
  end.

Definition path_islink (w : world) (p : string) : bool :=
  match stat_kind w false p with
  | Some (KLink _) => true
  | _ => false
  end.

(** [os.remove], which is also [os.unlink]: removes a file or a link, the
    link itself when the path names one. *)
Definition remove (p : string) : M unit := λ w,
  match resolve w false p with
  | Found q =>
      match lkind (root w) q with
      | Some KDir => (Raise (OSError EISDIR), w)
      | Some _ => (Ok tt, set_root w (del_at (root w) q))
      | None => (Raise (OSError ENOENT), w)
      end
  | Absent _ _ _ => (Raise (OSError ENOENT), w)
  | Failed e => (Raise (OSError e), w)
  end.

Definition unlink (p : string) : M unit := remove p.

(** The last component of a path that is not empty. *)
Definition final_component (p : string) : string :=
  default "" (last (List.filter (λ c, negb (Py.str_eqb c "")) (Py.split_on Py.sep p))).

(** [os.rmdir]: removes an empty directory. *)
Definition rmdir (p : string) : M unit := λ w,
  match resolve w false p with
  | Found q =>
      match get (root w) q with
      | Some (Dir es) =>
          if Py.str_eqb (final_component p) "." then (Raise (OSError EINVAL), w)
          else if negb (is_nil es) || Py.str_eqb (final_component p) ".."
          then (Raise (OSError ENOTEMPTY), w)
          else if is_nil q then (Raise (OSError EBUSY), w)
          else (Ok tt, set_root w (del_at (root w) q))
      | Some _ => (Raise (OSError ENOTDIR), w)
      | None => (Raise (OSError ENOENT), w)
      end
  | Absent _ _ _ => (Raise (OSError ENOENT), w)
  | Failed e => (Raise (OSError e), w)
  end.

(** [os.mkdir]: the last component must not exist, not even as a
    dangling link. *)
Definition mkdir (p : string) : M unit := λ w,
  match resolve w false p with
  | Found _ => (Raise (OSError EEXIST), w)
  | Absent d n _ => (Ok tt, set_root w (put (root w) d n (Dir [])))
  | Failed e => (Raise (OSError e), w)
  end.

(** [os.makedirs(name)], with [exist_ok=False]:
<<
    head, tail = path.split(name)
    if not tail:
        head, tail = path.split(head)
    if head and tail and not path.exists(head):
        try:
            makedirs(head, exist_ok=exist_ok)
        except FileExistsError:
            pass
        if tail == curdir:
            return
    mkdir(name, mode)
>>
    The recursion is on a shorter string each time; [fuel] counts the
    calls. *)
Fixpoint makedirs_rec (fuel : nat) (name : string) : M unit :=
  match fuel with
  | O => throw (OSError ELOOP)
  | S k =>
      let ht := posixpath.split name in
      let ht := if Py.str_eqb ht.2 "" then posixpath.split ht.1 else ht in
      λ w,
        if negb (Py.str_eqb ht.1 "") && negb (Py.str_eqb ht.2 "")
           && negb (path_exists w ht.1)
        then
          match makedirs_rec k ht.1 w with
          | (Ok _, w1) | (Raise (OSError EEXIST), w1) =>
              if Py.str_eqb ht.2 "." then (Ok tt, w1) else mkdir name w1
          | (Raise e, w1) => (Raise e, w1)
          end
        else mkdir name w
  end.

Definition makedirs (name : string) : M unit :=
  makedirs_rec (S (Z.to_nat (Py.len name))) name.

(** [DirEntry.is_dir()] of the entry [n], the object [x], of the directory
    at [loc]: a link counts as what it leads to. *)
Definition entry_is_dir (t : node) (loc : path) (n : string) (x : node) : bool :=
  match x with
  | Dir _ => true
  | File _ => false
  | Link _ =>
      match namei (lkind t) MAXSYMLINKS true loc [n] with
      | Found q =>
          match lkind t q with
          | Some KDir => true
          | _ => false
          end
      | _ => false
      end
  end.

(** [os.walk(top)], top down, links to directories not followed: the
    triple of a directory (its path, the names of its entries that are
    directories, the names of the others), then the triples of its
    subdirectories in enumeration order, a link to a directory excepted.
    [root_] is the whole tree, [x] the directory at [loc], which the
    caller writes [top]. *)
Fixpoint walk_tree (root_ : node) (top : string) (loc : path) (x : node)
  : list (string * list string * list string) :=
  match x with
  | Dir es =>
      (top,
       (List.filter (λ e, entry_is_dir root_ loc e.1 e.2) es).*1,
       (List.filter (λ e, negb (entry_is_dir root_ loc e.1 e.2)) es).*1)
      :: (fix subdirs (l : list (string * node)) :=
            match l with
            | [] => []
            | (n, y) :: r =>
                match y with
                | Dir _ => walk_tree root_ (posixpath.join top [n]) (loc ++ [n]) y
                | _ => []
                end ++ subdirs r
            end) es
  | _ => []
  end.

(** A path that is no directory yields nothing: [os.walk] ignores the
    error of listing it. *)
Definition walk (top : string) : M (list (string * list string * list string)) :=
  query (λ w,
    match resolve w true top with
    | Found q =>
        match get (root w) q with
        | Some x => walk_tree (root w) top q x
        | None => []
        end
    | _ => []
    end).

End os.

Module shutil.

(** [shutil.rmtree(path, ignore_errors=True)]: nothing happens unless the
    path names a directory that is no link; then its content is removed,
    and [os.rmdir(path)] removes the directory itself.  No error comes
    out. *)
Definition rmtree_ignore_errors (p : string) : M unit := λ w,
  match resolve w false p with
  | Found q =>
      match lkind (root w) q with
      | Some KDir =>
          (Ok tt, (os.rmdir p (set_root w (alter_dir (λ _, []) (root w) q))).2)
      | _ => (Ok tt, w)
      end
  | _ => (Ok tt, w)
  end.

End shutil.

Module io.

Definition readable (m : open_mode) : bool :=
  match m with
  | mode_r | mode_rb | mode_a_plus => true
  | _ => false
  end.

Definition writable (m : open_mode) : bool :=
  match m with
  | mode_r | mode_rb => false
  | _ => true
  end.

Definition creates (m : open_mode) : bool := writable m.

Definition truncates (m : open_mode) : bool :=
  match m with
  | mode_w | mode_wb => true
  | _ => false
  end.

Definition binary (m : open_mode) : bool :=
  match m with
  | mode_rb | mode_wb | mode_ab => true
  | _ => false
  end.

(** A descriptor no open file object has. *)
Definition fresh_fd (fs : list file_object) : nat :=
  S (foldr (λ f n, Nat.max (fileno f) n) 2%nat fs).

Definition new_file_object (w : world) (t : node) (q : path) (m : open_mode)
  : result file_object * world :=
  let f := FileObject (fresh_fd (open_files w)) q m in
  (Ok f, {| root := t; cwd := cwd w; open_files := f :: open_files w |}).

(** The built-in [open(path, mode)].  The path is resolved with its links
    followed.  A mode that writes creates a missing file, also behind a
    dangling link, and [w] empties an existing one. *)
Definition open_ (p : string) (m : open_mode) : M file_object := λ w,
  match resolve w true p with
  | Found q =>
      match get (root w) q with
      | Some (File _) =>
          new_file_object w
            (if truncates m then put_at (root w) q (File "") else root w) q m
      | Some (Dir _) => (Raise (OSError EISDIR), w)
      | _ => (Raise (OSError ENOENT), w)
      end
  | Absent d n slash =>
      if creates m then
        if slash then (Raise (OSError EISDIR), w)
        else new_file_object w (put (root w) d n (File "")) (d ++ [n]) m
      else (Raise (OSError ENOENT), w)
  | Failed e => (Raise (OSError e), w)
  end.

Definition is_open (w : world) (f : file_object) : bool :=
  bool_decide (fileno f ∈ fileno <$> open_files w).

(** [file.close()] *)
Definition close (f : file_object) : M unit := λ w,
  (Ok tt,
   {| root := root w; cwd := cwd w;
      open_files :=
        List.filter (λ g, negb (bool_decide (fileno g = fileno f))) (open_files w) |}).

(** Reading in text mode translates the line ends [\r\n] and [\r] to
    [\n] (the default [newline=None]). *)
Fixpoint universal_newlines (s : string) : string :=
  match s with
  | EmptyString => EmptyString
  | String c r =>
      if Py.ch_eqb c Py.CR then
        String Py.LF
          match r with
          | String c' r' =>
              if Py.ch_eqb c' Py.LF then universal_newlines r'
              else universal_newlines r
          | EmptyString => EmptyString
          end
      else String c (universal_newlines r)
  end.

(** The lines of a text, each with its line end, the last one maybe
    without. *)
Fixpoint lines_of (s : string) : list string :=
  match s with
  | EmptyString => []
  | String c r =>
      if Py.ch_eqb c Py.LF then String c EmptyString :: lines_of r
      else match lines_of r with
           | l :: ls => String c l :: ls
           | [] => [String c EmptyString]
           end
  end.

Definition content (w : world) (f : file_object) : string :=
  match get (root w) (floc f) with
  | Some (File d) => d
  | _ => EmptyString
  end.

(** [file.read()]: the whole content. *)
Definition read (f : file_object) : M string := λ w,
  if negb (is_open w f) then (Raise (ValueError "I/O operation on closed file."), w)
  else if negb (readable (fmode f)) then (Raise UnsupportedOperation, w)
  else (Ok (if binary (fmode f) then content w f
            else universal_newlines (content w f)), w).

(** [for line in file]: the lines of the content. *)
Definition readlines (f : file_object) : M (list string) :=
  bind (read f) (λ s, ret (lines_of s)).

(** [file.write(text)]: the text goes to the end of the content (on a
    POSIX system a text file stores [\n] as it is). *)
Definition write (f : file_object) (text : string) : M unit := λ w,
  if negb (is_open w f) then (Raise (ValueError "I/O operation on closed file."), w)
  else if negb (writable (fmode f)) then (Raise UnsupportedOperation, w)
  else (Ok tt, set_root w (put_at (root w) (floc f) (File (content w f +:+ text)))).

(** [with c as f: body]: the file object is closed when the body is left,
    by its end, by [return] or by an exception. *)
Definition with_ {A} (c : M file_object) (body : file_object → M A) : M A :=
  bind c (λ f w, let '(r, w') := body f w in (r, (close f w').2)).

End io.

(* ================================================================== *)
(** * [files.py] *)
(* ================================================================== *)

(** A Python condition on a string or a list is its being non-empty. *)
Definition truthy (s : string) : bool := negb (Py.str_eqb s "").

Module FileCheck.

Definition exists_ (full_path : string) : M bool :=
  query (λ w, os.path_exists w full_path).

Definition is_directory (full_path : string) : M bool :=
  query (λ w, os.path_isdir w full_path).

Definition is_file (full_path : string) : M bool :=
  query (λ w, os.path_isfile w full_path).

Definition is_link (full_path : string) : M bool :=
  query (λ w, os.path_islink w full_path).

End FileCheck.

Module FileTools.

Definition concat (a : string) (paths : list string) : string :=
  posixpath.join a paths.

End FileTools.

Module FileIO.

Definition _raise_error_if_directory (full_path : string) : M unit :=
  let* b := FileCheck.is_directory full_path in
  if b then throw (ValueError "Given path cannot be a directory")
  else ret tt.

Definition delete (full_path : string) : M unit :=
  _raise_error_if_directory full_path;;;
  let* b := FileCheck.exists_ full_path in
  if b then os.remove full_path else ret tt.

Definition open (full_path : string) (write append binary : bool)
  : M file_object :=
  _raise_error_if_directory full_path;;;
  let command :=
    if write then (if binary then mode_wb else mode_w)
    else if append then (if binary then mode_ab else mode_a_plus)
    else (if binary then mode_rb else mode_r) in
  io.open_ full_path command.

Definition read (full_path : string) : M (option string) :=
  let* b := FileCheck.is_file full_path in
  if b then
    io.with_ (open full_path false false false) (λ file,
      let* s := io.read file in ret (Some s))
  else ret None.

Definition save (full_path text : string) (overwrite : bool) : M unit :=
  let* b := FileCheck.exists_ full_path in
  if negb overwrite && b
  then throw (IOError "The given file path already exists")
  else
    io.with_ (open full_path true false false) (λ file,
      io.write file text).

Definition copy (donor_path recipient_path : string) (overwrite : bool)
  : M bool :=
  let* d1 := FileCheck.is_directory donor_path in
  if d1 then throw (ValueError "The donor path cannot be a folder") else
  let* d2 := FileCheck.is_directory recipient_path in
  if d2 then throw (ValueError "The recipient path cannot be a folder") else
  let* e1 := FileCheck.exists_ donor_path in
  if negb e1 then throw (IOError "The given donor path does not exist") else
  let* e2 := FileCheck.exists_ recipient_path in
  if negb overwrite && e2
  then throw (IOError "The given recipient path already exists") else
  let* donor := read donor_path in
  match donor with
  | Some text => save recipient_path text overwrite;;; ret true
  | None => throw (TypeError "write() argument must be str, not None")
  end.

Definition text (full_path : string) : M (option string) := read full_path.

Definition touch (full_path : string) (overwrite : bool) : M unit :=
  save full_path "" overwrite.

Definition unlink (full_path : string) : M unit := os.unlink full_path.

End FileIO.

Module FileTransform.

Definition filter_by_extension (file_paths : list string) (extension : string)
  : list string :=
  let extension :=
    if negb (Py.startswith extension Py.extsep)
    then String Py.extsep extension else extension in
  List.filter
    (λ file_path, Py.str_eqb (posixpath.splitext file_path).2 extension)
    file_paths.

Definition lines (full_path : string) : M (option (list string)) :=
  let* b := FileCheck.exists_ full_path in
  if b then
    io.with_ (FileIO.open full_path false false false) (λ file,
      let* ls := io.readlines file in ret (Some ls))
  else ret None.

Definition words (full_path : string) : M (option (list string)) :=
  let* b := FileCheck.exists_ full_path in
  if b then
    io.with_ (FileIO.open full_path false false false) (λ file,
      let* ls := io.readlines file in
      ret (Some (fold_left (λ output line, output ++ Py.split_on " " line) ls [])))
  else ret None.

End FileTransform.

Module FileCount.

Definition characters (full_path : string) : M (option Z) :=
  let* b := FileCheck.exists_ full_path in
  if b then
    io.with_ (FileIO.open full_path false false false) (λ file,
      let* ls := io.readlines file in
      ret (Some (fold_left (λ count line, count + Py.len line) ls 0)))
  else ret None.

Definition count_or_none (l : option (list string)) : option Z :=
  match l with
  | Some (x :: r) => Some (Z.of_nat (length (x :: r)))
  | _ => None
  end.

Definition lines (full_path : string) : M (option Z) :=
  let* lines := FileTransform.lines full_path in
  ret (count_or_none lines).

Definition words (full_path : string) : M (option Z) :=
  let* words := FileTransform.words full_path in
  ret (count_or_none words).

End FileCount.

Module FileDirectories.

Definition _raise_error_if_file (full_path : string) : M unit :=
  let* b := FileCheck.is_file full_path in
  if b then throw (ValueError "Given path must be a directory, not a file")
  else ret tt.

(** [if extension:] holds for a string that is not empty. *)
Definition given (extension : option string) : option string :=
  match extension with
  | Some e => if truthy e then Some e else None
  | None => None
  end.

(** The loop of [children] over the triples of [os.walk]; it is left
    after the first triple unless [recursive]. *)
Fixpoint children_loop (recursive include_full_path : bool)
    (extension : option string)
    (roots : list (string * list string * list string))
    (children : list string) : list string :=
  match roots with
  | [] => children
  | (current_directory, directories, file_names) :: rest =>
      let directories :=
        if include_full_path
        then map (λ x, FileTools.concat current_directory [x]) directories
        else directories in
      let file_names :=
        if include_full_path
        then map (λ x, FileTools.concat current_directory [x]) file_names
        else file_names in
      let file_names :=
        match given extension with
        | Some e => FileTransform.filter_by_extension file_names e
        | None => file_names
        end in
      let children := children ++ directories ++ file_names in
      if negb recursive then children
      else children_loop recursive include_full_path extension rest children
  end.

Definition children (directory : string) (recursive include_full_path : bool)
    (extension : option string) : M (list string) :=
  _raise_error_if_file directory;;;
  let* roots := os.walk directory in
  ret (children_loop recursive include_full_path extension roots []).

Fixpoint directories_loop (recursive include_full_path : bool)
    (roots : list (string * list string * list string))
    (directories : list string) : list string :=
  match roots with
  | [] => directories
  | root :: rest =>
      let child_directories := root.1.2 in
      let child_directories :=
        if include_full_path
        then map (λ x, FileTools.concat root.1.1 [x]) child_directories
        else child_directories in
      let directories := directories ++ child_directories in
      if negb recursive then directories
      else directories_loop recursive include_full_path rest directories
  end.

Definition directories (directory : string) (recursive include_full_path : bool)
  : M (list string) :=
  _raise_error_if_file directory;;;
  let* roots := os.walk directory in
  ret (directories_loop recursive include_full_path roots []).

Fixpoint files_loop (recursive include_full_path : bool)
    (extension : option string)
    (roots : list (string * list string * list string))
    (files : list string) : list string :=
  match roots with
  | [] => files
  | root :: rest =>
      let child_files := root.2 in
      let child_files :=
        if include_full_path
        then map (λ x, FileTools.concat root.1.1 [x]) child_files
        else child_files in
      let child_files :=
        match given extension with
        | Some e => FileTransform.filter_by_extension child_files e
        | None => child_files
        end in
      let files := files ++ child_files in
      if negb recursive then files
      else files_loop recursive include_full_path extension rest files
  end.

Definition files (directory : string) (recursive include_full_path : bool)
    (extension : option string) : M (list string) :=
  _raise_error_if_file directory;;;
  let* roots := os.walk directory in
  ret (files_loop recursive include_full_path extension roots []).

Definition delete (directory : string) (recursive : bool) : M unit :=
  (let* l := FileCheck.is_link directory in
   if l then FileIO.unlink directory
   else
     let* f := FileCheck.is_file directory in
     if f then FileIO.delete directory else ret tt);;;
  if recursive then shutil.rmtree_ignore_errors directory
  else os.rmdir directory.

Definition clear (directory : string) (recursive : bool) : M unit :=
  _raise_error_if_file directory;;;
  let* e := FileCheck.exists_ directory in
  if negb e then ret tt
  else if recursive then
    let* children := children directory false true None in
    for_ children (λ full_path,
      let* l := FileCheck.is_link full_path in
      if l then FileIO.unlink full_path
      else
        let* f := FileCheck.is_file full_path in
        if f then FileIO.delete full_path
        else delete full_path true)
  else
    let* files := files directory false false None in
    for_ files (λ file_name,
      let full_path := FileTools.concat directory [file_name] in
      FileIO.delete full_path).

Definition clear_all (directory : string) : M unit :=
  _raise_error_if_file directory;;;
  clear directory true.

Definition clear_files (directory : string) : M unit :=
  _raise_error_if_file directory;;;
  clear directory false.

Definition create (full_path : string) : M (option string) :=
  let* e := FileCheck.exists_ full_path in
  if negb e then os.makedirs full_path;;; ret (Some full_path)
  else
    let* f := query (λ w, os.path_isfile w full_path) in
    if f then ret None
    else ret (Some full_path).

(** The loop of [parent]:
<<
    while depth > 0:
        full_path = os.path.dirname(full_path)
        depth -= 1
>>
    [fuel] bounds the iterations. *)
Fixpoint parent_loop (fuel : nat) (full_path : string) (depth : Z) : string :=
  match fuel with
  | O => full_path
  | S k =>
      if 0 <? depth
      then parent_loop k (posixpath.dirname full_path) (depth - 1)
      else full_path
  end.

Definition parent (full_path : string) (depth : Z) : M (option string) :=
  let* e := FileCheck.exists_ full_path in
  if negb e then ret None
  else ret (Some (parent_loop (Z.to_nat depth) full_path depth)).

End FileDirectories.

Module FileFind.

(** The loop of [line_number]; [None] when it ends without [return]. *)
Fixpoint line_number_loop (word : string) (lines : list string)
    (line_number : Z) : option Z :=
  match lines with
  | [] => None
  | line :: rest =>
      let line_number := line_number + 1 in
      if Py.contains (Py.split line) word then Some line_number
      else line_number_loop word rest line_number
  end.

(** The file is opened with the built-in [open] and not closed. *)
Definition line_number (full_path word : string) : M (option Z) :=
  let* b := FileCheck.is_file full_path in
  if b then
    let* in_pipe := io.open_ full_path mode_r in
    let* lines := io.readlines in_pipe in
    match line_number_loop word lines 0 with
    | Some n => ret (Some n)
    | None => ret (Some (-1))
    end
  else ret None.

End FileFind.

(** ** [DirectoryWrapper] *)

(** An instance of a Python class: the name of its class and its
    attribute dictionary.  The attributes of this module's objects are
    strings. *)
Record instance := Instance_ {
  class_name : string;
  dict : gmap string string
}.

Module DirectoryWrapper.

(** The attributes the class itself has are its methods; the annotation
    [directory: str] in the class body binds no name. *)
Definition class_attributes : list string :=
  ["__init__"; "clear_all"; "clear"; "clear_files"; "children"; "concat";
   "create"; "delete"; "directories"; "files"; "parent"].

(** [self.directory]: the instance dictionary, then the class. *)
Definition get_directory (self : instance) : M string :=
  match dict self !! "directory" with
  | Some v => ret v
  | None =>
      throw (AttributeError
               "'DirectoryWrapper' object has no attribute 'directory'")
  end.

(** [__init__(self, full_path)]; it returns [self] as it leaves it. *)
Definition __init__ (self : instance) (full_path : string) : M instance :=
  let* e := FileCheck.exists_ full_path in
  let* d := FileCheck.is_directory full_path in
  if e && negb d
  then throw (ValueError "Give path must be a path to a directory")
  else ret self.

(** [DirectoryWrapper(full_path)] *)
Definition new (full_path : string) : M instance :=
  __init__ {| class_name := "DirectoryWrapper"; dict := ∅ |} full_path.

Definition clear_all (self : instance) : M unit :=
  let* directory := get_directory self in
  FileDirectories.clear_all directory.

Definition clear (self : instance) (recursive : bool) : M unit :=
  let* directory := get_directory self in
  FileDirectories.clear directory recursive.

Definition clear_files (self : instance) : M unit :=
  let* directory := get_directory self in
  FileDirectories.clear_files directory.

Definition children (self : instance) (recursive include_full_path : bool)
  : M (list string) :=
  let* directory := get_directory self in
  FileDirectories.children directory recursive include_full_path None.

Definition create (self : instance) : M (option string) :=
  let* directory := get_directory self in
  FileDirectories.create directory.

Definition delete (self : instance) (recursive : bool) : M unit :=
  let* directory := get_directory self in
  FileDirectories.delete directory recursive.

Definition directories (self : instance) (recursive include_full_path : bool)
  : M (list string) :=
  let* directory := get_directory self in
  FileDirectories.directories directory recursive include_full_path.

Definition files (self : instance) (recursive include_full_path : bool)
  : M (list string) :=
  let* directory := get_directory self in
  FileDirectories.files directory recursive include_full_path None.

Definition parent (self : instance) (depth : Z) : M (option string) :=
  let* directory := get_directory self in
  FileDirectories.parent directory depth.

End DirectoryWrapper.

Set Warnings "-clear-no-such-hyp".


(* ================================================================== *)
(** * Notions the properties are stated with *)
(* ================================================================== *)

(** A component of a path: not empty and with no separator in it. *)
Definition component_ok (n : string) : bool :=
  truthy n && bool_decide (Py.split_on Py.sep n = [n]).

(** A name a directory entry can have: not empty, not [.] or [..], and
    with no separator in it. *)
Definition name_ok (n : string) : bool :=
  negb (is_dot n) && negb (Py.str_eqb n "..")
  && bool_decide (Py.split_on Py.sep n = [n]).

(** ["/".join(cs)] and the absolute path of the components [cs]. *)
Fixpoint join_names (cs : list string) : string :=
  match cs with
  | [] => ""
  | [c] => c
  | c :: r => c +:+ String Py.sep (join_names r)
  end.

Definition abs_path (cs : list string) : string := String Py.sep (join_names cs).

(** The resolution of a path that only descends: every component is
    empty, [.], or the name of a directory that is no link. *)
Fixpoint plain_walk (lk : path → option kind) (cur : path)
    (comps : list string) : option path :=
  match comps with
  | [] => Some cur
  | c :: rest =>
      match lk cur with
      | Some KDir =>
          if is_dot c then plain_walk lk cur rest
          else if Py.str_eqb c ".." then None
          else
            match lk (cur ++ [c]) with
            | Some KDir => plain_walk lk (cur ++ [c]) rest
            | _ => None
            end
      | _ => None
      end
  end.

(** [plain_dir w p = Some D]: the path [p] leads to the directory at [D]
    by descending through directories only. *)
Definition plain_dir (w : world) (p : string) : option path :=
  if Py.str_eqb p "" then None
  else plain_walk (lkind (root w))
         (if Py.startswith p Py.sep then [] else cwd w)
         (Py.split_on Py.sep p).

#[global] Instance kind_eq_dec : EqDecision kind.
Proof. solve_decision. Defined.

#[global] Instance errno_eq_dec : EqDecision errno.
Proof. solve_decision. Defined.

(** How a path resolves once its missing last component [n] of the
    directory [d] has been created with the kind [k]: to the new object,
    unless separators follow a name that is now a file. *)
Definition created_result (d : path) (n : string) (k : kind) (s : bool) : lookup :=
  if s && negb (bool_decide (k = KDir)) then Failed ENOTDIR else Found (d ++ [n]).

(** ** Sample states *)

(** A tree with the file [/a/b/c/d.txt]. *)
Definition tree_abcd : node :=
  Dir [("a", Dir [("b", Dir [("c", Dir [("d.txt", File "")])])])].

Definition world_abcd : world :=
  {| root := tree_abcd; cwd := []; open_files := [] |}.

(** ** Whole words *)

Fixpoint no_space (s : string) : bool :=
  match s with
  | EmptyString => true
  | String c r => negb (Py.isspace c) && no_space r
  end.

Fixpoint all_space (s : string) : bool :=
  match s with
  | EmptyString => true
  | String c r => Py.isspace c && all_space r
  end.

Definition ends_at_space (pre : string) : Prop :=
  pre = "" ∨ ∃ p c, pre = p +:+ String c "" ∧ Py.isspace c = true.

Definition starts_at_space (post : string) : Prop :=
  post = "" ∨ ∃ c r, post = String c r ∧ Py.isspace c = true.

(** [word] stands in [line] as a whole word: it is not empty, has no
    white space in it, and where it stands it is delimited by white space
    or by the ends of the line. *)
Definition whole_token (word line : string) : Prop :=
  word ≠ "" ∧ no_space word = true ∧
  ∃ pre post, line = pre +:+ word +:+ post
              ∧ ends_at_space pre ∧ starts_at_space post.

(** A file of three lines, the second one [foo bar]. *)
Definition world_foo : world :=
  {| root := Dir [("notes.txt",
                   File ("food" +:+ String Py.LF
                         ("foo bar" +:+ String Py.LF "foo")))];
     cwd := []; open_files := [] |}.

(** The directory [/dir] with the files [a.txt] and [b.log] and the
    subdirectory [sub] with the file [c.txt]. *)
Definition listing_abc (a b c : string) : list (string * node) :=
  [("a.txt", File a); ("b.log", File b); ("sub", Dir [("c.txt", File c)])].

Definition world_dir : world :=
  {| root := Dir [("dir", Dir (listing_abc "A" "B" "C"))];
     cwd := []; open_files := [] |}.

Definition no_directory_attribute : exn :=
  AttributeError "'DirectoryWrapper' object has no attribute 'directory'".

(** [c in s] for a character. *)
Fixpoint occurs (c : ascii) (s : string) : bool :=
  match s with
  | EmptyString => false
  | String x r => Py.ch_eqb x c || occurs c r
  end.

(** Two texts: one of two lines, one that ends in a carriage return. *)
Definition two_lines : string := "hello" +:+ String Py.LF "world".
Definition text_cr : string := String "a" (String Py.CR "").

(** ** A directory with some of its entries removed *)

(** The entries whose names are not in [R]. *)
Definition keep (R : list string) (es : list (string * node))
  : list (string * node) :=
  List.filter (λ e, negb (bool_decide (e.1 ∈ R))) es.

(** The state [w] with [es'] as the entries of the directory at [D]. *)
Definition with_entries (w : world) (D : path) (es' : list (string * node))
  : world :=
  set_root w (alter_dir (λ _, es') (root w) D).

(** The directories [ms] nested in one another, each one the only entry
    of the one before; the innermost one is empty. *)
Fixpoint chain (ms : list string) : node :=
  match ms with
  | [] => Dir []
  | m :: r => Dir [(m, chain r)]
  end.

(** A file where a directory is wanted, and a link that leads nowhere. *)
Definition world_dangling : world :=
  {| root := Dir [("f", File ""); ("dangling", Link "nowhere")];
     cwd := []; open_files := [] |}.

(** The body of the loop of [clear] with [recursive], for one child. *)
Abbreviation clear_child := (λ full_path : string,
  let* l := FileCheck.is_link full_path in
  if l then FileIO.unlink full_path
  else
    let* f := FileCheck.is_file full_path in
    if f then FileIO.delete full_path
    else FileDirectories.delete full_path true).

(** The state [w] with the directories [r], nested in one another, as
    the new entry [m] of the directory at [D]. *)
Definition with_chain (w : world) (D : path) (m : string) (r : list string)
  : world :=
  set_root w (put (root w) D m (chain r)).

(** ** The components of a path *)

(** The pieces of a path between its separators that are not empty. *)
Definition components (p : string) : list string :=
  List.filter (λ c, negb (Py.str_eqb c "")) (Py.split_on Py.sep p).

(** ** The route of a path to a directory *)

(** [route_outside w p D]: the path [p] leads to the directory at [D]
    whatever that directory holds, that is, without going through one
    of its entries: it leads there in the state where the directory is
    empty. *)
Definition route_outside (w : world) (p : string) (D : path) : Prop :=
  resolve (with_entries w D []) true p = Found D.

(** The directory a path goes on from: the working directory for the
    empty path, and otherwise what the path leads to. *)
Definition base_of (w : world) (b : string) : lookup :=
  if Py.str_eqb b "" then Found (cwd w) else resolve w true b.

(** The directory [/dir] of [world_dir], the link [/lnk] to it, and the
    working directory [/dir/sub]. *)
Definition world_lnk : world :=
  {| root := Dir [("dir", Dir (listing_abc "A" "B" "C")); ("lnk", Link "dir")];
     cwd := ["dir"; "sub"]; open_files := [] |}.

(** ** States with more directories *)

(** [only_adds w w']: the state [w'] is [w] with more directories.  What
    was there is of the kind it was, what is new is a directory, and the
    working directory and the open files are the same. *)
Definition only_adds (w w' : world) : Prop :=
  cwd w' = cwd w ∧ open_files w' = open_files w
  ∧ ∀ q, lkind (root w') q = lkind (root w) q
         ∨ (lkind (root w) q = None ∧ lkind (root w') q = Some KDir).

(* ================================================================== *)
(** * Notions for the further properties *)
(* ================================================================== *)

(** The extension [filter_by_extension] compares with: the one given,
    with a dot put before it when it does not start with one. *)
Definition dotted (extension : string) : string :=
  if Py.startswith extension Py.extsep then extension
  else String Py.extsep extension.

(** The number of times [c] is in [s], and [s] without its [c]'s. *)
Fixpoint count_char (c : ascii) (s : string) : Z :=
  match s with
  | EmptyString => 0
  | String x r => (if Py.ch_eqb x c then 1 else 0) + count_char c r
  end.

Fixpoint remove_char (c : ascii) (s : string) : string :=
  match s with
  | EmptyString => EmptyString
  | String x r => if Py.ch_eqb x c then remove_char c r else String x (remove_char c r)
  end.

(** [''.join(l)] *)
Definition join_all (l : list string) : string := foldr String.append "" l.

(** A line as the iteration over a file gives it: characters that are no
    line feed, and then a line feed, or, with at least one character,
    nothing. *)
Definition is_line (l : string) : Prop :=
  ∃ body, occurs Py.LF body = false
          ∧ (l = body +:+ String Py.LF "" ∨ (l = body ∧ body ≠ "")).

(** The number of lines of a text: its line feeds, and one more when
    characters follow the last one. *)
Definition line_count (t : string) : Z :=
  count_char Py.LF t + (if truthy t && negb (Py.endswith t Py.LF) then 1 else 0).

Definition not_a_directory : exn := ValueError "Given path cannot be a directory".

Definition already_exists : exn := IOError "The given file path already exists".

(** A directory with a file and two links, one to the file and one that
    leads nowhere. *)
Definition world_links : world :=
  {| root := Dir [("d", Dir [("f.txt", File "data");
                             ("l", Link "f.txt");
                             ("dangling", Link "nowhere")])];
     cwd := []; open_files := [] |}.

(** A file with a DOS line end. *)
Definition world_crlf : world :=
  {| root := Dir [("dos.txt", File ("a" +:+ String Py.CR (String Py.LF "")))];
     cwd := []; open_files := [] |}.

(** [s.startswith(a)] and [a in s] for strings. *)
Fixpoint str_startswith (s a : string) {struct a} : bool :=
  match a, s with
  | EmptyString, _ => true
  | String x a', String y s' => Py.ch_eqb x y && str_startswith s' a'
  | String _ _, EmptyString => false
  end.

Fixpoint str_in (a s : string) : bool :=
  str_startswith s a
  || match s with
     | EmptyString => false
     | String _ r => str_in a r
     end.

(** [FileCheck.has_quarry]:
<<
    text: Optional[str] = FileIO.read(full_path)
    if text:
        return quarry in text
    return False
>> *)
Definition FileCheck_has_quarry (full_path quarry : string) : M bool :=
  let* text := FileIO.read full_path in
  match text with
  | Some t => if truthy t then ret (str_in quarry t) else ret false
  | None => ret false
  end.

Definition not_a_file : exn := ValueError "Given path must be a directory, not a file".

(** ** Time stamps *)

(** What [datetime.datetime.today()] returns, as far as [strftime]
    reads it. *)
Record datetime := Datetime {
  year : Z; month : Z; day : Z; hour : Z; minute : Z; second : Z
}.

Definition digit (n : Z) : ascii :=
  nth (Z.to_nat (n mod 10))
    ["0"; "1"; "2"; "3"; "4"; "5"; "6"; "7"; "8"; "9"]%char "0"%char.

(** [%m], [%d], [%H], [%M] and [%S]: two digits; [%Y]: the four digits
    of a year from 1000 to 9999. *)
Definition two_digits (n : Z) : string :=
  String (digit (n / 10)) (String (digit n) "").

Definition four_digits (n : Z) : string :=
  String (digit (n / 1000)) (String (digit (n / 100)) (two_digits n)).

(** [today.strftime('%Y-%m-%d %H.%M')], the time stamp without its
    seconds. *)
Definition strftime_minutes (today : datetime) : string :=
  four_digits (year today) +:+ "-" +:+ two_digits (month today) +:+ "-"
  +:+ two_digits (day today) +:+ " " +:+ two_digits (hour today) +:+ "."
  +:+ two_digits (minute today).

(** [FileTools.timestamp]:
<<
    return datetime.datetime.today().strftime('%Y-%m-%d %H.%M.%S')
>>
    The clock is read by the caller: [today] is what it shows. *)
Definition FileTools_timestamp (today : datetime) : string :=
  strftime_minutes today +:+ "." +:+ two_digits (second today).

(** [FileNames.stamp]:
<<
    split_file: Tuple[str] = os.path.splitext(file_path)
    return f'{split_file[0]} {FileTools.timestamp()}{split_file[1]}'
>> *)
Definition FileNames_stamp (file_path : string) (today : datetime) : string :=
  let split_file := posixpath.splitext file_path in
  split_file.1 +:+ " " +:+ FileTools_timestamp today +:+ split_file.2.

(** ** Objects in files *)

Section objects.

(** The objects [dill] writes, the bytes [dill.dump] writes for one, and
    what [dill.load] returns, or raises, for a file of given bytes. *)
Variable Obj : Type.
Variable dump : Obj → string.
Variable load : string → result Obj.

(** [FileIO.read_object]:
<<
    FileIO._raise_error_if_directory(full_path)
    if not os.path.isfile(full_path):
        return None
    with FileIO.open(full_path, binary=True) as file:
        return dill.load(file)
>> *)
Definition FileIO_read_object (full_path : string) : M (option Obj) :=
  FileIO._raise_error_if_directory full_path;;;
  let* f := query (λ w, os.path_isfile w full_path) in
  if negb f then ret None
  else
    io.with_ (FileIO.open full_path false false true) (λ file,
      let* bytes := io.read file in
      match load bytes with
      | Ok obj => ret (Some obj)
      | Raise e => throw e
      end).

(** [FileIO.save_object]:
<<
    FileIO._raise_error_if_directory(full_path)
    if not overwrite and FileCheck.exists(full_path):
        raise IOError('The given file path already exists')
    with FileIO.open(full_path, write=True, binary=True) as file:
        dill.dump(obj, file)
>> *)
Definition FileIO_save_object (full_path : string) (obj : Obj)
    (overwrite : bool) : M unit :=
  FileIO._raise_error_if_directory full_path;;;
  let* b := FileCheck.exists_ full_path in
  if negb overwrite && b
  then throw (IOError "The given file path already exists")
  else
    io.with_ (FileIO.open full_path true false true) (λ file,
      io.write file (dump obj)).

End objects.
(* ================================================================== *)
(** * Properties of the tree *)
(* ================================================================== *)

#[local] Arguments namei : simpl never.
#[local] Arguments resolve : simpl never.

Lemma str_eqb_eq a b : Py.str_eqb a b = true ↔ a = b.
Proof. unfold Py.str_eqb. apply bool_decide_eq_true. Qed.

Lemma str_eqb_neq a b : Py.str_eqb a b = false ↔ a ≠ b.
Proof. unfold Py.str_eqb. apply bool_decide_eq_false. Qed.

Lemma str_eqb_refl a : Py.str_eqb a a = true.
Proof. by apply str_eqb_eq. Qed.

Lemma ch_eqb_eq a b : Py.ch_eqb a b = true ↔ a = b.
Proof. unfold Py.ch_eqb. apply bool_decide_eq_true. Qed.

Lemma ch_eqb_neq a b : Py.ch_eqb a b = false ↔ a ≠ b.
Proof. unfold Py.ch_eqb. apply bool_decide_eq_false. Qed.

Ltac case_str_eqb a b :=
  let H := fresh "Heq" in
  destruct (Py.str_eqb a b) eqn:H;
  [apply str_eqb_eq in H | apply str_eqb_neq in H].

Lemma find_entry_remove_name_eq n es : find_entry n (remove_name n es) = None.
Proof.
  induction es as [|[m x] es IH]; simpl; [done|].
  case_str_eqb m n; simpl; [done|].
  by rewrite (proj2 (str_eqb_neq m n)).
Qed.

Lemma find_entry_remove_name_ne m n es :
  m ≠ n → find_entry m (remove_name n es) = find_entry m es.
Proof.
  intros Hne. induction es as [|[k x] es IH]; simpl; [done|].
  case_str_eqb k n; simpl.
  - subst k. by rewrite (proj2 (str_eqb_neq n m)).
  - by rewrite IH.
Qed.

Lemma find_entry_alter_first_eq c (g : node → node) es :
  find_entry c (alter_first c g es) = g <$> find_entry c es.
Proof.
  induction es as [|[k x] es IH]; simpl; [done|].
  case_str_eqb k c; simpl.
  - subst. by rewrite str_eqb_refl.
  - by rewrite (proj2 (str_eqb_neq k c)).
Qed.

Lemma find_entry_alter_first_ne m c (g : node → node) es :
  m ≠ c → find_entry m (alter_first c g es) = find_entry m es.
Proof.
  intros Hne. induction es as [|[k x] es IH]; simpl; [done|].
  case_str_eqb k c; simpl.
  - subst k. by rewrite (proj2 (str_eqb_neq c m)).
  - by rewrite IH.
Qed.

Lemma alter_first_fusion c (g h : node → node) es :
  alter_first c g (alter_first c h es) = alter_first c (g ∘ h) es.
Proof.
  induction es as [|[k x] es IH]; simpl; [done|].
  case_str_eqb k c; simpl.
  - subst. by rewrite str_eqb_refl.
  - rewrite (proj2 (str_eqb_neq k c)) by done. by rewrite IH.
Qed.

Lemma alter_first_ext c (g h : node → node) es :
  (∀ x, find_entry c es = Some x → g x = h x) →
  alter_first c g es = alter_first c h es.
Proof.
  induction es as [|[k x] es IH]; simpl; [done|].
  destruct (Py.str_eqb k c); intros H; [by rewrite H|]. by rewrite IH.
Qed.

Lemma alter_first_id c (g : node → node) es :
  (∀ x, find_entry c es = Some x → g x = x) → alter_first c g es = es.
Proof.
  induction es as [|[k x] es IH]; simpl; [done|].
  destruct (Py.str_eqb k c); intros H; [by rewrite H|]. by rewrite IH.
Qed.

Lemma remove_name_alter_first n (g : node → node) es :
  remove_name n (alter_first n g es) = remove_name n es.
Proof.
  unfold remove_name. induction es as [|[k x] es IH]; simpl; [done|].
  case_str_eqb k n; simpl.
  - subst. by rewrite str_eqb_refl.
  - rewrite (proj2 (str_eqb_neq k n)) by done. simpl. by rewrite IH.
Qed.

Lemma find_entry_app n es es' :
  find_entry n (es ++ es') =
  match find_entry n es with Some x => Some x | None => find_entry n es' end.
Proof.
  induction es as [|[k x] es IH]; simpl; [done|].
  by destruct (Py.str_eqb k n).
Qed.

Lemma find_entry_set_name_eq n x es : find_entry n (set_name n x es) = Some x.
Proof.
  unfold set_name. destruct (find_entry n es) eqn:E.
  - by rewrite find_entry_alter_first_eq, E.
  - rewrite find_entry_app, E. simpl. by rewrite str_eqb_refl.
Qed.

Lemma find_entry_set_name_ne m n x es :
  m ≠ n → find_entry m (set_name n x es) = find_entry m es.
Proof.
  intros Hne. unfold set_name. destruct (find_entry n es) eqn:E.
  - by apply find_entry_alter_first_ne.
  - rewrite find_entry_app. simpl.
    rewrite (proj2 (str_eqb_neq n m)) by done. by destruct (find_entry m es).
Qed.

Lemma get_app t p r : get t (p ++ r) = get t p ≫= λ x, get x r.
Proof.
  revert t. induction p as [|c p IH]; intros t; simpl; [done|].
  destruct t as [|es|]; try done.
  destruct (find_entry c es); [apply IH|done].
Qed.

(** What [alter_dir] does at and below the directory it alters. *)
Lemma get_alter_dir_app f t d r :
  get (alter_dir f t d) (d ++ r) = get t d ≫= λ x, get (alter_dir f x []) r.
Proof.
  revert t. induction d as [|c d IH]; intros t; simpl.
  - by destruct t.
  - destruct t as [|es|]; simpl; try done.
    rewrite find_entry_alter_first_eq.
    destruct (find_entry c es) as [x|]; simpl; [apply IH|done].
Qed.

(** A location that is not in or below the altered directory keeps the
    kind of its object. *)
Lemma lkind_alter_dir f t d q :
  (∀ n r, q ≠ d ++ n :: r) → lkind (alter_dir f t d) q = lkind t q.
Proof.
  unfold lkind. revert t q. induction d as [|c d IH]; intros t q Hq; simpl.
  - destruct q as [|n r]; [by destruct t|]. by destruct (Hq n r).
  - destruct t as [|es|]; try done.
    destruct q as [|k q]; simpl; [done|].
    case_str_eqb k c.
    + subst k. rewrite find_entry_alter_first_eq.
      destruct (find_entry c es) as [x|]; simpl; [|done].
      apply IH. intros n r ->. by apply (Hq n r).
    + by rewrite find_entry_alter_first_ne.
Qed.

(** A location beside the altered directory keeps its object. *)
Lemma get_alter_dir_frame f t d q :
  ¬ q `prefix_of` d → ¬ d `prefix_of` q → get (alter_dir f t d) q = get t q.
Proof.
  revert t q. induction d as [|c d IH]; intros t q Hq Hd; simpl.
  - destruct Hd. apply prefix_nil.
  - destruct q as [|k q]; [destruct Hq; apply prefix_nil|].
    destruct t as [|es|]; try done. simpl.
    case_str_eqb k c.
    + subst k. rewrite find_entry_alter_first_eq.
      destruct (find_entry c es) as [x|]; simpl; [|done].
      apply IH; intros H; [apply Hq|apply Hd]; by apply prefix_cons.
    + by rewrite find_entry_alter_first_ne.
Qed.

Lemma get_alter_dir_here f t d es :
  get t d = Some (Dir es) → get (alter_dir f t d) d = Some (Dir (f es)).
Proof.
  intros H. rewrite <-(app_nil_r d) at 2. rewrite get_alter_dir_app, H. done.
Qed.

Lemma get_alter_dir_child f t d es n r :
  get t d = Some (Dir es) →
  get (alter_dir f t d) (d ++ n :: r) = find_entry n (f es) ≫= λ x, get x r.
Proof.
  intros H. rewrite get_alter_dir_app, H. simpl.
  by destruct (find_entry n (f es)).
Qed.

(** No object lies below a file or a link, or below nothing. *)
Lemma get_below_not_dir t q r :
  r ≠ [] → (∀ es, get t q ≠ Some (Dir es)) → get t (q ++ r) = None.
Proof.
  intros Hr Hq. rewrite get_app. destruct (get t q) as [x|]; simpl; [|done].
  destruct r as [|c r]; [done|]. destruct x; try done. by destruct (Hq entries).
Qed.

Lemma lkind_below_not_dir t q r :
  r ≠ [] → lkind t q ≠ Some KDir → lkind t (q ++ r) = None.
Proof.
  intros Hr Hq. unfold lkind in *. rewrite get_below_not_dir; try done.
  intros es E. rewrite E in Hq. done.
Qed.

Lemma lkind_dir t q : lkind t q = Some KDir ↔ ∃ es, get t q = Some (Dir es).
Proof.
  unfold lkind. split.
  - destruct (get t q) as [[]|]; simpl; try done. eauto.
  - by intros [es ->].
Qed.

Lemma lkind_file t q : lkind t q = Some KFile ↔ ∃ d, get t q = Some (File d).
Proof.
  unfold lkind. split.
  - destruct (get t q) as [[]|]; simpl; try done. eauto.
  - by intros [es ->].
Qed.

Lemma lkind_link t q l : lkind t q = Some (KLink l) ↔ get t q = Some (Link l).
Proof.
  unfold lkind. split.
  - destruct (get t q) as [[]|]; simpl; try done. by intros [= ->].
  - by intros ->.
Qed.

(** ** Removing an entry *)

Lemma lkind_del t d n q :
  lkind (del t d n) q = if bool_decide ((d ++ [n]) `prefix_of` q) then None else lkind t q.
Proof.
  case_bool_decide as Hp.
  - destruct Hp as [r ->]. rewrite <-app_assoc. simpl.
    unfold lkind, del. rewrite get_alter_dir_app.
    destruct (get t d) as [[|es|]|]; simpl; try done.
    by rewrite find_entry_remove_name_eq.
  - destruct (decide (d `prefix_of` q)) as [[[|k r] ->]|Hn].
    + apply lkind_alter_dir. intros k r E.
      apply (f_equal length) in E. rewrite !length_app in E. simpl in E. lia.
    + assert (k ≠ n) as Hk.
      { intros ->. apply Hp. exists r. by rewrite <-app_assoc. }
      unfold lkind, del. rewrite get_alter_dir_app, get_app.
      destruct (get t d) as [[|es|]|]; simpl; try done.
      by rewrite find_entry_remove_name_ne.
    + apply lkind_alter_dir. intros k r ->. apply Hn. by exists (k :: r).
Qed.

Lemma get_del_other t d n q :
  ¬ q `prefix_of` d → ¬ (d ++ [n]) `prefix_of` q → get (del t d n) q = get t q.
Proof.
  intros Hq Hp.
  destruct (decide (d `prefix_of` q)) as [[r ->]|Hd].
  - destruct r as [|k r]; [destruct Hq; by rewrite app_nil_r|].
    assert (k ≠ n) as Hk.
    { intros ->. apply Hp. exists r. by rewrite <-app_assoc. }
    unfold del. rewrite get_alter_dir_app, get_app.
    destruct (get t d) as [[|es|]|]; simpl; try done.
    by rewrite find_entry_remove_name_ne.
  - by apply get_alter_dir_frame.
Qed.

Lemma get_del_here t d n es :
  get t d = Some (Dir es) → get (del t d n) d = Some (Dir (remove_name n es)).
Proof. apply get_alter_dir_here. Qed.

(** ** Writing an entry *)

Lemma get_put_eq t d n x es r :
  get t d = Some (Dir es) → get (put t d n x) (d ++ n :: r) = get x r.
Proof.
  intros H. unfold put. rewrite get_alter_dir_child with (es := es) by done.
  by rewrite find_entry_set_name_eq.
Qed.

Lemma get_put_other t d n x q :
  ¬ q `prefix_of` d → ¬ (d ++ [n]) `prefix_of` q → get (put t d n x) q = get t q.
Proof.
  intros Hq Hp.
  destruct (decide (d `prefix_of` q)) as [[r ->]|Hd].
  - destruct r as [|k r]; [destruct Hq; by rewrite app_nil_r|].
    assert (k ≠ n) as Hk.
    { intros ->. apply Hp. exists r. by rewrite <-app_assoc. }
    unfold put. rewrite get_alter_dir_app, get_app.
    destruct (get t d) as [[|es|]|]; simpl; try done.
    by rewrite find_entry_set_name_ne.
  - by apply get_alter_dir_frame.
Qed.

Lemma lkind_put t d n x q :
  lkind t d = Some KDir →
  lkind (put t d n x) q =
    if bool_decide ((d ++ [n]) `prefix_of` q)
    then lkind x (drop (S (length d)) q)
    else lkind t q.
Proof.
  intros Hd. apply lkind_dir in Hd as [es Hd].
  case_bool_decide as Hp.
  - destruct Hp as [r ->]. rewrite <-app_assoc. simpl.
    unfold lkind. rewrite (get_put_eq _ _ _ _ es) by done.
    replace (S (length d)) with (length (d ++ [n])) by (rewrite length_app; simpl; lia).
    replace (d ++ n :: r) with ((d ++ [n]) ++ r) by (by rewrite <-app_assoc).
    by rewrite drop_app_length.
  - destruct (decide (d `prefix_of` q)) as [[[|k r] ->]|Hn].
    + apply lkind_alter_dir. intros k r E.
      apply (f_equal length) in E. rewrite !length_app in E. simpl in E. lia.
    + assert (k ≠ n) as Hk.
      { intros ->. apply Hp. exists r. by rewrite <-app_assoc. }
      unfold lkind, put. rewrite get_alter_dir_app, get_app, Hd. simpl.
      by rewrite find_entry_set_name_ne.
    + apply lkind_alter_dir. intros k r ->. apply Hn. by exists (k :: r).
Qed.

(** Creating a file or an empty directory where nothing was changes the
    kind at that location only. *)
Lemma lkind_put_new t d n x q :
  lkind t d = Some KDir → lkind t (d ++ [n]) = None →
  (∀ r, r ≠ [] → get x r = None) →
  lkind (put t d n x) q =
    if bool_decide (q = d ++ [n]) then Some (kind_of x) else lkind t q.
Proof.
  intros Hd Hn Hx. rewrite lkind_put by done.
  case_bool_decide as Hp.
  - destruct Hp as [r ->].
    replace (S (length d)) with (length (d ++ [n])) by (rewrite length_app; simpl; lia).
    rewrite drop_app_length.
    destruct r as [|c r].
    + rewrite app_nil_r. by rewrite bool_decide_eq_true_2.
    + rewrite bool_decide_eq_false_2.
      2:{ intros E. apply (f_equal length) in E. rewrite !length_app in E. simpl in E. lia. }
      unfold lkind at 1. rewrite Hx by done. simpl.
      symmetry. apply lkind_below_not_dir; [done|]. by rewrite Hn.
  - rewrite bool_decide_eq_false_2; [done|]. intros ->. by apply Hp.
Qed.

(** Writing a file over a file changes no kind. *)
Lemma lkind_put_file t d n c q :
  lkind t (d ++ [n]) = Some KFile → lkind (put t d n (File c)) q = lkind t q.
Proof.
  intros Hn.
  assert (lkind t d = Some KDir) as Hd.
  { unfold lkind in *. rewrite get_app in Hn.
    destruct (get t d) as [[]|]; simpl in *; try done. }
  rewrite lkind_put by done.
  case_bool_decide as Hp; [|done].
  destruct Hp as [r ->].
  replace (S (length d)) with (length (d ++ [n])) by (rewrite length_app; simpl; lia).
  rewrite drop_app_length.
  destruct r as [|k r].
  - by rewrite app_nil_r, Hn.
  - rewrite lkind_below_not_dir; [by destruct r|done|by rewrite Hn].
Qed.

(** Altering a directory twice is altering it once. *)
Lemma alter_dir_alter_dir g f t d :
  alter_dir g (alter_dir f t d) d = alter_dir (g ∘ f) t d.
Proof.
  revert t. induction d as [|c d IH]; intros t; destruct t as [|es|]; simpl; try done.
  rewrite alter_first_fusion. f_equal. apply alter_first_ext. intros x _. apply IH.
Qed.

(** Only the entries of the directory itself matter to [alter_dir]. *)
Lemma alter_dir_ext_at f g t d es :
  get t d = Some (Dir es) → f es = g es → alter_dir f t d = alter_dir g t d.
Proof.
  revert t. induction d as [|c d IH]; intros t; destruct t as [|es0|]; simpl; try done.
  - intros [= ->] Hfg. by rewrite Hfg.
  - intros Hg Hfg. f_equal. apply alter_first_ext. intros x Hx.
    rewrite Hx in Hg. by apply IH.
Qed.

Lemma alter_dir_id t d es :
  get t d = Some (Dir es) → alter_dir (λ _, es) t d = t.
Proof.
  revert t. induction d as [|c d IH]; intros t; destruct t as [|es0|]; simpl; try done.
  - by intros [= ->].
  - intros Hg. f_equal. apply alter_first_id. intros x Hx.
    rewrite Hx in Hg. by apply IH.
Qed.

(** Removing an entry forgets what was altered below it. *)
Lemma del_alter_dir_below f t d n r :
  del (alter_dir f t (d ++ n :: r)) d n = del t d n.
Proof.
  unfold del. revert t. induction d as [|c d IH]; intros t; destruct t as [|es|]; simpl; try done.
  - by rewrite remove_name_alter_first.
  - rewrite alter_first_fusion. f_equal. apply alter_first_ext. intros x _. apply IH.
Qed.

Lemma unsnoc_snoc d n : unsnoc (d ++ [n]) = Some (d, n).
Proof. unfold unsnoc. rewrite reverse_app. simpl. by rewrite reverse_involutive. Qed.

Lemma del_at_snoc t d n : del_at t (d ++ [n]) = del t d n.
Proof. unfold del_at. by rewrite unsnoc_snoc. Qed.

Lemma put_at_snoc t d n x : put_at t (d ++ [n]) x = put t d n x.
Proof. unfold put_at. by rewrite unsnoc_snoc. Qed.

(* ================================================================== *)
(** * Properties of the name resolution *)
(* ================================================================== *)

Lemma namei_unfold lk fuel follow cur comps :
  namei lk fuel follow cur comps =
  walk_comps lk
    (match fuel with
     | O => λ _ _, Failed ELOOP
     | S f => namei lk f follow
     end) follow cur comps.
Proof. by destruct fuel. Qed.

Section resolution_facts.

Variables lk lk' : path → option kind.

(** ** What is gone stays unresolved *)

(** When [lk'] has lost objects of [lk] and is otherwise the same, a path
    that resolves in [lk'] resolves to the same location in [lk]. *)
Hypothesis lost : ∀ q, lk' q = None ∨ lk' q = lk q.

Lemma walk_comps_mono expand expand' follow cur comps q :
  (∀ c cs q, expand' c cs = Found q → expand c cs = Found q) →
  walk_comps lk' expand' follow cur comps = Found q →
  walk_comps lk expand follow cur comps = Found q.
Proof.
  intros Hex. revert cur. induction comps as [|c rest IH]; intros cur; simpl; [done|].
  destruct (lost cur) as [E|E]; rewrite E; [done|].
  destruct (lk cur) as [[]|]; try done.
  destruct (is_dot c); [apply IH|].
  destruct (Py.str_eqb c ".."); [apply IH|].
  destruct (lost (cur ++ [c])) as [E'|E']; rewrite E'.
  { by destruct (forallb _ rest). }
  destruct (lk (cur ++ [c])) as [[]|]; try apply IH; try done.
  destruct (follow || negb (is_nil rest)); [|done].
  destruct (Py.str_eqb target ""); [done|]. apply Hex.
Qed.

Lemma namei_mono fuel follow cur comps q :
  namei lk' fuel follow cur comps = Found q →
  namei lk fuel follow cur comps = Found q.
Proof.
  revert cur comps q. induction fuel as [|f IH]; intros cur comps q;
    rewrite !namei_unfold; apply walk_comps_mono; [done|apply IH].
Qed.

End resolution_facts.

Section absent_facts.

Variable lk : path → option kind.

(** A missing last component is missing from a directory. *)
Lemma walk_comps_Absent_inv expand follow cur comps d n s :
  (∀ c cs, expand c cs = Absent d n s → lk d = Some KDir ∧ lk (d ++ [n]) = None) →
  walk_comps lk expand follow cur comps = Absent d n s →
  lk d = Some KDir ∧ lk (d ++ [n]) = None.
Proof.
  intros Hex. revert cur. induction comps as [|c rest IH]; intros cur; simpl; [done|].
  destruct (lk cur) as [[]|] eqn:Ecur; try done.
  destruct (is_dot c); [apply IH|].
  destruct (Py.str_eqb c ".."); [apply IH|].
  destruct (lk (cur ++ [c])) as [[]|] eqn:Ec; try apply IH.
  - destruct (follow || negb (is_nil rest)); [|done].
    destruct (Py.str_eqb target ""); [done|]. apply Hex.
  - destruct (forallb _ rest); [|done]. intros [= <- <- <-]. done.
Qed.

Lemma namei_Absent_inv fuel follow cur comps d n s :
  namei lk fuel follow cur comps = Absent d n s →
  lk d = Some KDir ∧ lk (d ++ [n]) = None.
Proof.
  revert cur comps. induction fuel as [|f IH]; intros cur comps;
    rewrite namei_unfold; apply walk_comps_Absent_inv; [done|apply IH].
Qed.

(** The trailing empty components of a path stay in the directory. *)
Lemma walk_comps_trailing expand follow cur rest :
  forallb (Py.str_eqb "") rest = true → lk cur = Some KDir →
  walk_comps lk expand follow cur rest = Found cur.
Proof.
  intros Hr Hc. induction rest as [|c rest IH]; simpl in *; [done|].
  apply andb_prop in Hr as [Hc' Hr]. apply str_eqb_eq in Hc' as <-.
  rewrite Hc. simpl. by apply IH.
Qed.

End absent_facts.

Section created_facts.

(** [lk'] is [lk] after a file or a directory was created at [d ++ [n]],
    where nothing was. *)
Variables lk lk' : path → option kind.
Variables (d : path) (n : string) (k : kind).
Hypothesis k_not_link : k = KFile ∨ k = KDir.
Hypothesis was_absent : lk (d ++ [n]) = None.
Hypothesis now_there : lk' (d ++ [n]) = Some k.
Hypothesis same_elsewhere : ∀ q, q ≠ d ++ [n] → lk' q = lk q.

Lemma walk_comps_created expand expand' follow cur comps s :
  (∀ c cs, expand c cs = Absent d n s → expand' c cs = created_result d n k s) →
  walk_comps lk expand follow cur comps = Absent d n s →
  walk_comps lk' expand' follow cur comps = created_result d n k s.
Proof.
  intros Hex. revert cur. induction comps as [|c rest IH]; intros cur; simpl; [done|].
  destruct (lk cur) as [[]|] eqn:Ecur; try done.
  assert (cur ≠ d ++ [n]) as Hcur by (intros ->; congruence).
  rewrite (same_elsewhere _ Hcur), Ecur.
  destruct (is_dot c); [apply IH|].
  destruct (Py.str_eqb c ".."); [apply IH|].
  destruct (lk (cur ++ [c])) as [k0|] eqn:Ec.
  - assert (cur ++ [c] ≠ d ++ [n]) as Hc by (intros E; rewrite E in Ec; congruence).
    rewrite (same_elsewhere _ Hc), Ec.
    destruct k0; try apply IH.
    destruct (follow || negb (is_nil rest)); [|done].
    destruct (Py.str_eqb target ""); [done|]. apply Hex.
  - destruct (forallb _ rest) eqn:Hr; [|done]. intros [= <- <- <-].
    rewrite now_there. unfold created_result.
    destruct rest as [|c' rest]; simpl.
    + by destruct k_not_link as [-> | ->].
    + destruct k_not_link as [-> | ->]; simpl.
      * by rewrite now_there.
      * change (walk_comps lk' expand' follow (cur ++ [c]) (c' :: rest) = Found (cur ++ [c])).
        by apply walk_comps_trailing.
Qed.

Lemma namei_created fuel follow cur comps s :
  namei lk fuel follow cur comps = Absent d n s →
  namei lk' fuel follow cur comps = created_result d n k s.
Proof.
  revert cur comps. induction fuel as [|f IH]; intros cur comps;
    rewrite !namei_unfold; apply walk_comps_created; [done|apply IH].
Qed.

End created_facts.

Lemma split_on_not_nil c s : Py.split_on c s ≠ [].
Proof.
  destruct s as [|x r]; simpl; [done|].
  destruct (Py.ch_eqb x c); [done|]. by destruct (Py.split_on c r).
Qed.

Section removed_facts.

(** [lk'] is [lk] after the file at [d ++ [n]] was removed. *)
Variables lk lk' : path → option kind.
Variables (d : path) (n : string).
Hypothesis was_file : lk (d ++ [n]) = Some KFile.
Hypothesis now_gone : lk' (d ++ [n]) = None.
Hypothesis same_elsewhere : ∀ q, q ≠ d ++ [n] → lk' q = lk q.
Hypothesis parent_dir : ∀ q, lk q = Some KDir → lk (removelast q) = Some KDir.

Lemma walk_comps_removed expand expand' follow cur comps :
  (∀ c cs, cs ≠ [] → expand c cs = Found (d ++ [n]) →
           expand' c cs = Absent d n false) →
  (comps = [] → cur ≠ d ++ [n]) →
  walk_comps lk expand follow cur comps = Found (d ++ [n]) →
  walk_comps lk' expand' follow cur comps = Absent d n false.
Proof.
  intros Hex. revert cur. induction comps as [|c rest IH]; intros cur Hne; simpl.
  { intros [= E]. by destruct Hne. }
  destruct (lk cur) as [[]|] eqn:Ecur; try done.
  assert (cur ≠ d ++ [n]) as Hcur by (intros ->; congruence).
  rewrite (same_elsewhere _ Hcur), Ecur.
  destruct (is_dot c); [by apply IH|].
  destruct (Py.str_eqb c "..").
  { apply IH. intros _ E. apply parent_dir in Ecur. congruence. }
  destruct (decide (cur ++ [c] = d ++ [n])) as [E|E].
  - rewrite E, was_file, now_gone.
    destruct rest as [|c' rest]; simpl.
    + apply app_inj_tail in E as [-> ->]. done.
    + by rewrite was_file.
  - rewrite (same_elsewhere _ E).
    destruct (lk (cur ++ [c])) as [[]|] eqn:Ec.
    + by apply IH.
    + by apply IH.
    + destruct (follow || negb (is_nil rest)); [|congruence].
      destruct (Py.str_eqb target ""); [done|]. apply Hex.
      intros E'. apply app_eq_nil in E' as [E' _]. by apply split_on_not_nil in E'.
    + by destruct (forallb _ rest).
Qed.

Lemma namei_removed fuel follow cur comps :
  comps ≠ [] →
  namei lk fuel follow cur comps = Found (d ++ [n]) →
  namei lk' fuel follow cur comps = Absent d n false.
Proof.
  revert cur comps. induction fuel as [|f IH]; intros cur comps Hc;
    rewrite !namei_unfold; apply walk_comps_removed; try done;
    intros c cs Hcs; by apply IH.
Qed.

End removed_facts.

Section plain_facts.

Variable lk : path → option kind.

Lemma plain_walk_prefix cur comps D :
  plain_walk lk cur comps = Some D → cur `prefix_of` D.
Proof.
  revert cur. induction comps as [|c rest IH]; intros cur; simpl.
  { by intros [= ->]. }
  destruct (lk cur) as [[]|]; try done.
  destruct (is_dot c); [apply IH|].
  destruct (Py.str_eqb c ".."); [done|].
  destruct (lk (cur ++ [c])) as [[]|]; try done.
  intros H%IH. by eapply prefix_app_l.
Qed.

Lemma plain_walk_dir cur comps D :
  comps ≠ [] → plain_walk lk cur comps = Some D → lk D = Some KDir.
Proof.
  revert cur. induction comps as [|c rest IH]; intros cur Hc; simpl; [done|].
  destruct (lk cur) as [[]|] eqn:Ecur; try done.
  destruct (is_dot c).
  { destruct rest; [simpl; congruence|]. by apply IH. }
  destruct (Py.str_eqb c ".."); [done|].
  destruct (lk (cur ++ [c])) as [[]|] eqn:Ec; try done.
  destruct rest; [simpl; congruence|]. by apply IH.
Qed.

(** A plain path resolves the same way whatever follows it. *)
Lemma walk_comps_plain_app expand follow cur comps D rest :
  plain_walk lk cur comps = Some D →
  walk_comps lk expand follow cur (comps ++ rest)
  = walk_comps lk expand follow D rest.
Proof.
  revert cur. induction comps as [|c cs IH]; intros cur; simpl.
  { by intros [= ->]. }
  destruct (lk cur) as [[]|]; try done.
  destruct (is_dot c); [apply IH|].
  destruct (Py.str_eqb c ".."); [done|].
  destruct (lk (cur ++ [c])) as [[]|]; try done. apply IH.
Qed.

Lemma namei_plain_app fuel follow cur comps D rest :
  plain_walk lk cur comps = Some D →
  namei lk fuel follow cur (comps ++ rest) = namei lk fuel follow D rest.
Proof. rewrite !namei_unfold. apply walk_comps_plain_app. Qed.

Lemma namei_plain fuel follow cur comps D :
  plain_walk lk cur comps = Some D →
  namei lk fuel follow cur comps = Found D.
Proof.
  intros H. rewrite <-(app_nil_r comps), (namei_plain_app _ _ _ _ D) by done.
  by rewrite namei_unfold.
Qed.

(** The resolution of one name in a directory. *)
Lemma namei_name fuel follow D n :
  lk D = Some KDir → name_ok n = true →
  namei lk fuel follow D [n] =
    match lk (D ++ [n]) with
    | None => Absent D n false
    | Some (KLink t) =>
        if follow then
          if Py.str_eqb t "" then Failed ENOENT
          else match fuel with
               | O => Failed ELOOP
               | S f => namei lk f follow
                          (if Py.startswith t Py.sep then [] else D)
                          (Py.split_on Py.sep t ++ [])
               end
        else Found (D ++ [n])
    | Some _ => Found (D ++ [n])
    end.
Proof.
  intros HD Hn. unfold name_ok in Hn.
  apply andb_prop in Hn as [Hn _]. apply andb_prop in Hn as [Hn1 Hn2].
  apply negb_true_iff in Hn1, Hn2.
  rewrite namei_unfold. simpl. rewrite HD, Hn1, Hn2.
  destruct (lk (D ++ [n])) as [[]|]; try done.
  rewrite orb_false_r. destruct follow; [|done].
  destruct (Py.str_eqb target ""); [done|]. by destruct fuel.
Qed.

End plain_facts.

(** A plain path keeps its meaning when the kinds of the locations on
    its way are kept. *)
Lemma plain_walk_ext lk lk' cur comps D :
  plain_walk lk cur comps = Some D →
  (∀ q, q `prefix_of` D → lk' q = lk q) →
  plain_walk lk' cur comps = Some D.
Proof.
  revert cur. induction comps as [|c rest IH]; intros cur; simpl; [done|].
  intros H Hq. pose proof H as Hp.
  destruct (lk cur) as [[]|] eqn:Ecur; try done.
  destruct (is_dot c).
  { apply plain_walk_prefix in Hp. rewrite (Hq _ Hp), Ecur. by apply IH. }
  destruct (Py.str_eqb c ".."); [done|].
  destruct (lk (cur ++ [c])) as [[]|] eqn:Ec; try done.
  apply plain_walk_prefix in Hp.
  rewrite (Hq cur), Ecur by (by eapply prefix_app_l).
  rewrite (Hq _ Hp), Ec. by apply IH.
Qed.

(* ================================================================== *)
(** * Properties of Python strings and of [posixpath] *)
(* ================================================================== *)

#[local] Arguments String.append !_ _ / : simpl nomatch.

Lemma len_nonneg s : 0 ≤ Py.len s.
Proof. induction s; simpl; lia. Qed.

Lemma app_String_assoc a x b : (a +:+ String x b) = ((a +:+ String x "") +:+ b).
Proof. induction a as [|y a IH]; simpl; [done|]. by rewrite IH. Qed.

Lemma str_app_assoc a b c : ((a +:+ b) +:+ c) = (a +:+ (b +:+ c)).
Proof. induction a as [|y a IH]; simpl; [done|]. by rewrite IH. Qed.

Lemma str_app_nil_r a : (a +:+ "") = a.
Proof. induction a as [|y a IH]; simpl; [done|]. by rewrite IH. Qed.

(** A string with no [c] in it is one piece for [split]. *)
Lemma split_on_one_cons c x r :
  Py.split_on c (String x r) = [String x r] → x ≠ c ∧ Py.split_on c r = [r].
Proof.
  simpl. destruct (Py.ch_eqb x c) eqn:E.
  - intros [= ? ?].
  - apply ch_eqb_neq in E. split; [done|].
    pose proof (split_on_not_nil c r) as Hn.
    destruct (Py.split_on c r) as [|t ts]; [done|]. congruence.
Qed.

Lemma rfind_from_none c s i :
  Py.split_on c s = [s] → Py.rfind_from c s i = -1.
Proof.
  revert i. induction s as [|x r IH]; intros i Hs; simpl; [done|].
  apply split_on_one_cons in Hs as [Hx Hr].
  rewrite (IH _ Hr). simpl. by rewrite (proj2 (ch_eqb_neq x c)).
Qed.

Lemma rfind_from_last c a b i :
  0 ≤ i → Py.split_on c b = [b] →
  Py.rfind_from c (a +:+ String c b) i = i + Py.len a.
Proof.
  intros Hi Hb. revert i Hi. induction a as [|x a IH]; intros i Hi; simpl.
  - rewrite (rfind_from_none _ _ _ Hb). simpl.
    unfold Py.ch_eqb. rewrite bool_decide_eq_true_2 by done. lia.
  - rewrite IH by lia. pose proof (len_nonneg a).
    destruct (0 <=? i + 1 + Py.len a) eqn:E; [lia|]. apply Z.leb_gt in E. lia.
Qed.

Lemma take_len_app a b : Py.take (Z.to_nat (Py.len a)) (a +:+ b) = a.
Proof.
  induction a as [|x a IH]; simpl.
  - by destruct b.
  - pose proof (len_nonneg a).
    replace (Z.to_nat (1 + Py.len a)) with (S (Z.to_nat (Py.len a))) by lia.
    simpl. by rewrite IH.
Qed.

Lemma drop_len_app a b : Py.drop (Z.to_nat (Py.len a)) (a +:+ b) = b.
Proof.
  induction a as [|x a IH]; simpl.
  - by destruct b.
  - pose proof (len_nonneg a).
    replace (Z.to_nat (1 + Py.len a)) with (S (Z.to_nat (Py.len a))) by lia.
    simpl. by rewrite IH.
Qed.

Lemma len_app a b : Py.len (a +:+ b) = Py.len a + Py.len b.
Proof. induction a as [|x a IH]; simpl; lia. Qed.

(** [head] and [tail] of a path at its last separator. *)
Lemma rfind_sep_last a b :
  Py.split_on Py.sep b = [b] →
  Py.rfind Py.sep (a +:+ String Py.sep b) = Py.len a.
Proof. intros Hb. unfold Py.rfind. rewrite rfind_from_last by done. lia. Qed.

Lemma slice_to_last a b :
  Py.slice_to (a +:+ String Py.sep b) (Py.len a + 1) = (a +:+ String Py.sep "").
Proof.
  unfold Py.slice_to. rewrite app_String_assoc.
  replace (Py.len a + 1) with (Py.len (a +:+ String Py.sep "")).
  - apply take_len_app.
  - rewrite len_app. simpl. lia.
Qed.

Lemma rstrip_snoc c s : Py.rstrip c (s +:+ String c "") = Py.rstrip c s.
Proof.
  induction s as [|x s IH]; simpl.
  - unfold Py.ch_eqb. by rewrite bool_decide_eq_true_2.
  - by rewrite IH.
Qed.

Lemma rstrip_id c s :
  s ≠ "" → Py.endswith s c = false → Py.rstrip c s = s.
Proof.
  induction s as [|x s IH]; [done|]. intros _ He.
  destruct s as [|y r].
  - simpl in *. by rewrite He.
  - change (Py.endswith (String x (String y r)) c) with (Py.endswith (String y r) c) in He.
    change (Py.rstrip c (String x (String y r))) with
      (match Py.rstrip c (String y r) with
       | "" => if Py.ch_eqb x c then "" else String x ""
       | r' => String x r'
       end).
    by rewrite IH.
Qed.

Lemma endswith_app a b c : b ≠ "" → Py.endswith (a +:+ b) c = Py.endswith b c.
Proof.
  intros Hb. induction a as [|x a IH]; [done|].
  simpl. destruct (a +:+ b) eqn:E; [|done].
  destruct a; simpl in E; [done|discriminate].
Qed.

Lemma endswith_component n :
  component_ok n = true → Py.endswith n Py.sep = false.
Proof.
  unfold component_ok, truthy. intros [Hn Hs%bool_decide_eq_true]%andb_prop.
  apply negb_true_iff, str_eqb_neq in Hn.
  induction n as [|x r IH]; [done|].
  apply split_on_one_cons in Hs as [Hx Hr].
  destruct r as [|y r]; simpl.
  - by apply ch_eqb_neq.
  - by apply IH.
Qed.

Lemma startswith_component n :
  component_ok n = true → Py.startswith n Py.sep = false.
Proof.
  unfold component_ok, truthy. intros [Hn Hs%bool_decide_eq_true]%andb_prop.
  destruct n as [|x r]; [done|].
  apply split_on_one_cons in Hs as [Hx Hr]. simpl. by apply ch_eqb_neq.
Qed.

Lemma join_names_snoc cs c :
  cs ≠ [] → join_names (cs ++ [c]) = (join_names cs +:+ String Py.sep c).
Proof.
  induction cs as [|x cs IH]; [done|]. intros _.
  destruct cs as [|y cs]; [done|].
  change (join_names ((x :: y :: cs) ++ [c])) with
    (x +:+ String Py.sep (join_names ((y :: cs) ++ [c]))).
  rewrite IH by done.
  change (join_names (x :: y :: cs)) with (x +:+ String Py.sep (join_names (y :: cs))).
  by rewrite str_app_assoc.
Qed.

Lemma join_names_not_nil cs :
  cs ≠ [] → Forall (λ c, component_ok c = true) cs → join_names cs ≠ "".
Proof.
  intros Hcs Hok. destruct cs as [|x cs]; [done|].
  apply Forall_cons in Hok as [Hx _].
  unfold component_ok, truthy in Hx. apply andb_prop in Hx as [Hx _].
  apply negb_true_iff, str_eqb_neq in Hx.
  destruct cs; simpl; [done|]. by destruct x.
Qed.

Lemma join_names_startswith cs :
  cs ≠ [] → Forall (λ c, component_ok c = true) cs →
  Py.startswith (join_names cs) Py.sep = false.
Proof.
  intros Hcs Hok. destruct cs as [|x cs]; [done|].
  apply Forall_cons in Hok as [Hx _].
  pose proof (startswith_component _ Hx) as Hs.
  destruct cs; simpl; [done|]. destruct x; [|done].
  by apply andb_prop in Hx as [? _].
Qed.

Lemma join_names_endswith cs :
  cs ≠ [] → Forall (λ c, component_ok c = true) cs →
  Py.endswith (join_names cs) Py.sep = false.
Proof.
  induction cs as [|x cs IH]; [done|]. intros _ Hok.
  apply Forall_cons in Hok as [Hx Hok].
  destruct cs as [|y cs]; [by apply endswith_component|].
  change (join_names (x :: y :: cs)) with (x +:+ String Py.sep (join_names (y :: cs))).
  rewrite endswith_app by done.
  change (Py.endswith (String Py.sep (join_names (y :: cs))) Py.sep)
    with (match join_names (y :: cs) with
          | "" => Py.ch_eqb Py.sep Py.sep
          | _ => Py.endswith (join_names (y :: cs)) Py.sep
          end).
  pose proof (join_names_not_nil (y :: cs)) as Hnn.
  destruct (join_names (y :: cs)) eqn:E; [by destruct Hnn|].
  by apply IH.
Qed.

(** [dirname] strips the last component of an absolute path. *)
Lemma dirname_abs_path_snoc cs c :
  Forall (λ c, component_ok c = true) cs → component_ok c = true →
  posixpath.dirname (abs_path (cs ++ [c])) = abs_path cs.
Proof.
  intros Hcs Hc. pose proof Hc as Hc'. unfold component_ok in Hc'.
  apply andb_prop in Hc' as [_ Hs%bool_decide_eq_true].
  unfold posixpath.dirname, abs_path.
  destruct (decide (cs = [])) as [->|Hne].
  - simpl join_names.
    change (String Py.sep c) with ("" +:+ String Py.sep c).
    rewrite rfind_sep_last by done.
    change (Py.len "" + 1) with (Py.len "" + 1).
    rewrite slice_to_last. reflexivity.
  - rewrite join_names_snoc by done.
    change (String Py.sep (join_names cs +:+ String Py.sep c))
      with (String Py.sep (join_names cs) +:+ String Py.sep c).
    rewrite rfind_sep_last by done. rewrite slice_to_last.
    assert (Py.all_char Py.sep (String Py.sep (join_names cs) +:+ String Py.sep "") = false) as ->.
    { simpl. pose proof (join_names_startswith cs Hne Hcs) as H.
      pose proof (join_names_not_nil cs Hne Hcs) as H'.
      destruct (join_names cs); [done|]. simpl in *. by rewrite H. }
    assert (Py.str_eqb (String Py.sep (join_names cs) +:+ String Py.sep "") "" = false) as ->.
    { by apply str_eqb_neq. }
    simpl negb. simpl andb. cbv iota.
    rewrite rstrip_snoc. apply rstrip_id; [done|].
    change (String Py.sep (join_names cs)) with (String Py.sep "" +:+ join_names cs).
    rewrite endswith_app by (by apply join_names_not_nil).
    by apply join_names_endswith.
Qed.

Lemma dirname_iter_abs_path cs n :
  Forall (λ c, component_ok c = true) cs → (n ≤ length cs)%nat →
  Nat.iter n posixpath.dirname (abs_path cs) = abs_path (take (length cs - n) cs).
Proof.
  intros Hcs. induction n as [|n IH]; intros Hn.
  - simpl. by rewrite Nat.sub_0_r, firstn_all.
  - simpl. rewrite IH by lia.
    assert (∃ c, take (length cs - n) cs = take (length cs - S n) cs ++ [c]) as [c Hc].
    { destruct (lookup_lt_is_Some_2 cs (length cs - S n)) as [c Hc]; [lia|].
      exists c. replace (length cs - n)%nat with (S (length cs - S n)) by lia.
      by apply take_S_r. }
    assert (Forall (λ c, component_ok c = true)
              (take (length cs - S n) cs ++ [c])) as HF.
    { rewrite <-Hc. by apply Forall_take. }
    apply Forall_app in HF as [HF1 HF2]. apply Forall_inv in HF2.
    rewrite Hc. by apply dirname_abs_path_snoc.
Qed.

(** The loop of [parent] applies [dirname] [depth] times. *)
Lemma parent_loop_iter n p :
  FileDirectories.parent_loop n p (Z.of_nat n) = Nat.iter n posixpath.dirname p.
Proof.
  revert p. induction n as [|n IH]; intros p; [done|].
  cbn [FileDirectories.parent_loop].
  replace (0 <? Z.of_nat (S n)) with true by (symmetry; apply Z.ltb_lt; lia).
  replace (Z.of_nat (S n) - 1) with (Z.of_nat n) by lia.
  rewrite IH. by rewrite Nat.iter_succ_r.
Qed.

(* ================================================================== *)
(** * [FileDirectories.parent] *)
(* ================================================================== *)

Lemma parent_run w full_path depth :
  FileDirectories.parent full_path depth w =
  (Ok (if os.path_exists w full_path
       then Some (Nat.iter (Z.to_nat depth) posixpath.dirname full_path)
       else None), w).
Proof.
  unfold FileDirectories.parent, FileCheck.exists_, bind, query, ret.
  destruct (os.path_exists w full_path); simpl; [|done].
  destruct (decide (0 ≤ depth)) as [H|H].
  - rewrite <-(Z2Nat.id depth) at 2 by done. by rewrite parent_loop_iter.
  - replace (Z.to_nat depth) with 0%nat by lia. done.
Qed.

Example parent_of_missing_path :
  FileDirectories.parent "/a/b/x" 2 world_abcd = (Ok None, world_abcd).
Proof. reflexivity. Qed.

(* ================================================================== *)
(** * [str.split()] and whole words *)
(* ================================================================== *)

Lemma split_nonspace_not_nil x r :
  Py.isspace x = false → Py.split (String x r) ≠ [].
Proof.
  intros Hx. simpl. rewrite Hx. destruct r as [|y r]; [done|].
  destruct (Py.isspace y); [done|]. by destruct (Py.split (String y r)).
Qed.

Lemma ends_at_space_cons x pre :
  pre ≠ "" → ends_at_space pre → ends_at_space (String x pre).
Proof.
  intros Hne [->|(p & c & -> & Hc)]; [done|].
  right. by exists (String x p), c.
Qed.

Lemma ends_at_space_app a pre :
  pre ≠ "" → ends_at_space pre → ends_at_space (a +:+ pre).
Proof.
  intros Hne H. induction a as [|x a IH]; [done|].
  simpl. apply ends_at_space_cons; [|done]. by destruct a, pre.
Qed.

Lemma all_space_ends sp : all_space sp = true → ends_at_space sp.
Proof.
  induction sp as [|x sp IH]; [by left|]. simpl.
  intros [Hx Hsp]%andb_prop. destruct sp as [|y sp].
  - right. by exists "", x.
  - apply ends_at_space_cons; [done|]. by apply IH.
Qed.

Lemma split_all_space sp s :
  all_space sp = true → Py.split (sp +:+ s) = Py.split s.
Proof.
  induction sp as [|x sp IH]; [done|]. simpl.
  intros [Hx Hsp]%andb_prop. rewrite Hx. by apply IH.
Qed.

(** A word at the start of a line is the first piece of the line. *)
Lemma split_word_app word post :
  word ≠ "" → no_space word = true → starts_at_space post →
  Py.split (word +:+ post) = word :: Py.split post.
Proof.
  intros Hne Hw Hp. induction word as [|x w IH]; [done|].
  simpl in Hw. apply andb_prop in Hw as [Hx%negb_true_iff Hw].
  destruct w as [|x' w'].
  - simpl. rewrite Hx. destruct Hp as [->|(c & r & -> & Hc)]; [done|].
    by rewrite Hc.
  - simpl in Hw. pose proof Hw as [Hx'%negb_true_iff _]%andb_prop.
    change (String x (String x' w') +:+ post) with (String x (String x' (w' +:+ post))).
    change (Py.split (String x (String x' (w' +:+ post)))) with
      (if Py.isspace x then Py.split (String x' (w' +:+ post))
       else if Py.isspace x' then String x "" :: Py.split (String x' (w' +:+ post))
       else match Py.split (String x' (w' +:+ post)) with
            | t :: ts => String x t :: ts
            | [] => [String x ""]
            end).
    rewrite Hx, Hx'.
    change (String x' (w' +:+ post)) with (String x' w' +:+ post).
    by rewrite IH.
Qed.

(** A line is white space only, or white space, a word, and a rest that
    is split on its own. *)
Lemma split_first s :
  (all_space s = true ∧ Py.split s = [])
  ∨ ∃ sp t post, s = sp +:+ t +:+ post ∧ all_space sp = true
                 ∧ t ≠ "" ∧ no_space t = true ∧ starts_at_space post
                 ∧ Py.split s = t :: Py.split post.
Proof.
  induction s as [|x r IH]; [by left|].
  destruct (Py.isspace x) eqn:Hx.
  - destruct IH as [[Ha Hs]|(sp & t & post & -> & Hsp & Ht & Hn & Hp & Hs)].
    + left. simpl. by rewrite Hx.
    + right. exists (String x sp), t, post. simpl. by rewrite Hx.
  - right. destruct r as [|y r'].
    + exists "", (String x ""), "". simpl. rewrite Hx. repeat split; try done. by left.
    + destruct (Py.isspace y) eqn:Hy.
      * exists "", (String x ""), (String y r'). simpl. rewrite Hx, Hy.
        repeat split; try done. right. by exists y, r'.
      * destruct IH as [[Ha Hs]|(sp & t & post & E & Hsp & Ht & Hn & Hp & Hs)].
        { simpl in Ha. by rewrite Hy in Ha. }
        destruct sp as [|z sp].
        2:{ simpl in E, Hsp. injection E as <- _. by rewrite Hy in Hsp. }
        simpl in E. exists "", (String x t), post.
        change (Py.split (String x (String y r'))) with
          (if Py.isspace x then Py.split (String y r')
           else if Py.isspace y then String x "" :: Py.split (String y r')
           else match Py.split (String y r') with
                | t :: ts => String x t :: ts
                | [] => [String x ""]
                end).
        rewrite Hx, Hy, Hs. simpl. rewrite Hx, E. repeat split; try done.
Qed.

Lemma starts_at_space_word word post :
  word ≠ "" → no_space word = true → starts_at_space (word +:+ post) → False.
Proof.
  intros Hne Hw [E|(c & r & E & Hc)]; destruct word as [|x w]; try done.
  simpl in E, Hw. injection E as -> _. by rewrite Hc in Hw.
Qed.

Lemma split_sound_len n : ∀ word line,
  (Z.to_nat (Py.len line) ≤ n)%nat → word ∈ Py.split line → whole_token word line.
Proof.
  induction n as [|n IH]; intros word line Hlen Hin.
  { destruct line; [by apply elem_of_nil in Hin|].
    simpl in Hlen. pose proof (len_nonneg line). lia. }
  destruct (split_first line) as [[_ Hs]|(sp & t & post & -> & Hsp & Ht & Hn & Hp & Hs)].
  { rewrite Hs in Hin. by apply elem_of_nil in Hin. }
  rewrite Hs in Hin. apply elem_of_cons in Hin as [->|Hin].
  - repeat split; try done. exists sp, post. repeat split; try done.
    by apply all_space_ends.
  - apply IH in Hin as (Hw1 & Hw2 & pre & post' & -> & Hpre & Hpost').
    2:{ rewrite !len_app in Hlen. pose proof (len_nonneg sp).
        destruct t; [done|]. simpl in Hlen. pose proof (len_nonneg t).
        pose proof (len_nonneg post). lia. }
    repeat split; try done.
    exists (sp +:+ t +:+ pre), post'. repeat split; try done.
    + by rewrite !str_app_assoc.
    + destruct (decide (pre = "")) as [->|Hne].
      { exfalso. by apply (starts_at_space_word word post'). }
      rewrite <-str_app_assoc. by apply ends_at_space_app.
Qed.

Lemma split_app_boundary pre s :
  ends_at_space pre → Py.split (pre +:+ s) = Py.split pre ++ Py.split s.
Proof.
  induction pre as [|x p IH]; intros Hpre; [done|].
  assert (p ≠ "" → ends_at_space p) as Hp.
  { intros Hne. destruct Hpre as [|(p' & c & E & Hc)]; [done|].
    destruct p' as [|z p']; simpl in E.
    - injection E as -> ->. done.
    - injection E as -> ->. right. by exists p', c. }
  destruct (Py.isspace x) eqn:Hx.
  - simpl. rewrite Hx. destruct p as [|y p']; [done|]. by apply IH, Hp.
  - destruct p as [|y p'].
    { destruct Hpre as [|(p' & c & E & Hc)]; [done|].
      destruct p' as [|z p']; simpl in E.
      - injection E as ->. by rewrite Hc in Hx.
      - injection E as _ E. by destruct p'. }
    specialize (IH (Hp ltac:(done))).
    change (String x (String y p') +:+ s) with (String x (String y p' +:+ s)).
    change (String y p' +:+ s) with (String y (p' +:+ s)) in *.
    change (Py.split (String x (String y (p' +:+ s)))) with
      (if Py.isspace x then Py.split (String y (p' +:+ s))
       else if Py.isspace y then String x "" :: Py.split (String y (p' +:+ s))
       else match Py.split (String y (p' +:+ s)) with
            | t :: ts => String x t :: ts
            | [] => [String x ""]
            end).
    change (Py.split (String x (String y p'))) with
      (if Py.isspace x then Py.split (String y p')
       else if Py.isspace y then String x "" :: Py.split (String y p')
       else match Py.split (String y p') with
            | t :: ts => String x t :: ts
            | [] => [String x ""]
            end).
    rewrite Hx, IH. destruct (Py.isspace y) eqn:Hy; [done|].
    pose proof (split_nonspace_not_nil y p' Hy).
    by destruct (Py.split (String y p')).
Qed.

(** [word in line.split()] says that [word] is a whole word of [line]. *)
Lemma split_whole_token word line :
  word ∈ Py.split line ↔ whole_token word line.
Proof.
  split.
  - by apply (split_sound_len (Z.to_nat (Py.len line))).
  - intros (Hne & Hw & pre & post & -> & Hpre & Hpost).
    rewrite split_app_boundary, split_word_app by done.
    apply elem_of_app. right. apply elem_of_cons. by left.
Qed.

Lemma contains_split word line :
  Py.contains (Py.split line) word = true ↔ whole_token word line.
Proof.
  unfold Py.contains. rewrite bool_decide_eq_true. apply split_whole_token.
Qed.

(* ================================================================== *)
(** * Running the primitives *)
(* ================================================================== *)

Lemma path_isfile_true w p :
  os.path_isfile w p = true ↔
  ∃ q data, resolve w true p = Found q ∧ get (root w) q = Some (File data).
Proof.
  unfold os.path_isfile, os.stat_kind. split.
  - destruct (resolve w true p) as [q| |]; try done.
    destruct (lkind (root w) q) as [[]|] eqn:E; try done.
    apply lkind_file in E as [data E]. eauto.
  - intros (q & data & -> & E). unfold lkind. by rewrite E.
Qed.

Lemma path_isdir_true w p :
  os.path_isdir w p = true ↔
  ∃ q, resolve w true p = Found q ∧ lkind (root w) q = Some KDir.
Proof.
  unfold os.path_isdir, os.stat_kind. split.
  - destruct (resolve w true p) as [q| |]; try done.
    destruct (lkind (root w) q) as [[]|] eqn:E; try done. eauto.
  - by intros (q & -> & ->).
Qed.

Lemma path_exists_true w p :
  os.path_exists w p = true ↔
  ∃ q k, resolve w true p = Found q ∧ lkind (root w) q = Some k.
Proof.
  unfold os.path_exists, os.stat_kind. split.
  - destruct (resolve w true p) as [q| |]; try done.
    destruct (lkind (root w) q) as [k|] eqn:E; try done. eauto.
  - by intros (q & k & -> & ->).
Qed.

Lemma isfile_exists w p : os.path_isfile w p = true → os.path_exists w p = true.
Proof.
  unfold os.path_isfile, os.path_exists.
  by destruct (os.stat_kind w true p) as [[]|].
Qed.

Lemma isdir_exists w p : os.path_isdir w p = true → os.path_exists w p = true.
Proof.
  unfold os.path_isdir, os.path_exists.
  by destruct (os.stat_kind w true p) as [[]|].
Qed.

Lemma isfile_not_isdir w p : os.path_isfile w p = true → os.path_isdir w p = false.
Proof.
  unfold os.path_isfile, os.path_isdir.
  by destruct (os.stat_kind w true p) as [[]|].
Qed.

(** ** Open file objects *)

Lemma fresh_fd_bound fs f : f ∈ fs → (fileno f < io.fresh_fd fs)%nat.
Proof.
  unfold io.fresh_fd. induction fs as [|g fs IH]; intros Hin.
  - by apply elem_of_nil in Hin.
  - apply elem_of_cons in Hin as [->|Hin]; simpl; [lia|].
    specialize (IH Hin). lia.
Qed.

Lemma filter_fresh fs n :
  (∀ f, f ∈ fs → fileno f ≠ n) →
  List.filter (λ g, negb (bool_decide (fileno g = n))) fs = fs.
Proof.
  induction fs as [|g fs IH]; intros H; [done|]. simpl.
  rewrite bool_decide_eq_false_2 by (apply H; by left). simpl.
  rewrite IH; [done|]. intros f Hf. apply H. by right.
Qed.

Lemma close_fresh fs q m :
  List.filter
    (λ g, negb (bool_decide (fileno g = io.fresh_fd fs)))
    (FileObject (io.fresh_fd fs) q m :: fs) = fs.
Proof.
  simpl. rewrite bool_decide_eq_true_2 by done. simpl.
  apply filter_fresh. intros f Hf E. apply fresh_fd_bound in Hf. lia.
Qed.

Lemma close_fresh_world t c fs q m :
  (io.close (FileObject (io.fresh_fd fs) q m)
     {| root := t; cwd := c;
        open_files := FileObject (io.fresh_fd fs) q m :: fs |}).2
  = {| root := t; cwd := c; open_files := fs |}.
Proof. unfold io.close. cbn [snd root cwd open_files fileno]. by rewrite close_fresh. Qed.

Lemma world_eta w :
  {| root := root w; cwd := cwd w; open_files := open_files w |} = w.
Proof. by destruct w. Qed.

(** Closes the goal left by closing the file object that was opened
    last. *)
Ltac close_last :=
  rewrite ?bool_decide_eq_true_2 by done; cbn [negb];
  rewrite filter_fresh;
  [ rewrite ?world_eta; done
  | let f := fresh "f" in let Hf := fresh "Hf" in let E := fresh "E" in
    intros f Hf E; apply fresh_fd_bound in Hf; lia ].

Lemma is_open_head t c f fs :
  io.is_open {| root := t; cwd := c; open_files := f :: fs |} f = true.
Proof. unfold io.is_open. apply bool_decide_eq_true. simpl. by left. Qed.

(* ================================================================== *)
(** * [FileFind.line_number] *)
(* ================================================================== *)

Lemma line_number_loop_spec word lines k :
  match FileFind.line_number_loop word lines k with
  | None => ∀ line, line ∈ lines → ¬ whole_token word line
  | Some r =>
      ∃ (i : nat) line,
        r = k + Z.of_nat i + 1 ∧ lines !! i = Some line
        ∧ whole_token word line
        ∧ ∀ (j : nat) l, (j < i)%nat → lines !! j = Some l → ¬ whole_token word l
  end.
Proof.
  revert k. induction lines as [|line rest IH]; intros k; simpl.
  { intros line H. by apply elem_of_nil in H. }
  destruct (Py.contains (Py.split line) word) eqn:E.
  - apply contains_split in E. exists 0%nat, line.
    split; [lia|]. split; [done|]. split; [done|]. intros j l Hj. lia.
  - assert (¬ whole_token word line) as Hn.
    { intros H%contains_split. congruence. }
    specialize (IH (k + 1)).
    destruct (FileFind.line_number_loop word rest (k + 1)) as [r|].
    + destruct IH as (i & l & -> & Hl & Ht & Hbefore).
      exists (S i), l.
      split; [lia|]. split; [done|]. split; [done|].
      intros [|j] l' Hj Hl'; simpl in Hl'.
      * by injection Hl' as <-.
      * apply (Hbefore j); [lia|done].
    + intros l [->|Hl]%elem_of_cons; [done|]. by apply IH.
Qed.

Lemma line_number_run w full_path word q data :
  resolve w true full_path = Found q → get (root w) q = Some (File data) →
  FileFind.line_number full_path word w =
  (Ok (Some (default (-1)
               (FileFind.line_number_loop word
                  (io.lines_of (io.universal_newlines data)) 0))),
   {| root := root w; cwd := cwd w;
      open_files := FileObject (io.fresh_fd (open_files w)) q mode_r :: open_files w |}).
Proof.
  intros Hq Hd.
  assert (os.path_isfile w full_path = true) as Hf.
  { apply path_isfile_true. eauto. }
  unfold FileFind.line_number, FileCheck.is_file, bind, query. rewrite Hf.
  unfold io.open_. rewrite Hq, Hd. simpl.
  unfold io.readlines, bind, io.read. rewrite is_open_head. simpl.
  unfold io.content. simpl. rewrite Hd. unfold ret.
  by destruct (FileFind.line_number_loop _ _ _).
Qed.

(** C6.  [line_number] returns [None] for a path that is no existing
    file.  For a file it returns the 1-based number of the first line,
    in order, of which the word is a whole white-space-delimited word,
    and -1 when there is no such line. *)
Theorem line_number_first_whole_token (w : world) (full_path word : string) :
  (os.path_isfile w full_path = false →
   FileFind.line_number full_path word w = (Ok None, w))
  ∧ (∀ q data,
       resolve w true full_path = Found q →
       get (root w) q = Some (File data) →
       ∃ r w',
         FileFind.line_number full_path word w = (Ok (Some r), w')
         ∧ root w' = root w
         ∧ ((r = -1
             ∧ ∀ line, line ∈ io.lines_of (io.universal_newlines data) →
                       ¬ whole_token word line)
            ∨ (∃ (i : nat) line,
                 r = Z.of_nat i + 1
                 ∧ io.lines_of (io.universal_newlines data) !! i = Some line
                 ∧ whole_token word line
                 ∧ ∀ (j : nat) l, (j < i)%nat →
                     io.lines_of (io.universal_newlines data) !! j = Some l →
                     ¬ whole_token word l))).
Proof.
  split.
  - intros Hf. unfold FileFind.line_number, FileCheck.is_file, bind, query.
    by rewrite Hf.
  - intros q data Hq Hd. eexists _, _. split; [by apply line_number_run|].
    split; [done|].
    pose proof (line_number_loop_spec word
                  (io.lines_of (io.universal_newlines data)) 0) as H.
    destruct (FileFind.line_number_loop _ _ _) as [r|]; simpl.
    + right. destruct H as (i & line & -> & H). exists i, line.
      split; [lia|done].
    + by left.
Qed.

Lemma line_number_first_whole_token_witness :
  ∃ w', FileFind.line_number "/notes.txt" "foo" world_foo = (Ok (Some 2), w').
Proof.
  destruct (line_number_first_whole_token world_foo "/notes.txt" "foo") as [_ H].
  destruct (H ["notes.txt"] _ eq_refl eq_refl) as (r & w' & Hrun & _ & _).
  exists w'. rewrite Hrun. vm_compute in Hrun. injection Hrun as <- _. reflexivity.
Defined.

Example line_number_not_a_substring :
  (FileFind.line_number "/notes.txt" "fo" world_foo).1 = Ok (Some (-1)).
Proof. reflexivity. Qed.

Example line_number_of_missing_file :
  FileFind.line_number "/missing.txt" "foo" world_foo = (Ok None, world_foo).
Proof. reflexivity. Qed.

(** ** The kinds a followed path can lead to *)

Lemma lkind_parent t q :
  lkind t q = Some KDir → lkind t (removelast q) = Some KDir.
Proof.
  destruct q as [|c q _] using rev_ind; [done|].
  rewrite removelast_last. unfold lkind. rewrite get_app.
  destruct (get t q) as [[]|]; simpl; try done.
Qed.

Section follow_facts.

Variable lk : path → option kind.
Hypothesis parent_dir : ∀ q, lk q = Some KDir → lk (removelast q) = Some KDir.

Lemma walk_comps_follow_kind expand cur comps q :
  (∀ c cs, cs ≠ [] → expand c cs = Found q →
           (lk q = Some KFile ∧ q ≠ []) ∨ lk q = Some KDir) →
  (comps = [] → lk cur = Some KDir) →
  walk_comps lk expand true cur comps = Found q →
  (lk q = Some KFile ∧ q ≠ []) ∨ lk q = Some KDir.
Proof.
  intros Hex. revert cur. induction comps as [|c rest IH]; intros cur Hcur; simpl.
  { intros [= <-]. right. by apply Hcur. }
  destruct (lk cur) as [[]|] eqn:Ecur; try done.
  destruct (is_dot c); [by apply IH|].
  destruct (Py.str_eqb c ".."); [apply IH; intros _; by apply parent_dir|].
  destruct (lk (cur ++ [c])) as [[]|] eqn:Ec.
  - destruct rest; [|by apply IH].
    intros [= <-]. left. split; [done|]. by destruct cur.
  - by apply IH.
  - destruct (Py.str_eqb target ""); [done|]. apply Hex.
    intros E'. apply app_eq_nil in E' as [E' _]. by apply split_on_not_nil in E'.
  - by destruct (forallb _ rest).
Qed.

Lemma namei_follow_kind fuel cur comps q :
  comps ≠ [] →
  namei lk fuel true cur comps = Found q →
  (lk q = Some KFile ∧ q ≠ []) ∨ lk q = Some KDir.
Proof.
  intros Hc. revert cur comps Hc. induction fuel as [|f IH]; intros cur comps Hc;
    rewrite namei_unfold; apply walk_comps_follow_kind; try done.
Qed.

End follow_facts.

Lemma resolve_follow_kind w p q :
  resolve w true p = Found q →
  (lkind (root w) q = Some KFile ∧ q ≠ []) ∨ lkind (root w) q = Some KDir.
Proof.
  unfold resolve. destruct (Py.str_eqb p ""); [done|].
  apply namei_follow_kind; [apply lkind_parent|apply split_on_not_nil].
Qed.

Lemma not_nil_snoc {A} (q : list A) : q ≠ [] → ∃ d n, q = d ++ [n].
Proof.
  destruct q as [|n q _] using rev_ind; [done|]. eauto.
Qed.

Lemma resolve_file_snoc w p q data :
  resolve w true p = Found q → get (root w) q = Some (File data) →
  ∃ d n, q = d ++ [n].
Proof.
  intros Hq Hd. apply not_nil_snoc.
  destruct (resolve_follow_kind _ _ _ Hq) as [[_ H]|H]; [done|].
  unfold lkind in H. by rewrite Hd in H.
Qed.

(** What exists and is no directory is a file. *)
Lemma exists_not_isdir w p :
  os.path_exists w p && negb (os.path_isdir w p) = os.path_isfile w p.
Proof.
  unfold os.path_exists, os.path_isdir, os.path_isfile, os.stat_kind.
  destruct (resolve w true p) as [q| |] eqn:E; try done.
  by destruct (resolve_follow_kind _ _ _ E) as [[-> _] | ->].
Qed.

(* ================================================================== *)
(** * [DirectoryWrapper] *)
(* ================================================================== *)

(** C1.  For a path that is no existing file the constructor returns an
    object, and that object has no attribute [directory]: [__init__]
    never assigns it.  Every method reads [self.directory] first, so
    every method raises [AttributeError] and does nothing to the path. *)
Theorem DirectoryWrapper_directory_unbound (w : world) (full_path : string) :
  os.path_isfile w full_path = false →
  ∃ self,
    DirectoryWrapper.new full_path w = (Ok self, w)
    ∧ dict self !! "directory" = None
    ∧ (∀ w', DirectoryWrapper.get_directory self w' = (Raise no_directory_attribute, w'))
    ∧ (∀ w' depth, DirectoryWrapper.parent self depth w' = (Raise no_directory_attribute, w'))
    ∧ (∀ w' r, DirectoryWrapper.clear self r w' = (Raise no_directory_attribute, w'))
    ∧ (∀ w', DirectoryWrapper.clear_all self w' = (Raise no_directory_attribute, w'))
    ∧ (∀ w', DirectoryWrapper.clear_files self w' = (Raise no_directory_attribute, w'))
    ∧ (∀ w' r a, DirectoryWrapper.children self r a w' = (Raise no_directory_attribute, w'))
    ∧ (∀ w', DirectoryWrapper.create self w' = (Raise no_directory_attribute, w'))
    ∧ (∀ w' r, DirectoryWrapper.delete self r w' = (Raise no_directory_attribute, w'))
    ∧ (∀ w' r a, DirectoryWrapper.directories self r a w' = (Raise no_directory_attribute, w'))
    ∧ (∀ w' r a, DirectoryWrapper.files self r a w' = (Raise no_directory_attribute, w')).
Proof.
  intros Hf. eexists. split.
  - unfold DirectoryWrapper.new, DirectoryWrapper.__init__, FileCheck.exists_,
      FileCheck.is_directory, bind, query. simpl.
    rewrite exists_not_isdir, Hf. reflexivity.
  - repeat split; done.
Qed.

Lemma DirectoryWrapper_directory_unbound_witness :
  ∃ self,
    DirectoryWrapper.new "/a/b" world_abcd = (Ok self, world_abcd)
    ∧ DirectoryWrapper.parent self 1 world_abcd
      = (Raise no_directory_attribute, world_abcd).
Proof.
  destruct (DirectoryWrapper_directory_unbound world_abcd "/a/b" eq_refl)
    as (self & Hnew & _ & _ & Hparent & _).
  exists self. split; [exact Hnew|apply Hparent].
Defined.

(* ================================================================== *)
(** * Open files left behind *)
(* ================================================================== *)

Lemma FileIO_open_run p wr ap bin w :
  (∃ e, FileIO.open p wr ap bin w = (Raise e, w))
  ∨ ∃ t q m,
      FileIO.open p wr ap bin w
      = (Ok (FileObject (io.fresh_fd (open_files w)) q m),
         {| root := t; cwd := cwd w;
            open_files := FileObject (io.fresh_fd (open_files w)) q m :: open_files w |}).
Proof.
  unfold FileIO.open, FileIO._raise_error_if_directory, FileCheck.is_directory,
    bind, query, throw, ret.
  destruct (os.path_isdir w p); [left; by eauto|].
  unfold io.open_.
  destruct (resolve w true p) as [q|d n s|e]; [| |left; by eauto].
  - destruct (get (root w) q) as [[]|]; try (left; by eauto).
    right. unfold io.new_file_object. eauto.
  - destruct (io.creates _); [|left; by eauto].
    destruct s; [left; by eauto|]. right. unfold io.new_file_object. eauto.
Qed.

(** A [with] statement over [FileIO.open] leaves the open files as they
    were, whether its body returns or raises. *)
Lemma with_open_closes {A} p wr ap bin (body : file_object → M A) w :
  (∀ f w1, open_files (body f w1).2 = open_files w1) →
  open_files (io.with_ (FileIO.open p wr ap bin) body w).2 = open_files w.
Proof.
  intros Hbody. unfold io.with_, bind.
  destruct (FileIO_open_run p wr ap bin w) as [[e ->]|(t & q & m & ->)]; [done|].
  specialize (Hbody (FileObject (io.fresh_fd (open_files w)) q m)
    {| root := t; cwd := cwd w;
       open_files := FileObject (io.fresh_fd (open_files w)) q m :: open_files w |}).
  destruct (body _ _) as [r w']. unfold io.close. simpl in *. rewrite Hbody.
  apply close_fresh.
Qed.

Lemma io_read_open_files f w : open_files (io.read f w).2 = open_files w.
Proof.
  unfold io.read. destruct (negb (io.is_open w f)); [done|].
  by destruct (negb (io.readable _)).
Qed.

Lemma io_readlines_open_files f w : open_files (io.readlines f w).2 = open_files w.
Proof.
  unfold io.readlines, bind. pose proof (io_read_open_files f w) as H.
  by destruct (io.read f w) as [[]].
Qed.

Lemma io_write_open_files f s w : open_files (io.write f s w).2 = open_files w.
Proof.
  unfold io.write. destruct (negb (io.is_open w f)); [done|].
  by destruct (negb (io.writable _)).
Qed.

(** The functions that open a file in a [with] statement close it. *)
Lemma read_closes_file p w : open_files (FileIO.read p w).2 = open_files w.
Proof.
  unfold FileIO.read, FileCheck.is_file, bind at 1, query.
  destruct (os.path_isfile w p); [|done].
  apply with_open_closes. intros f w1. unfold bind.
  pose proof (io_read_open_files f w1). by destruct (io.read f w1) as [[]].
Qed.

Lemma save_closes_file p text ow w :
  open_files (FileIO.save p text ow w).2 = open_files w.
Proof.
  unfold FileIO.save, FileCheck.exists_, bind at 1, query.
  destruct (negb ow && os.path_exists w p); [done|].
  apply with_open_closes. intros f w1. apply io_write_open_files.
Qed.

Lemma lines_closes_file p w : open_files (FileTransform.lines p w).2 = open_files w.
Proof.
  unfold FileTransform.lines, FileCheck.exists_, bind at 1, query.
  destruct (os.path_exists w p); [|done].
  apply with_open_closes. intros f w1. unfold bind.
  pose proof (io_readlines_open_files f w1). by destruct (io.readlines f w1) as [[]].
Qed.

Lemma words_closes_file p w : open_files (FileTransform.words p w).2 = open_files w.
Proof.
  unfold FileTransform.words, FileCheck.exists_, bind at 1, query.
  destruct (os.path_exists w p); [|done].
  apply with_open_closes. intros f w1. unfold bind.
  pose proof (io_readlines_open_files f w1). by destruct (io.readlines f w1) as [[]].
Qed.

Lemma characters_closes_file p w : open_files (FileCount.characters p w).2 = open_files w.
Proof.
  unfold FileCount.characters, FileCheck.exists_, bind at 1, query.
  destruct (os.path_exists w p); [|done].
  apply with_open_closes. intros f w1. unfold bind.
  pose proof (io_readlines_open_files f w1). by destruct (io.readlines f w1) as [[]].
Qed.

Lemma copy_closes_file p p' ow w :
  open_files (FileIO.copy p p' ow w).2 = open_files w.
Proof.
  unfold FileIO.copy, FileCheck.is_directory, FileCheck.exists_, query, throw.
  unfold bind at 1. destruct (os.path_isdir w p); [done|].
  unfold bind at 1. destruct (os.path_isdir w p'); [done|].
  unfold bind at 1. destruct (negb (os.path_exists w p)); [done|].
  unfold bind at 1. destruct (negb ow && os.path_exists w p'); [done|].
  unfold bind at 1. pose proof (read_closes_file p w) as Hr.
  destruct (FileIO.read p w) as [[[text|]|e] w1]; simpl in *; try done.
  unfold bind, ret. pose proof (save_closes_file p' text ow w1) as Hs.
  destruct (FileIO.save p' text ow w1) as [[] w2]; simpl in *; congruence.
Qed.

(** The functions of the module that open a file in a [with] statement
    leave the open files as they were, when they return and when they
    raise. *)
Theorem with_statement_closes_file (p p' text : string) (ow : bool) (w : world) :
  open_files (FileIO.read p w).2 = open_files w
  ∧ open_files (FileIO.save p text ow w).2 = open_files w
  ∧ open_files (FileIO.copy p p' ow w).2 = open_files w
  ∧ open_files (FileTransform.lines p w).2 = open_files w
  ∧ open_files (FileTransform.words p w).2 = open_files w
  ∧ open_files (FileCount.characters p w).2 = open_files w.
Proof.
  split; [apply read_closes_file|]. split; [apply save_closes_file|].
  split; [apply copy_closes_file|]. split; [apply lines_closes_file|].
  split; [apply words_closes_file|apply characters_closes_file].
Qed.

(** C9, as the code has it.  [line_number] opens the file with the
    built-in [open], outside a [with] statement, and returns without
    closing it: after the call one more file object is open. *)
Theorem line_number_leaves_file_open (w : world) (full_path word : string) :
  os.path_isfile w full_path = true →
  ∃ r f,
    (FileFind.line_number full_path word w).1 = Ok (Some r)
    ∧ open_files (FileFind.line_number full_path word w).2 = f :: open_files w
    ∧ (f ∉ open_files w)
    ∧ io.is_open (FileFind.line_number full_path word w).2 f = true.
Proof.
  intros (q & data & Hq & Hd)%path_isfile_true.
  rewrite (line_number_run w full_path word q data Hq Hd). simpl.
  eexists _, _. split; [done|]. split; [done|]. split.
  - intros Hin%fresh_fd_bound. simpl in Hin. lia.
  - apply is_open_head.
Qed.

Lemma line_number_leaves_file_open_witness :
  open_files (FileFind.line_number "/notes.txt" "foo" world_foo).2
  = [FileObject 3 ["notes.txt"] mode_r].
Proof.
  destruct (line_number_leaves_file_open world_foo "/notes.txt" "foo" eq_refl)
    as (r & f & _ & H & _).
  rewrite H. vm_compute in H. injection H as <-. reflexivity.
Defined.

(* ================================================================== *)
(** * [FileDirectories.files] *)
(* ================================================================== *)

Lemma permutation_3 {A} (x y z : A) l :
  l ≡ₚ [x; y; z] →
  l = [x; y; z] ∨ l = [x; z; y] ∨ l = [y; x; z]
  ∨ l = [y; z; x] ∨ l = [z; x; y] ∨ l = [z; y; x].
Proof.
  intros H. pose proof (Permutation_length H) as Hlen.
  destruct l as [|a [|b [|c [|]]]]; try done.
  assert (In x [a; b; c]) as Hx.
  { apply (Permutation_in x (Permutation_sym H)). by left. }
  destruct Hx as [->|[->|[->|[]]]].
  - apply Permutation_cons_inv, Permutation_sym, Permutation_length_2_inv in H.
    destruct H as [[= -> ->]|[= -> ->]]; auto.
  - assert ([a; x; c] ≡ₚ x :: [a; c]) as H' by apply perm_swap.
    rewrite H' in H.
    apply Permutation_cons_inv, Permutation_sym, Permutation_length_2_inv in H.
    destruct H as [[= -> ->]|[= -> ->]]; auto 10.
  - assert ([a; b; x] ≡ₚ x :: [a; b]) as H'.
    { change ([a; b] ++ [x] ≡ₚ [x] ++ [a; b]). apply Permutation_app_comm. }
    rewrite H' in H.
    apply Permutation_cons_inv, Permutation_sym, Permutation_length_2_inv in H.
    destruct H as [[= -> ->]|[= -> ->]]; auto 10.
Qed.

Lemma raise_error_if_file_dir w p q :
  resolve w true p = Found q → lkind (root w) q = Some KDir →
  FileDirectories._raise_error_if_file p w = (Ok tt, w).
Proof.
  intros Hq Hk.
  unfold FileDirectories._raise_error_if_file, FileCheck.is_file, bind, query.
  unfold os.path_isfile, os.stat_kind. by rewrite Hq, Hk.
Qed.

Lemma files_run w directory recursive full ext q es :
  resolve w true directory = Found q → get (root w) q = Some (Dir es) →
  FileDirectories.files directory recursive full ext w
  = (Ok (FileDirectories.files_loop recursive full ext
           (os.walk_tree (root w) directory q (Dir es)) []), w).
Proof.
  intros Hq Hes. unfold FileDirectories.files, bind.
  rewrite (raise_error_if_file_dir w directory q) by (done || by apply lkind_dir; eauto).
  unfold os.walk, query. by rewrite Hq, Hes.
Qed.

(** C4, as the code has it.  With the files [a.txt] and [b.log] and the
    subdirectory [sub] holding [c.txt] in a directory, in any order,
    [files] returns [a.txt] and [b.log] when not recursive, and with the
    extension [txt] only [a.txt].  When recursive it returns the bare
    names [a.txt], [b.log] and [c.txt] (with the extension, [a.txt] and
    [c.txt]): a name found in a subdirectory carries no prefix, unless
    full paths are asked for, and then every name carries the path of
    its directory. *)
Theorem files_of_sample_directory (w : world) (directory : string) (q : path)
    (es : list (string * node)) (a b c : string) :
  resolve w true directory = Found q →
  get (root w) q = Some (Dir es) →
  es ≡ₚ listing_abc a b c →
  (∃ l, FileDirectories.files directory false false None w = (Ok l, w)
        ∧ l ≡ₚ ["a.txt"; "b.log"])
  ∧ (∃ l, FileDirectories.files directory true false None w = (Ok l, w)
          ∧ l ≡ₚ ["a.txt"; "b.log"; "c.txt"])
  ∧ FileDirectories.files directory false false (Some "txt") w = (Ok ["a.txt"], w)
  ∧ (∃ l, FileDirectories.files directory true false (Some "txt") w = (Ok l, w)
          ∧ l ≡ₚ ["a.txt"; "c.txt"])
  ∧ (∃ l, FileDirectories.files directory true true None w = (Ok l, w)
          ∧ l ≡ₚ [FileTools.concat directory ["a.txt"];
                  FileTools.concat directory ["b.log"];
                  FileTools.concat (FileTools.concat directory ["sub"]) ["c.txt"]]).
Proof.
  intros Hq Hes Hperm.
  rewrite !(files_run w directory _ _ _ q es) by done.
  unfold listing_abc in Hperm.
  apply permutation_3 in Hperm
    as [-> | [-> | [-> | [-> | [-> | ->]]]]];
    (split; [eexists; split; [reflexivity|]; cbn; try done; by eauto using Permutation|]);
    (split; [eexists; split; [reflexivity|]; cbn; try done; by eauto using Permutation|]);
    (split; [reflexivity|]);
    (split; [eexists; split; [reflexivity|]; cbn; try done; by eauto using Permutation|]);
    (eexists; split; [reflexivity|]; cbn [FileDirectories.files_loop os.walk_tree
       List.filter app negb fst snd fmap list_fmap os.entry_is_dir map
       FileDirectories.given]).
  all: try done.
  all: try (by eauto using Permutation).
  all: try apply perm_swap.
Qed.

Lemma files_of_sample_directory_witness :
  ∃ l, FileDirectories.files "/dir" true false None world_dir = (Ok l, world_dir)
       ∧ l ≡ₚ ["a.txt"; "b.log"; "c.txt"].
Proof.
  apply (files_of_sample_directory world_dir "/dir" ["dir"] _ "A" "B" "C"
           eq_refl eq_refl (Permutation_refl _)).
Defined.

(** The recursive listing of the sample directory does not hold the
    relative path [sub/c.txt]. *)
Lemma files_recursive_no_relative_path :
  ¬ ∃ l, FileDirectories.files "/dir" true false None world_dir = (Ok l, world_dir)
         ∧ l ≡ₚ ["a.txt"; "b.log"; "sub/c.txt"].
Proof.
  intros (l & H & Hp). vm_compute in H. injection H as <-.
  apply Permutation_sym in Hp.
  assert (In "sub/c.txt" ["a.txt"; "b.log"; "c.txt"]) as Hin.
  { apply (Permutation_in _ Hp). right. right. by left. }
  simpl in Hin. by intuition.
Qed.

(* ================================================================== *)
(** * [FileIO.save] and [FileIO.read] *)
(* ================================================================== *)

Lemma alter_dir_ext f g t d :
  (∀ es, f es = g es) → alter_dir f t d = alter_dir g t d.
Proof.
  intros Hfg. revert t. induction d as [|c d IH]; intros t;
    destruct t as [|es|]; simpl; try done.
  - by rewrite Hfg.
  - f_equal. apply alter_first_ext. intros x _. apply IH.
Qed.

Lemma alter_first_None n (g : node → node) es :
  find_entry n es = None → alter_first n g es = es.
Proof. intros H. apply alter_first_id. intros x Hx. congruence. Qed.

Lemma set_name_set_name n x y es :
  set_name n y (set_name n x es) = set_name n y es.
Proof.
  unfold set_name at 1. rewrite find_entry_set_name_eq.
  unfold set_name. destruct (find_entry n es) eqn:E.
  - by rewrite alter_first_fusion.
  - induction es as [|[k z] es IH]; simpl in *.
    + by rewrite str_eqb_refl.
    + destruct (Py.str_eqb k n); [done|]. by rewrite IH.
Qed.

Lemma put_put t d n x y : put (put t d n x) d n y = put t d n y.
Proof.
  unfold put. rewrite alter_dir_alter_dir. apply alter_dir_ext.
  intros es. apply set_name_set_name.
Qed.

Lemma get_parent_dir t d n x :
  get t (d ++ [n]) = Some x → ∃ es, get t d = Some (Dir es).
Proof.
  rewrite get_app. destruct (get t d) as [[]|]; simpl; try done. eauto.
Qed.

Lemma get_put_here t d n x :
  lkind t d = Some KDir → get (put t d n x) (d ++ [n]) = Some x.
Proof.
  intros [es H]%lkind_dir. by rewrite (get_put_eq _ _ _ _ es).
Qed.

(** ** Resolving a path after its last component was created *)

Lemma resolve_created w p follow d n s x :
  resolve w follow p = Absent d n s →
  (∀ r, r ≠ [] → get x r = None) →
  kind_of x = KFile ∨ kind_of x = KDir →
  resolve (set_root w (put (root w) d n x)) follow p
  = created_result d n (kind_of x) s.
Proof.
  unfold resolve. destruct (Py.str_eqb p ""); [done|]. cbn [root cwd set_root].
  intros H Hx Hk. pose proof (namei_Absent_inv _ _ _ _ _ _ _ _ H) as [Hd Hn].
  eapply namei_created; try done.
  - rewrite lkind_put_new by done. by rewrite bool_decide_eq_true_2.
  - intros q Hq. rewrite lkind_put_new by done. by rewrite bool_decide_eq_false_2.
Qed.

Lemma absent_not_exists w p d n s :
  resolve w true p = Absent d n s → os.path_exists w p = false.
Proof. unfold os.path_exists, os.stat_kind. by intros ->. Qed.

Lemma absent_not_isdir w p d n s :
  resolve w true p = Absent d n s → os.path_isdir w p = false.
Proof. unfold os.path_isdir, os.stat_kind. by intros ->. Qed.

(** ** Running [save] and [read] *)

Lemma save_new_run w p text ow d n :
  resolve w true p = Absent d n false →
  FileIO.save p text ow w = (Ok tt, set_root w (put (root w) d n (File text))).
Proof.
  intros H. pose proof (namei_Absent_inv (lkind (root w))) as Hinv.
  assert (lkind (root w) d = Some KDir) as Hd.
  { unfold resolve in H. destruct (Py.str_eqb p ""); [done|].
    by apply Hinv in H as [? _]. }
  unfold FileIO.save, FileCheck.exists_, bind at 1, query.
  rewrite (absent_not_exists _ _ _ _ _ H), andb_false_r.
  unfold io.with_, bind, FileIO.open, FileIO._raise_error_if_directory,
    FileCheck.is_directory, bind, query, ret.
  rewrite (absent_not_isdir _ _ _ _ _ H).
  unfold io.open_. rewrite H. simpl.
  unfold io.write. rewrite is_open_head. simpl.
  unfold io.content. simpl. rewrite get_put_here by done.
  rewrite put_at_snoc, put_put. unfold set_root. simpl. close_last.
Qed.

Lemma save_overwrite_run w p text q data :
  resolve w true p = Found q → get (root w) q = Some (File data) →
  FileIO.save p text true w
  = (Ok tt, set_root w (put_at (root w) q (File text))).
Proof.
  intros Hq Hd.
  destruct (resolve_file_snoc _ _ _ _ Hq Hd) as (d & n & ->).
  destruct (get_parent_dir _ _ _ _ Hd) as [es Hes].
  assert (lkind (root w) d = Some KDir) as Hk by (apply lkind_dir; eauto).
  assert (os.path_isdir w p = false) as Hnd.
  { apply isfile_not_isdir, path_isfile_true. eauto. }
  unfold FileIO.save, FileCheck.exists_, bind at 1, query. simpl.
  unfold io.with_, bind, FileIO.open, FileIO._raise_error_if_directory,
    FileCheck.is_directory, bind, query, ret.
  rewrite Hnd. unfold io.open_. rewrite Hq, Hd. simpl.
  unfold io.write. rewrite is_open_head. simpl.
  unfold io.content. simpl. rewrite !put_at_snoc, get_put_here by done.
  rewrite put_put. unfold set_root. simpl. close_last.
Qed.

Lemma read_run w p q data :
  resolve w true p = Found q → get (root w) q = Some (File data) →
  FileIO.read p w = (Ok (Some (io.universal_newlines data)), w).
Proof.
  intros Hq Hd.
  assert (os.path_isfile w p = true) as Hf by (apply path_isfile_true; eauto).
  unfold FileIO.read, FileCheck.is_file, bind at 1, query. rewrite Hf.
  unfold io.with_, bind, FileIO.open, FileIO._raise_error_if_directory,
    FileCheck.is_directory, bind, query, ret.
  rewrite (isfile_not_isdir _ _ Hf).
  unfold io.open_. rewrite Hq, Hd. simpl.
  unfold io.read. rewrite is_open_head. simpl.
  unfold io.content. simpl. rewrite Hd. simpl. close_last.
Qed.

(** When [save] returns for a path that did not exist, the last component
    of the path was missing from an existing directory. *)
Lemma save_new_inv w p text ow w' :
  os.path_exists w p = false →
  FileIO.save p text ow w = (Ok tt, w') →
  ∃ d n, resolve w true p = Absent d n false.
Proof.
  intros He. pose proof He as He'.
  unfold os.path_exists, os.stat_kind in He'.
  assert (os.path_isdir w p = false) as Hnd.
  { destruct (os.path_isdir w p) eqn:E; [|done].
    apply isdir_exists in E. congruence. }
  unfold FileIO.save, FileCheck.exists_, bind at 1, query.
  rewrite He, andb_false_r.
  unfold io.with_, bind, FileIO.open, FileIO._raise_error_if_directory,
    FileCheck.is_directory, bind, query, ret.
  rewrite Hnd. unfold io.open_.
  destruct (resolve w true p) as [q|d n s|e] eqn:E; [| |done].
  - destruct (resolve_follow_kind _ _ _ E) as [[Hk _]|Hk]; by rewrite Hk in He'.
  - simpl. destruct s; [done|]. eauto.
Qed.

Lemma universal_newlines_id s :
  occurs Py.CR s = false → io.universal_newlines s = s.
Proof.
  induction s as [|c r IH]; [done|]. simpl.
  intros [Hc Hr]%orb_false_elim. rewrite Hc. by rewrite IH.
Qed.

(** What [read] finds after [save] created the file. *)
Lemma read_after_save_new w p text d n :
  resolve w true p = Absent d n false →
  FileIO.read p (set_root w (put (root w) d n (File text)))
  = (Ok (Some (io.universal_newlines text)),
     set_root w (put (root w) d n (File text))).
Proof.
  intros H.
  assert (lkind (root w) d = Some KDir) as Hd.
  { unfold resolve in H. destruct (Py.str_eqb p ""); [done|].
    by apply namei_Absent_inv in H as [? _]. }
  apply (read_run _ _ (d ++ [n])).
  - rewrite (resolve_created _ _ _ _ _ _ _ H); [done| |by left].
    intros r Hr. by destruct r.
  - simpl. by apply get_put_here.
Qed.

(** C2, as the code has it.  Let the path not exist.  When [save]
    returns, [read] returns the text that was saved with every [\r\n]
    and [\r] in it turned into [\n], which is the text itself when it
    has no carriage return.  And [save] does return when the last
    component of the path is missing from an existing directory. *)
Theorem save_then_read (w : world) (full_path text : string) :
  os.path_exists w full_path = false →
  (∀ w', FileIO.save full_path text false w = (Ok tt, w') →
         FileIO.read full_path w' = (Ok (Some (io.universal_newlines text)), w')
         ∧ (occurs Py.CR text = false →
            FileIO.read full_path w' = (Ok (Some text), w')))
  ∧ (∀ d n, resolve w true full_path = Absent d n false →
            ∃ w', FileIO.save full_path text false w = (Ok tt, w')).
Proof.
  intros He. split.
  - intros w' Hs.
    destruct (save_new_inv _ _ _ _ _ He Hs) as (d & n & Ha).
    rewrite (save_new_run _ _ _ _ _ _ Ha) in Hs. injection Hs as <-.
    rewrite (read_after_save_new _ _ _ _ _ Ha). split; [done|].
    intros Hcr. by rewrite universal_newlines_id.
  - intros d n Ha. eexists. by apply save_new_run.
Qed.

Lemma save_then_read_witness :
  ∃ w', FileIO.save "/dir/new.txt" two_lines false world_dir = (Ok tt, w')
        ∧ FileIO.read "/dir/new.txt" w' = (Ok (Some two_lines), w').
Proof.
  destruct (save_then_read world_dir "/dir/new.txt" two_lines eq_refl) as [H1 H2].
  destruct (H2 ["dir"] "new.txt" eq_refl) as [w' Hs].
  exists w'. split; [exact Hs|]. by apply H1.
Defined.

(** A text that ends in a carriage return is not read back as it was
    saved. *)
Lemma save_then_read_carriage_return :
  os.path_exists world_dir "/dir/new.txt" = false
  ∧ ∃ w' s,
      FileIO.save "/dir/new.txt" text_cr false world_dir = (Ok tt, w')
      ∧ FileIO.read "/dir/new.txt" w' = (Ok (Some s), w')
      ∧ s ≠ text_cr.
Proof.
  split; [reflexivity|]. eexists _, _. split; [reflexivity|]. split; [reflexivity|].
  discriminate.
Qed.

(** ** Resolution reads the kinds only *)

Lemma walk_comps_ext lk lk' expand expand' follow cur comps :
  (∀ q, lk' q = lk q) → (∀ c cs, expand' c cs = expand c cs) →
  walk_comps lk' expand' follow cur comps = walk_comps lk expand follow cur comps.
Proof.
  intros Hlk Hex. revert cur. induction comps as [|c rest IH]; intros cur; simpl; [done|].
  rewrite !Hlk. destruct (lk cur) as [[]|]; try done.
  destruct (is_dot c); [apply IH|].
  destruct (Py.str_eqb c ".."); [apply IH|].
  destruct (lk (cur ++ [c])) as [[]|]; try apply IH; try done.
  destruct (follow || negb (is_nil rest)); [|done].
  destruct (Py.str_eqb target ""); [done|]. apply Hex.
Qed.

Lemma namei_ext lk lk' fuel follow cur comps :
  (∀ q, lk' q = lk q) →
  namei lk' fuel follow cur comps = namei lk fuel follow cur comps.
Proof.
  intros Hlk. revert cur comps. induction fuel as [|f IH]; intros cur comps;
    rewrite !namei_unfold; apply walk_comps_ext; try done.
Qed.

Lemma resolve_ext w t follow p :
  (∀ q, lkind t q = lkind (root w) q) →
  resolve (set_root w t) follow p = resolve w follow p.
Proof.
  intros H. unfold resolve. destruct (Py.str_eqb p ""); [done|].
  by apply namei_ext.
Qed.

(** ** Overwriting *)

Lemma save_overwrite_then_read w p text q data :
  resolve w true p = Found q → get (root w) q = Some (File data) →
  ∃ w', FileIO.save p text true w = (Ok tt, w')
        ∧ FileIO.read p w' = (Ok (Some (io.universal_newlines text)), w').
Proof.
  intros Hq Hd. eexists. split; [by eapply save_overwrite_run|].
  destruct (resolve_file_snoc _ _ _ _ Hq Hd) as (d & n & ->).
  destruct (get_parent_dir _ _ _ _ Hd) as [es Hes].
  rewrite put_at_snoc. apply (read_run _ _ (d ++ [n])).
  - rewrite resolve_ext; [done|]. intros q. apply lkind_put_file.
    apply lkind_file. eauto.
  - simpl. apply get_put_here. apply lkind_dir. eauto.
Qed.

Lemma save_exists_raises w p text :
  os.path_exists w p = true →
  FileIO.save p text false w
  = (Raise (IOError "The given file path already exists"), w).
Proof.
  intros He. unfold FileIO.save, FileCheck.exists_, bind, query. by rewrite He.
Qed.

Lemma save_no_overwrite_ok_inv w p text w' :
  FileIO.save p text false w = (Ok tt, w') → os.path_exists w p = false.
Proof.
  destruct (os.path_exists w p) eqn:He; [|done].
  by rewrite save_exists_raises.
Qed.



(* ================================================================== *)
(** * [FileDirectories.delete] *)
(* ================================================================== *)

(** Resolving a path without following its last component gives the
    same as following it, or stops at a link. *)
Lemma walk_comps_nofollow lk expand expand' cur comps :
  (∀ c cs, expand' c cs = expand c cs
           ∨ ∃ q t, expand' c cs = Found q ∧ lk q = Some (KLink t)) →
  walk_comps lk expand' false cur comps = walk_comps lk expand true cur comps
  ∨ ∃ q t, walk_comps lk expand' false cur comps = Found q ∧ lk q = Some (KLink t).
Proof.
  intros Hex. revert cur. induction comps as [|c rest IH]; intros cur; simpl; [by left|].
  destruct (lk cur) as [[]|]; try by left.
  destruct (is_dot c); [apply IH|].
  destruct (Py.str_eqb c ".."); [apply IH|].
  destruct (lk (cur ++ [c])) as [[]|] eqn:Ec; try apply IH; try by left.
  destruct rest as [|c' rest]; simpl.
  - right. eauto.
  - destruct (Py.str_eqb target ""); [by left|]. apply Hex.
Qed.

Lemma namei_nofollow lk fuel cur comps :
  namei lk fuel false cur comps = namei lk fuel true cur comps
  ∨ ∃ q t, namei lk fuel false cur comps = Found q ∧ lk q = Some (KLink t).
Proof.
  revert cur comps. induction fuel as [|f IH]; intros cur comps;
    rewrite !namei_unfold; apply walk_comps_nofollow; [by left|apply IH].
Qed.

Lemma resolve_nofollow w p :
  os.path_islink w p = false → resolve w false p = resolve w true p.
Proof.
  unfold os.path_islink, os.stat_kind, resolve.
  destruct (Py.str_eqb p ""); [done|].
  destruct (namei_nofollow (lkind (root w)) MAXSYMLINKS
              (if Py.startswith p Py.sep then [] else cwd w)
              (Py.split_on Py.sep p)) as [->|(q & t & -> & ->)]; done.
Qed.

(** Removing a file leaves the kinds of all other locations. *)
Lemma lkind_del_file t d n q :
  lkind t (d ++ [n]) = Some KFile → q ≠ d ++ [n] →
  lkind (del t d n) q = lkind t q.
Proof.
  intros Hf Hq. rewrite lkind_del. case_bool_decide as Hp; [|done].
  destruct Hp as [r ->]. destruct r as [|c r]; [by rewrite app_nil_r in Hq|].
  symmetry. apply lkind_below_not_dir; [done|by rewrite Hf].
Qed.

Lemma lkind_del_gone t d n : lkind (del t d n) (d ++ [n]) = None.
Proof. rewrite lkind_del. by rewrite bool_decide_eq_true_2. Qed.

(** A path that named a file names nothing once the file is removed. *)
Lemma resolve_removed_file w p follow d n :
  resolve w follow p = Found (d ++ [n]) →
  lkind (root w) (d ++ [n]) = Some KFile →
  resolve (set_root w (del (root w) d n)) follow p = Absent d n false.
Proof.
  unfold resolve. destruct (Py.str_eqb p ""); [done|]. cbn [root cwd set_root].
  intros H Hf.
  eapply (namei_removed (lkind (root w))); try done.
  - apply lkind_del_gone.
  - intros q Hq. by apply lkind_del_file.
  - apply lkind_parent.
  - apply split_on_not_nil.
Qed.

Lemma remove_file_run w p d n :
  resolve w false p = Found (d ++ [n]) →
  lkind (root w) (d ++ [n]) = Some KFile →
  os.remove p w = (Ok tt, set_root w (del (root w) d n)).
Proof.
  intros Hq Hf. unfold os.remove. by rewrite Hq, Hf, del_at_snoc.
Qed.

Lemma FileIO_delete_file_run w p d n :
  resolve w true p = Found (d ++ [n]) →
  resolve w false p = Found (d ++ [n]) →
  lkind (root w) (d ++ [n]) = Some KFile →
  FileIO.delete p w = (Ok tt, set_root w (del (root w) d n)).
Proof.
  intros Hq Hq' Hf.
  assert (os.path_isdir w p = false) as Hnd.
  { unfold os.path_isdir, os.stat_kind. by rewrite Hq, Hf. }
  assert (os.path_exists w p = true) as He.
  { unfold os.path_exists, os.stat_kind. by rewrite Hq, Hf. }
  unfold FileIO.delete, FileIO._raise_error_if_directory, FileCheck.is_directory,
    FileCheck.exists_, bind, query, ret.
  rewrite Hnd, He. by apply remove_file_run.
Qed.

(** C10.  For a path that names a regular file and is no link,
    [delete] without [recursive] removes the file and then raises the
    error of [os.rmdir] on the path that is gone; with [recursive] it
    removes the file and returns, [shutil.rmtree] ignoring the missing
    path.  Both leave the same state, in which the path does not
    exist. *)
Theorem delete_plain_file (w : world) (full_path : string) :
  os.path_islink w full_path = false →
  os.path_isfile w full_path = true →
  ∃ d n data,
    resolve w true full_path = Found (d ++ [n])
    ∧ get (root w) (d ++ [n]) = Some (File data)
    ∧ FileDirectories.delete full_path false w
      = (Raise (OSError ENOENT), set_root w (del (root w) d n))
    ∧ FileDirectories.delete full_path true w
      = (Ok tt, set_root w (del (root w) d n))
    ∧ get (del (root w) d n) (d ++ [n]) = None
    ∧ os.path_exists (set_root w (del (root w) d n)) full_path = false.
Proof.
  intros Hl (q & data & Hq & Hd)%path_isfile_true.
  destruct (resolve_file_snoc _ _ _ _ Hq Hd) as (d & n & ->).
  exists d, n, data.
  assert (lkind (root w) (d ++ [n]) = Some KFile) as Hf by (apply lkind_file; eauto).
  pose proof (resolve_nofollow _ _ Hl) as Hq'. rewrite Hq in Hq'.
  pose proof (resolve_removed_file _ _ _ _ _ Hq' Hf) as Hgone.
  pose proof (resolve_removed_file _ _ _ _ _ Hq Hf) as Hgone'.
  assert (∀ recursive,
    FileDirectories.delete full_path recursive w
    = (if recursive then shutil.rmtree_ignore_errors full_path
       else os.rmdir full_path) (set_root w (del (root w) d n))) as Hrun.
  { intros recursive.
    unfold FileDirectories.delete, FileCheck.is_link, FileCheck.is_file,
      FileIO.unlink, bind, query, ret.
    rewrite Hl, (proj2 (path_isfile_true w full_path)) by eauto.
    by rewrite (FileIO_delete_file_run _ _ d n). }
  repeat split; try done.
  - rewrite Hrun. unfold os.rmdir. by rewrite Hgone.
  - rewrite Hrun. unfold shutil.rmtree_ignore_errors. by rewrite Hgone.
  - pose proof (lkind_del_gone (root w) d n) as H. unfold lkind in H.
    by destruct (get (del (root w) d n) (d ++ [n])).
  - unfold os.path_exists, os.stat_kind. by rewrite Hgone'.
Qed.

Lemma delete_plain_file_witness :
  ∃ w1,
    FileDirectories.delete "/dir/a.txt" false world_dir = (Raise (OSError ENOENT), w1)
    ∧ FileDirectories.delete "/dir/a.txt" true world_dir = (Ok tt, w1)
    ∧ os.path_isfile world_dir "/dir/a.txt" = true
    ∧ os.path_exists w1 "/dir/a.txt" = false.
Proof.
  destruct (delete_plain_file world_dir "/dir/a.txt" eq_refl eq_refl)
    as (d & n & data & _ & _ & H1 & H2 & _ & H3).
  exists (set_root world_dir (del (root world_dir) d n)).
  split; [exact H1|]. split; [exact H2|]. split; [reflexivity|exact H3].
Defined.

(* ================================================================== *)
(** * Paths of the entries of a directory *)
(* ================================================================== *)

Lemma split_on_app_sep c a b :
  Py.split_on c (a +:+ String c b) = Py.split_on c a ++ Py.split_on c b.
Proof.
  induction a as [|x a IH]; simpl.
  - unfold Py.ch_eqb. by rewrite bool_decide_eq_true_2.
  - destruct (Py.ch_eqb x c); rewrite IH; [done|].
    pose proof (split_on_not_nil c a). by destruct (Py.split_on c a).
Qed.

Lemma endswith_snoc s c :
  Py.endswith s c = true → ∃ s', s = s' +:+ String c "".
Proof.
  induction s as [|x s IH]; [done|]. destruct s as [|y r].
  - simpl. intros ->%ch_eqb_eq. by exists "".
  - intros H. destruct (IH H) as [s' E]. exists (String x s'). simpl. by rewrite E.
Qed.

Lemma startswith_app a b c :
  a ≠ "" → Py.startswith (a +:+ b) c = Py.startswith a c.
Proof. by destruct a. Qed.

Lemma name_ok_split n : name_ok n = true → Py.split_on Py.sep n = [n].
Proof. unfold name_ok. by intros [_ ?%bool_decide_eq_true]%andb_prop. Qed.

Lemma name_ok_not_dot n : name_ok n = true → is_dot n = false.
Proof.
  unfold name_ok. intros [[H _]%andb_prop _]%andb_prop. by apply negb_true_iff.
Qed.

Lemma name_ok_not_dotdot n : name_ok n = true → Py.str_eqb n ".." = false.
Proof.
  unfold name_ok. intros [[_ H]%andb_prop _]%andb_prop. by apply negb_true_iff.
Qed.

Lemma name_ok_not_empty n : name_ok n = true → n ≠ "".
Proof. intros H%name_ok_not_dot ->. done. Qed.

Lemma name_ok_startswith n : name_ok n = true → Py.startswith n Py.sep = false.
Proof.
  intros H. pose proof (name_ok_split _ H) as Hs. pose proof (name_ok_not_empty _ H).
  destruct n as [|x r]; [done|]. apply split_on_one_cons in Hs as [Hx _].
  simpl. by apply ch_eqb_neq.
Qed.

(** The path [join(directory, n)] is the components of [directory], a
    last empty one dropped, and then [n]. *)
Lemma join2_split directory n :
  directory ≠ "" → name_ok n = true →
  posixpath.join2 directory n ≠ ""
  ∧ Py.startswith (posixpath.join2 directory n) Py.sep
    = Py.startswith directory Py.sep
  ∧ ∃ pre, Py.split_on Py.sep (posixpath.join2 directory n) = pre ++ [n]
           ∧ (Py.split_on Py.sep directory = pre
              ∨ Py.split_on Py.sep directory = pre ++ [""]).
Proof.
  intros Hd Hn. unfold posixpath.join2.
  rewrite (name_ok_startswith _ Hn), (proj2 (str_eqb_neq directory "")) by done.
  simpl. destruct (Py.endswith directory Py.sep) eqn:He.
  - apply endswith_snoc in He as [s' ->].
    rewrite str_app_assoc. simpl.
    split; [by destruct s'|]. split.
    { destruct s'; [done|]. done. }
    exists (Py.split_on Py.sep s'). rewrite !split_on_app_sep.
    rewrite (name_ok_split _ Hn). split; [done|]. by right.
  - split; [by destruct directory|]. split; [by apply startswith_app|].
    exists (Py.split_on Py.sep directory). rewrite split_on_app_sep.
    rewrite (name_ok_split _ Hn). split; [done|]. by left.
Qed.

Lemma plain_walk_app lk cur a b :
  plain_walk lk cur (a ++ b) = plain_walk lk cur a ≫= λ D, plain_walk lk D b.
Proof.
  revert cur. induction a as [|c a IH]; intros cur; simpl; [done|].
  destruct (lk cur) as [[]|]; try done.
  destruct (is_dot c); [apply IH|].
  destruct (Py.str_eqb c ".."); [done|].
  destruct (lk (cur ++ [c])) as [[]|]; try done.
Qed.

Lemma plain_walk_drop_empty lk cur pre D :
  plain_walk lk cur (pre ++ [""]) = Some D → plain_walk lk cur pre = Some D.
Proof.
  rewrite plain_walk_app. destruct (plain_walk lk cur pre) as [D'|]; [|done].
  simpl. destruct (lk D') as [[]|]; try done.
Qed.

Lemma plain_dir_inv w directory D :
  plain_dir w directory = Some D →
  directory ≠ ""
  ∧ plain_walk (lkind (root w))
      (if Py.startswith directory Py.sep then [] else cwd w)
      (Py.split_on Py.sep directory) = Some D
  ∧ lkind (root w) D = Some KDir.
Proof.
  unfold plain_dir. case_str_eqb directory ""; [done|].
  intros H. split; [done|]. split; [done|].
  eapply plain_walk_dir; [|done]. apply split_on_not_nil.
Qed.

Lemma plain_dir_resolve w directory D follow :
  plain_dir w directory = Some D → resolve w follow directory = Found D.
Proof.
  intros (Hne & Hw & _)%plain_dir_inv. unfold resolve.
  rewrite (proj2 (str_eqb_neq directory "")) by done. by apply namei_plain.
Qed.

(** The entry [n] of a plain directory is resolved in that directory. *)
Lemma resolve_child w directory D n follow :
  plain_dir w directory = Some D → name_ok n = true →
  resolve w follow (posixpath.join2 directory n)
  = namei (lkind (root w)) MAXSYMLINKS follow D [n].
Proof.
  intros (Hne & Hw & _)%plain_dir_inv Hn.
  destruct (join2_split directory n Hne Hn) as (Hj & Hs & pre & Hpre & Hdir).
  unfold resolve. rewrite (proj2 (str_eqb_neq _ "")) by done.
  rewrite Hs, Hpre. apply namei_plain_app.
  destruct Hdir as [E|E]; rewrite E in Hw; [done|].
  by apply plain_walk_drop_empty in Hw.
Qed.

Lemma final_component_child directory n :
  directory ≠ "" → name_ok n = true →
  os.final_component (posixpath.join2 directory n) = n.
Proof.
  intros Hne Hn.
  destruct (join2_split directory n Hne Hn) as (_ & _ & pre & Hpre & _).
  unfold os.final_component. rewrite Hpre, List.filter_app. simpl.
  rewrite (proj2 (str_eqb_neq n "")) by (by apply name_ok_not_empty). simpl.
  by rewrite last_snoc.
Qed.

(** A plain path keeps its meaning when only the content of its
    directory changes. *)
Lemma plain_dir_alter w directory D f :
  plain_dir w directory = Some D →
  plain_dir (set_root w (alter_dir f (root w) D)) directory = Some D.
Proof.
  unfold plain_dir. destruct (Py.str_eqb directory ""); [done|].
  cbn [root cwd set_root]. intros H.
  eapply plain_walk_ext; [done|]. intros q Hq.
  apply lkind_alter_dir. intros n r ->.
  apply prefix_length in Hq. rewrite length_app in Hq. simpl in Hq. lia.
Qed.

(* ================================================================== *)
(** * Removing the entries of a directory *)
(* ================================================================== *)

Lemma keep_nil es : keep [] es = es.
Proof.
  unfold keep. induction es as [|e es IH]; [done|].
  cbn [List.filter]. rewrite IH.
  by rewrite bool_decide_eq_false_2 by apply not_elem_of_nil.
Qed.

Lemma remove_name_keep n R es : remove_name n (keep R es) = keep (n :: R) es.
Proof.
  unfold remove_name, keep. induction es as [|[k x] es IH]; simpl; [done|].
  destruct (decide (k ∈ R)) as [Hk|Hk].
  - rewrite (bool_decide_eq_true_2 (k ∈ R)) by done.
    rewrite (bool_decide_eq_true_2 (k ∈ n :: R)) by (by right). simpl. apply IH.
  - rewrite (bool_decide_eq_false_2 (k ∈ R)) by done. simpl.
    case_str_eqb k n; simpl.
    + subst. rewrite bool_decide_eq_true_2 by (by left). simpl. apply IH.
    + rewrite bool_decide_eq_false_2; [simpl; by rewrite IH|].
      intros [?|?]%elem_of_cons; done.
Qed.

Lemma find_entry_keep n R es :
  find_entry n (keep R es) = if bool_decide (n ∈ R) then None else find_entry n es.
Proof.
  unfold keep. induction es as [|[k x] es IH]; simpl; [by case_bool_decide|].
  destruct (decide (k ∈ R)) as [Hk|Hk].
  - rewrite (bool_decide_eq_true_2 (k ∈ R)) by done. simpl. rewrite IH.
    case_bool_decide as Hn; [done|]. case_str_eqb k n; [by subst|done].
  - rewrite (bool_decide_eq_false_2 (k ∈ R)) by done. simpl. rewrite IH.
    case_str_eqb k n; [|done]. subst. by rewrite bool_decide_eq_false_2.
Qed.

Lemma keep_all R es : (∀ e, e ∈ es → e.1 ∈ R) → keep R es = [].
Proof.
  unfold keep. induction es as [|e es IH]; intros H; simpl; [done|].
  rewrite bool_decide_eq_true_2 by (apply H; by left). simpl.
  apply IH. intros e' He'. apply H. by right.
Qed.

Lemma elem_of_keep e R es : e ∈ keep R es ↔ e ∈ es ∧ e.1 ∉ R.
Proof.
  unfold keep. induction es as [|e' es IH]; simpl.
  { split; [by intros ?%elem_of_nil|by intros [?%elem_of_nil _]]. }
  destruct (decide (e'.1 ∈ R)) as [H|H].
  - rewrite bool_decide_eq_true_2 by done. simpl. rewrite IH, elem_of_cons.
    split; [naive_solver|]. intros [[->|?] ?]; done.
  - rewrite bool_decide_eq_false_2 by done. simpl. rewrite !elem_of_cons, IH.
    naive_solver.
Qed.

Lemma keep_sublist R es : keep R es `sublist_of` es.
Proof.
  unfold keep. induction es as [|e es IH]; simpl; [done|].
  destruct (negb _); [by apply sublist_skip_equiv || by constructor|by constructor].
Qed.

Section directory.

(** A state [w] in which [directory] is a plain path to the directory at
    [D], whose entries are [es]. *)
Variables (w : world) (directory : string) (D : path) (es : list (string * node)).
Hypothesis plain : plain_dir w directory = Some D.
Hypothesis entries : get (root w) D = Some (Dir es).

Lemma with_entries_root es' :
  root (with_entries w D es') = alter_dir (λ _, es') (root w) D.
Proof. done. Qed.

Lemma with_entries_plain es' : plain_dir (with_entries w D es') directory = Some D.
Proof. by apply plain_dir_alter. Qed.

Lemma with_entries_get es' : get (root (with_entries w D es')) D = Some (Dir es').
Proof. simpl. by rewrite (get_alter_dir_here _ _ _ es). Qed.

Lemma with_entries_child es' n r :
  get (root (with_entries w D es')) (D ++ n :: r)
  = find_entry n es' ≫= λ x, get x r.
Proof. simpl. by rewrite (get_alter_dir_child _ _ _ es). Qed.

Lemma get_child n r : get (root w) (D ++ n :: r) = find_entry n es ≫= λ x, get x r.
Proof. rewrite get_app, entries. simpl. by destruct (find_entry n es). Qed.

Lemma with_entries_lkind_child R n :
  lkind (root (with_entries w D (keep R es))) (D ++ [n])
  = if bool_decide (n ∈ R) then None else lkind (root w) (D ++ [n]).
Proof.
  unfold lkind. rewrite with_entries_child, get_child, find_entry_keep.
  by case_bool_decide.
Qed.

(** Each location holds what it held, or nothing. *)
Lemma with_entries_lost R q :
  lkind (root (with_entries w D (keep R es))) q = None
  ∨ lkind (root (with_entries w D (keep R es))) q = lkind (root w) q.
Proof.
  destruct (decide (D `prefix_of` q)) as [[[|n r] ->]|Hn].
  - right. rewrite app_nil_r. unfold lkind. by rewrite with_entries_get, entries.
  - unfold lkind. rewrite with_entries_child, get_child, find_entry_keep.
    case_bool_decide; [by left|by right].
  - right. apply lkind_alter_dir. intros n r ->. apply Hn. by exists (n :: r).
Qed.

Lemma with_entries_del R n :
  set_root (with_entries w D (keep R es))
    (del (root (with_entries w D (keep R es))) D n)
  = with_entries w D (keep (n :: R) es).
Proof.
  unfold with_entries, set_root, del. simpl. f_equal.
  rewrite alter_dir_alter_dir. apply alter_dir_ext. intros ?. simpl.
  apply remove_name_keep.
Qed.

Lemma keep_absent R n :
  find_entry n (keep R es) = None → keep (n :: R) es = keep R es.
Proof.
  intros H. rewrite <-remove_name_keep. unfold remove_name.
  induction (keep R es) as [|[k x] l IH]; simpl in *; [done|].
  destruct (Py.str_eqb k n); [done|]. simpl. by rewrite IH.
Qed.

End directory.

Section child.

(** A state [w] in which [directory] is a plain path to the directory at
    [D], and a name [n]. *)
Variables (w : world) (directory : string) (D : path) (n : string).
Hypothesis plain : plain_dir w directory = Some D.
Hypothesis name : name_ok n = true.

Lemma resolve_child_nofollow :
  resolve w false (posixpath.join2 directory n)
  = match lkind (root w) (D ++ [n]) with
    | None => Absent D n false
    | Some _ => Found (D ++ [n])
    end.
Proof.
  destruct (plain_dir_inv _ _ _ plain) as (_ & _ & HD).
  rewrite (resolve_child _ _ D) by done. rewrite namei_name by done.
  by destruct (lkind (root w) (D ++ [n])) as [[]|].
Qed.

Lemma resolve_child_follow k :
  lkind (root w) (D ++ [n]) = Some k → (∀ t, k ≠ KLink t) →
  resolve w true (posixpath.join2 directory n) = Found (D ++ [n]).
Proof.
  intros Hk Hl. destruct (plain_dir_inv _ _ _ plain) as (_ & _ & HD).
  rewrite (resolve_child _ _ D) by done. rewrite namei_name, Hk by done.
  destruct k; try done. by destruct (Hl target).
Qed.

Lemma resolve_child_absent follow :
  lkind (root w) (D ++ [n]) = None →
  resolve w follow (posixpath.join2 directory n) = Absent D n false.
Proof.
  intros Hk. destruct (plain_dir_inv _ _ _ plain) as (_ & _ & HD).
  rewrite (resolve_child _ _ D) by done. by rewrite namei_name, Hk by done.
Qed.

Lemma child_islink :
  os.path_islink w (posixpath.join2 directory n)
  = match lkind (root w) (D ++ [n]) with
    | Some (KLink _) => true
    | _ => false
    end.
Proof.
  unfold os.path_islink, os.stat_kind. rewrite resolve_child_nofollow.
  by destruct (lkind (root w) (D ++ [n])) as [[]|] eqn:E; rewrite ?E.
Qed.

(** [os.remove] on an entry that is a file or a link. *)
Lemma remove_child k :
  lkind (root w) (D ++ [n]) = Some k → k ≠ KDir →
  os.remove (posixpath.join2 directory n) w = (Ok tt, set_root w (del (root w) D n)).
Proof.
  intros Hk Hd. unfold os.remove. rewrite resolve_child_nofollow, Hk, Hk.
  rewrite del_at_snoc. by destruct k.
Qed.

(** [shutil.rmtree] on an entry that is a directory. *)
Lemma rmtree_child :
  lkind (root w) (D ++ [n]) = Some KDir →
  shutil.rmtree_ignore_errors (posixpath.join2 directory n) w
  = (Ok tt, set_root w (del (root w) D n)).
Proof.
  intros Hk. unfold shutil.rmtree_ignore_errors.
  rewrite resolve_child_nofollow, Hk, Hk.
  destruct (plain_dir_inv _ _ _ plain) as (Hne & _ & HD).
  apply lkind_dir in Hk as [sub Hsub].
  set (w1 := set_root w (alter_dir (λ _, []) (root w) (D ++ [n]))).
  assert (plain_dir w1 directory = Some D) as Hplain1.
  { unfold plain_dir in *. destruct (Py.str_eqb directory ""); [done|].
    eapply plain_walk_ext; [done|]. intros q Hq. apply lkind_alter_dir.
    intros k r ->. apply prefix_length in Hq. rewrite !length_app in Hq.
    simpl in Hq. lia. }
  assert (get (root w1) (D ++ [n]) = Some (Dir [])) as Hg.
  { simpl. by rewrite (get_alter_dir_here _ _ _ sub). }
  unfold os.rmdir.
  rewrite (resolve_child w1 directory D n false) by done.
  rewrite namei_name;
    [|by destruct (plain_dir_inv _ _ _ Hplain1) as (_ & _ & ?)|done].
  assert (lkind (root w1) (D ++ [n]) = Some KDir) as -> by (apply lkind_dir; eauto).
  rewrite Hg, final_component_child by done.
  rewrite (name_ok_not_dotdot _ name).
  assert (Py.str_eqb n "." = false) as ->.
  { pose proof (name_ok_not_dot _ name) as H. unfold is_dot in H.
    by apply orb_false_elim in H as [_ ?]. }
  simpl. assert (is_nil (D ++ [n]) = false) as -> by (by destruct D).
  rewrite del_at_snoc. simpl. unfold set_root. simpl. f_equal. f_equal.
  change (D ++ [n]) with (D ++ n :: []). apply del_alter_dir_below.
Qed.

End child.

(* ================================================================== *)
(** * [FileDirectories.clear] *)
(* ================================================================== *)

Lemma with_entries_same w D es :
  get (root w) D = Some (Dir es) → with_entries w D es = w.
Proof.
  intros H. unfold with_entries, set_root. rewrite (alter_dir_id _ _ _ H).
  apply world_eta.
Qed.


Lemma find_entry_NoDup n x (es : list (string * node)) :
  NoDup (es.*1) → (n, x) ∈ es → find_entry n es = Some x.
Proof.
  induction es as [|[k y] es IH]; intros Hnd Hin; [by apply elem_of_nil in Hin|].
  apply NoDup_cons in Hnd as [Hk Hnd]. simpl.
  apply elem_of_cons in Hin as [[= -> ->]|Hin]; [by rewrite str_eqb_refl|].
  case_str_eqb k n; [|by apply IH]. subst k. destruct Hk.
  apply list_elem_of_fmap. by exists (n, x).
Qed.

Lemma find_entry_elem_of n x (es : list (string * node)) :
  find_entry n es = Some x → (n, x) ∈ es.
Proof.
  induction es as [|[k y] es IH]; simpl; [done|].
  case_str_eqb k n.
  - intros [= ->]. subst. by left.
  - intros H. right. by apply IH.
Qed.

Lemma FileIO_delete_not_dir w p :
  os.path_isdir w p = false →
  FileIO.delete p w = if os.path_exists w p then os.remove p w else (Ok tt, w).
Proof.
  intros H.
  unfold FileIO.delete, FileIO._raise_error_if_directory, FileCheck.is_directory,
    FileCheck.exists_, bind, query, ret.
  rewrite H. by destruct (os.path_exists w p).
Qed.


Lemma plain_dir_queries w directory D :
  plain_dir w directory = Some D →
  os.path_isfile w directory = false
  ∧ os.path_exists w directory = true
  ∧ os.path_isdir w directory = true.
Proof.
  intros H. pose proof (plain_dir_resolve _ _ _ true H) as Hr.
  destruct (plain_dir_inv _ _ _ H) as (_ & _ & HD).
  unfold os.path_isfile, os.path_exists, os.path_isdir, os.stat_kind.
  by rewrite Hr, HD.
Qed.

Lemma raise_error_if_file_run w p :
  FileDirectories._raise_error_if_file p w
  = if os.path_isfile w p
    then (Raise (ValueError "Given path must be a directory, not a file"), w)
    else (Ok tt, w).
Proof.
  unfold FileDirectories._raise_error_if_file, FileCheck.is_file, bind, query.
  by destruct (os.path_isfile w p).
Qed.

Lemma clear_run w directory recursive :
  os.path_isfile w directory = false → os.path_exists w directory = true →
  FileDirectories.clear directory recursive w
  = if recursive then
      (let* children := FileDirectories.children directory false true None in
       for_ children (λ full_path,
         let* l := FileCheck.is_link full_path in
         if l then FileIO.unlink full_path
         else
           let* f := FileCheck.is_file full_path in
           if f then FileIO.delete full_path
           else FileDirectories.delete full_path true)) w
    else
      (let* files := FileDirectories.files directory false false None in
       for_ files (λ file_name,
         let full_path := FileTools.concat directory [file_name] in
         FileIO.delete full_path)) w.
Proof.
  intros Hf He. unfold FileDirectories.clear. unfold bind at 1.
  rewrite raise_error_if_file_run, Hf. unfold FileCheck.exists_, bind at 1, query.
  rewrite He. by destruct recursive.
Qed.

Lemma elem_of_filter_fst (P : string * node → bool) (es : list (string * node)) n :
  n ∈ (List.filter P es).*1 ↔ ∃ x, (n, x) ∈ es ∧ P (n, x) = true.
Proof.
  rewrite list_elem_of_fmap. split.
  - intros ([k x] & -> & [H1 H2]%list_elem_of_In%List.filter_In).
    exists x. by rewrite list_elem_of_In.
  - intros (x & H1 & H2). exists (n, x). split; [done|].
    apply list_elem_of_In, List.filter_In. by rewrite <-list_elem_of_In.
Qed.


(* ================================================================== *)
(** * [FileDirectories.create] *)
(* ================================================================== *)

Lemma name_ok_component n : name_ok n = true → component_ok n = true.
Proof.
  intros H. unfold component_ok, truthy.
  rewrite (proj2 (str_eqb_neq n "")) by (by apply name_ok_not_empty).
  rewrite bool_decide_eq_true_2; [done|]. by apply name_ok_split.
Qed.

Lemma slice_from_last a b :
  Py.slice_from (a +:+ String Py.sep b) (Py.len a + 1) = b.
Proof.
  unfold Py.slice_from. rewrite app_String_assoc.
  replace (Py.len a + 1) with (Py.len (a +:+ String Py.sep "")).
  - apply drop_len_app.
  - rewrite len_app. simpl. lia.
Qed.

(** [split] gives an absolute path without its last component, and that
    component. *)
Lemma split_abs_path_snoc cs c :
  Forall (λ c, component_ok c = true) cs → component_ok c = true →
  posixpath.split (abs_path (cs ++ [c])) = (abs_path cs, c).
Proof.
  intros Hcs Hc.
  change (posixpath.split (abs_path (cs ++ [c])))
    with (posixpath.dirname (abs_path (cs ++ [c])),
          Py.slice_from (abs_path (cs ++ [c]))
            (Py.rfind Py.sep (abs_path (cs ++ [c])) + 1)).
  rewrite dirname_abs_path_snoc by done. f_equal.
  pose proof Hc as Hc'. unfold component_ok in Hc'.
  apply andb_prop in Hc' as [_ Hs%bool_decide_eq_true].
  unfold abs_path. destruct (decide (cs = [])) as [->|Hne].
  - simpl join_names. change (String Py.sep c) with ("" +:+ String Py.sep c).
    rewrite rfind_sep_last by done. apply slice_from_last.
  - rewrite join_names_snoc by done.
    change (String Py.sep (join_names cs +:+ String Py.sep c))
      with (String Py.sep (join_names cs) +:+ String Py.sep c).
    rewrite rfind_sep_last by done. apply slice_from_last.
Qed.

Lemma split_on_join_names cs :
  cs ≠ [] → Forall (λ c, component_ok c = true) cs →
  Py.split_on Py.sep (join_names cs) = cs.
Proof.
  induction cs as [|x cs IH]; [done|]. intros _ Hok.
  apply Forall_cons in Hok as [Hx Hok].
  assert (Py.split_on Py.sep x = [x]) as Hs.
  { unfold component_ok in Hx.
    by apply andb_prop in Hx as [_ Hs%bool_decide_eq_true]. }
  destruct cs as [|y cs]; [done|].
  change (join_names (x :: y :: cs)) with (x +:+ String Py.sep (join_names (y :: cs))).
  rewrite split_on_app_sep, Hs, IH by done. done.
Qed.

Lemma split_on_abs_path cs :
  cs ≠ [] → Forall (λ c, component_ok c = true) cs →
  Py.split_on Py.sep (abs_path cs) = "" :: cs.
Proof.
  intros Hne Hok. unfold abs_path.
  change (String Py.sep (join_names cs)) with ("" +:+ String Py.sep (join_names cs)).
  by rewrite split_on_app_sep, split_on_join_names.
Qed.

Lemma abs_path_startswith cs : Py.startswith (abs_path cs) Py.sep = true.
Proof. reflexivity. Qed.

Lemma abs_path_not_empty cs : Py.str_eqb (abs_path cs) "" = false.
Proof. by apply str_eqb_neq. Qed.

(** An absolute path that leads to [D] by descending resolves the same
    way whatever components follow it. *)
Lemma plain_dir_abs_walk w cs D :
  Forall (λ c, component_ok c = true) cs →
  plain_dir w (abs_path cs) = Some D →
  plain_walk (lkind (root w)) [] ("" :: cs) = Some D.
Proof.
  intros Hok (_ & Hw & _)%plain_dir_inv. rewrite abs_path_startswith in Hw.
  destruct (decide (cs = [])) as [->|Hne].
  - by apply (plain_walk_drop_empty _ _ [""]).
  - by rewrite split_on_abs_path in Hw.
Qed.

Lemma resolve_abs_below w cs D rest follow :
  Forall (λ c, component_ok c = true) (cs ++ rest) → rest ≠ [] →
  plain_dir w (abs_path cs) = Some D →
  resolve w follow (abs_path (cs ++ rest))
  = namei (lkind (root w)) MAXSYMLINKS follow D rest.
Proof.
  intros Hok Hrest Hp. pose proof Hok as Hok'. apply Forall_app in Hok' as [Hcs _].
  unfold resolve. rewrite abs_path_not_empty, abs_path_startswith.
  rewrite split_on_abs_path; [|by destruct cs, rest|done].
  apply (namei_plain_app _ _ _ _ ("" :: cs)). by apply plain_dir_abs_walk.
Qed.

Lemma plain_walk_names lk D ms :
  lk D = Some KDir → Forall (λ n, name_ok n = true) ms →
  (∀ ms1, ms1 `prefix_of` ms → ms1 ≠ [] → lk (D ++ ms1) = Some KDir) →
  plain_walk lk D ms = Some (D ++ ms).
Proof.
  revert D. induction ms as [|m ms IH]; intros D HD Hok Hk; simpl.
  { by rewrite app_nil_r. }
  apply Forall_cons in Hok as [Hm Hok].
  rewrite HD, (name_ok_not_dot _ Hm), (name_ok_not_dotdot _ Hm).
  rewrite (Hk [m]); [|by apply prefix_cons, prefix_nil|done].
  rewrite IH; [by rewrite <-app_assoc| |done|].
  - apply (Hk [m]); [by apply prefix_cons, prefix_nil|done].
  - intros ms1 Hp Hne. rewrite <-app_assoc. apply Hk; [|done].
    by apply prefix_cons.
Qed.

Lemma plain_dir_abs_below w cs D ms :
  Forall (λ c, component_ok c = true) cs → Forall (λ n, name_ok n = true) ms →
  plain_dir w (abs_path cs) = Some D →
  (∀ ms1, ms1 `prefix_of` ms → ms1 ≠ [] → lkind (root w) (D ++ ms1) = Some KDir) →
  plain_dir w (abs_path (cs ++ ms)) = Some (D ++ ms).
Proof.
  intros Hcs Hms Hp Hk.
  destruct (decide (ms = [])) as [->|Hne]; [by rewrite !app_nil_r|].
  destruct (plain_dir_inv _ _ _ Hp) as (_ & _ & HD).
  unfold plain_dir. rewrite abs_path_not_empty, abs_path_startswith.
  rewrite split_on_abs_path; [|by destruct cs, ms|].
  - change ("" :: cs ++ ms) with (("" :: cs) ++ ms).
    rewrite (plain_walk_app _ _ ("" :: cs)), (plain_dir_abs_walk w cs D) by done.
    simpl. by apply plain_walk_names.
  - apply Forall_app. split; [done|].
    eapply Forall_impl; [done|]. intros n. apply name_ok_component.
Qed.

(** A path below a name that its directory does not have does not
    exist. *)
Lemma missing_below_not_exists w cs D m ms :
  Forall (λ c, component_ok c = true) cs →
  Forall (λ n, name_ok n = true) (m :: ms) →
  plain_dir w (abs_path cs) = Some D →
  lkind (root w) (D ++ [m]) = None →
  os.path_exists w (abs_path (cs ++ m :: ms)) = false.
Proof.
  intros Hcs Hms Hp Hm.
  destruct (plain_dir_inv _ _ _ Hp) as (_ & _ & HD).
  unfold os.path_exists, os.stat_kind.
  rewrite (resolve_abs_below w cs D (m :: ms)); [|..|done|done].
  - apply Forall_cons in Hms as [Hm' _].
    rewrite namei_unfold. simpl.
    rewrite HD, (name_ok_not_dot _ Hm'), (name_ok_not_dotdot _ Hm'), Hm.
    by destruct (forallb (Py.str_eqb "") ms).
  - apply Forall_app. split; [done|].
    eapply Forall_impl; [done|]. intros n. apply name_ok_component.
Qed.

(** ** Writing below an entry that was just written *)

Lemma alter_first_set_name n (h : node → node) x es :
  alter_first n h (set_name n x es) = set_name n (h x) es.
Proof.
  unfold set_name. destruct (find_entry n es) eqn:E.
  - rewrite alter_first_fusion. by apply alter_first_ext.
  - induction es as [|[k z] es IH]; simpl in *.
    + by rewrite str_eqb_refl.
    + destruct (Py.str_eqb k n); [done|]. by rewrite IH.
Qed.

Lemma put_below t D m1 x q m y :
  put (put t D m1 x) (D ++ m1 :: q) m y = put t D m1 (put x q m y).
Proof.
  unfold put. revert t.
  induction D as [|c D IH]; intros t; destruct t as [|es|]; simpl; try done.
  - f_equal. apply (alter_first_set_name m1 (λ z, alter_dir (set_name m y) z q)).
  - rewrite alter_first_fusion. f_equal. apply alter_first_ext.
    intros z _. apply IH.
Qed.

Lemma put_chain r m : put (chain r) r m (Dir []) = chain (r ++ [m]).
Proof.
  unfold put. induction r as [|a r IH]; simpl; [done|].
  by rewrite str_eqb_refl, IH.
Qed.

Lemma lkind_chain_prefix r r1 :
  r1 `prefix_of` r → lkind (chain r) r1 = Some KDir.
Proof.
  unfold lkind. revert r. induction r1 as [|a r1 IH]; intros r Hp.
  - by destruct r.
  - destruct Hp as [k ->]. simpl. rewrite str_eqb_refl.
    apply IH. by exists k.
Qed.

Lemma get_chain_end r : get (chain r) r = Some (Dir []).
Proof. induction r as [|a r IH]; simpl; [done|]. by rewrite str_eqb_refl. Qed.

Lemma lkind_chain_beyond r m : lkind (chain r) (r ++ [m]) = None.
Proof. unfold lkind. by rewrite get_app, get_chain_end. Qed.

Lemma len_join_names l : Z.of_nat (length l) ≤ Py.len (join_names l) + 1.
Proof.
  induction l as [|x l IH]; [simpl; lia|].
  destruct l as [|y l]; [pose proof (len_nonneg x); simpl in *; lia|].
  change (join_names (x :: y :: l)) with (x +:+ String Py.sep (join_names (y :: l))).
  rewrite len_app. pose proof (len_nonneg x).
  change (Py.len (String Py.sep (join_names (y :: l))))
    with (1 + Py.len (join_names (y :: l))).
  change (length (x :: y :: l)) with (S (length (y :: l))). lia.
Qed.

(** ** [os.mkdir] and [os.makedirs] on a chain of missing names *)

Lemma makedirs_rec_S k name w head tail :
  posixpath.split name = (head, tail) → tail ≠ "" →
  os.makedirs_rec (S k) name w
  = if negb (Py.str_eqb head "") && negb (Py.str_eqb tail "")
       && negb (os.path_exists w head)
    then
      match os.makedirs_rec k head w with
      | (Ok _, w1) | (Raise (OSError EEXIST), w1) =>
          if Py.str_eqb tail "." then (Ok tt, w1) else os.mkdir name w1
      | (Raise e, w1) => (Raise e, w1)
      end
    else os.mkdir name w.
Proof.
  intros Hs Ht. apply str_eqb_neq in Ht.
  cbn [os.makedirs_rec]. rewrite Hs. cbn [fst snd]. rewrite Ht.
  cbn [fst snd]. by rewrite Ht.
Qed.

Lemma mkdir_new w cs D m :
  Forall (λ c, component_ok c = true) cs → name_ok m = true →
  plain_dir w (abs_path cs) = Some D →
  lkind (root w) (D ++ [m]) = None →
  os.mkdir (abs_path (cs ++ [m])) w
  = (Ok tt, set_root w (put (root w) D m (Dir []))).
Proof.
  intros Hcs Hm Hp Hnone.
  destruct (plain_dir_inv _ _ _ Hp) as (_ & _ & HD).
  unfold os.mkdir. rewrite (resolve_abs_below w cs D [m]); [| |done|done].
  - by rewrite namei_name, Hnone.
  - apply Forall_app. split; [done|]. apply Forall_singleton.
    by apply name_ok_component.
Qed.

Section chain_of_directories.

Variables (w : world) (cs : list string) (D : path) (m1 : string).
Hypothesis cs_ok : Forall (λ c, component_ok c = true) cs.
Hypothesis m1_ok : name_ok m1 = true.
Hypothesis base : plain_dir w (abs_path cs) = Some D.
Hypothesis missing : lkind (root w) (D ++ [m1]) = None.

Lemma made_lkind r r1 :
  lkind (root (with_chain w D m1 r)) (D ++ m1 :: r1) = lkind (chain r) r1.
Proof.
  destruct (plain_dir_inv _ _ _ base) as (_ & _ & [es Hes]%lkind_dir).
  unfold with_chain, lkind. cbn [root set_root].
  by rewrite (get_put_eq _ _ _ _ es).
Qed.

(** Every directory of the chain is there once it is made. *)
Lemma made_plain_dir r ms1 :
  Forall (λ n, name_ok n = true) r → ms1 `prefix_of` (m1 :: r) →
  plain_dir (with_chain w D m1 r) (abs_path (cs ++ ms1)) = Some (D ++ ms1).
Proof.
  intros Hr Hp. apply plain_dir_abs_below; [done| | |].
  - destruct Hp as [k Hk].
    assert (Forall (λ n, name_ok n = true) (ms1 ++ k)) as HF.
    { rewrite <-Hk. by apply Forall_cons. }
    by apply Forall_app in HF as [? _].
  - unfold with_chain, put. by apply plain_dir_alter.
  - intros ms2 Hp2 Hne. destruct ms2 as [|a r2]; [done|].
    assert ((a :: r2) `prefix_of` (m1 :: r)) as [k Hk] by (by etrans).
    injection Hk as Ha Hk. subst a. rewrite made_lkind.
    apply lkind_chain_prefix. by exists k.
Qed.

Lemma makedirs_rec_chain r :
  Forall (λ n, name_ok n = true) r →
  ∀ fuel, (S (length r) ≤ fuel)%nat →
    os.makedirs_rec fuel (abs_path (cs ++ m1 :: r)) w = (Ok tt, with_chain w D m1 r).
Proof.
  induction r as [|m r0 IH] using rev_ind; intros Hr fuel Hfuel.
  - destruct fuel as [|k]; [lia|].
    rewrite (makedirs_rec_S k _ w (abs_path cs) m1).
    + rewrite (proj1 (proj2 (plain_dir_queries _ _ _ base))).
      rewrite andb_false_r. by apply mkdir_new.
    + apply split_abs_path_snoc; [done|by apply name_ok_component].
    + by apply name_ok_not_empty.
  - apply Forall_app in Hr as [Hr0 Hm%Forall_inv].
    rewrite length_app in Hfuel. simpl in Hfuel.
    destruct fuel as [|k]; [lia|].
    assert (Forall (λ c, component_ok c = true) (cs ++ m1 :: r0)) as Hcs0.
    { apply Forall_app. split; [done|].
      apply Forall_cons. split; [by apply name_ok_component|].
      eapply Forall_impl; [done|]. intros n. apply name_ok_component. }
    replace (cs ++ m1 :: r0 ++ [m]) with ((cs ++ m1 :: r0) ++ [m])
      by (by rewrite <-app_assoc).
    rewrite (makedirs_rec_S k _ w (abs_path (cs ++ m1 :: r0)) m).
    + rewrite abs_path_not_empty.
      rewrite (proj2 (str_eqb_neq m "")) by (by apply name_ok_not_empty).
      rewrite (missing_below_not_exists w cs D m1 r0) by
        (done || by apply Forall_cons).
      cbn [negb andb]. rewrite IH by (done || lia).
      assert (Py.str_eqb m "." = false) as ->.
      { pose proof (name_ok_not_dot _ Hm) as Hd. unfold is_dot in Hd.
        by apply orb_false_iff in Hd as [_ ?]. }
      rewrite (mkdir_new (with_chain w D m1 r0) (cs ++ m1 :: r0) (D ++ m1 :: r0) m).
      * f_equal. unfold with_chain, set_root. cbn [root cwd open_files].
        by rewrite put_below, put_chain.
      * done.
      * done.
      * apply made_plain_dir; done.
      * rewrite <-app_assoc. cbn [app]. rewrite made_lkind.
        apply lkind_chain_beyond.
    + apply split_abs_path_snoc; [done|by apply name_ok_component].
    + by apply name_ok_not_empty.
Qed.

Lemma makedirs_chain r :
  Forall (λ n, name_ok n = true) r →
  os.makedirs (abs_path (cs ++ m1 :: r)) w = (Ok tt, with_chain w D m1 r).
Proof.
  intros Hr. unfold os.makedirs. apply makedirs_rec_chain; [done|].
  pose proof (len_join_names (cs ++ m1 :: r)) as Hl.
  rewrite length_app in Hl. cbn [length] in Hl.
  change (Py.len (abs_path (cs ++ m1 :: r)))
    with (1 + Py.len (join_names (cs ++ m1 :: r))). lia.
Qed.

End chain_of_directories.

Lemma create_run w full_path :
  FileDirectories.create full_path w
  = if os.path_exists w full_path
    then (Ok (if os.path_isfile w full_path then None else Some full_path), w)
    else
      match os.makedirs full_path w with
      | (Ok _, w') => (Ok (Some full_path), w')
      | (Raise e, w') => (Raise e, w')
      end.
Proof.
  unfold FileDirectories.create, FileCheck.exists_, bind, query, ret.
  destruct (os.path_exists w full_path); simpl; [|done].
  by destruct (os.path_isfile w full_path).
Qed.

(* ================================================================== *)
(** * [posixpath.splitext] and [FileTransform.filter_by_extension] *)
(* ================================================================== *)

Lemma occurs_app c a b : occurs c (a +:+ b) = occurs c a || occurs c b.
Proof. induction a as [|x a IH]; simpl; [done|]. by rewrite IH, orb_assoc. Qed.

Lemma occurs_split_on c s : occurs c s = false ↔ Py.split_on c s = [s].
Proof.
  induction s as [|x r IH]; simpl; [done|].
  destruct (Py.ch_eqb x c); simpl.
  - split; [done|]. intros [= ?].
  - rewrite IH. pose proof (split_on_not_nil c r).
    destruct (Py.split_on c r) as [|t ts]; [done|].
    split; [by intros [= -> ->]|]. by intros [= -> ->].
Qed.

Lemma take_drop_string n s : Py.take n s +:+ Py.drop n s = s.
Proof.
  revert s. induction n as [|n IH]; intros [|x r]; simpl; try done.
  by rewrite IH.
Qed.

Lemma occurs_drop_le c k m s :
  (k ≤ m)%nat → occurs c (Py.drop m s) = true → occurs c (Py.drop k s) = true.
Proof.
  revert k m. induction s as [|x r IH]; intros k m Hkm; [by destruct m|].
  destruct m as [|m]; [by replace k with 0%nat by lia|].
  simpl. destruct k as [|k].
  - intros H. apply (IH 0%nat) in H; [|lia].
    destruct r; simpl in *; by rewrite H, orb_true_r.
  - apply IH. lia.
Qed.

(** The last [c] of a string, if it has one. *)
Lemma rfind_cases c s :
  (Py.rfind c s = -1 ∧ occurs c s = false)
  ∨ (∃ a b, s = a +:+ String c b ∧ occurs c b = false ∧ Py.rfind c s = Py.len a).
Proof.
  induction s as [|x r IH]; [by left|].
  destruct IH as [[Hr Ho]|(a & b & -> & Hb & Hr)].
  - destruct (Py.ch_eqb x c) eqn:E.
    + right. apply ch_eqb_eq in E as ->. exists "", r.
      split; [done|]. split; [done|].
      change (String c r) with ("" +:+ String c r).
      unfold Py.rfind. rewrite rfind_from_last; [done|done|].
      by apply occurs_split_on.
    + left. split; [|simpl; by rewrite E].
      unfold Py.rfind. apply rfind_from_none. apply occurs_split_on.
      simpl. by rewrite E.
  - right. exists (String x a), b. split; [done|]. split; [done|].
    change (String x (a +:+ String c b)) with (String x a +:+ String c b).
    unfold Py.rfind. rewrite rfind_from_last; [done|done|].
    by apply occurs_split_on.
Qed.

Lemma rfind_none c s : occurs c s = false → Py.rfind c s = -1.
Proof.
  intros H. unfold Py.rfind. apply rfind_from_none. by apply occurs_split_on.
Qed.

Lemma rfind_last c a b :
  occurs c b = false → Py.rfind c (a +:+ String c b) = Py.len a.
Proof.
  intros H. unfold Py.rfind. rewrite rfind_from_last; [done|done|].
  by apply occurs_split_on.
Qed.

Lemma splitext_scan_concat n p fi di :
  (posixpath.splitext_scan n p fi di).1 +:+ (posixpath.splitext_scan n p fi di).2 = p.
Proof.
  revert fi. induction n as [|n IH]; intros fi; simpl; [apply str_app_nil_r|].
  destruct (fi <? di); [|apply str_app_nil_r].
  destruct (negb _); [apply take_drop_string|apply IH].
Qed.

Lemma splitext_scan_cases n p fi di :
  posixpath.splitext_scan n p fi di = (p, "")
  ∨ (fi < di
     ∧ posixpath.splitext_scan n p fi di = (Py.slice_to p di, Py.slice_from p di)).
Proof.
  revert fi. induction n as [|n IH]; intros fi; simpl; [by left|].
  destruct (fi <? di) eqn:E; [|by left]. apply Z.ltb_lt in E.
  destruct (negb _); [by right|].
  destruct (IH (fi + 1)) as [?|[? ?]]; [by left|right; split; [lia|done]].
Qed.

(** What [splitext] returns: the two parts make up the path, and the
    second one is empty or a dot followed by characters that are no dot
    and no separator, after a first part that is not empty. *)
Lemma splitext_parts p stem ext :
  posixpath.splitext p = (stem, ext) →
  stem +:+ ext = p
  ∧ (ext = ""
     ∨ ∃ e, ext = String Py.extsep e ∧ occurs Py.extsep e = false
            ∧ occurs Py.sep e = false ∧ stem ≠ "").
Proof.
  unfold posixpath.splitext.
  destruct (Py.rfind Py.sep p <? Py.rfind Py.extsep p) eqn:Hlt.
  2:{ intros [= <- <-]. split; [apply str_app_nil_r|by left]. }
  apply Z.ltb_lt in Hlt.
  destruct (splitext_scan_cases (Z.to_nat (Py.len p)) p
              (Py.rfind Py.sep p + 1) (Py.rfind Py.extsep p)) as [E|[Hfi E]].
  { rewrite E. intros [= <- <-]. split; [apply str_app_nil_r|by left]. }
  pose proof E as E'. revert E'.
  destruct (rfind_cases Py.extsep p) as [[Hd _]|(a & b & Hp & Hb & Hd)].
  { destruct (rfind_cases Py.sep p) as [[Hs _]|(a' & b' & _ & _ & Hs)];
      pose proof (len_nonneg p); [lia|]. pose proof (len_nonneg a'). lia. }
  intros _. rewrite E. unfold Py.slice_to, Py.slice_from.
  rewrite Hd, Hp, take_len_app, drop_len_app. intros [= <- <-].
  split; [done|]. right. exists b. split; [done|]. split; [done|].
  assert (occurs Py.sep b = false ∧ a ≠ "") as [? ?]; [|done].
  destruct (occurs Py.sep b) eqn:Hsb.
  - (* a separator after the last dot: the dot is not in the name *)
    exfalso.
    destruct (rfind_cases Py.sep p) as [[_ Ho]|(a' & b' & Hp' & Hb' & Hs)].
    { rewrite Hp, occurs_app in Ho. simpl in Ho.
      rewrite Hsb, !orb_true_r in Ho. done. }
    (* p = a . b = a' / b', no dot in b, no separator in b', |a'| < |a| *)
    rewrite Hs, Hd in Hlt.
    assert (Py.take (Z.to_nat (Py.len a)) p = a) as Ha
      by (rewrite Hp; apply take_len_app).
    assert (Py.drop (Z.to_nat (Py.len a')) p = String Py.sep b') as Hb2
      by (rewrite Hp'; apply drop_len_app).
    assert (occurs Py.sep (Py.drop (Z.to_nat (Py.len a)) p) = true) as Hc.
    { rewrite Hp, drop_len_app. simpl. rewrite Hsb. by rewrite ?orb_true_r. }
    pose proof (len_nonneg a'). pose proof (len_nonneg a).
    apply (occurs_drop_le _ (S (Z.to_nat (Py.len a')))) in Hc; [|lia].
    assert (Py.drop (S (Z.to_nat (Py.len a'))) p = b') as Hb3.
    { rewrite Hp'.
      replace (S (Z.to_nat (Py.len a')))
        with (Z.to_nat (Py.len (a' +:+ String Py.sep ""))).
      - rewrite (app_String_assoc a' Py.sep b'). apply drop_len_app.
      - rewrite len_app. simpl. lia. }
    rewrite Hb3 in Hc. congruence.
  - split; [done|]. intros ->. simpl in Hd.
    destruct (rfind_cases Py.sep p) as [[Hs _]|(a' & b' & _ & _ & Hs)];
      [lia|]. pose proof (len_nonneg a'). lia.
Qed.

Lemma all_char_occurs c c' s :
  Py.all_char c s = true → c ≠ c' → occurs c' s = false.
Proof.
  intros Ha Hc. induction s as [|x r IH]; [done|]. simpl in *.
  apply andb_prop in Ha as [Hx Hr]. apply ch_eqb_eq in Hx as ->.
  rewrite (proj2 (ch_eqb_neq c c')) by done. by apply IH.
Qed.

Lemma take_one_drop_len a x r :
  Py.take 1 (Py.slice_from (a +:+ String x r) (Py.len a)) = String x "".
Proof. unfold Py.slice_from. rewrite drop_len_app. by destruct r. Qed.

(** The scan of [splitext] passes the leading dots of a name and stops
    at its first character that is no dot. *)
Lemma splitext_scan_dots dots pre x rest n di :
  Py.all_char Py.extsep dots = true → x ≠ Py.extsep →
  Py.len pre + Py.len dots < di → (String.length dots < n)%nat →
  posixpath.splitext_scan n (pre +:+ dots +:+ String x rest) (Py.len pre) di
  = (Py.slice_to (pre +:+ dots +:+ String x rest) di,
     Py.slice_from (pre +:+ dots +:+ String x rest) di).
Proof.
  revert pre n. induction dots as [|c dots IH]; intros pre n Hdots Hx Hdi Hn.
  - destruct n as [|n]; [simpl in Hn; lia|]. simpl in Hdi.
    cbn [posixpath.splitext_scan]. rewrite (proj2 (Z.ltb_lt _ _)) by lia.
    change ("" +:+ String x rest) with (String x rest).
    rewrite take_one_drop_len.
    rewrite (proj2 (str_eqb_neq (String x "") (String Py.extsep ""))) by congruence.
    done.
  - destruct n as [|n]; [simpl in Hn; lia|].
    simpl in Hdots. apply andb_prop in Hdots as [->%ch_eqb_eq Hdots].
    pose proof (len_nonneg dots).
    change (Py.len (String Py.extsep dots)) with (1 + Py.len dots) in Hdi.
    cbn [posixpath.splitext_scan]. rewrite (proj2 (Z.ltb_lt _ _)) by lia.
    change (String Py.extsep dots +:+ String x rest)
      with (String Py.extsep (dots +:+ String x rest)).
    rewrite take_one_drop_len.
    rewrite (proj2 (str_eqb_eq _ _)) by done. cbn [negb].
    rewrite (app_String_assoc pre Py.extsep).
    replace (Py.len pre + 1) with (Py.len (pre +:+ String Py.extsep ""))
      by (rewrite len_app; simpl; lia).
    apply IH; [done|done| |simpl in Hn; lia].
    rewrite len_app. simpl. lia.
Qed.

(** The scan returns the whole path when only dots lie before the last
    dot. *)
Lemma splitext_scan_only_dots dots pre rest n :
  Py.all_char Py.extsep dots = true →
  posixpath.splitext_scan n (pre +:+ dots +:+ rest) (Py.len pre)
    (Py.len pre + Py.len dots)
  = (pre +:+ dots +:+ rest, "").
Proof.
  revert pre n. induction dots as [|c dots IH]; intros pre n Hdots.
  - destruct n as [|n]; [done|]. cbn [posixpath.splitext_scan].
    simpl Py.len. by rewrite (proj2 (Z.ltb_ge _ _)) by lia.
  - destruct n as [|n]; [done|].
    simpl in Hdots. apply andb_prop in Hdots as [->%ch_eqb_eq Hdots].
    pose proof (len_nonneg dots).
    change (Py.len (String Py.extsep dots)) with (1 + Py.len dots).
    cbn [posixpath.splitext_scan]. rewrite (proj2 (Z.ltb_lt _ _)) by lia.
    change (String Py.extsep dots +:+ rest)
      with (String Py.extsep (dots +:+ rest)).
    rewrite take_one_drop_len.
    rewrite (proj2 (str_eqb_eq _ _)) by done. cbn [negb].
    rewrite (app_String_assoc pre Py.extsep).
    replace (Py.len pre + 1) with (Py.len (pre +:+ String Py.extsep ""))
      by (rewrite len_app; simpl; lia).
    replace (Py.len pre + (1 + Py.len dots))
      with (Py.len (pre +:+ String Py.extsep "") + Py.len dots)
      by (rewrite len_app; simpl; lia).
    apply IH. done.
Qed.

(** The index after the last separator of a path whose name has none. *)
Lemma rfind_sep_dir d name :
  d = "" ∨ Py.endswith d Py.sep = true → occurs Py.sep name = false →
  Py.rfind Py.sep (d +:+ name) + 1 = Py.len d.
Proof.
  intros [->|Hd] Hname.
  - simpl. by rewrite rfind_none.
  - apply endswith_snoc in Hd as [d' ->].
    rewrite str_app_assoc. simpl. rewrite rfind_last by done.
    rewrite len_app. simpl. lia.
Qed.

(** A name with a character that is no dot before its last dot has what
    follows that dot as its extension. *)
Lemma splitext_extension d dots x v e :
  d = "" ∨ Py.endswith d Py.sep = true →
  Py.all_char Py.extsep dots = true →
  x ≠ Py.extsep → x ≠ Py.sep → occurs Py.sep v = false →
  occurs Py.extsep e = false → occurs Py.sep e = false →
  posixpath.splitext (d +:+ dots +:+ String x v +:+ String Py.extsep e)
  = (d +:+ dots +:+ String x v, String Py.extsep e).
Proof.
  intros Hd Hdots Hx Hx' Hv He He'.
  assert (occurs Py.sep (dots +:+ String x v +:+ String Py.extsep e) = false) as Hname.
  { rewrite occurs_app. simpl. rewrite occurs_app. simpl.
    rewrite (all_char_occurs Py.extsep Py.sep dots) by done.
    rewrite (proj2 (ch_eqb_neq x Py.sep)) by done. by rewrite Hv, He'. }
  assert (d +:+ dots +:+ String x v +:+ String Py.extsep e
          = (d +:+ dots +:+ String x v) +:+ String Py.extsep e) as Hp.
  { by rewrite !str_app_assoc. }
  unfold posixpath.splitext.
  rewrite (rfind_sep_dir d _ Hd Hname) .
  assert (Py.rfind Py.sep (d +:+ dots +:+ String x v +:+ String Py.extsep e)
          = Py.len d - 1) as -> by (pose proof (rfind_sep_dir d _ Hd Hname); lia).
  assert (Py.rfind Py.extsep (d +:+ dots +:+ String x v +:+ String Py.extsep e)
          = Py.len (d +:+ dots +:+ String x v)) as ->
    by (rewrite Hp; by apply rfind_last).
  rewrite !len_app. change (Py.len (String x v)) with (1 + Py.len v).
  pose proof (len_nonneg d). pose proof (len_nonneg dots). pose proof (len_nonneg v).
  rewrite (proj2 (Z.ltb_lt _ _)) by lia.
  change (String x v +:+ String Py.extsep e) with (String x (v +:+ String Py.extsep e)).
  rewrite splitext_scan_dots; [|done|done|lia|].
  - unfold Py.slice_to, Py.slice_from.
    change (String x (v +:+ String Py.extsep e)) with (String x v +:+ String Py.extsep e).
    rewrite Hp.
    replace (Py.len d + (Py.len dots + (1 + Py.len v)))
      with (Py.len (d +:+ dots +:+ String x v))
      by (rewrite !len_app; simpl; lia).
    by rewrite take_len_app, drop_len_app.
  - assert (∀ s, Z.of_nat (String.length s) = Py.len s) as Hlen.
    { induction s as [|? ? IH]; simpl; [done|]. rewrite <-IH. lia. }
    pose proof (Hlen dots). pose proof (len_nonneg (String Py.extsep e)). lia.
Qed.

(** A name that is dots followed by characters that are no dot has no
    extension. *)
Lemma splitext_no_extension d dots rest :
  d = "" ∨ Py.endswith d Py.sep = true →
  Py.all_char Py.extsep dots = true →
  occurs Py.extsep rest = false → occurs Py.sep rest = false →
  posixpath.splitext (d +:+ dots +:+ rest) = (d +:+ dots +:+ rest, "").
Proof.
  intros Hd Hdots Hr Hr'.
  assert (occurs Py.sep (dots +:+ rest) = false) as Hname.
  { rewrite occurs_app, Hr'.
    by rewrite (all_char_occurs Py.extsep Py.sep dots). }
  pose proof (rfind_sep_dir d _ Hd Hname) as Hsep.
  unfold posixpath.splitext.
  destruct (Py.rfind Py.sep (d +:+ dots +:+ rest)
            <? Py.rfind Py.extsep (d +:+ dots +:+ rest)) eqn:Hlt; [|done].
  apply Z.ltb_lt in Hlt.
  destruct dots as [|c dots].
  - (* no dot in the name: the last dot is in the directory *)
    exfalso. simpl in *.
    destruct (rfind_cases Py.extsep (d +:+ rest)) as [[Hn _]|(a & b & Hp & Hb & Hn)].
    { destruct (rfind_cases Py.sep (d +:+ rest)) as [[? _]|(? & ? & _ & _ & ?)];
        [lia|]. pose proof (len_nonneg x). lia. }
    rewrite Hn in Hlt.
    (* the dot at the index [len a] is at or after the index [len d] *)
    assert (occurs Py.extsep (Py.drop (Z.to_nat (Py.len d)) (d +:+ rest)) = true) as Hc.
    { apply (occurs_drop_le _ _ (Z.to_nat (Py.len a))); [lia|].
      rewrite Hp, drop_len_app. reflexivity. }
    rewrite drop_len_app in Hc. congruence.
  - simpl in Hdots. apply andb_prop in Hdots as [->%ch_eqb_eq Hdots].
    (* the last dot is the last of the leading dots *)
    assert (∃ dots', String Py.extsep dots = dots' +:+ String Py.extsep ""
                     ∧ Py.all_char Py.extsep dots' = true) as (dots' & Hd' & Hall).
    { clear -Hdots. induction dots as [|c dots IH].
      - by exists "".
      - simpl in Hdots. apply andb_prop in Hdots as [->%ch_eqb_eq Hdots].
        destruct (IH Hdots) as (dots' & E & Hall).
        exists (String Py.extsep dots'). simpl. rewrite <-E. split; [done|].
        by rewrite Hall. }
    rewrite Hd'.
    assert (d +:+ (dots' +:+ String Py.extsep "") +:+ rest
            = (d +:+ dots') +:+ String Py.extsep rest) as Hp.
    { rewrite !str_app_assoc. by simpl. }
    assert (Py.rfind Py.extsep (d +:+ (dots' +:+ String Py.extsep "") +:+ rest)
            = Py.len (d +:+ dots')) as ->
      by (rewrite Hp; by apply rfind_last).
    rewrite (len_app d dots').
    rewrite Hd' in Hsep.
    replace (Py.rfind Py.sep (d +:+ (dots' +:+ String Py.extsep "") +:+ rest) + 1)
      with (Py.len d) by lia.
    rewrite str_app_assoc. simpl.
    apply (splitext_scan_only_dots dots' d (String Py.extsep rest)). done.
Qed.

Lemma filter_nil_iff {A} (f : A → bool) l :
  (∀ x, x ∈ l → f x = false) → List.filter f l = [].
Proof.
  induction l as [|x l IH]; intros H; simpl; [done|].
  rewrite (H x) by (by left). apply IH. intros y Hy. apply H. by right.
Qed.

Lemma filter_sublist {A} (f : A → bool) l : List.filter f l `sublist_of` l.
Proof.
  induction l as [|x l IH]; simpl; [done|].
  destruct (f x); [by apply sublist_skip|by apply sublist_cons].
Qed.

Lemma filter_by_extension_unfold l extension :
  FileTransform.filter_by_extension l extension
  = List.filter (λ p, Py.str_eqb (posixpath.splitext p).2 (dotted extension)) l.
Proof.
  unfold FileTransform.filter_by_extension, dotted.
  by destruct (Py.startswith extension Py.extsep).
Qed.

Lemma dotted_dotted extension : dotted (dotted extension) = dotted extension.
Proof.
  unfold dotted. destruct (Py.startswith extension Py.extsep) eqn:E; [by rewrite E|].
  done.
Qed.

Lemma dotted_not_empty extension : dotted extension ≠ "".
Proof.
  unfold dotted. destruct extension as [|c r]; simpl; [done|].
  by destruct (Py.ch_eqb c Py.extsep).
Qed.

(** [filter_by_extension] returns paths of the list, in their order, and
    the same ones whether the extension is given with its dot or without;
    each of them is a part that is not empty followed by the dot and the
    extension; filtering what was filtered changes nothing. *)
Theorem filter_by_extension_selected (file_paths : list string) (extension : string) :
  FileTransform.filter_by_extension file_paths extension `sublist_of` file_paths
  ∧ FileTransform.filter_by_extension file_paths (dotted extension)
    = FileTransform.filter_by_extension file_paths extension
  ∧ (∀ p, p ∈ FileTransform.filter_by_extension file_paths extension →
          p ∈ file_paths ∧ ∃ stem, stem ≠ "" ∧ p = stem +:+ dotted extension)
  ∧ FileTransform.filter_by_extension
      (FileTransform.filter_by_extension file_paths extension) extension
    = FileTransform.filter_by_extension file_paths extension.
Proof.
  rewrite !filter_by_extension_unfold, dotted_dotted.
  split; [apply filter_sublist|]. split; [done|]. split.
  - intros p [Hin Hp]%list_elem_of_In%List.filter_In.
    apply list_elem_of_In in Hin. split; [done|].
    apply str_eqb_eq in Hp.
    destruct (posixpath.splitext p) as [stem ext] eqn:E. simpl in Hp. subst ext.
    apply splitext_parts in E as [Hcat [Hnil|(e & _ & _ & _ & Hstem)]].
    + by apply dotted_not_empty in Hnil.
    + by exists stem.
  - induction file_paths as [|p l IH]; simpl; [done|].
    destruct (Py.str_eqb _ _) eqn:E; simpl; [|done]. by rewrite E, IH.
Qed.

(** An extension with a dot after its first character, or with a
    separator in it, selects nothing: [splitext] gives what follows the
    last dot of the name. *)
Theorem filter_by_extension_compound (file_paths : list string) (extension : string) :
  occurs Py.extsep (Py.drop 1 extension) = true ∨ occurs Py.sep extension = true →
  FileTransform.filter_by_extension file_paths extension = [].
Proof.
  intros H. rewrite filter_by_extension_unfold. apply filter_nil_iff.
  intros p _. apply str_eqb_neq. intros Hp.
  destruct (posixpath.splitext p) as [stem ext] eqn:E. simpl in Hp. subst ext.
  apply splitext_parts in E as [_ [Hnil|(e & He & Hdot & Hsep & _)]].
  { by apply dotted_not_empty in Hnil. }
  unfold dotted in He. destruct (Py.startswith extension Py.extsep) eqn:Hs.
  - destruct extension as [|c r]; [done|]. injection He as -> ->.
    simpl in H. rewrite Hsep in H. destruct H as [H|H]; [|done].
    destruct e; simpl in *; congruence.
  - injection He as <-. destruct H as [H|H]; [|congruence].
    apply (occurs_drop_le _ 0%nat) in H; [|lia].
    destruct extension; simpl in *; congruence.
Qed.

Lemma filter_by_extension_compound_witness :
  FileTransform.filter_by_extension ["a.tar.gz"; "b.gz"] "tar.gz" = [].
Proof. apply filter_by_extension_compound. left. reflexivity. Defined.

(** A path of the list whose name has a character that is no dot before
    its last dot is selected by what follows that dot, given with the
    dot or without. *)
Theorem filter_by_extension_selects (file_paths : list string)
    (d dots : string) (x : ascii) (v e : string) :
  d = "" ∨ Py.endswith d Py.sep = true →
  Py.all_char Py.extsep dots = true →
  x ≠ Py.extsep → x ≠ Py.sep → occurs Py.sep v = false →
  occurs Py.extsep e = false → occurs Py.sep e = false →
  d +:+ dots +:+ String x v +:+ String Py.extsep e ∈ file_paths →
  d +:+ dots +:+ String x v +:+ String Py.extsep e
    ∈ FileTransform.filter_by_extension file_paths e
  ∧ d +:+ dots +:+ String x v +:+ String Py.extsep e
    ∈ FileTransform.filter_by_extension file_paths (String Py.extsep e).
Proof.
  intros Hd Hdots Hx Hx' Hv He He' Hin.
  assert (dotted e = String Py.extsep e) as Hde.
  { unfold dotted. destruct e as [|c r]; [done|]. simpl in *.
    apply orb_false_iff in He as [-> _]. done. }
  rewrite !filter_by_extension_unfold. rewrite Hde.
  assert (dotted (String Py.extsep e) = String Py.extsep e) as -> by done.
  cut (d +:+ dots +:+ String x v +:+ String Py.extsep e
         ∈ List.filter (λ p, Py.str_eqb (posixpath.splitext p).2 (String Py.extsep e))
             file_paths); [done|].
  apply list_elem_of_In, List.filter_In. split; [by apply list_elem_of_In|].
  rewrite splitext_extension by done. by apply str_eqb_eq.
Qed.

Lemma filter_by_extension_selects_witness :
  "dir/.hidden.txt" ∈ FileTransform.filter_by_extension ["a.log"; "dir/.hidden.txt"] "txt".
Proof.
  apply (filter_by_extension_selects ["a.log"; "dir/.hidden.txt"]
           "dir/" "." "h" "idden" "txt"); try reflexivity; try done.
  - by right.
  - set_solver.
Defined.

(** A path whose name is dots followed by characters that are no dot (a
    name without a dot, or a hidden file such as [.txt]) is selected by
    no extension. *)
Theorem filter_by_extension_no_extension (file_paths : list string)
    (d dots rest extension : string) :
  d = "" ∨ Py.endswith d Py.sep = true →
  Py.all_char Py.extsep dots = true →
  occurs Py.extsep rest = false → occurs Py.sep rest = false →
  d +:+ dots +:+ rest ∉ FileTransform.filter_by_extension file_paths extension.
Proof.
  intros Hd Hdots Hr Hr'. rewrite filter_by_extension_unfold.
  intros [_ Hp]%list_elem_of_In%List.filter_In.
  rewrite splitext_no_extension in Hp by done. apply str_eqb_eq in Hp.
  symmetry in Hp. by apply dotted_not_empty in Hp.
Qed.

Lemma filter_by_extension_no_extension_witness :
  "dir/.txt" ∉ FileTransform.filter_by_extension ["dir/.txt"; "a.txt"] "txt".
Proof.
  apply (filter_by_extension_no_extension _ "dir/" "." "txt"); try reflexivity.
  by right.
Defined.

(* ================================================================== *)
(** * The lines, words and characters of a file *)
(* ================================================================== *)

Lemma lines_of_cons c r :
  io.lines_of (String c r)
  = if Py.ch_eqb c Py.LF then String c "" :: io.lines_of r
    else match io.lines_of r with
         | l :: ls => String c l :: ls
         | [] => [String c ""]
         end.
Proof. done. Qed.

Lemma lines_of_nil s : io.lines_of s = [] ↔ s = "".
Proof.
  destruct s as [|c r]; [done|]. rewrite lines_of_cons.
  destruct (Py.ch_eqb c Py.LF); [done|]. by destruct (io.lines_of r).
Qed.

Lemma lines_of_join s : join_all (io.lines_of s) = s.
Proof.
  induction s as [|c r IH]; [done|]. rewrite lines_of_cons.
  destruct (Py.ch_eqb c Py.LF).
  - unfold join_all in *. simpl. by rewrite IH.
  - destruct (io.lines_of r) as [|l ls] eqn:E.
    + apply lines_of_nil in E as ->. done.
    + unfold join_all in *. simpl in *. by rewrite IH.
Qed.

Lemma lines_of_is_line s : Forall is_line (io.lines_of s).
Proof.
  induction s as [|c r IH]; [by constructor|]. rewrite lines_of_cons.
  destruct (Py.ch_eqb c Py.LF) eqn:Ec.
  - apply ch_eqb_eq in Ec as ->. constructor; [|done].
    exists "". split; [done|]. by left.
  - destruct (io.lines_of r) as [|l ls] eqn:E.
    + constructor; [|done]. exists (String c ""). split; [simpl; by rewrite Ec|].
      by right.
    + apply Forall_cons in IH as [(body & Hb & Hl) IH]. constructor; [|done].
      exists (String c body). split; [simpl; by rewrite Ec, Hb|].
      destruct Hl as [->|[-> _]]; [by left|by right].
Qed.

(** Every line but the last one ends with a line feed. *)
Lemma lines_of_ends s i l :
  io.lines_of s !! i = Some l → (S i < length (io.lines_of s))%nat →
  Py.endswith l Py.LF = true.
Proof.
  revert i l. induction s as [|c r IH]; intros i l; [done|].
  rewrite lines_of_cons. destruct (Py.ch_eqb c Py.LF) eqn:Ec.
  - destruct i as [|i]; simpl.
    + intros [= <-] _. simpl. by rewrite Ec.
    + intros Hl Hlen. apply (IH i); [done|lia].
  - destruct (io.lines_of r) as [|l' ls] eqn:E; [simpl; lia|].
    destruct i as [|i]; simpl.
    + intros [= <-] Hlen. specialize (IH 0%nat l' eq_refl).
      simpl in IH. destruct l' as [|y l'].
      { assert (Py.endswith "" Py.LF = true) by (apply IH; lia). done. }
      change (Py.endswith (String c (String y l')) Py.LF)
        with (Py.endswith (String y l') Py.LF). apply IH. lia.
    + intros Hl Hlen. apply (IH (S i)); [done|simpl; lia].
Qed.

Lemma endswith_cons c x r a :
  Py.endswith (String c (String x r)) a = Py.endswith (String x r) a.
Proof. done. Qed.

Lemma lines_of_length s : Z.of_nat (length (io.lines_of s)) = line_count s.
Proof.
  unfold line_count, truthy. induction s as [|c r IH]; [done|].
  rewrite lines_of_cons. cbn [count_char].
  rewrite (proj2 (str_eqb_neq (String c r) "")) by done. cbn [negb andb].
  destruct (Py.ch_eqb c Py.LF) eqn:Ec.
  - cbn [length]. rewrite Nat2Z.inj_succ, IH.
    destruct r as [|x r]; [simpl; by rewrite Ec|].
    rewrite endswith_cons.
    rewrite (proj2 (str_eqb_neq (String x r) "")) by done. cbn [negb andb]. lia.
  - destruct (io.lines_of r) as [|l ls] eqn:E.
    + apply lines_of_nil in E as ->. simpl. by rewrite Ec.
    + cbn [length] in *. rewrite IH.
      destruct r as [|x r]; [done|]. rewrite endswith_cons.
      rewrite (proj2 (str_eqb_neq (String x r) "")) by done. cbn [negb andb]. lia.
Qed.

Lemma sum_len_lines ls k :
  fold_left (λ count line, count + Py.len line) ls k = k + Py.len (join_all ls).
Proof.
  revert k. induction ls as [|l ls IH]; intros k; simpl; [lia|].
  rewrite IH. unfold join_all. simpl. rewrite len_app. lia.
Qed.

Lemma split_on_length c s :
  Z.of_nat (length (Py.split_on c s)) = 1 + count_char c s.
Proof.
  induction s as [|x r IH]; [done|]. simpl.
  destruct (Py.ch_eqb x c); simpl length.
  - rewrite Nat2Z.inj_succ, IH. lia.
  - pose proof (split_on_not_nil c r).
    destruct (Py.split_on c r) as [|t ts]; [done|]. simpl length in *. lia.
Qed.

Lemma split_on_join c s : join_all (Py.split_on c s) = remove_char c s.
Proof.
  induction s as [|x r IH]; [done|]. simpl.
  destruct (Py.ch_eqb x c); [done|].
  pose proof (split_on_not_nil c r).
  destruct (Py.split_on c r) as [|t ts]; [done|].
  unfold join_all in *. simpl in *. by rewrite IH.
Qed.

Lemma split_on_no_sep c s : Forall (λ t, occurs c t = false) (Py.split_on c s).
Proof.
  induction s as [|x r IH]; [by repeat constructor|]. simpl.
  destruct (Py.ch_eqb x c) eqn:E; [by constructor|].
  pose proof (split_on_not_nil c r).
  destruct (Py.split_on c r) as [|t ts]; [done|].
  apply Forall_cons in IH as [Ht IH]. constructor; [|done].
  simpl. by rewrite E.
Qed.

Lemma count_char_app c a b : count_char c (a +:+ b) = count_char c a + count_char c b.
Proof. induction a as [|x a IH]; simpl; [done|]. rewrite IH. lia. Qed.

Lemma remove_char_app c a b :
  remove_char c (a +:+ b) = remove_char c a +:+ remove_char c b.
Proof.
  induction a as [|x a IH]; simpl; [done|].
  destruct (Py.ch_eqb x c); [done|]. simpl. by rewrite IH.
Qed.

Lemma join_all_app a b : join_all (a ++ b) = join_all a +:+ join_all b.
Proof.
  unfold join_all. induction a as [|x a IH]; simpl; [done|].
  by rewrite IH, str_app_assoc.
Qed.

(** The loop of [words] over the lines. *)
Lemma words_loop ls out :
  fold_left (λ output line, output ++ Py.split_on " " line) ls out
  = out ++ concat (map (Py.split_on " ") ls).
Proof.
  revert out. induction ls as [|l ls IH]; intros out; simpl.
  - by rewrite app_nil_r.
  - by rewrite IH, app_assoc.
Qed.

Lemma words_of_lines ls :
  Z.of_nat (length (concat (map (Py.split_on " ") ls)))
  = Z.of_nat (length ls) + count_char " " (join_all ls)
  ∧ join_all (concat (map (Py.split_on " ") ls)) = remove_char " " (join_all ls)
  ∧ Forall (λ t, occurs " " t = false) (concat (map (Py.split_on " ") ls)).
Proof.
  induction ls as [|l ls (IH1 & IH2 & IH3)]; [done|].
  cbn [map concat]. split; [|split].
  - rewrite length_app, Nat2Z.inj_add, IH1, split_on_length.
    unfold join_all. simpl. rewrite count_char_app. simpl length. lia.
  - rewrite join_all_app, IH2, split_on_join.
    unfold join_all. simpl. by rewrite remove_char_app.
  - apply Forall_app. split; [apply split_on_no_sep|done].
Qed.

Lemma open_directory_raises w p wr ap bin :
  os.path_isdir w p = true →
  FileIO.open p wr ap bin w = (Raise not_a_directory, w).
Proof.
  intros H. unfold FileIO.open, FileIO._raise_error_if_directory,
    FileCheck.is_directory, bind, query, throw. by rewrite H.
Qed.

Lemma with_open_directory {A} w p wr ap bin (body : file_object → M A) :
  os.path_isdir w p = true →
  io.with_ (FileIO.open p wr ap bin) body w = (Raise not_a_directory, w).
Proof.
  intros H. unfold io.with_, bind. by rewrite open_directory_raises.
Qed.

(** Iterating over a file opened for reading, in a [with] statement. *)
Lemma with_readlines_run {A} w p q data (g : list string → A) :
  resolve w true p = Found q → get (root w) q = Some (File data) →
  io.with_ (FileIO.open p false false false)
    (λ file, let* ls := io.readlines file in ret (g ls)) w
  = (Ok (g (io.lines_of (io.universal_newlines data))), w).
Proof.
  intros Hq Hd.
  assert (os.path_isfile w p = true) as Hf by (apply path_isfile_true; eauto).
  unfold io.with_, bind, FileIO.open, FileIO._raise_error_if_directory,
    FileCheck.is_directory, bind, query, ret.
  rewrite (isfile_not_isdir _ _ Hf).
  unfold io.open_. rewrite Hq, Hd. simpl.
  unfold io.readlines, bind, io.read. rewrite is_open_head. simpl.
  unfold io.content. simpl. rewrite Hd. unfold ret. simpl. close_last.
Qed.

Lemma lines_run w p q data :
  resolve w true p = Found q → get (root w) q = Some (File data) →
  FileTransform.lines p w
  = (Ok (Some (io.lines_of (io.universal_newlines data))), w).
Proof.
  intros Hq Hd.
  assert (os.path_exists w p = true) as He
    by (apply isfile_exists, path_isfile_true; eauto).
  unfold FileTransform.lines, FileCheck.exists_, bind at 1, query. rewrite He.
  by rewrite (with_readlines_run w p q data Some).
Qed.

Lemma words_run w p q data :
  resolve w true p = Found q → get (root w) q = Some (File data) →
  FileTransform.words p w
  = (Ok (Some (concat (map (Py.split_on " ")
                         (io.lines_of (io.universal_newlines data))))), w).
Proof.
  intros Hq Hd.
  assert (os.path_exists w p = true) as He
    by (apply isfile_exists, path_isfile_true; eauto).
  unfold FileTransform.words, FileCheck.exists_, bind at 1, query. rewrite He.
  rewrite (with_readlines_run w p q data
             (λ ls, Some (fold_left (λ output line, output ++ Py.split_on " " line) ls [])))
    by done.
  by rewrite words_loop.
Qed.

Lemma lines_missing w p :
  os.path_exists w p = false → FileTransform.lines p w = (Ok None, w).
Proof.
  intros He. unfold FileTransform.lines, FileCheck.exists_, bind, query, ret.
  by rewrite He.
Qed.

Lemma words_missing w p :
  os.path_exists w p = false → FileTransform.words p w = (Ok None, w).
Proof.
  intros He. unfold FileTransform.words, FileCheck.exists_, bind, query, ret.
  by rewrite He.
Qed.

Lemma raise_error_if_directory_run w p :
  FileIO._raise_error_if_directory p w
  = if os.path_isdir w p then (Raise not_a_directory, w) else (Ok tt, w).
Proof.
  unfold FileIO._raise_error_if_directory, FileCheck.is_directory, bind, query.
  by destruct (os.path_isdir w p).
Qed.

Lemma read_not_file w p :
  os.path_isfile w p = false → FileIO.read p w = (Ok None, w).
Proof.
  intros H. unfold FileIO.read, FileCheck.is_file, bind, query, ret. by rewrite H.
Qed.

(** [FileTransform.lines] returns [None] for a path that does not exist
    and raises for a directory.  For a file it returns the lines of the
    text, the line ends [\r\n] and [\r] read as [\n], and leaves the
    state as it was: the lines put together are the text, each is
    characters that are no line feed followed by a line feed, the last
    one maybe without, and none is empty. *)
Theorem lines_of_a_file (w : world) (full_path : string) :
  (os.path_exists w full_path = false →
     FileTransform.lines full_path w = (Ok None, w))
  ∧ (os.path_isdir w full_path = true →
       FileTransform.lines full_path w = (Raise not_a_directory, w))
  ∧ (∀ q data,
       resolve w true full_path = Found q →
       get (root w) q = Some (File data) →
       ∃ ls, FileTransform.lines full_path w = (Ok (Some ls), w)
             ∧ join_all ls = io.universal_newlines data
             ∧ Forall is_line ls
             ∧ ∀ i l, ls !! i = Some l → (S i < length ls)%nat →
                      Py.endswith l Py.LF = true).
Proof.
  split; [|split].
  - apply lines_missing.
  - intros Hd. unfold FileTransform.lines, FileCheck.exists_, bind at 1, query.
    rewrite (isdir_exists _ _ Hd). by apply with_open_directory.
  - intros q data Hq Hd. eexists. split; [by apply (lines_run w _ q data)|].
    split; [apply lines_of_join|]. split; [apply lines_of_is_line|].
    apply lines_of_ends.
Qed.

Lemma lines_of_a_file_witness :
  ∃ ls, FileTransform.lines "/notes.txt" world_foo = (Ok (Some ls), world_foo)
        ∧ Forall is_line ls.
Proof.
  destruct (proj2 (proj2 (lines_of_a_file world_foo "/notes.txt"))
              ["notes.txt"] _ eq_refl eq_refl) as (ls & H & _ & Hl & _).
  by exists ls.
Defined.

(** [FileTransform.words] splits every line at its single spaces: the
    words hold no space, put together they are the text without its
    spaces (tabs and line ends stay in the words), and there are as many
    as there are lines and spaces. *)
Theorem words_of_a_file (w : world) (full_path : string) :
  (os.path_exists w full_path = false →
     FileTransform.words full_path w = (Ok None, w))
  ∧ (os.path_isdir w full_path = true →
       FileTransform.words full_path w = (Raise not_a_directory, w))
  ∧ (∀ q data,
       resolve w true full_path = Found q →
       get (root w) q = Some (File data) →
       ∃ ws, FileTransform.words full_path w = (Ok (Some ws), w)
             ∧ join_all ws = remove_char " " (io.universal_newlines data)
             ∧ Forall (λ t, occurs " " t = false) ws
             ∧ Z.of_nat (length ws)
               = line_count (io.universal_newlines data)
                 + count_char " " (io.universal_newlines data)).
Proof.
  split; [|split].
  - apply words_missing.
  - intros Hd. unfold FileTransform.words, FileCheck.exists_, bind at 1, query.
    rewrite (isdir_exists _ _ Hd). by apply with_open_directory.
  - intros q data Hq Hd. eexists. split; [by apply (words_run w _ q data)|].
    destruct (words_of_lines (io.lines_of (io.universal_newlines data)))
      as (H1 & H2 & H3).
    rewrite lines_of_join in H1, H2. rewrite lines_of_length in H1. done.
Qed.

Lemma words_of_a_file_witness :
  ∃ ws, FileTransform.words "/notes.txt" world_foo = (Ok (Some ws), world_foo)
        ∧ Z.of_nat (length ws) = 4.
Proof.
  destruct (proj2 (proj2 (words_of_a_file world_foo "/notes.txt"))
              ["notes.txt"] _ eq_refl eq_refl) as (ws & H & _ & _ & Hl).
  exists ws. split; [exact H|]. rewrite Hl. reflexivity.
Defined.

Lemma characters_run w p q data :
  resolve w true p = Found q → get (root w) q = Some (File data) →
  FileCount.characters p w = (Ok (Some (Py.len (io.universal_newlines data))), w).
Proof.
  intros Hq Hd.
  assert (os.path_exists w p = true) as He
    by (apply isfile_exists, path_isfile_true; eauto).
  unfold FileCount.characters, FileCheck.exists_, bind at 1, query. rewrite He.
  rewrite (with_readlines_run w p q data
             (λ ls, Some (fold_left (λ count line, count + Py.len line) ls 0)))
    by done.
  by rewrite sum_len_lines, lines_of_join.
Qed.

(** [FileCount.characters] returns the length of the text as it is
    read, a line end [\r\n] counting for one character: [0] for an empty
    file, [None] for a path that does not exist; it raises for a
    directory. *)
Theorem characters_of_a_file (w : world) (full_path : string) :
  (os.path_exists w full_path = false →
     FileCount.characters full_path w = (Ok None, w))
  ∧ (os.path_isdir w full_path = true →
       FileCount.characters full_path w = (Raise not_a_directory, w))
  ∧ (∀ q data,
       resolve w true full_path = Found q →
       get (root w) q = Some (File data) →
       FileCount.characters full_path w
       = (Ok (Some (Py.len (io.universal_newlines data))), w)
       ∧ (occurs Py.CR data = false →
          FileCount.characters full_path w = (Ok (Some (Py.len data)), w))).
Proof.
  split; [|split].
  - intros He. unfold FileCount.characters, FileCheck.exists_, bind, query, ret.
    by rewrite He.
  - intros Hd. unfold FileCount.characters, FileCheck.exists_, bind at 1, query.
    rewrite (isdir_exists _ _ Hd). by apply with_open_directory.
  - intros q data Hq Hd. rewrite (characters_run w _ q data) by done.
    split; [done|]. intros Hcr. by rewrite universal_newlines_id.
Qed.

Lemma characters_of_a_file_witness :
  FileCount.characters "/notes.txt" world_foo = (Ok (Some 16), world_foo).
Proof.
  apply (proj2 (proj2 (characters_of_a_file world_foo "/notes.txt"))
           ["notes.txt"] _ eq_refl eq_refl). reflexivity.
Defined.

Lemma concat_split_nil ls :
  concat (map (Py.split_on " ") ls) = [] → ls = [].
Proof.
  destruct ls as [|l ls]; [done|]. simpl.
  pose proof (split_on_not_nil " " l). by destruct (Py.split_on " " l).
Qed.

(** [FileCount.lines] and [FileCount.words] return the numbers of lines
    and of words of a file that is not empty; for an empty file they
    return [None], as for a path that does not exist, where
    [FileCount.characters] returns [0]. *)
Theorem count_lines_and_words (w : world) (full_path : string) :
  (os.path_exists w full_path = false →
     FileCount.lines full_path w = (Ok None, w)
     ∧ FileCount.words full_path w = (Ok None, w))
  ∧ (∀ q data,
       resolve w true full_path = Found q →
       get (root w) q = Some (File data) →
       let t := io.universal_newlines data in
       FileCount.lines full_path w
       = (Ok (if truthy data then Some (line_count t) else None), w)
       ∧ FileCount.words full_path w
         = (Ok (if truthy data then Some (line_count t + count_char " " t) else None), w)
       ∧ (data = "" →
            FileCount.characters full_path w = (Ok (Some 0), w))).
Proof.
  split.
  - intros He. unfold FileCount.lines, FileCount.words, bind.
    by rewrite lines_missing, words_missing.
  - intros q data Hq Hd t.
    assert (truthy data = truthy t) as Ht.
    { unfold t, truthy. destruct data as [|c r]; [done|]. simpl.
      by destruct (Py.ch_eqb c Py.CR). }
    unfold FileCount.lines, FileCount.words, bind.
    rewrite (lines_run w _ q data), (words_run w _ q data) by done.
    unfold ret. fold t.
    pose proof (lines_of_length t) as Hlen.
    destruct (words_of_lines (io.lines_of t)) as (Hw & _ & _).
    rewrite lines_of_join, Hlen in Hw.
    split; [|split].
    + destruct (io.lines_of t) as [|l ls] eqn:E.
      * apply lines_of_nil in E. rewrite Ht, E. done.
      * assert (truthy t = true) as Htt.
        { unfold truthy. apply negb_true_iff, str_eqb_neq. intros Hn.
          apply lines_of_nil in Hn. congruence. }
        rewrite Ht, Htt. unfold FileCount.count_or_none. by rewrite Hlen.
    + destruct (concat (map (Py.split_on " ") (io.lines_of t))) as [|x r] eqn:E.
      * apply concat_split_nil, lines_of_nil in E. rewrite Ht, E. done.
      * assert (truthy t = true) as Htt.
        { unfold truthy. apply negb_true_iff, str_eqb_neq. intros Hn.
          rewrite Hn in E. done. }
        rewrite Ht, Htt. unfold FileCount.count_or_none. by rewrite Hw.
    + intros ->. by rewrite (characters_run w _ q "").
Qed.

Lemma count_lines_and_words_witness :
  FileCount.lines "/notes.txt" world_foo = (Ok (Some 3), world_foo)
  ∧ FileCount.words "/notes.txt" world_foo = (Ok (Some 4), world_foo).
Proof.
  destruct (proj2 (count_lines_and_words world_foo "/notes.txt")
              ["notes.txt"] _ eq_refl eq_refl) as (H1 & H2 & _).
  split; [exact H1|exact H2].
Defined.

(* ================================================================== *)
(** * [FileIO]: what [save], [touch], [read], [delete] and [copy] do *)
(* ================================================================== *)

(** Writing an entry that is no directory keeps every other file. *)
Lemma file_frame_put t d n x es q0 d0 :
  get t d = Some (Dir es) → (∀ es', get t (d ++ [n]) ≠ Some (Dir es')) →
  q0 ≠ d ++ [n] → get t q0 = Some (File d0) →
  get (put t d n x) q0 = Some (File d0).
Proof.
  intros Hd Hn Hq0 Hf. rewrite get_put_other; [done| |].
  - intros [r ->]. destruct r as [|c r].
    + rewrite app_nil_r in Hd. congruence.
    + rewrite (get_below_not_dir t q0 (c :: r)) in Hd; [done|done|].
      intros es'. congruence.
  - intros [r ->]. destruct r as [|c r].
    + by rewrite app_nil_r in Hq0.
    + rewrite (get_below_not_dir t (d ++ [n]) (c :: r)) in Hf; done.
Qed.

Lemma failed_not_exists w p e :
  resolve w true p = Failed e →
  os.path_exists w p = false ∧ os.path_isdir w p = false.
Proof.
  intros H. unfold os.path_exists, os.path_isdir, os.stat_kind. by rewrite H.
Qed.

(** [save] without a file to write to: the error of [open]. *)
Lemma save_open_fails w p text ow e :
  os.path_exists w p = false → os.path_isdir w p = false →
  io.open_ p mode_w w = (Raise e, w) →
  FileIO.save p text ow w = (Raise e, w).
Proof.
  intros He Hd Ho. unfold FileIO.save, FileCheck.exists_, bind at 1, query.
  rewrite He, andb_false_r.
  unfold io.with_, bind, FileIO.open, FileIO._raise_error_if_directory,
    FileCheck.is_directory, bind, query, ret.
  by rewrite Hd, Ho.
Qed.

Lemma save_directory_raises w p text :
  os.path_isdir w p = true →
  FileIO.save p text true w = (Raise not_a_directory, w).
Proof.
  intros Hd. unfold FileIO.save, FileCheck.exists_, bind at 1, query.
  cbn [negb andb]. by apply with_open_directory.
Qed.

Lemma resolve_absent_dir w p follow d n s :
  resolve w follow p = Absent d n s →
  lkind (root w) d = Some KDir ∧ lkind (root w) (d ++ [n]) = None.
Proof.
  unfold resolve. destruct (Py.str_eqb p ""); [done|].
  apply namei_Absent_inv.
Qed.

Lemma save_cases w full_path text overwrite :
  (∃ e, FileIO.save full_path text overwrite w = (Raise e, w))
  ∨ (∃ w' q,
       FileIO.save full_path text overwrite w = (Ok tt, w')
       ∧ resolve w' true full_path = Found q
       ∧ get (root w') q = Some (File text)
       ∧ (∀ q0 d0, q0 ≠ q → get (root w) q0 = Some (File d0) →
                   get (root w') q0 = Some (File d0))
       ∧ open_files w' = open_files w ∧ cwd w' = cwd w).
Proof.
  destruct (resolve w true full_path) as [q|d n s|e] eqn:Hr.
  - destruct (resolve_follow_kind _ _ _ Hr) as [[Hk Hq]|Hk].
    + apply lkind_file in Hk as [data Hd].
      destruct overwrite.
      * right. apply not_nil_snoc in Hq as (d & n & ->).
        destruct (get_parent_dir _ _ _ _ Hd) as [es Hes].
        exists (set_root w (put (root w) d n (File text))), (d ++ [n]).
        split.
        { rewrite (save_overwrite_run w full_path text (d ++ [n]) data) by done.
          by rewrite put_at_snoc. }
        split.
        { rewrite resolve_ext; [done|]. intros q0. apply lkind_put_file.
          unfold lkind. by rewrite Hd. }
        split; [apply get_put_here; unfold lkind; by rewrite Hes|].
        split; [|done].
        intros q0 d0 Hq0 Hf. apply (file_frame_put _ _ _ _ es); try done.
        intros es'. congruence.
      * left. eexists. apply save_exists_raises.
        apply path_exists_true. exists q, KFile. unfold lkind. by rewrite Hd.
    + assert (os.path_isdir w full_path = true) as Hdir
        by (apply path_isdir_true; eauto).
      left. destruct overwrite.
      * eexists. by apply save_directory_raises.
      * eexists. apply save_exists_raises. by apply isdir_exists.
  - destruct (resolve_absent_dir _ _ _ _ _ _ Hr) as [Hd Hn].
    destruct s.
    + left. exists (OSError EISDIR). apply save_open_fails.
      * by apply (absent_not_exists _ _ d n true).
      * by apply (absent_not_isdir _ _ d n true).
      * unfold io.open_. by rewrite Hr.
    + right. exists (set_root w (put (root w) d n (File text))), (d ++ [n]).
      split; [by apply save_new_run|]. split.
      { rewrite (resolve_created w _ true d n false (File text));
          [done|done|by intros [|]|by left]. }
      split; [by apply get_put_here|]. split; [|done].
      apply lkind_dir in Hd as [es Hes].
      intros q0 d0 Hq0 Hf. apply (file_frame_put _ _ _ _ es); try done.
      intros es' Hes'. unfold lkind in Hn. by rewrite Hes' in Hn.
  - left. exists (OSError e). destruct (failed_not_exists _ _ _ Hr).
    apply save_open_fails; [done|done|]. unfold io.open_. by rewrite Hr.
Qed.

(** [save] raises and changes nothing, or returns, and then the path
    names a file that holds the text, which [read] returns with its line
    ends translated; every other file has the content it had, and no
    file object stays open. *)
Theorem save_outcome (w : world) (full_path text : string) (overwrite : bool) :
  (∃ e, FileIO.save full_path text overwrite w = (Raise e, w))
  ∨ (∃ w' q,
       FileIO.save full_path text overwrite w = (Ok tt, w')
       ∧ resolve w' true full_path = Found q
       ∧ get (root w') q = Some (File text)
       ∧ FileIO.read full_path w' = (Ok (Some (io.universal_newlines text)), w')
       ∧ (∀ q0 d0, q0 ≠ q → get (root w) q0 = Some (File d0) →
                   get (root w') q0 = Some (File d0))
       ∧ open_files w' = open_files w).
Proof.
  destruct (save_cases w full_path text overwrite)
    as [?|(w' & q & Hs & Hr & Hg & Hframe & Ho & _)]; [by left|].
  right. exists w', q. split; [done|]. split; [done|]. split; [done|].
  split; [by apply (read_run w' _ q text)|]. by split.
Qed.

(** [touch] makes an empty file of a path whose last component is
    missing; on a path that exists it raises without [overwrite], and
    with [overwrite] it empties the file: in both cases where it returns,
    [read] then gives the empty text. *)
Theorem touch_outcome (w : world) (full_path : string) :
  (os.path_exists w full_path = true →
     FileIO.touch full_path false w = (Raise already_exists, w))
  ∧ (∀ q data,
       resolve w true full_path = Found q →
       get (root w) q = Some (File data) →
       ∃ w', FileIO.touch full_path true w = (Ok tt, w')
             ∧ get (root w') q = Some (File "")
             ∧ FileIO.read full_path w' = (Ok (Some ""), w'))
  ∧ (∀ d n overwrite,
       resolve w true full_path = Absent d n false →
       ∃ w', FileIO.touch full_path overwrite w = (Ok tt, w')
             ∧ get (root w') (d ++ [n]) = Some (File "")
             ∧ FileIO.read full_path w' = (Ok (Some ""), w')).
Proof.
  unfold FileIO.touch. split; [|split].
  - apply save_exists_raises.
  - intros q data Hq Hd.
    destruct (resolve_file_snoc _ _ _ _ Hq Hd) as (d & n & ->).
    destruct (get_parent_dir _ _ _ _ Hd) as [es Hes].
    destruct (save_overwrite_then_read w full_path "" _ data Hq Hd) as (w' & Hs & Hread).
    exists w'. split; [done|]. split; [|done].
    rewrite (save_overwrite_run w full_path "" (d ++ [n]) data) in Hs by done.
    injection Hs as <-. rewrite put_at_snoc. apply get_put_here.
    unfold lkind. by rewrite Hes.
  - intros d n overwrite Hr.
    destruct (resolve_absent_dir _ _ _ _ _ _ Hr) as [Hd _].
    eexists. split; [by apply save_new_run|].
    split; [by apply get_put_here|]. by apply (read_after_save_new w full_path "").
Qed.

Lemma touch_outcome_witness :
  ∃ w', FileIO.touch "/notes.txt" true world_foo = (Ok tt, w')
        ∧ FileIO.read "/notes.txt" w' = (Ok (Some ""), w').
Proof.
  destruct (proj1 (proj2 (touch_outcome world_foo "/notes.txt"))
              ["notes.txt"] _ eq_refl eq_refl) as (w' & H1 & _ & H2).
  by exists w'.
Defined.

(** [read], and [text] with it, never raises and changes nothing: it
    returns [None] for whatever is no file, a directory too, and for a
    file the text with its line ends translated. *)
Theorem read_outcome (w : world) (full_path : string) :
  FileIO.text full_path w = FileIO.read full_path w
  ∧ (os.path_isfile w full_path = false →
       FileIO.read full_path w = (Ok None, w))
  ∧ (∀ q data,
       resolve w true full_path = Found q →
       get (root w) q = Some (File data) →
       FileIO.read full_path w = (Ok (Some (io.universal_newlines data)), w))
  ∧ ∃ r, FileIO.read full_path w = (Ok r, w).
Proof.
  split; [done|]. split; [apply read_not_file|]. split; [apply read_run|].
  destruct (os.path_isfile w full_path) eqn:Hf.
  - apply path_isfile_true in Hf as (q & data & Hq & Hd).
    eexists. by apply (read_run w _ q data).
  - eexists. by apply read_not_file.
Qed.

Lemma read_outcome_witness :
  FileIO.read "/dir" world_dir = (Ok None, world_dir)
  ∧ FileIO.read "/dir/a.txt" world_dir = (Ok (Some "A"), world_dir).
Proof.
  split.
  - apply (proj1 (proj2 (read_outcome world_dir "/dir"))). reflexivity.
  - apply (proj1 (proj2 (proj2 (read_outcome world_dir "/dir/a.txt")))
             ["dir"; "a.txt"] "A"); reflexivity.
Defined.

(** ** [FileIO.delete] *)

Lemma walk_comps_nofollow_snoc lk expand expand' cur comps :
  (∀ c cs, expand' c cs = expand c cs
           ∨ ∃ d n t, expand' c cs = Found (d ++ [n]) ∧ lk (d ++ [n]) = Some (KLink t)) →
  walk_comps lk expand' false cur comps = walk_comps lk expand true cur comps
  ∨ ∃ d n t, walk_comps lk expand' false cur comps = Found (d ++ [n])
             ∧ lk (d ++ [n]) = Some (KLink t).
Proof.
  intros Hex. revert cur. induction comps as [|c rest IH]; intros cur; simpl; [by left|].
  destruct (lk cur) as [[]|]; try by left.
  destruct (is_dot c); [apply IH|].
  destruct (Py.str_eqb c ".."); [apply IH|].
  destruct (lk (cur ++ [c])) as [[]|] eqn:Ec; try apply IH; try by left.
  destruct rest as [|c' rest]; simpl.
  - right. eauto.
  - destruct (Py.str_eqb target ""); [by left|]. apply Hex.
Qed.

Lemma namei_nofollow_snoc lk fuel cur comps :
  namei lk fuel false cur comps = namei lk fuel true cur comps
  ∨ ∃ d n t, namei lk fuel false cur comps = Found (d ++ [n])
             ∧ lk (d ++ [n]) = Some (KLink t).
Proof.
  revert cur comps. induction fuel as [|f IH]; intros cur comps;
    rewrite !namei_unfold; apply walk_comps_nofollow_snoc; [by left|apply IH].
Qed.

(** A path that is a link names an entry of a directory. *)
Lemma resolve_link w p :
  os.path_islink w p = true →
  ∃ d n t, resolve w false p = Found (d ++ [n])
           ∧ lkind (root w) (d ++ [n]) = Some (KLink t).
Proof.
  unfold os.path_islink, os.stat_kind. intros H.
  destruct (resolve w false p) as [q| |] eqn:Hq; try done.
  destruct (lkind (root w) q) as [[| |t]|] eqn:Hk; try done.
  pose proof Hq as Hq'. unfold resolve in Hq'.
  destruct (Py.str_eqb p "") eqn:Hp; [done|].
  destruct (namei_nofollow_snoc (lkind (root w)) MAXSYMLINKS
              (if Py.startswith p Py.sep then [] else cwd w)
              (Py.split_on Py.sep p)) as [E|(d & n & t' & E & Hl)].
  - rewrite E in Hq'.
    assert (resolve w true p = Found q) as Hf by (unfold resolve; by rewrite Hp).
    destruct (resolve_follow_kind _ _ _ Hf) as [[? _]|?]; congruence.
  - rewrite E in Hq'. injection Hq' as <-. eauto.
Qed.

Lemma remove_link_run w p d n t :
  resolve w false p = Found (d ++ [n]) →
  lkind (root w) (d ++ [n]) = Some (KLink t) →
  os.remove p w = (Ok tt, set_root w (del (root w) d n)).
Proof.
  intros Hq Hk. unfold os.remove. by rewrite Hq, Hk, del_at_snoc.
Qed.

(** [FileIO.delete] raises for a directory and does nothing for a path
    that does not exist, a link that leads nowhere included.  For a file
    it removes the entry the path names and returns: the file itself,
    after which the path does not exist, or, when the path is a link to
    the file, the link, the file staying as it is. *)
Theorem FileIO_delete_outcome (w : world) (full_path : string) :
  (os.path_isdir w full_path = true →
     FileIO.delete full_path w = (Raise not_a_directory, w))
  ∧ (os.path_exists w full_path = false →
       FileIO.delete full_path w = (Ok tt, w))
  ∧ (os.path_isfile w full_path = true →
       ∃ d n,
         resolve w false full_path = Found (d ++ [n])
         ∧ FileIO.delete full_path w = (Ok tt, set_root w (del (root w) d n))
         ∧ get (del (root w) d n) (d ++ [n]) = None
         ∧ (os.path_islink w full_path = false →
              os.path_exists (set_root w (del (root w) d n)) full_path = false)
         ∧ (os.path_islink w full_path = true →
              ∀ q data,
                resolve w true full_path = Found q →
                get (root w) q = Some (File data) →
                get (del (root w) d n) q = Some (File data))).
Proof.
  split; [|split].
  - intros Hd. unfold FileIO.delete, FileIO._raise_error_if_directory,
      FileCheck.is_directory, bind, query, throw. by rewrite Hd.
  - intros He.
    assert (os.path_isdir w full_path = false) as Hd.
    { destruct (os.path_isdir w full_path) eqn:E; [|done].
      apply isdir_exists in E. congruence. }
    unfold FileIO.delete, FileIO._raise_error_if_directory,
      FileCheck.is_directory, FileCheck.exists_, bind, query, ret.
    by rewrite Hd, He.
  - intros Hf. pose proof (isfile_not_isdir _ _ Hf) as Hd.
    pose proof (isfile_exists _ _ Hf) as He.
    pose proof Hf as Hf'. apply path_isfile_true in Hf' as (q & data & Hq & Hdata).
    assert (∀ d n, get (del (root w) d n) (d ++ [n]) = None) as Hgone.
    { intros d n. pose proof (lkind_del_gone (root w) d n) as H.
      unfold lkind in H. by destruct (get (del (root w) d n) (d ++ [n])). }
    destruct (os.path_islink w full_path) eqn:Hl.
    + destruct (resolve_link _ _ Hl) as (d & n & t & Hr & Hk).
      exists d, n. split; [done|]. split.
      { unfold FileIO.delete, FileIO._raise_error_if_directory,
          FileCheck.is_directory, FileCheck.exists_, bind, query, ret.
        rewrite Hd, He. by apply (remove_link_run w _ d n t). }
      split; [done|]. split; [done|]. intros _ q' data' Hq' Hdata'.
      apply lkind_link in Hk as Hlink.
      destruct (get_parent_dir _ _ _ _ Hlink) as [es Hes].
      rewrite get_del_other; [done| |].
      * intros [r ->]. destruct r as [|c r].
        { rewrite app_nil_r in Hes. congruence. }
        rewrite (get_below_not_dir (root w) q' (c :: r)) in Hes; [done|done|].
        intros es'. congruence.
      * intros [r ->]. destruct r as [|c r].
        { rewrite app_nil_r in Hdata'. congruence. }
        rewrite (get_below_not_dir (root w) (d ++ [n]) (c :: r)) in Hdata';
          [done|done|]. intros es'. congruence.
    + destruct (resolve_file_snoc _ _ _ _ Hq Hdata) as (d & n & ->).
      assert (lkind (root w) (d ++ [n]) = Some KFile) as Hk
        by (unfold lkind; by rewrite Hdata).
      pose proof (resolve_nofollow _ _ Hl) as Hnf. rewrite Hq in Hnf.
      exists d, n. split; [done|].
      split; [by apply FileIO_delete_file_run|]. split; [done|].
      split; [|done]. intros _.
      apply (absent_not_exists _ _ d n false). by apply resolve_removed_file.
Qed.

Lemma FileIO_delete_outcome_witness :
  FileIO.delete "/d/l" world_links
  = (Ok tt, set_root world_links (del (root world_links) ["d"] "l"))
  ∧ get (del (root world_links) ["d"] "l") ["d"; "f.txt"] = Some (File "data")
  ∧ FileIO.delete "/d/dangling" world_links = (Ok tt, world_links).
Proof.
  destruct (proj2 (proj2 (FileIO_delete_outcome world_links "/d/l")) eq_refl)
    as (d & n & Hr & Hdel & _ & _ & Hkeep).
  vm_compute in Hr. injection Hr as Hdn.
  assert (d = ["d"] ∧ n = "l") as [-> ->].
  { destruct d as [|a [|b d]]; simplify_eq. done. }
  split; [exact Hdel|]. split.
  - apply (Hkeep eq_refl ["d"; "f.txt"] "data"); reflexivity.
  - apply (proj1 (proj2 (FileIO_delete_outcome world_links "/d/dangling"))).
    reflexivity.
Defined.

(** ** [FileIO.copy] *)

(** Past its checks, [copy] is [read] followed by [save]. *)
Lemma copy_run w donor recipient ow q data :
  resolve w true donor = Found q → get (root w) q = Some (File data) →
  os.path_isdir w recipient = false →
  negb ow && os.path_exists w recipient = false →
  FileIO.copy donor recipient ow w
  = match FileIO.save recipient (io.universal_newlines data) ow w with
    | (Ok _, w') => (Ok true, w')
    | (Raise e, w') => (Raise e, w')
    end.
Proof.
  intros Hq Hd Hrd Hre.
  assert (os.path_isfile w donor = true) as Hf by (apply path_isfile_true; eauto).
  unfold FileIO.copy, FileCheck.is_directory, FileCheck.exists_, query.
  unfold bind at 1. rewrite (isfile_not_isdir _ _ Hf).
  unfold bind at 1. rewrite Hrd.
  unfold bind at 1. rewrite (isfile_exists _ _ Hf). cbn [negb].
  unfold bind at 1. rewrite Hre.
  unfold bind at 1. rewrite (read_run w donor q data) by done.
  unfold bind, ret.
  by destruct (FileIO.save recipient (io.universal_newlines data) ow w) as [[|] ?].
Qed.

(** [copy] raises, the state unchanged, when the donor or the recipient
    is a directory, when the donor does not exist, and when the
    recipient exists and [overwrite] is not set.  For a donor that is a
    file it raises and changes nothing, or returns [True], and then the
    recipient is a file that holds the text of the donor as [read] gives
    it, its line ends [\r\n] and [\r] turned into [\n], while every
    other file, the donor with them, has the content it had. *)
Theorem copy_outcome (w : world) (donor_path recipient_path : string)
    (overwrite : bool) :
  (os.path_isdir w donor_path = true →
     FileIO.copy donor_path recipient_path overwrite w
     = (Raise (ValueError "The donor path cannot be a folder"), w))
  ∧ (os.path_isdir w donor_path = false →
     os.path_isdir w recipient_path = true →
       FileIO.copy donor_path recipient_path overwrite w
       = (Raise (ValueError "The recipient path cannot be a folder"), w))
  ∧ (os.path_exists w donor_path = false →
     os.path_isdir w recipient_path = false →
       FileIO.copy donor_path recipient_path overwrite w
       = (Raise (IOError "The given donor path does not exist"), w))
  ∧ (os.path_isfile w donor_path = true →
     os.path_isfile w recipient_path = true →
       FileIO.copy donor_path recipient_path false w
       = (Raise (IOError "The given recipient path already exists"), w))
  ∧ (∀ q data,
       resolve w true donor_path = Found q →
       get (root w) q = Some (File data) →
       (∃ e, FileIO.copy donor_path recipient_path overwrite w = (Raise e, w))
       ∨ (∃ w' q',
            FileIO.copy donor_path recipient_path overwrite w = (Ok true, w')
            ∧ resolve w' true recipient_path = Found q'
            ∧ get (root w') q' = Some (File (io.universal_newlines data))
            ∧ (∀ q0 d0, q0 ≠ q' → get (root w) q0 = Some (File d0) →
                        get (root w') q0 = Some (File d0)))).
Proof.
  split; [|split; [|split; [|split]]].
  - intros Hd. unfold FileIO.copy, FileCheck.is_directory, bind, query, throw.
    by rewrite Hd.
  - intros Hd Hr. unfold FileIO.copy, FileCheck.is_directory, bind, query, throw.
    by rewrite Hd, Hr.
  - intros He Hr.
    assert (os.path_isdir w donor_path = false) as Hd.
    { destruct (os.path_isdir w donor_path) eqn:E; [|done].
      apply isdir_exists in E. congruence. }
    unfold FileIO.copy, FileCheck.is_directory, FileCheck.exists_, bind, query, throw.
    by rewrite Hd, Hr, He.
  - intros Hf Hr.
    unfold FileIO.copy, FileCheck.is_directory, FileCheck.exists_, bind, query, throw.
    rewrite (isfile_not_isdir _ _ Hf), (isfile_not_isdir _ _ Hr).
    rewrite (isfile_exists _ _ Hf). cbn [negb].
    by rewrite (isfile_exists _ _ Hr).
  - intros q data Hq Hd.
    assert (os.path_isfile w donor_path = true) as Hf
      by (apply path_isfile_true; eauto).
    destruct (os.path_isdir w recipient_path) eqn:Hrd.
    { left. eexists.
      unfold FileIO.copy, FileCheck.is_directory, bind, query, throw.
      by rewrite (isfile_not_isdir _ _ Hf), Hrd. }
    destruct (negb overwrite && os.path_exists w recipient_path) eqn:Hre.
    { left. eexists.
      unfold FileIO.copy, FileCheck.is_directory, FileCheck.exists_, bind, query, throw.
      rewrite (isfile_not_isdir _ _ Hf), Hrd, (isfile_exists _ _ Hf). cbn [negb].
      by rewrite Hre. }
    rewrite (copy_run w _ _ _ q data) by done.
    destruct (save_cases w recipient_path (io.universal_newlines data) overwrite)
      as [[e He]|(w' & q' & Hs & Hr & Hg & Hframe & _)].
    + left. exists e. by rewrite He.
    + right. exists w', q'. by rewrite Hs.
Qed.

Lemma copy_outcome_witness :
  ∃ w', FileIO.copy "/dos.txt" "/copy.txt" false world_crlf = (Ok true, w')
        ∧ get (root w') ["copy.txt"] = Some (File ("a" +:+ String Py.LF ""))
        ∧ get (root w') ["dos.txt"]
          = Some (File ("a" +:+ String Py.CR (String Py.LF ""))).
Proof.
  destruct (proj2 (proj2 (proj2 (proj2
              (copy_outcome world_crlf "/dos.txt" "/copy.txt" false))))
              ["dos.txt"] _ eq_refl eq_refl)
    as [[e He]|(w' & q' & Hc & Hr & Hg & Hframe)].
  - vm_compute in He. discriminate He.
  - exists w'. split; [exact Hc|].
    vm_compute in Hc. injection Hc as <-. split; reflexivity.
Defined.

(* ================================================================== *)
(** * [FileCheck.has_quarry] *)
(* ================================================================== *)

Lemma str_startswith_spec s a :
  str_startswith s a = true ↔ ∃ v, s = a +:+ v.
Proof.
  revert s. induction a as [|x a IH]; intros s; simpl.
  - split; [intros _; by exists s|done].
  - destruct s as [|y s].
    + split; [done|]. intros [v ?]. discriminate.
    + rewrite andb_true_iff, IH. split.
      * intros [->%ch_eqb_eq [v ->]]. by exists v.
      * intros [v [= -> ->]]. split; [by apply ch_eqb_eq|by exists v].
Qed.

Lemma str_in_spec a s :
  str_in a s = true ↔ ∃ u v, s = u +:+ a +:+ v.
Proof.
  induction s as [|y s IH]; simpl.
  - rewrite orb_false_r, str_startswith_spec. split.
    + intros [v ->]. by exists "", v.
    + intros (u & v & H). destruct u; [by exists v|done].
  - rewrite orb_true_iff, str_startswith_spec, IH. split.
    + intros [[v ->]|(u & v & ->)]; [by exists "", v|by exists (String y u), v].
    + intros (u & v & H). destruct u as [|x u].
      * left. by exists v.
      * right. injection H as -> ->. by exists u, v.
Qed.

Lemma universal_newlines_no_CR s : occurs Py.CR (io.universal_newlines s) = false.
Proof.
  assert (∀ n s, (String.length s ≤ n)%nat →
            occurs Py.CR (io.universal_newlines s) = false) as H.
  { clear s. induction n as [|n IH]; intros [|c r] Hn; simpl in *; try done; [lia|].
    destruct (Py.ch_eqb c Py.CR) eqn:Ec; simpl.
    - destruct r as [|c' r']; [done|].
      destruct (Py.ch_eqb c' Py.LF); apply IH; simpl in *; lia.
    - rewrite Ec. apply IH. lia. }
  by apply (H (String.length s)).
Qed.

Lemma has_quarry_run w p quarry :
  FileCheck_has_quarry p quarry w
  = match FileIO.read p w with
    | (Ok (Some t), w') => (Ok (truthy t && str_in quarry t), w')
    | (Ok None, w') => (Ok false, w')
    | (Raise e, w') => (Raise e, w')
    end.
Proof.
  unfold FileCheck_has_quarry, bind, ret.
  destruct (FileIO.read p w) as [[[t|]|e] w']; try done.
  by destruct (truthy t).
Qed.

(** [has_quarry] never raises and changes nothing.  It returns [False]
    for whatever is no file and for an empty file, whatever the quarry;
    for any other file it tells whether the quarry is a part of the text
    as [read] gives it, so that the empty quarry is found and a quarry
    with a carriage return never is. *)
Theorem has_quarry_outcome (w : world) (full_path quarry : string) :
  (∃ b, FileCheck_has_quarry full_path quarry w = (Ok b, w))
  ∧ (os.path_isfile w full_path = false →
       FileCheck_has_quarry full_path quarry w = (Ok false, w))
  ∧ (occurs Py.CR quarry = true →
       FileCheck_has_quarry full_path quarry w = (Ok false, w))
  ∧ (∀ q data,
       resolve w true full_path = Found q →
       get (root w) q = Some (File data) →
       ∃ b, FileCheck_has_quarry full_path quarry w = (Ok b, w)
            ∧ (b = true ↔
               data ≠ "" ∧ ∃ u v, io.universal_newlines data = u +:+ quarry +:+ v)
            ∧ (quarry = "" → data ≠ "" → b = true)).
Proof.
  assert (∀ data, truthy (io.universal_newlines data) = true ↔ data ≠ "") as Htr.
  { intros [|c r]; [done|]. simpl. split; [done|]. intros _.
    by destruct (Py.ch_eqb c Py.CR). }
  assert (∀ q data,
            resolve w true full_path = Found q →
            get (root w) q = Some (File data) →
            ∃ b, FileCheck_has_quarry full_path quarry w = (Ok b, w)
                 ∧ (b = true ↔
                    data ≠ "" ∧ ∃ u v, io.universal_newlines data = u +:+ quarry +:+ v)) as Hfile.
  { intros q data Hq Hd. eexists. split.
    { rewrite has_quarry_run. by rewrite (read_run w _ q data). }
    by rewrite andb_true_iff, Htr, str_in_spec. }
  assert (os.path_isfile w full_path = false →
          FileCheck_has_quarry full_path quarry w = (Ok false, w)) as Hnone.
  { intros Hf. rewrite has_quarry_run. by rewrite read_not_file. }
  split; [|split; [done|split]].
  - destruct (os.path_isfile w full_path) eqn:Hf; [|eauto].
    apply path_isfile_true in Hf as (q & data & Hq & Hd).
    destruct (Hfile q data Hq Hd) as (b & Hb & _). eauto.
  - intros Hcr. destruct (os.path_isfile w full_path) eqn:Hf; [|eauto].
    apply path_isfile_true in Hf as (q & data & Hq & Hd).
    destruct (Hfile q data Hq Hd) as (b & Hb & Hiff).
    destruct b; [|done]. exfalso.
    destruct (proj1 Hiff eq_refl) as (_ & u & v & E).
    pose proof (universal_newlines_no_CR data) as Hno.
    rewrite E, !occurs_app, Hcr, orb_true_r in Hno. done.
  - intros q data Hq Hd. destruct (Hfile q data Hq Hd) as (b & Hb & Hiff).
    exists b. split; [done|]. split; [done|].
    intros -> Hne. apply Hiff. split; [done|].
    by exists "", (io.universal_newlines data).
Qed.

Lemma has_quarry_outcome_witness :
  FileCheck_has_quarry "/dos.txt" (String Py.CR "") world_crlf = (Ok false, world_crlf)
  ∧ FileCheck_has_quarry "/" "" world_crlf = (Ok false, world_crlf)
  ∧ FileCheck_has_quarry "/dos.txt" "" world_crlf = (Ok true, world_crlf).
Proof.
  split; [|split].
  - apply (proj1 (proj2 (proj2 (has_quarry_outcome world_crlf "/dos.txt" _)))).
    reflexivity.
  - apply (proj1 (proj2 (has_quarry_outcome world_crlf "/" ""))). reflexivity.
  - destruct (proj2 (proj2 (proj2 (has_quarry_outcome world_crlf "/dos.txt" "")))
                ["dos.txt"] _ eq_refl eq_refl) as (b & Hb & _ & Ht).
    rewrite Hb. by rewrite Ht.
Defined.

(* ================================================================== *)
(** * [children], [directories] and [files] together *)
(* ================================================================== *)

Lemma directories_loop_acc r ifp roots acc :
  FileDirectories.directories_loop r ifp roots acc
  = acc ++ FileDirectories.directories_loop r ifp roots [].
Proof.
  revert acc. induction roots as [|x roots IH]; intros acc; simpl.
  - by rewrite app_nil_r.
  - destruct r; simpl; [|done].
    rewrite IH. rewrite (IH (if ifp then _ else _)). by rewrite app_assoc.
Qed.

Lemma files_loop_acc r ifp ext roots acc :
  FileDirectories.files_loop r ifp ext roots acc
  = acc ++ FileDirectories.files_loop r ifp ext roots [].
Proof.
  revert acc. induction roots as [|x roots IH]; intros acc; simpl.
  - by rewrite app_nil_r.
  - destruct r; simpl; [|done].
    match goal with
    | |- FileDirectories.files_loop _ _ _ _ (_ ++ ?c) = _ => set (child := c)
    end.
    rewrite (IH (acc ++ child)), (IH child). by rewrite app_assoc.
Qed.

Lemma children_loop_perm r ifp ext roots acc :
  FileDirectories.children_loop r ifp ext roots acc
  ≡ₚ acc ++ FileDirectories.directories_loop r ifp roots []
         ++ FileDirectories.files_loop r ifp ext roots [].
Proof.
  revert acc. induction roots as [|[[cur ds] fs] roots IH]; intros acc.
  - simpl. by rewrite app_nil_r.
  - cbn [FileDirectories.children_loop FileDirectories.directories_loop
         FileDirectories.files_loop fst snd].
    destruct r; cbn [negb].
    + rewrite IH. rewrite (directories_loop_acc _ _ _ ([] ++ _)).
      rewrite (files_loop_acc _ _ _ _ ([] ++ _)). simpl.
      rewrite <-!app_assoc. apply Permutation_app_head, Permutation_app_head.
      rewrite !app_assoc. apply Permutation_app_tail.
      apply Permutation_app_comm.
    + simpl. by rewrite <-?app_assoc.
Qed.

Lemma children_loop_first ifp ext roots :
  FileDirectories.children_loop false ifp ext roots []
  = FileDirectories.directories_loop false ifp roots []
    ++ FileDirectories.files_loop false ifp ext roots [].
Proof. by destruct roots as [|[[cur ds] fs] roots]. Qed.

Lemma walk_missing w top : os.path_exists w top = false → os.walk top w = (Ok [], w).
Proof.
  unfold os.path_exists, os.stat_kind, os.walk, query, lkind.
  destruct (resolve w true top) as [q| |]; try done.
  by destruct (get (root w) q).
Qed.

Lemma walk_ok w top : ∃ roots, os.walk top w = (Ok roots, w).
Proof. unfold os.walk, query. eauto. Qed.

Lemma children_walk_run w directory r ifp ext roots :
  os.walk directory w = (Ok roots, w) →
  FileDirectories.children directory r ifp ext w
  = if os.path_isfile w directory then (Raise not_a_file, w)
    else (Ok (FileDirectories.children_loop r ifp ext roots []), w).
Proof.
  intros Hw. unfold FileDirectories.children. unfold bind at 1.
  rewrite raise_error_if_file_run.
  destruct (os.path_isfile w directory); [done|]. unfold bind. by rewrite Hw.
Qed.

Lemma directories_walk_run w directory r ifp roots :
  os.walk directory w = (Ok roots, w) →
  FileDirectories.directories directory r ifp w
  = if os.path_isfile w directory then (Raise not_a_file, w)
    else (Ok (FileDirectories.directories_loop r ifp roots []), w).
Proof.
  intros Hw. unfold FileDirectories.directories. unfold bind at 1.
  rewrite raise_error_if_file_run.
  destruct (os.path_isfile w directory); [done|]. unfold bind. by rewrite Hw.
Qed.

Lemma files_walk_run w directory r ifp ext roots :
  os.walk directory w = (Ok roots, w) →
  FileDirectories.files directory r ifp ext w
  = if os.path_isfile w directory then (Raise not_a_file, w)
    else (Ok (FileDirectories.files_loop r ifp ext roots []), w).
Proof.
  intros Hw. unfold FileDirectories.files. unfold bind at 1.
  rewrite raise_error_if_file_run.
  destruct (os.path_isfile w directory); [done|]. unfold bind. by rewrite Hw.
Qed.

(** [children], [directories] and [files] raise for a file, all three;
    otherwise they return and change nothing, and the children are the
    directories and the files: the directories first and then the files
    when the listing is not recursive, and in some order when it is.
    For a path that does not exist the three lists are empty. *)
Theorem children_directories_files (w : world) (directory : string)
    (recursive include_full_path : bool) (extension : option string) :
  (os.path_isfile w directory = true →
     FileDirectories.children directory recursive include_full_path extension w
     = (Raise not_a_file, w)
     ∧ FileDirectories.directories directory recursive include_full_path w
       = (Raise not_a_file, w)
     ∧ FileDirectories.files directory recursive include_full_path extension w
       = (Raise not_a_file, w))
  ∧ (os.path_isfile w directory = false →
     ∃ cs ds fs,
       FileDirectories.children directory recursive include_full_path extension w
       = (Ok cs, w)
       ∧ FileDirectories.directories directory recursive include_full_path w
         = (Ok ds, w)
       ∧ FileDirectories.files directory recursive include_full_path extension w
         = (Ok fs, w)
       ∧ cs ≡ₚ ds ++ fs
       ∧ (recursive = false → cs = ds ++ fs)
       ∧ (os.path_exists w directory = false → cs = [])).
Proof.
  destruct (walk_ok w directory) as [roots Hw].
  rewrite (children_walk_run w _ _ _ _ roots Hw), (directories_walk_run w _ _ _ roots Hw),
    (files_walk_run w _ _ _ _ roots Hw).
  split.
  - by intros ->.
  - intros ->. eexists _, _, _. split; [done|]. split; [done|]. split; [done|].
    split; [apply (children_loop_perm _ _ _ _ [])|]. split.
    + intros ->. apply children_loop_first.
    + intros He. rewrite walk_missing in Hw by done. by injection Hw as <-.
Qed.

Lemma children_directories_files_witness :
  FileDirectories.children "/dir" false false None world_dir
  = (Ok ["sub"; "a.txt"; "b.log"], world_dir).
Proof.
  destruct (proj2 (children_directories_files world_dir "/dir" false false None)
              eq_refl) as (cs & ds & fs & Hc & Hd & Hf & _ & Heq & _).
  rewrite Hc, (Heq eq_refl). vm_compute in Hd, Hf.
  injection Hd as <-. by injection Hf as <-.
Defined.

(* ================================================================== *)
(** * [FileDirectories.delete] on the entries of a directory *)
(* ================================================================== *)

Section entry.

Variables (w : world) (directory : string) (D : path) (n : string).
Hypothesis plain : plain_dir w directory = Some D.
Hypothesis name : name_ok n = true.

Lemma final_component_not_dots :
  Py.str_eqb (os.final_component (posixpath.join2 directory n)) "." = false
  ∧ Py.str_eqb (os.final_component (posixpath.join2 directory n)) ".." = false.
Proof.
  destruct (plain_dir_inv _ _ _ plain) as (Hne & _ & _).
  rewrite final_component_child by done.
  split; [|by apply name_ok_not_dotdot].
  pose proof (name_ok_not_dot _ name) as H. unfold is_dot in H.
  by apply orb_false_elim in H as [_ ?].
Qed.

Lemma rmdir_child sub :
  get (root w) (D ++ [n]) = Some (Dir sub) →
  os.rmdir (posixpath.join2 directory n) w
  = if is_nil sub then (Ok tt, set_root w (del (root w) D n))
    else (Raise (OSError ENOTEMPTY), w).
Proof.
  intros Hsub. unfold os.rmdir.
  rewrite (resolve_child_nofollow w directory D n plain name).
  unfold lkind. rewrite Hsub. simpl.
  destruct final_component_not_dots as [-> ->]. rewrite Hsub.
  destruct sub; simpl; [|done].
  assert (is_nil (D ++ [n]) = false) as -> by (by destruct D).
  by rewrite del_at_snoc.
Qed.

Lemma rmdir_missing :
  lkind (root w) (D ++ [n]) = None →
  os.rmdir (posixpath.join2 directory n) w = (Raise (OSError ENOENT), w).
Proof.
  intros Hk. unfold os.rmdir.
  by rewrite (resolve_child_absent w directory D n plain name false Hk).
Qed.

Lemma rmtree_missing :
  lkind (root w) (D ++ [n]) = None →
  shutil.rmtree_ignore_errors (posixpath.join2 directory n) w = (Ok tt, w).
Proof.
  intros Hk. unfold shutil.rmtree_ignore_errors.
  by rewrite (resolve_child_absent w directory D n plain name false Hk).
Qed.

Lemma child_isfile_false k :
  lkind (root w) (D ++ [n]) = k → k = Some KDir ∨ k = None →
  os.path_isfile w (posixpath.join2 directory n) = false.
Proof.
  intros Hk [->| ->]; unfold os.path_isfile, os.stat_kind.
  - rewrite (resolve_child_follow w directory D n plain name KDir) by done.
    by rewrite Hk.
  - by rewrite (resolve_child_absent w directory D n plain name true Hk).
Qed.

End entry.

(** [FileDirectories.delete] on the entry [n] of a directory.  A
    directory is removed with what it holds when [recursive] is set;
    when it is not, an empty directory is removed and one that is not
    empty makes the call raise, nothing changed.  A link is removed, not
    what it leads to, and without [recursive] the call then raises for
    the path that is gone.  For a name the directory does not have the
    call does nothing with [recursive] and raises without. *)
Theorem delete_directory_entry (w : world) (directory : string) (D : path)
    (n : string) :
  plain_dir w directory = Some D → name_ok n = true →
  (∀ sub, get (root w) (D ++ [n]) = Some (Dir sub) →
     FileDirectories.delete (FileTools.concat directory [n]) true w
     = (Ok tt, set_root w (del (root w) D n))
     ∧ FileDirectories.delete (FileTools.concat directory [n]) false w
       = if is_nil sub then (Ok tt, set_root w (del (root w) D n))
         else (Raise (OSError ENOTEMPTY), w))
  ∧ (∀ t, get (root w) (D ++ [n]) = Some (Link t) →
       FileDirectories.delete (FileTools.concat directory [n]) true w
       = (Ok tt, set_root w (del (root w) D n))
       ∧ FileDirectories.delete (FileTools.concat directory [n]) false w
         = (Raise (OSError ENOENT), set_root w (del (root w) D n)))
  ∧ (get (root w) (D ++ [n]) = None →
       FileDirectories.delete (FileTools.concat directory [n]) true w = (Ok tt, w)
       ∧ FileDirectories.delete (FileTools.concat directory [n]) false w
         = (Raise (OSError ENOENT), w)).
Proof.
  intros Hp Hn.
  change (FileTools.concat directory [n]) with (posixpath.join2 directory n).
  split; [|split].
  - intros sub Hsub.
    assert (lkind (root w) (D ++ [n]) = Some KDir) as Hk
      by (unfold lkind; by rewrite Hsub).
    split; unfold FileDirectories.delete, FileCheck.is_link, FileCheck.is_file,
      bind, query, ret;
      rewrite (child_islink w directory D n Hp Hn), Hk;
      rewrite (child_isfile_false w directory D n Hp Hn _ Hk) by (by left).
    + by rewrite (rmtree_child w directory D n Hp Hn Hk).
    + rewrite (rmdir_child w directory D n Hp Hn sub Hsub). by destruct sub.
  - intros t Hlink.
    assert (lkind (root w) (D ++ [n]) = Some (KLink t)) as Hk
      by (unfold lkind; by rewrite Hlink).
    set (w1 := set_root w (del (root w) D n)).
    assert (plain_dir w1 directory = Some D) as Hp1
      by (unfold w1, del; by apply plain_dir_alter).
    assert (lkind (root w1) (D ++ [n]) = None) as Hk1 by apply lkind_del_gone.
    split; unfold FileDirectories.delete, FileCheck.is_link, bind, query, ret;
      rewrite (child_islink w directory D n Hp Hn), Hk;
      unfold FileIO.unlink, os.unlink;
      rewrite (remove_child w directory D n Hp Hn (KLink t)) by done; fold w1.
    + by rewrite (rmtree_missing w1 directory D n Hp1 Hn Hk1).
    + by rewrite (rmdir_missing w1 directory D n Hp1 Hn Hk1).
  - intros Hnone.
    assert (lkind (root w) (D ++ [n]) = None) as Hk
      by (unfold lkind; by rewrite Hnone).
    split; unfold FileDirectories.delete, FileCheck.is_link, FileCheck.is_file,
      bind, query, ret;
      rewrite (child_islink w directory D n Hp Hn), Hk;
      rewrite (child_isfile_false w directory D n Hp Hn _ Hk) by (by right).
    + by rewrite (rmtree_missing w directory D n Hp Hn Hk).
    + by rewrite (rmdir_missing w directory D n Hp Hn Hk).
Qed.

Lemma delete_directory_entry_witness :
  FileDirectories.delete "/dir/sub" false world_dir
  = (Raise (OSError ENOTEMPTY), world_dir)
  ∧ FileDirectories.delete "/dir/sub" true world_dir
    = (Ok tt, set_root world_dir (del (root world_dir) ["dir"] "sub"))
  ∧ FileDirectories.delete "/d/l" true world_links
    = (Ok tt, set_root world_links (del (root world_links) ["d"] "l")).
Proof.
  destruct (delete_directory_entry world_dir "/dir" ["dir"] "sub" eq_refl eq_refl)
    as (Hdir & _ & _).
  destruct (Hdir _ eq_refl) as [H1 H2].
  destruct (delete_directory_entry world_links "/d" ["d"] "l" eq_refl eq_refl)
    as (_ & Hlink & _).
  destruct (Hlink _ eq_refl) as [H3 _].
  split; [exact H2|]. split; [exact H1|exact H3].
Defined.

(* ================================================================== *)
(** * [create] twice, and the bounds of [parent] *)
(* ================================================================== *)

(** Once [create] has made a chain of directories, a second call
    returns the path again and changes nothing. *)
Theorem create_twice (w : world) (cs : list string) (D : path) (m : string)
    (ms : list string) :
  Forall (λ c, component_ok c = true) cs →
  Forall (λ n, name_ok n = true) (m :: ms) →
  plain_dir w (abs_path cs) = Some D →
  lkind (root w) (D ++ [m]) = None →
  ∃ w',
    FileDirectories.create (abs_path (cs ++ m :: ms)) w
    = (Ok (Some (abs_path (cs ++ m :: ms))), w')
    ∧ FileDirectories.create (abs_path (cs ++ m :: ms)) w'
      = (Ok (Some (abs_path (cs ++ m :: ms))), w').
Proof.
  intros Hcs Hms Hp Hm.
  pose proof (missing_below_not_exists w cs D m ms Hcs Hms Hp Hm) as He.
  apply Forall_cons in Hms as [Hm' Hms].
  exists (with_chain w D m ms). split.
  - rewrite create_run, He.
    by rewrite (makedirs_chain w cs D m Hcs Hm' Hp Hm ms Hms).
  - pose proof (made_plain_dir w cs D m Hcs Hm' Hp ms (m :: ms) Hms) as Hd.
    apply plain_dir_queries in Hd as (Hf & He' & _); [|done].
    by rewrite create_run, He', Hf.
Qed.

Lemma create_twice_witness :
  ∃ w', FileDirectories.create "/dir/x/y" world_dir = (Ok (Some "/dir/x/y"), w')
        ∧ FileDirectories.create "/dir/x/y" w' = (Ok (Some "/dir/x/y"), w').
Proof.
  apply (create_twice world_dir ["dir"] ["dir"] "x" ["y"]).
  - repeat constructor.
  - repeat constructor.
  - reflexivity.
  - reflexivity.
Defined.

Lemma dirname_root_iter n : Nat.iter n posixpath.dirname "/" = "/".
Proof. induction n as [|n IH]; [done|]. simpl. by rewrite IH. Qed.

Lemma dirname_empty_iter n : Nat.iter n posixpath.dirname "" = "".
Proof. induction n as [|n IH]; [done|]. simpl. by rewrite IH. Qed.

Lemma dirname_bare p : occurs Py.sep p = false → posixpath.dirname p = "".
Proof.
  intros H. unfold posixpath.dirname. by rewrite (rfind_none _ _ H).
Qed.

Lemma not_exists_empty w : os.path_exists w "" = false.
Proof. done. Qed.

(** Where [parent] stops.  With a depth of zero or less it returns the
    path itself.  For an absolute path it does not go above the root: a
    depth of at least the number of components gives [/].  For a name
    with no separator it returns the empty string, which names nothing:
    [parent] of that result is [None]. *)
Theorem parent_bounds (w : world) (full_path : string) (depth : Z) :
  os.path_exists w full_path = true →
  (depth ≤ 0 → FileDirectories.parent full_path depth w = (Ok (Some full_path), w))
  ∧ (∀ cs, full_path = abs_path cs →
           Forall (λ c, component_ok c = true) cs →
           Z.of_nat (length cs) ≤ depth →
           FileDirectories.parent full_path depth w = (Ok (Some "/"), w))
  ∧ (occurs Py.sep full_path = false → 1 ≤ depth →
       FileDirectories.parent full_path depth w = (Ok (Some ""), w)
       ∧ FileDirectories.parent "" depth w = (Ok None, w)).
Proof.
  intros He. rewrite !parent_run, He. split; [|split].
  - intros Hd. by replace (Z.to_nat depth) with 0%nat by lia.
  - intros cs -> Hcs Hlen.
    replace (Z.to_nat depth) with ((Z.to_nat depth - length cs) + length cs)%nat
      by lia.
    rewrite Nat.iter_add, (dirname_iter_abs_path cs (length cs)) by done.
    rewrite Nat.sub_diag. simpl take. by rewrite dirname_root_iter.
  - intros Hsep Hd. split; [|by rewrite not_exists_empty].
    replace (Z.to_nat depth) with ((Z.to_nat depth - 1) + 1)%nat by lia.
    rewrite Nat.iter_add. simpl. by rewrite dirname_bare, dirname_empty_iter.
Qed.

Lemma parent_bounds_witness :
  FileDirectories.parent "/a/b" 5 world_abcd = (Ok (Some "/"), world_abcd)
  ∧ FileDirectories.parent "/a/b" 0 world_abcd = (Ok (Some "/a/b"), world_abcd).
Proof.
  split.
  - apply (proj1 (proj2 (parent_bounds world_abcd "/a/b" 5 eq_refl)) ["a"; "b"]).
    + reflexivity.
    + repeat constructor.
    + simpl. lia.
  - apply (proj1 (parent_bounds world_abcd "/a/b" 0 eq_refl)). lia.
Defined.

(** [parent] of [parent]: the depths add up, as long as the path in
    between exists. *)
Theorem parent_of_parent (w : world) (full_path middle : string) (a b : Z) :
  0 ≤ a → 0 ≤ b →
  FileDirectories.parent full_path a w = (Ok (Some middle), w) →
  os.path_exists w middle = true →
  FileDirectories.parent middle b w = FileDirectories.parent full_path (a + b) w.
Proof.
  intros Ha Hb. rewrite !parent_run. intros H He. rewrite He.
  destruct (os.path_exists w full_path); [|done].
  injection H as <-. rewrite Z2Nat.inj_add by done.
  by rewrite (Nat.add_comm (Z.to_nat a)), Nat.iter_add.
Qed.

Lemma parent_of_parent_witness :
  FileDirectories.parent "/a/b/c" 1 world_abcd
  = FileDirectories.parent "/a/b/c/d.txt" (1 + 1) world_abcd.
Proof.
  apply (parent_of_parent world_abcd "/a/b/c/d.txt" "/a/b/c" 1 1);
    [lia|lia|reflexivity|reflexivity].
Defined.

(* ================================================================== *)
(** * [FileNames.stamp] *)
(* ================================================================== *)

Lemma digit_plain n : digit n ≠ Py.extsep ∧ digit n ≠ Py.sep.
Proof.
  unfold digit.
  assert (∀ k l d, (d ≠ Py.extsep ∧ d ≠ Py.sep) →
            Forall (λ c, c ≠ Py.extsep ∧ c ≠ Py.sep) l →
            nth k l d ≠ Py.extsep ∧ nth k l d ≠ Py.sep) as H.
  { intros k l d Hd. revert k. induction l as [|x l IH]; intros k Hl.
    - by destruct k.
    - apply Forall_cons in Hl as [Hx Hl]. destruct k; [done|]. by apply IH. }
  apply H; [done|]. repeat constructor; done.
Qed.

Lemma two_digits_plain n :
  occurs Py.extsep (two_digits n) = false ∧ occurs Py.sep (two_digits n) = false.
Proof.
  unfold two_digits. simpl.
  destruct (digit_plain (n / 10)) as [H1 H2], (digit_plain n) as [H3 H4].
  by rewrite !(proj2 (ch_eqb_neq _ _)) by done.
Qed.

Lemma four_digits_no_sep n : occurs Py.sep (four_digits n) = false.
Proof.
  unfold four_digits. cbn [occurs].
  destruct (digit_plain (n / 1000)) as [_ H1], (digit_plain (n / 100)) as [_ H2].
  rewrite !(proj2 (ch_eqb_neq _ _)) by done. apply two_digits_plain.
Qed.

Lemma strftime_minutes_no_sep today : occurs Py.sep (strftime_minutes today) = false.
Proof.
  unfold strftime_minutes. rewrite !occurs_app, four_digits_no_sep.
  by rewrite !(proj2 (two_digits_plain _)).
Qed.

Lemma timestamp_no_sep today : occurs Py.sep (FileTools_timestamp today) = false.
Proof.
  unfold FileTools_timestamp.
  rewrite !occurs_app, strftime_minutes_no_sep.
  by rewrite (proj2 (two_digits_plain _)).
Qed.

Lemma timestamp_len today : Py.len (FileTools_timestamp today) = 19.
Proof.
  unfold FileTools_timestamp, strftime_minutes. by rewrite !len_app.
Qed.

(** The dots a string starts with. *)
Lemma leading_dots s :
  ∃ dots rest, s = dots +:+ rest ∧ Py.all_char Py.extsep dots = true
               ∧ (rest = "" ∨ ∃ x r, rest = String x r ∧ x ≠ Py.extsep).
Proof.
  induction s as [|c s (dots & rest & -> & Hd & Hr)].
  - exists "", "". split; [done|]. split; [done|]. by left.
  - destruct (Py.ch_eqb c Py.extsep) eqn:Ec.
    + apply ch_eqb_eq in Ec as ->. exists (String Py.extsep dots), rest.
      split; [done|]. split; [|done]. simpl. by rewrite Hd.
    + apply ch_eqb_neq in Ec. exists "", (String c (dots +:+ rest)).
      split; [done|]. split; [done|]. right. eauto.
Qed.

(** The directory part of a path and its name. *)
Lemma dir_and_name p :
  ∃ d name, p = d +:+ name ∧ (d = "" ∨ Py.endswith d Py.sep = true)
            ∧ occurs Py.sep name = false.
Proof.
  destruct (rfind_cases Py.sep p) as [[_ Hn]|(a & b & -> & Hb & _)].
  - exists "", p. split; [done|]. split; [by left|done].
  - exists (a +:+ String Py.sep ""), b. split; [apply app_String_assoc|].
    split; [|done]. right. rewrite endswith_app by done. done.
Qed.

(** A name with a space before its last dot has what follows that dot
    as its extension. *)
Lemma splitext_after_space stem mid e :
  occurs Py.sep mid = false →
  occurs Py.extsep e = false → occurs Py.sep e = false →
  posixpath.splitext (stem +:+ String " " mid +:+ String Py.extsep e)
  = (stem +:+ String " " mid, String Py.extsep e).
Proof.
  intros Hmid He He'.
  destruct (dir_and_name stem) as (d & name & -> & Hd & Hname).
  destruct (leading_dots name) as (dots & rest & -> & Hdots & Hrest).
  rewrite occurs_app in Hname. apply orb_false_iff in Hname as [_ Hrest'].
  destruct Hrest as [->|(x & r & -> & Hx)].
  - rewrite !str_app_nil_r.
    replace ((d +:+ dots) +:+ String " " mid +:+ String Py.extsep e)
      with (d +:+ dots +:+ String " " mid +:+ String Py.extsep e)
      by (by rewrite !str_app_assoc).
    rewrite splitext_extension by done. by rewrite !str_app_assoc.
  - simpl in Hrest'. apply orb_false_iff in Hrest' as [Hx' Hr].
    apply ch_eqb_neq in Hx'.
    replace ((d +:+ dots +:+ String x r) +:+ String " " mid +:+ String Py.extsep e)
      with (d +:+ dots +:+ String x (r +:+ String " " mid) +:+ String Py.extsep e)
      by (rewrite !str_app_assoc; simpl; by rewrite !str_app_assoc).
    rewrite splitext_extension; try done.
    + rewrite !str_app_assoc. simpl. by rewrite ?str_app_assoc.
    + rewrite occurs_app. simpl. by rewrite Hr, Hmid.
Qed.

Lemma dirname_suffix s a b :
  occurs Py.sep a = false → occurs Py.sep b = false →
  posixpath.dirname (s +:+ a) = posixpath.dirname (s +:+ b).
Proof.
  intros Ha Hb. unfold posixpath.dirname.
  destruct (rfind_cases Py.sep s) as [[_ Hn]|(u & v & -> & Hv & _)].
  - rewrite !rfind_none by (by rewrite occurs_app, Hn). simpl.
    unfold Py.slice_to. simpl. by destruct (s +:+ a), (s +:+ b).
  - rewrite !str_app_assoc. simpl.
    rewrite !rfind_last by (by rewrite occurs_app, Hv).
    by rewrite !slice_to_last.
Qed.

(** [stamp] puts a space and the time stamp, nineteen characters,
    between the path without its extension and the extension.  The
    result lies in the same directory.  It has the extension of the path
    when the path has one; when it has none, the seconds of the time
    stamp, which follow its last dot, are the extension of the result. *)
Theorem stamp_parts (file_path : string) (today : datetime) :
  Py.len (FileNames_stamp file_path today) = Py.len file_path + 20
  ∧ posixpath.dirname (FileNames_stamp file_path today) = posixpath.dirname file_path
  ∧ ((posixpath.splitext file_path).2 ≠ "" →
       posixpath.splitext (FileNames_stamp file_path today)
       = ((posixpath.splitext file_path).1 +:+ " " +:+ FileTools_timestamp today,
          (posixpath.splitext file_path).2))
  ∧ ((posixpath.splitext file_path).2 = "" →
       posixpath.splitext (FileNames_stamp file_path today)
       = (file_path +:+ " " +:+ strftime_minutes today,
          String Py.extsep (two_digits (second today)))).
Proof.
  unfold FileNames_stamp.
  destruct (posixpath.splitext file_path) as [stem ext] eqn:E. cbn [fst snd].
  apply splitext_parts in E as [Hcat Hext].
  split; [|split; [|split]].
  - rewrite <-Hcat, !len_app, timestamp_len. simpl. lia.
  - rewrite <-Hcat. apply dirname_suffix.
    + rewrite !occurs_app, timestamp_no_sep. simpl.
      destruct Hext as [->|(e & -> & _ & He & _)]; [done|]. simpl. by rewrite He.
    + destruct Hext as [->|(e & -> & _ & He & _)]; [done|]. simpl. by rewrite He.
  - intros Hne. destruct Hext as [->|(e & -> & He & He' & _)]; [done|].
    apply (splitext_after_space stem (FileTools_timestamp today) e);
      [apply timestamp_no_sep|done|done].
  - intros ->. rewrite str_app_nil_r in Hcat. subst stem.
    rewrite !str_app_nil_r. unfold FileTools_timestamp.
    replace (file_path +:+ " " +:+ strftime_minutes today +:+ "."
             +:+ two_digits (second today))
      with (file_path +:+ String " " (strftime_minutes today)
            +:+ String Py.extsep (two_digits (second today)))
      by (simpl; by rewrite ?str_app_assoc).
    rewrite splitext_after_space;
      [done|apply strftime_minutes_no_sep|apply two_digits_plain..].
Qed.

Lemma stamp_parts_witness :
  posixpath.splitext (FileNames_stamp "notes.txt" (Datetime 2024 5 17 9 30 59))
  = ("notes 2024-05-17 09.30.59", ".txt")
  ∧ posixpath.splitext (FileNames_stamp "notes" (Datetime 2024 5 17 9 30 59))
    = ("notes 2024-05-17 09.30", ".59").
Proof.
  split.
  - apply (proj1 (proj2 (proj2 (stamp_parts "notes.txt" (Datetime 2024 5 17 9 30 59))))).
    done.
  - apply (proj2 (proj2 (proj2 (stamp_parts "notes" (Datetime 2024 5 17 9 30 59))))).
    reflexivity.
Defined.

(* ================================================================== *)
(** * [FileIO.save_object] and [FileIO.read_object] *)
(* ================================================================== *)

Section object_facts.

Context {Obj : Type} (dump : Obj → string) (load : string → result Obj).

Lemma save_object_new_run w p obj ow d n :
  resolve w true p = Absent d n false →
  FileIO_save_object Obj dump p obj ow w
  = (Ok tt, set_root w (put (root w) d n (File (dump obj)))).
Proof.
  intros H. destruct (resolve_absent_dir _ _ _ _ _ _ H) as [Hd _].
  unfold FileIO_save_object. unfold bind at 1.
  rewrite raise_error_if_directory_run, (absent_not_isdir _ _ _ _ _ H).
  unfold FileCheck.exists_, bind at 1, query.
  rewrite (absent_not_exists _ _ _ _ _ H), andb_false_r.
  unfold io.with_, bind, FileIO.open, FileIO._raise_error_if_directory,
    FileCheck.is_directory, bind, query, ret.
  rewrite (absent_not_isdir _ _ _ _ _ H).
  unfold io.open_. rewrite H. simpl.
  unfold io.write. rewrite is_open_head. simpl.
  unfold io.content. simpl. rewrite get_put_here by done.
  rewrite put_at_snoc, put_put. unfold set_root. simpl. close_last.
Qed.

Lemma save_object_overwrite_run w p obj d n data :
  resolve w true p = Found (d ++ [n]) →
  get (root w) (d ++ [n]) = Some (File data) →
  FileIO_save_object Obj dump p obj true w
  = (Ok tt, set_root w (put (root w) d n (File (dump obj)))).
Proof.
  intros Hq Hd.
  assert (os.path_isfile w p = true) as Hf by (apply path_isfile_true; eauto).
  destruct (get_parent_dir _ _ _ _ Hd) as [es Hes].
  unfold FileIO_save_object. unfold bind at 1.
  rewrite raise_error_if_directory_run, (isfile_not_isdir _ _ Hf).
  unfold FileCheck.exists_, bind at 1, query. cbn [negb andb].
  unfold io.with_, bind, FileIO.open, FileIO._raise_error_if_directory,
    FileCheck.is_directory, bind, query, ret.
  rewrite (isfile_not_isdir _ _ Hf).
  unfold io.open_. rewrite Hq, Hd. simpl.
  unfold io.write. rewrite is_open_head. simpl.
  unfold io.content. simpl. rewrite !put_at_snoc.
  rewrite get_put_here by (unfold lkind; by rewrite Hes).
  rewrite put_put. unfold set_root. simpl. close_last.
Qed.

Lemma read_object_run w p q data :
  resolve w true p = Found q → get (root w) q = Some (File data) →
  FileIO_read_object Obj load p w
  = (match load data with
     | Ok obj => Ok (Some obj)
     | Raise e => Raise e
     end, w).
Proof.
  intros Hq Hd.
  assert (os.path_isfile w p = true) as Hf by (apply path_isfile_true; eauto).
  unfold FileIO_read_object. unfold bind at 1.
  rewrite raise_error_if_directory_run, (isfile_not_isdir _ _ Hf).
  unfold bind at 1, query. rewrite Hf. cbn [negb].
  unfold io.with_, bind, FileIO.open, FileIO._raise_error_if_directory,
    FileCheck.is_directory, bind, query, ret.
  rewrite (isfile_not_isdir _ _ Hf).
  unfold io.open_. rewrite Hq, Hd. simpl.
  unfold io.read. rewrite is_open_head. simpl.
  unfold io.content. simpl. rewrite Hd.
  destruct (load data); unfold throw; simpl; close_last.
Qed.

End object_facts.

(** An object saved with [save_object] is the one [read_object]
    returns, whatever bytes [dill] writes for it, a carriage return
    among them or not, as long as [dill.load] reads back what
    [dill.dump] wrote: the file is opened in binary mode.  Both
    functions raise for a directory, before anything else;
    [read_object] returns [None] for a path that does not exist, and
    [save_object] raises for a file when [overwrite] is not set. *)
Theorem object_round_trip {Obj : Type} (dump : Obj → string)
    (load : string → result Obj) (w : world) (full_path : string) (obj : Obj)
    (overwrite : bool) :
  load (dump obj) = Ok obj →
  (os.path_isdir w full_path = true →
     FileIO_save_object Obj dump full_path obj overwrite w = (Raise not_a_directory, w)
     ∧ FileIO_read_object Obj load full_path w = (Raise not_a_directory, w))
  ∧ (os.path_exists w full_path = false →
       FileIO_read_object Obj load full_path w = (Ok None, w))
  ∧ (∀ d n,
       resolve w true full_path = Absent d n false →
       ∃ w', FileIO_save_object Obj dump full_path obj overwrite w = (Ok tt, w')
             ∧ FileIO_read_object Obj load full_path w' = (Ok (Some obj), w'))
  ∧ (os.path_isfile w full_path = true →
       FileIO_save_object Obj dump full_path obj false w = (Raise already_exists, w)
       ∧ ∃ w', FileIO_save_object Obj dump full_path obj true w = (Ok tt, w')
               ∧ FileIO_read_object Obj load full_path w' = (Ok (Some obj), w')).
Proof.
  intros Hload. split; [|split; [|split]].
  - intros Hd. unfold FileIO_save_object, FileIO_read_object, bind.
    by rewrite raise_error_if_directory_run, Hd.
  - intros He.
    assert (os.path_isdir w full_path = false) as Hd.
    { destruct (os.path_isdir w full_path) eqn:E; [|done].
      apply isdir_exists in E. congruence. }
    assert (os.path_isfile w full_path = false) as Hf.
    { destruct (os.path_isfile w full_path) eqn:E; [|done].
      apply isfile_exists in E. congruence. }
    unfold FileIO_read_object. unfold bind at 1.
    rewrite raise_error_if_directory_run, Hd.
    unfold bind, query, ret. by rewrite Hf.
  - intros d n Hr. destruct (resolve_absent_dir _ _ _ _ _ _ Hr) as [Hd _].
    eexists. split; [by apply save_object_new_run|].
    rewrite (read_object_run load _ full_path (d ++ [n]) (dump obj)).
    + by rewrite Hload.
    + rewrite (resolve_created w _ true d n false (File (dump obj)));
        [done|done|by intros [|]|by left].
    + by apply get_put_here.
  - intros Hf. pose proof Hf as Hf'.
    apply path_isfile_true in Hf' as (q & data & Hq & Hd).
    destruct (resolve_file_snoc _ _ _ _ Hq Hd) as (d & n & ->).
    destruct (get_parent_dir _ _ _ _ Hd) as [es Hes].
    split.
    + unfold FileIO_save_object. unfold bind at 1.
      rewrite raise_error_if_directory_run, (isfile_not_isdir _ _ Hf).
      unfold FileCheck.exists_, bind, query, throw.
      by rewrite (isfile_exists _ _ Hf).
    + eexists. split; [by apply (save_object_overwrite_run dump w _ obj d n data)|].
      rewrite (read_object_run load _ full_path (d ++ [n]) (dump obj)).
      * by rewrite Hload.
      * rewrite resolve_ext; [done|]. intros q0. apply lkind_put_file.
        unfold lkind. by rewrite Hd.
      * apply get_put_here. unfold lkind. by rewrite Hes.
Qed.

Lemma object_round_trip_witness :
  ∃ w', FileIO_save_object string id "/bytes.bin" (String Py.CR "") false world_crlf
        = (Ok tt, w')
        ∧ FileIO_read_object string Ok "/bytes.bin" w' = (Ok (Some (String Py.CR "")), w').
Proof.
  apply (proj1 (proj2 (proj2 (object_round_trip id Ok world_crlf "/bytes.bin"
                                (String Py.CR "") false eq_refl))) [] "bytes.bin").
  reflexivity.
Defined.

(* ================================================================== *)
(** * [FileIO.open] and [FileIO.unlink] *)
(* ================================================================== *)

Lemma open_not_directory w p wr ap bin :
  os.path_isdir w p = false →
  FileIO.open p wr ap bin w
  = io.open_ p (if wr then (if bin then mode_wb else mode_w)
                else if ap then (if bin then mode_ab else mode_a_plus)
                else (if bin then mode_rb else mode_r)) w.
Proof.
  intros H. unfold FileIO.open. unfold bind at 1.
  by rewrite raise_error_if_directory_run, H.
Qed.

(** [FileIO.open] raises for a directory.  On a file it returns a new
    file object, which stays open; with [write] the file is emptied at
    once, also when [append] is set as well, and otherwise it is left as
    it is.  On a path whose last component is missing it makes an empty
    file when [write] or [append] is set, and raises, nothing made,
    when neither is. *)
Theorem open_outcome (w : world) (full_path : string) (write append binary : bool) :
  (os.path_isdir w full_path = true →
     FileIO.open full_path write append binary w = (Raise not_a_directory, w))
  ∧ (∀ q data,
       resolve w true full_path = Found q →
       get (root w) q = Some (File data) →
       ∃ f, FileIO.open full_path write append binary w
            = (Ok f, {| root := if write then put_at (root w) q (File "")
                                else root w;
                        cwd := cwd w; open_files := f :: open_files w |})
            ∧ floc f = q
            ∧ fileno f ∉ fileno <$> open_files w)
  ∧ (∀ d n,
       resolve w true full_path = Absent d n false →
       if write || append
       then ∃ f, FileIO.open full_path write append binary w
                 = (Ok f, {| root := put (root w) d n (File "");
                             cwd := cwd w; open_files := f :: open_files w |})
                 ∧ floc f = d ++ [n]
       else FileIO.open full_path write append binary w
            = (Raise (OSError ENOENT), w)).
Proof.
  split; [apply open_directory_raises|]. split.
  - intros q data Hq Hd.
    assert (os.path_isdir w full_path = false) as Hnd.
    { apply isfile_not_isdir, path_isfile_true. eauto. }
    unfold FileIO.open. unfold bind at 1.
    rewrite raise_error_if_directory_run, Hnd.
    unfold io.open_. rewrite Hq, Hd. unfold io.new_file_object.
    exists (FileObject (io.fresh_fd (open_files w)) q
              (if write then (if binary then mode_wb else mode_w)
               else if append then (if binary then mode_ab else mode_a_plus)
               else (if binary then mode_rb else mode_r))).
    split; [|split; [done|]].
    + by destruct write, append, binary.
    + simpl. intros Hin. apply list_elem_of_fmap in Hin as (g & Hg & Hin).
      apply fresh_fd_bound in Hin. lia.
  - intros d n Hr. pose proof (absent_not_isdir _ _ _ _ _ Hr) as Hnd.
    rewrite !(open_not_directory _ _ _ _ _ Hnd).
    unfold io.open_. rewrite Hr. unfold io.new_file_object.
    destruct write, append, binary; simpl; try done;
      (eexists; split; reflexivity).
Qed.

Lemma open_outcome_witness :
  ∃ f, FileIO.open "/notes.txt" true true false world_foo
       = (Ok f, {| root := put_at (root world_foo) ["notes.txt"] (File "");
                   cwd := cwd world_foo; open_files := [f] |}).
Proof.
  destruct (proj1 (proj2 (open_outcome world_foo "/notes.txt" true true false))
              ["notes.txt"] _ eq_refl eq_refl) as (f & Hf & _).
  by exists f.
Defined.

Lemma resolve_absent_nofollow w p d n s :
  resolve w false p = Absent d n s → resolve w true p = Absent d n s.
Proof.
  intros H. pose proof H as H'. unfold resolve in *.
  destruct (Py.str_eqb p ""); [done|].
  destruct (namei_nofollow (lkind (root w)) MAXSYMLINKS
              (if Py.startswith p Py.sep then [] else cwd w)
              (Py.split_on Py.sep p)) as [E|(q & t & E & _)]; congruence.
Qed.

(** [FileIO.unlink] and [FileIO.delete] do the same to a file.  They
    differ on what is no file: for a path that names nothing [delete]
    returns and [unlink] raises; a link that leads nowhere is removed by
    [unlink] and left by [delete]. *)
Theorem unlink_or_delete (w : world) (full_path : string) :
  (os.path_isfile w full_path = true →
     FileIO.unlink full_path w = FileIO.delete full_path w)
  ∧ (∀ d n s,
       resolve w false full_path = Absent d n s →
       FileIO.unlink full_path w = (Raise (OSError ENOENT), w)
       ∧ FileIO.delete full_path w = (Ok tt, w))
  ∧ (os.path_islink w full_path = true →
     os.path_exists w full_path = false →
       FileIO.delete full_path w = (Ok tt, w)
       ∧ ∃ d n, resolve w false full_path = Found (d ++ [n])
                ∧ FileIO.unlink full_path w
                  = (Ok tt, set_root w (del (root w) d n))).
Proof.
  assert (os.path_exists w full_path = false →
          FileIO.delete full_path w = (Ok tt, w)) as Hdel.
  { intros He.
    assert (os.path_isdir w full_path = false) as Hd.
    { destruct (os.path_isdir w full_path) eqn:E; [|done].
      apply isdir_exists in E. congruence. }
    unfold FileIO.delete. unfold bind at 1.
    rewrite raise_error_if_directory_run, Hd.
    unfold FileCheck.exists_, bind, query, ret. by rewrite He. }
  split; [|split].
  - intros Hf. unfold FileIO.delete. unfold bind at 1.
    rewrite raise_error_if_directory_run, (isfile_not_isdir _ _ Hf).
    unfold FileCheck.exists_, bind, query. by rewrite (isfile_exists _ _ Hf).
  - intros d n s Hr. split.
    + unfold FileIO.unlink, os.unlink, os.remove. by rewrite Hr.
    + apply Hdel. apply (absent_not_exists _ _ d n s).
      by apply resolve_absent_nofollow.
  - intros Hl He. split; [by apply Hdel|].
    destruct (resolve_link _ _ Hl) as (d & n & t & Hr & Hk).
    exists d, n. split; [done|]. by apply (remove_link_run w _ d n t).
Qed.

Lemma unlink_or_delete_witness :
  FileIO.delete "/d/dangling" world_links = (Ok tt, world_links)
  ∧ FileIO.unlink "/d/dangling" world_links
    = (Ok tt, set_root world_links (del (root world_links) ["d"] "dangling")).
Proof.
  destruct (proj2 (proj2 (unlink_or_delete world_links "/d/dangling"))
              eq_refl eq_refl) as (H1 & d & n & Hr & H2).
  split; [exact H1|]. vm_compute in Hr. injection Hr as Hdn.
  assert (d = ["d"] ∧ n = "dangling") as [-> ->].
  { destruct d as [|a [|b d]]; simplify_eq. done. }
  exact H2.
Defined.

(* ================================================================== *)
(** * [files] with an extension *)
(* ================================================================== *)

Lemma filter_by_extension_app a b e :
  FileTransform.filter_by_extension (a ++ b) e
  = FileTransform.filter_by_extension a e ++ FileTransform.filter_by_extension b e.
Proof. rewrite !filter_by_extension_unfold. apply List.filter_app. Qed.

Lemma files_loop_filter r ifp e roots acc :
  truthy e = true →
  FileDirectories.files_loop r ifp (Some e) roots
    (FileTransform.filter_by_extension acc e)
  = FileTransform.filter_by_extension
      (FileDirectories.files_loop r ifp None roots acc) e.
Proof.
  intros He. revert acc. induction roots as [|x roots IH]; intros acc; [done|].
  cbn [FileDirectories.files_loop FileDirectories.given]. rewrite He.
  rewrite <-filter_by_extension_app.
  destruct r; cbn [negb]; [apply IH|done].
Qed.

Lemma files_loop_empty_extension r ifp roots acc :
  FileDirectories.files_loop r ifp (Some "") roots acc
  = FileDirectories.files_loop r ifp None roots acc.
Proof.
  revert acc. induction roots as [|x roots IH]; intros acc; [done|].
  cbn [FileDirectories.files_loop FileDirectories.given truthy]. simpl.
  destruct r; simpl; [apply IH|done].
Qed.

(** [files] with an extension returns what [filter_by_extension] keeps
    of what it returns without one, whether recursive or with full
    paths; with the empty extension it returns all it returns without
    one. *)
Theorem files_with_extension (w : world) (directory extension : string)
    (recursive include_full_path : bool) :
  FileDirectories.files directory recursive include_full_path (Some "") w
  = FileDirectories.files directory recursive include_full_path None w
  ∧ (extension ≠ "" →
     FileDirectories.files directory recursive include_full_path (Some extension) w
     = match FileDirectories.files directory recursive include_full_path None w with
       | (Ok l, w') => (Ok (FileTransform.filter_by_extension l extension), w')
       | (Raise e, w') => (Raise e, w')
       end).
Proof.
  destruct (walk_ok w directory) as [roots Hw].
  rewrite !(files_walk_run w _ _ _ _ roots Hw).
  split; [by rewrite files_loop_empty_extension|]. intros Hne.
  destruct (os.path_isfile w directory); [done|].
  rewrite <-files_loop_filter; [done|].
  unfold truthy. by apply negb_true_iff, str_eqb_neq.
Qed.

Lemma files_with_extension_witness :
  FileDirectories.files "/dir" true false (Some "txt") world_dir
  = (Ok (FileTransform.filter_by_extension ["a.txt"; "b.log"; "c.txt"] "txt"), world_dir).
Proof.
  rewrite (proj2 (files_with_extension world_dir "/dir" "txt" true false)) by done.
  reflexivity.
Defined.

(* ================================================================== *)
(** * The entries of a directory, listed *)
(* ================================================================== *)

Lemma filter_partition {A} (P : A → bool) l :
  List.filter P l ++ List.filter (λ x, negb (P x)) l ≡ₚ l.
Proof.
  induction l as [|x l IH]; simpl; [done|].
  destruct (P x); simpl.
  - by constructor.
  - rewrite <-Permutation_middle. by constructor.
Qed.

(** What [os.walk] counts as a directory is what [os.path.isdir] says
    of the path of the entry. *)
Lemma entry_is_dir_isdir w directory D n x :
  plain_dir w directory = Some D → name_ok n = true →
  get (root w) (D ++ [n]) = Some x →
  os.entry_is_dir (root w) D n x = os.path_isdir w (posixpath.join2 directory n).
Proof.
  intros Hp Hn Hx. destruct (plain_dir_inv _ _ _ Hp) as (_ & _ & HD).
  unfold os.path_isdir, os.stat_kind.
  rewrite (resolve_child w directory D n true Hp Hn).
  destruct x as [data|sub|t]; simpl;
    [| |by destruct (namei (lkind (root w)) MAXSYMLINKS true D [n])].
  - rewrite namei_name by done. unfold lkind at 1. rewrite Hx. simpl.
    unfold lkind. by rewrite Hx.
  - rewrite namei_name by done. unfold lkind at 1. rewrite Hx. simpl.
    unfold lkind. by rewrite Hx.
Qed.

Lemma walk_plain w directory D es :
  plain_dir w directory = Some D → get (root w) D = Some (Dir es) →
  os.walk directory w = (Ok (os.walk_tree (root w) directory D (Dir es)), w).
Proof.
  intros Hp Hes. unfold os.walk, query.
  by rewrite (plain_dir_resolve _ _ _ true Hp), Hes.
Qed.

(** The listing of a directory that is not recursive: [directories] and
    [files] return the names of its entries, each name once and in one
    of the two lists; [directories] the ones that [os.path.isdir] says
    are directories, a link to a directory with them, and [files] all
    the others, a link that leads nowhere with them. *)
Theorem listing_partition (w : world) (directory : string) (D : path)
    (es : list (string * node)) :
  plain_dir w directory = Some D →
  get (root w) D = Some (Dir es) →
  Forall (λ e, name_ok e.1 = true) es →
  NoDup (es.*1) →
  ∃ ds fs,
    FileDirectories.directories directory false false w = (Ok ds, w)
    ∧ FileDirectories.files directory false false None w = (Ok fs, w)
    ∧ ds ++ fs ≡ₚ es.*1
    ∧ (∀ n, n ∈ ds ↔
            n ∈ es.*1 ∧ os.path_isdir w (FileTools.concat directory [n]) = true)
    ∧ (∀ n, n ∈ fs ↔
            n ∈ es.*1 ∧ os.path_isdir w (FileTools.concat directory [n]) = false).
Proof.
  intros Hp Hes Hnames Hnd.
  destruct (plain_dir_queries _ _ _ Hp) as (Hf & _ & _).
  pose proof (walk_plain w directory D es Hp Hes) as Hw.
  exists ((List.filter (λ e, os.entry_is_dir (root w) D e.1 e.2) es).*1),
         ((List.filter (λ e, negb (os.entry_is_dir (root w) D e.1 e.2)) es).*1).
  assert (∀ n x, (n, x) ∈ es →
            os.entry_is_dir (root w) D n x
            = os.path_isdir w (FileTools.concat directory [n])) as Hdir.
  { intros n x Hin. apply entry_is_dir_isdir; [done| |].
    - by apply (proj1 (Forall_forall _ _) Hnames (n, x)).
    - change (D ++ [n]) with (D ++ n :: []).
      rewrite (get_child w D es Hes). by rewrite (find_entry_NoDup n x). }
  assert (∀ n x y, (n, x) ∈ es → (n, y) ∈ es → x = y) as Huniq.
  { intros n x y Hx Hy. apply (find_entry_NoDup _ _ _ Hnd) in Hx, Hy. congruence. }
  split; [by rewrite (directories_walk_run w _ _ _ _ Hw), Hf|].
  split; [by rewrite (files_walk_run w _ _ _ _ _ Hw), Hf|].
  split; [rewrite <-fmap_app; by rewrite filter_partition|].
  split; intros n; rewrite elem_of_filter_fst, list_elem_of_fmap; split.
  - intros (x & Hin & Hx). simpl in Hx. rewrite (Hdir n x Hin) in Hx.
    split; [by exists (n, x)|done].
  - intros [([k x] & -> & Hin) Hd]. exists x. split; [done|]. simpl.
    by rewrite (Hdir k x Hin).
  - intros (x & Hin & Hx). simpl in Hx. rewrite (Hdir n x Hin) in Hx.
    split; [by exists (n, x)|by apply negb_true_iff].
  - intros [([k x] & -> & Hin) Hd]. exists x. split; [done|]. simpl.
    rewrite (Hdir k x Hin). by apply negb_true_iff.
Qed.

Lemma listing_partition_witness :
  FileDirectories.directories "/d" false false world_links = (Ok [], world_links)
  ∧ ∃ fs, FileDirectories.files "/d" false false None world_links = (Ok fs, world_links)
          ∧ fs ≡ₚ ["f.txt"; "l"; "dangling"].
Proof.
  destruct (listing_partition world_links "/d" ["d"] _ eq_refl eq_refl)
    as (ds & fs & Hd & Hf & Hperm & _).
  - repeat constructor.
  - simpl. repeat constructor; set_solver.
  - vm_compute in Hd. injection Hd as <-. split; [reflexivity|].
    exists fs. split; [exact Hf|]. exact Hperm.
Defined.

(* ================================================================== *)
(** * A word [line_number] finds is a quarry [has_quarry] finds *)
(* ================================================================== *)

Lemma elem_join_all l ls : l ∈ ls → ∃ u v, join_all ls = u +:+ l +:+ v.
Proof.
  intros (l1 & l2 & ->)%list_elem_of_split.
  exists (join_all l1), (join_all l2). by rewrite join_all_app.
Qed.

(** When [line_number] returns a line number for a word, [has_quarry]
    returns [True] for it. *)
Theorem line_number_has_quarry (w w' : world) (full_path word : string) (r : Z) :
  FileFind.line_number full_path word w = (Ok (Some r), w') →
  1 ≤ r →
  FileCheck_has_quarry full_path word w = (Ok true, w).
Proof.
  intros Hrun Hr.
  destruct (os.path_isfile w full_path) eqn:Hf.
  2:{ unfold FileFind.line_number, FileCheck.is_file, bind, query, ret in Hrun.
      rewrite Hf in Hrun. congruence. }
  apply path_isfile_true in Hf as (q & data & Hq & Hd).
  rewrite (line_number_run w _ _ q data) in Hrun by done.
  injection Hrun as Hr' _.
  pose proof (line_number_loop_spec word
                (io.lines_of (io.universal_newlines data)) 0) as Hspec.
  destruct (FileFind.line_number_loop word _ 0) as [r0|]; simpl in Hr'; [|lia].
  destruct Hspec as (i & line & _ & Hline & (Hne & _ & pre & post & -> & _) & _).
  apply list_elem_of_lookup_2, elem_join_all in Hline as (u & v & Ht).
  rewrite lines_of_join in Ht.
  rewrite has_quarry_run, (read_run w _ q data) by done.
  f_equal. f_equal. apply andb_true_iff. split.
  - unfold truthy. apply negb_true_iff, str_eqb_neq. intros E. rewrite E in Ht.
    destruct u, pre, word; simpl in *; congruence.
  - apply str_in_spec. exists (u +:+ pre), (post +:+ v).
    rewrite Ht. by rewrite !str_app_assoc.
Qed.

Lemma line_number_has_quarry_witness :
  FileCheck_has_quarry "/notes.txt" "foo" world_foo = (Ok true, world_foo).
Proof.
  eapply (line_number_has_quarry world_foo _ "/notes.txt" "foo" 2).
  - reflexivity.
  - lia.
Defined.

(* ================================================================== *)
(** * [posixpath.dirname] and the components of a path *)
(* ================================================================== *)

Lemma components_app_sep a b :
  components (a +:+ String Py.sep b) = components a ++ components b.
Proof. unfold components. by rewrite split_on_app_sep, List.filter_app. Qed.

Lemma components_no_sep b :
  occurs Py.sep b = false → components b = if Py.str_eqb b "" then [] else [b].
Proof.
  intros H. apply occurs_split_on in H. unfold components. rewrite H. simpl.
  by destruct (Py.str_eqb b "").
Qed.

Lemma components_all_sep s : Py.all_char Py.sep s = true → components s = [].
Proof.
  induction s as [|x s IH]; [done|]. simpl.
  intros [Hx Hs]%andb_prop. apply ch_eqb_eq in Hx as ->.
  change (String Py.sep s) with ("" +:+ String Py.sep s).
  rewrite components_app_sep. by rewrite IH.
Qed.

Lemma components_app_all_sep a t :
  Py.all_char Py.sep t = true → components (a +:+ t) = components a.
Proof.
  destruct t as [|x t]; [by rewrite str_app_nil_r|]. simpl.
  intros [Hx Ht]%andb_prop. apply ch_eqb_eq in Hx as ->.
  rewrite components_app_sep, (components_all_sep t) by done.
  by rewrite app_nil_r.
Qed.

(** What [rstrip] removes is a run of the character. *)
Lemma rstrip_decomp c s :
  ∃ t, s = Py.rstrip c s +:+ t ∧ Py.all_char c t = true.
Proof.
  induction s as [|x s (t & Hs & Ht)].
  - by exists "".
  - simpl. destruct (Py.rstrip c s) as [|y r] eqn:E.
    + simpl in Hs. subst t. destruct (Py.ch_eqb x c) eqn:Ex.
      * exists (String x s). split; [done|]. simpl. by rewrite Ex, Ht.
      * exists s. by split.
    + exists t. split; [|done]. cbn in *. by f_equal.
Qed.

Lemma rstrip_prefix c s : ∃ t, s = Py.rstrip c s +:+ t.
Proof. destruct (rstrip_decomp c s) as (t & ? & _). by exists t. Qed.

Lemma components_rstrip s : components (Py.rstrip Py.sep s) = components s.
Proof.
  destruct (rstrip_decomp Py.sep s) as (t & Hs & Ht).
  rewrite Hs at 2. by rewrite components_app_all_sep.
Qed.

Lemma rstrip_all_char c s : Py.all_char c s = true → Py.rstrip c s = "".
Proof.
  induction s as [|x s IH]; [done|]. simpl. intros [Hx Hs]%andb_prop.
  by rewrite IH, Hx.
Qed.

Lemma rstrip_not_all_char c s : Py.all_char c s = false → Py.rstrip c s ≠ "".
Proof.
  induction s as [|x s IH]; [done|]. simpl.
  destruct (Py.ch_eqb x c) eqn:Ex; simpl.
  - intros H. specialize (IH H). by destruct (Py.rstrip c s).
  - intros _. by destruct (Py.rstrip c s).
Qed.

Lemma rstrip_not_endswith c s : Py.endswith (Py.rstrip c s) c = false.
Proof.
  induction s as [|x s IH]; [done|]. simpl.
  destruct (Py.rstrip c s) as [|y r] eqn:E.
  - destruct (Py.ch_eqb x c) eqn:Ex; [done|]. simpl. by rewrite Ex.
  - done.
Qed.

Lemma all_char_snoc c a :
  Py.all_char c (a +:+ String c "") = Py.all_char c a.
Proof.
  induction a as [|x a IH]; simpl.
  - unfold Py.ch_eqb. by rewrite bool_decide_eq_true_2.
  - by rewrite IH.
Qed.

Lemma endswith_sep_snoc a c : Py.endswith (a +:+ String c "") c = true.
Proof.
  rewrite endswith_app by done. simpl. unfold Py.ch_eqb.
  by rewrite bool_decide_eq_true_2.
Qed.

Lemma endswith_no_sep b : occurs Py.sep b = false → Py.endswith b Py.sep = false.
Proof.
  induction b as [|x b IH]; [done|]. simpl.
  intros [Hx Hb]%orb_false_elim. destruct b; [done|]. by apply IH.
Qed.

Lemma startswith_no_sep b : occurs Py.sep b = false → Py.startswith b Py.sep = false.
Proof. destruct b as [|x b]; [done|]. simpl. by intros [Hx _]%orb_false_elim. Qed.

(** [dirname] of a path with a separator in it, in two parts at the last
    one. *)
Lemma dirname_last a b :
  occurs Py.sep b = false →
  posixpath.dirname (a +:+ String Py.sep b)
  = if Py.all_char Py.sep a then a +:+ String Py.sep "" else Py.rstrip Py.sep a.
Proof.
  intros Hb. unfold posixpath.dirname.
  rewrite rfind_last, slice_to_last by done.
  rewrite all_char_snoc.
  assert (Py.str_eqb (a +:+ String Py.sep "") "" = false) as ->.
  { apply str_eqb_neq. by destruct a. }
  destruct (Py.all_char Py.sep a); simpl; [done|]. apply rstrip_snoc.
Qed.

(** [dirname] takes a prefix of the path. *)
Lemma dirname_prefix p : ∃ rest, p = posixpath.dirname p +:+ rest.
Proof.
  destruct (rfind_cases Py.sep p) as [[_ Ho]|(a & b & -> & Hb & _)].
  - rewrite dirname_bare by done. by exists p.
  - rewrite dirname_last by done. destruct (Py.all_char Py.sep a).
    + exists b. by rewrite <-app_String_assoc.
    + destruct (rstrip_prefix Py.sep a) as [t Ht].
      exists (t +:+ String Py.sep b). rewrite <-str_app_assoc. by rewrite <-Ht.
Qed.

(** It keeps a path absolute, and a relative path relative. *)
Lemma dirname_startswith p :
  Py.startswith (posixpath.dirname p) Py.sep = Py.startswith p Py.sep.
Proof.
  destruct (rfind_cases Py.sep p) as [[_ Ho]|(a & b & -> & Hb & _)].
  - rewrite dirname_bare by done. simpl. symmetry. by apply startswith_no_sep.
  - rewrite dirname_last by done. destruct (Py.all_char Py.sep a) eqn:Ea.
    + by destruct a.
    + destruct (rstrip_prefix Py.sep a) as [t Ht].
      pose proof (rstrip_not_all_char _ _ Ea) as Hne.
      rewrite Ht at 2. rewrite str_app_assoc. by rewrite startswith_app.
Qed.

(** It strips the last component, and only separators from a path that
    ends with one. *)
Lemma components_dirname p :
  components (posixpath.dirname p)
  = if Py.endswith p Py.sep then components p else removelast (components p).
Proof.
  destruct (rfind_cases Py.sep p) as [[_ Ho]|(a & b & -> & Hb & _)].
  - rewrite dirname_bare, (endswith_no_sep _ Ho), (components_no_sep p) by done.
    by destruct (Py.str_eqb p "").
  - rewrite dirname_last, components_app_sep, (components_no_sep b) by done.
    assert (components (if Py.all_char Py.sep a then a +:+ String Py.sep ""
                        else Py.rstrip Py.sep a) = components a) as ->.
    { destruct (Py.all_char Py.sep a).
      - by rewrite components_app_sep, app_nil_r.
      - apply components_rstrip. }
    destruct b as [|y b].
    + rewrite endswith_sep_snoc. simpl. by rewrite app_nil_r.
    + rewrite endswith_app by done.
      change (Py.endswith (String Py.sep (String y b)) Py.sep)
        with (Py.endswith (String y b) Py.sep).
      rewrite (endswith_no_sep _ Hb).
      assert (Py.str_eqb (String y b) "" = false) as -> by (by apply str_eqb_neq).
      by rewrite removelast_last.
Qed.

(** What it returns ends with a separator only if it has no component. *)
Lemma dirname_endswith p :
  Py.endswith (posixpath.dirname p) Py.sep = true → components (posixpath.dirname p) = [].
Proof.
  destruct (rfind_cases Py.sep p) as [[_ Ho]|(a & b & -> & Hb & _)].
  - by rewrite dirname_bare.
  - rewrite dirname_last by done. destruct (Py.all_char Py.sep a) eqn:Ea.
    + intros _. rewrite components_app_sep, app_nil_r. by apply components_all_sep.
    + by rewrite rstrip_not_endswith.
Qed.

Lemma removelast_take {A} (l : list A) : removelast l = take (length l - 1) l.
Proof.
  induction l as [|x l IH] using rev_ind; [done|].
  rewrite removelast_last, length_app. simpl.
  replace (length l + 1 - 1)%nat with (length l) by lia.
  by rewrite take_app_length.
Qed.

(** [n] applications of [dirname] strip [n] components, one fewer from a
    path that ends with a separator, and no more than there are. *)
Lemma components_dirname_iter n p :
  components (Nat.iter n posixpath.dirname p)
  = take (length (components p)
          - (n - (if Py.endswith p Py.sep then 1 else 0)))%nat (components p).
Proof.
  revert p. induction n as [|n IH]; intros p.
  - simpl. by rewrite Nat.sub_0_r, firstn_all.
  - rewrite Nat.iter_succ_r, IH, components_dirname.
    pose proof (dirname_endswith p) as He.
    rewrite components_dirname in He.
    destruct (Py.endswith p Py.sep).
    + destruct (Py.endswith (posixpath.dirname p) Py.sep).
      * by rewrite He.
      * f_equal; lia.
    + rewrite removelast_take in *.
      destruct (Py.endswith (posixpath.dirname p) Py.sep).
      * specialize (He eq_refl). rewrite He. simpl.
        assert (length (take (length (components p) - 1) (components p)) = 0%nat)
          as Hl by (by rewrite He).
        rewrite length_take in Hl.
        destruct (components p) as [|x [|y l]]; simpl in *; [done|done|lia].
      * rewrite take_take, length_take. f_equal; lia.
Qed.

Lemma dirname_iter_prefix n p : ∃ rest, p = Nat.iter n posixpath.dirname p +:+ rest.
Proof.
  induction n as [|n [rest IH]]; [exists ""; by rewrite str_app_nil_r|].
  simpl. destruct (dirname_prefix (Nat.iter n posixpath.dirname p)) as [r Hr].
  exists (r +:+ rest). rewrite <-str_app_assoc, <-Hr. done.
Qed.

Lemma dirname_iter_startswith n p :
  Py.startswith (Nat.iter n posixpath.dirname p) Py.sep = Py.startswith p Py.sep.
Proof. induction n as [|n IH]; [done|]. simpl. by rewrite dirname_startswith. Qed.

(** The same in closed form, for a path written with one separator
    between its components. *)
Lemma component_no_sep c : component_ok c = true → occurs Py.sep c = false.
Proof.
  unfold component_ok. intros [_ Hs%bool_decide_eq_true]%andb_prop.
  by apply occurs_split_on.
Qed.

Lemma dirname_join_names_snoc cs c :
  Forall (λ c, component_ok c = true) cs → component_ok c = true →
  posixpath.dirname (join_names (cs ++ [c])) = join_names cs.
Proof.
  intros Hcs Hc. pose proof (component_no_sep _ Hc) as Ho.
  destruct (decide (cs = [])) as [->|Hne].
  - simpl. by apply dirname_bare.
  - rewrite join_names_snoc, dirname_last by done.
    pose proof (join_names_startswith cs Hne Hcs) as Hs.
    pose proof (join_names_not_nil cs Hne Hcs) as Hn.
    assert (Py.all_char Py.sep (join_names cs) = false) as ->.
    { destruct (join_names cs); [done|]. simpl in *. by rewrite Hs. }
    apply rstrip_id; [done|]. by apply join_names_endswith.
Qed.

Lemma take_sub_snoc {A} (l : list A) n :
  (n < length l)%nat → ∃ c, take (length l - n) l = take (length l - S n) l ++ [c].
Proof.
  intros Hn. destruct (lookup_lt_is_Some_2 l (length l - S n)) as [c Hc]; [lia|].
  exists c. replace (length l - n)%nat with (S (length l - S n)) by lia.
  by apply take_S_r.
Qed.

Lemma dirname_iter_join_names cs n :
  Forall (λ c, component_ok c = true) cs →
  Nat.iter n posixpath.dirname (join_names cs) = join_names (take (length cs - n) cs).
Proof.
  intros Hcs. induction n as [|n IH].
  - simpl. by rewrite Nat.sub_0_r, firstn_all.
  - simpl. rewrite IH. destruct (decide (n < length cs)%nat) as [Hn|Hn].
    + destruct (take_sub_snoc cs n Hn) as [c Hc].
      assert (Forall (λ c, component_ok c = true)
                (take (length cs - S n) cs ++ [c])) as HF.
      { rewrite <-Hc. by apply Forall_take. }
      apply Forall_app in HF as [HF1 HF2]. apply Forall_inv in HF2.
      rewrite Hc. by apply dirname_join_names_snoc.
    + replace (length cs - n)%nat with 0%nat by lia.
      by replace (length cs - S n)%nat with 0%nat by lia.
Qed.

Lemma dirname_iter_abs_path_all cs n :
  Forall (λ c, component_ok c = true) cs →
  Nat.iter n posixpath.dirname (abs_path cs) = abs_path (take (length cs - n) cs).
Proof.
  intros Hcs. induction n as [|n IH].
  - simpl. by rewrite Nat.sub_0_r, firstn_all.
  - simpl. rewrite IH. destruct (decide (n < length cs)%nat) as [Hn|Hn].
    + destruct (take_sub_snoc cs n Hn) as [c Hc].
      assert (Forall (λ c, component_ok c = true)
                (take (length cs - S n) cs ++ [c])) as HF.
      { rewrite <-Hc. by apply Forall_take. }
      apply Forall_app in HF as [HF1 HF2]. apply Forall_inv in HF2.
      rewrite Hc. by apply dirname_abs_path_snoc.
    + replace (length cs - n)%nat with 0%nat by lia.
      by replace (length cs - S n)%nat with 0%nat by lia.
Qed.

(* ================================================================== *)
(** * [FileDirectories.parent], for every path *)
(* ================================================================== *)

(** C7.  For a depth of at least 1, [parent] returns [None] for a path
    that does not exist.  For one that exists it returns the path after
    [depth] applications of [dirname]: a prefix of the path, absolute if
    the path is, whose components are those of the path without the last
    [depth] ones -- without the last [depth - 1] ones when the path ends
    with a separator, and none of them when the path has fewer.  For an
    absolute or a relative path written with one separator between its
    components, that is the path of the components that are left. *)
Theorem parent_strips_depth_components (w : world) (full_path : string) (depth : Z) :
  1 ≤ depth →
  (os.path_exists w full_path = false →
   FileDirectories.parent full_path depth w = (Ok None, w))
  ∧ (os.path_exists w full_path = true →
     ∃ r rest,
       FileDirectories.parent full_path depth w = (Ok (Some r), w)
       ∧ r = Nat.iter (Z.to_nat depth) posixpath.dirname full_path
       ∧ full_path = r +:+ rest
       ∧ Py.startswith r Py.sep = Py.startswith full_path Py.sep
       ∧ components r
         = take (length (components full_path)
                 - (Z.to_nat depth - (if Py.endswith full_path Py.sep then 1 else 0)))
             (components full_path)
       ∧ ∀ cs, Forall (λ c, component_ok c = true) cs →
           (full_path = abs_path cs →
            r = abs_path (take (length cs - Z.to_nat depth) cs))
           ∧ (full_path = join_names cs →
              r = join_names (take (length cs - Z.to_nat depth) cs))).
Proof.
  intros Hd. rewrite parent_run. split; [by intros ->|]. intros ->.
  destruct (dirname_iter_prefix (Z.to_nat depth) full_path) as [rest Hrest].
  exists (Nat.iter (Z.to_nat depth) posixpath.dirname full_path), rest.
  split; [done|]. split; [done|]. split; [done|].
  split; [apply dirname_iter_startswith|].
  split; [apply components_dirname_iter|].
  intros cs Hcs. split; intros ->.
  - by apply dirname_iter_abs_path_all.
  - by apply dirname_iter_join_names.
Qed.

Lemma parent_strips_depth_components_witness :
  FileDirectories.parent "/a/b/c/d.txt" 2 world_abcd
  = (Ok (Some "/a/b"), world_abcd).
Proof.
  destruct (parent_strips_depth_components world_abcd "/a/b/c/d.txt" 2 ltac:(lia))
    as [_ H].
  destruct (H eq_refl) as (r & rest & Hrun & Hr & _).
  rewrite Hrun, Hr. reflexivity.
Defined.

(** With a depth beyond the number of components, [parent] stops at the
    root; and from a path that ends with a separator, its first step
    strips the separator only. *)
Lemma parent_depth_beyond_components :
  FileDirectories.parent "/a/b/c/d.txt" 7 world_abcd = (Ok (Some "/"), world_abcd)
  ∧ FileDirectories.parent "/" 1 world_abcd = (Ok (Some "/"), world_abcd)
  ∧ FileDirectories.parent "/a/b/" 1 world_abcd = (Ok (Some "/a/b"), world_abcd)
  ∧ components "/a/b/" = components "/a/b".
Proof. by vm_compute. Qed.

(* ================================================================== *)
(** * The resolution of a path in two parts *)
(* ================================================================== *)

(** More fuel does not change a resolution that succeeds. *)
Lemma namei_fuel_mono lk f f' follow cur comps q :
  (f ≤ f')%nat →
  namei lk f follow cur comps = Found q → namei lk f' follow cur comps = Found q.
Proof.
  revert f' cur comps q. induction f as [|f IH]; intros f' cur comps q Hf;
    rewrite !namei_unfold; apply (walk_comps_mono lk lk); try (intros; by right).
  - done.
  - destruct f' as [|f']; [lia|]. intros c cs q'. apply IH. lia.
Qed.

Lemma namei_nil lk f follow cur : namei lk f follow cur [] = Found cur.
Proof. by rewrite namei_unfold. Qed.

(** A resolution that goes on from [D] found a directory there. *)
Lemma namei_cons_dir lk f follow D c r q :
  namei lk f follow D (c :: r) = Found q → lk D = Some KDir.
Proof. rewrite namei_unfold. simpl. by destruct (lk D) as [[]|]. Qed.

(** When the components [xs] lead to [D], the components [xs ++ ys] are
    resolved as [ys] from [D], with the fuel that [xs] left. *)
Lemma walk_comps_app lk (ex : bool → path → list string → lookup) f cur xs D :
  (∀ c cs D, ex true c cs = Found D →
     ∃ f', (f' ≤ f)%nat ∧ ∀ follow ys, ys ≠ [] →
       ex follow c (cs ++ ys) = namei lk f' follow D ys) →
  (∀ follow cur ys,
     walk_comps lk (ex follow) follow cur ys = namei lk f follow cur ys) →
  walk_comps lk (ex true) true cur xs = Found D →
  ∃ f', (f' ≤ f)%nat ∧ ∀ follow ys, ys ≠ [] →
    walk_comps lk (ex follow) follow cur (xs ++ ys) = namei lk f' follow D ys.
Proof.
  intros Hex Hnamei. revert cur. induction xs as [|x xs IH]; intros cur; simpl.
  { intros [= ->]. exists f. split; [done|]. intros follow ys _. apply Hnamei. }
  destruct (lk cur) as [[]|] eqn:Ecur; try done.
  destruct (is_dot x); [apply IH|].
  destruct (Py.str_eqb x ".."); [apply IH|].
  destruct (lk (cur ++ [x])) as [[| |t]|] eqn:Ex; try apply IH.
  - destruct (Py.str_eqb t ""); [done|]. intros H.
    destruct (Hex _ _ _ H) as (f' & Hf' & Hrun). exists f'. split; [done|].
    intros follow ys Hys.
    assert (is_nil (xs ++ ys) = false) as -> by (by destruct xs, ys).
    rewrite orb_true_r, app_assoc. by apply Hrun.
  - by destruct (forallb _ xs).
Qed.

Lemma namei_app lk f cur xs D :
  namei lk f true cur xs = Found D →
  ∃ f', (f' ≤ f)%nat ∧ ∀ follow ys, ys ≠ [] →
    namei lk f follow cur (xs ++ ys) = namei lk f' follow D ys.
Proof.
  revert cur xs D. induction f as [|f IH]; intros cur xs D H;
    rewrite namei_unfold in H.
  - apply (walk_comps_app lk (λ _ _ _, Failed ELOOP) 0) in H as (f' & Hf' & H);
      [|done|intros; by rewrite namei_unfold].
    exists f'. split; [done|]. intros follow ys Hys.
    rewrite namei_unfold. by apply H.
  - apply (walk_comps_app lk (namei lk f) (S f)) in H as (f' & Hf' & H).
    + exists f'. split; [done|]. intros follow ys Hys.
      rewrite namei_unfold. by apply H.
    + intros c cs D' HD'. destruct (IH _ _ _ HD') as (f' & Hf' & H').
      exists f'. split; [lia|done].
    + intros. by rewrite (namei_unfold lk (S f)).
Qed.

(** When the components [xs ++ ys] lead somewhere, the components [xs]
    do. *)
Lemma walk_comps_app_inv lk (ex : bool → path → list string → lookup)
    follow cur xs ys q :
  ys ≠ [] →
  (∀ c cs q, ex follow c (cs ++ ys) = Found q → ∃ D, ex true c cs = Found D) →
  walk_comps lk (ex follow) follow cur (xs ++ ys) = Found q →
  ∃ D, walk_comps lk (ex true) true cur xs = Found D.
Proof.
  intros Hys Hex. revert cur. induction xs as [|x xs IH]; intros cur; simpl.
  { intros _. by exists cur. }
  destruct (lk cur) as [[]|] eqn:Ecur; try done.
  destruct (is_dot x); [apply IH|].
  destruct (Py.str_eqb x ".."); [apply IH|].
  destruct (lk (cur ++ [x])) as [[| |t]|] eqn:Ex; try apply IH.
  - assert (is_nil (xs ++ ys) = false) as -> by (by destruct xs, ys).
    rewrite orb_true_r. destruct (Py.str_eqb t ""); [done|].
    rewrite app_assoc. apply Hex.
  - by destruct (forallb _ (xs ++ ys)).
Qed.

Lemma namei_app_inv lk f follow cur xs ys q :
  ys ≠ [] →
  namei lk f follow cur (xs ++ ys) = Found q →
  ∃ D, namei lk f true cur xs = Found D.
Proof.
  intros Hys. revert cur xs q. induction f as [|f IH]; intros cur xs q;
    rewrite !namei_unfold.
  - by apply (walk_comps_app_inv lk (λ _ _ _, Failed ELOOP)).
  - apply (walk_comps_app_inv lk (namei lk f)); [done|]. apply IH.
Qed.

(** Both together. *)
Lemma namei_app_found lk f follow cur xs ys q :
  ys ≠ [] →
  namei lk f follow cur (xs ++ ys) = Found q →
  ∃ D f', (f' ≤ f)%nat ∧ namei lk f true cur xs = Found D
          ∧ namei lk f' follow D ys = Found q.
Proof.
  intros Hys H. destruct (namei_app_inv _ _ _ _ _ _ _ Hys H) as [D HD].
  destruct (namei_app _ _ _ _ _ HD) as (f' & Hf' & Hrun).
  exists D, f'. split; [done|]. split; [done|]. by rewrite <-Hrun.
Qed.

(** Empty components at the end of a path that leads to a directory
    change nothing. *)
Lemma namei_drop_empty lk f cur pre D :
  namei lk f true cur (pre ++ [""]) = Found D → namei lk f true cur pre = Found D.
Proof.
  intros H. destruct (namei_app_found lk f true cur pre [""] D ltac:(done) H)
    as (D' & f' & _ & HD' & Hlast).
  rewrite namei_unfold in Hlast. simpl in Hlast.
  destruct (lk D') as [[]|]; try done. congruence.
Qed.

Section weak_removed.

(** [lk'] is [lk] without some entries that are no directories and do
    not lead to one. *)
Variables lk lk' : path → option kind.
Hypothesis removed : ∀ q,
  lk' q = lk q
  ∨ (lk' q = None ∧ lk q ≠ Some KDir
     ∧ ∀ d n D', q = d ++ [n] →
         namei lk MAXSYMLINKS true d [n] = Found D' → lk D' ≠ Some KDir).

(** A path that leads to a directory does not go through such an
    entry. *)
Lemma walk_comps_weak_removed ex ex' g follow cur comps q :
  (g < MAXSYMLINKS)%nat →
  (∀ c cs q, ex c cs = Found q → lk q = Some KDir → ex' c cs = Found q) →
  (∀ c cs q, ex c cs = Found q → namei lk g follow c cs = Found q) →
  walk_comps lk ex follow cur comps = Found q → lk q = Some KDir →
  walk_comps lk' ex' follow cur comps = Found q.
Proof.
  intros Hg Hex Hnamei. revert cur.
  induction comps as [|c rest IH]; intros cur; simpl; [done|].
  destruct (lk cur) as [[]|] eqn:Ecur; try done.
  assert (lk' cur = Some KDir) as ->.
  { destruct (removed cur) as [->|(_ & Hn & _)]; done. }
  destruct (is_dot c) eqn:Edot; [apply IH|].
  destruct (Py.str_eqb c "..") eqn:Edd; [apply IH|].
  destruct (lk (cur ++ [c])) as [[| |t]|] eqn:Ec.
  - (* a file *)
    intros H Hq. destruct rest as [|c' rest]; simpl in H.
    + injection H as <-. congruence.
    + by rewrite Ec in H.
  - (* a directory *)
    destruct (removed (cur ++ [c])) as [->|(_ & Hn & _)]; [|done].
    rewrite Ec. apply IH.
  - (* a link *)
    destruct (follow || negb (is_nil rest)) eqn:Ef.
    2:{ intros [= <-] Hq. congruence. }
    destruct (Py.str_eqb t "") eqn:Et; [done|]. intros H Hq.
    destruct (removed (cur ++ [c])) as [->|(_ & _ & Hweak)].
    { rewrite Ec, Et. by apply Hex. }
    exfalso. apply Hnamei in H.
    assert (∃ D', namei lk g true (if Py.startswith t Py.sep then [] else cur)
                    (Py.split_on Py.sep t ++ []) = Found D'
                  ∧ lk D' = Some KDir) as (D' & HD' & Hk).
    { destruct rest as [|c' rest].
      - rewrite orb_false_r in Ef. subst follow. by exists q.
      - destruct (namei_app_found lk g follow _ _ (c' :: rest) q ltac:(done) H)
          as (D' & f' & _ & HD' & Hrest).
        exists D'. rewrite app_nil_r. split; [done|].
        by apply namei_cons_dir in Hrest. }
    apply (Hweak cur c D' eq_refl); [|done].
    rewrite namei_unfold. simpl. rewrite Ecur, Edot, Edd, Ec, Et.
    eapply namei_fuel_mono; [|done]. unfold MAXSYMLINKS in Hg. lia.
  - by destruct (forallb _ rest).
Qed.

Lemma namei_weak_removed f follow cur comps q :
  (f ≤ MAXSYMLINKS)%nat →
  namei lk f follow cur comps = Found q → lk q = Some KDir →
  namei lk' f follow cur comps = Found q.
Proof.
  revert cur comps q. induction f as [|f IH]; intros cur comps q Hf;
    rewrite !namei_unfold.
  - apply (walk_comps_weak_removed _ _ 0); [unfold MAXSYMLINKS; lia|done|done].
  - apply (walk_comps_weak_removed _ _ f); [lia| |done].
    intros c cs q' H Hq'. apply IH; [lia|done|done].
Qed.

End weak_removed.

(* ================================================================== *)
(** * Paths made with [posixpath.join] *)
(* ================================================================== *)

Lemma join2_split_any b m :
  name_ok m = true →
  posixpath.join2 b m ≠ ""
  ∧ Py.startswith (posixpath.join2 b m) Py.sep
    = (if Py.str_eqb b "" then false else Py.startswith b Py.sep)
  ∧ ∃ pre, Py.split_on Py.sep (posixpath.join2 b m) = pre ++ [m]
           ∧ if Py.str_eqb b "" then pre = []
             else (Py.split_on Py.sep b = pre
                   ∨ Py.split_on Py.sep b = pre ++ [""]).
Proof.
  intros Hm. case_str_eqb b "".
  - subst b. unfold posixpath.join2. rewrite (name_ok_startswith _ Hm). simpl.
    split; [by apply name_ok_not_empty|]. split; [by apply name_ok_startswith|].
    exists []. by rewrite (name_ok_split _ Hm).
  - by apply join2_split.
Qed.

Lemma join_split b ms :
  Forall (λ n, name_ok n = true) ms → ms ≠ [] →
  posixpath.join b ms ≠ ""
  ∧ Py.startswith (posixpath.join b ms) Py.sep
    = (if Py.str_eqb b "" then false else Py.startswith b Py.sep)
  ∧ ∃ pre, Py.split_on Py.sep (posixpath.join b ms) = pre ++ ms
           ∧ if Py.str_eqb b "" then pre = []
             else (Py.split_on Py.sep b = pre
                   ∨ Py.split_on Py.sep b = pre ++ [""]).
Proof.
  intros Hms Hne. revert b. induction ms as [|m ms IH]; intros b; [done|].
  apply Forall_cons in Hms as [Hm Hms].
  destruct (join2_split_any b m Hm) as (Hj & Hs & pre & Hpre & Hb).
  destruct ms as [|m2 r]; [by eauto|].
  change (posixpath.join b (m :: m2 :: r))
    with (posixpath.join (posixpath.join2 b m) (m2 :: r)).
  destruct (IH Hms ltac:(done) (posixpath.join2 b m)) as (Hj' & Hs' & pre' & Hpre' & Hb').
  rewrite (proj2 (str_eqb_neq _ "")) in Hs', Hb' by done.
  split; [done|]. split; [by rewrite Hs'|].
  exists pre. split; [|done].
  rewrite Hpre' . rewrite Hpre in Hb'. destruct Hb' as [<-|E].
  - by rewrite <-app_assoc.
  - apply app_inj_tail in E as [_ ->]. by apply name_ok_not_empty in Hm.
Qed.

(** Names after a path that leads to a directory are resolved from that
    directory. *)
Lemma resolve_join w b D ms :
  base_of w b = Found D →
  Forall (λ n, name_ok n = true) ms → ms ≠ [] →
  ∃ f, (f ≤ MAXSYMLINKS)%nat ∧ ∀ follow,
    resolve w follow (posixpath.join b ms)
    = namei (lkind (root w)) f follow D ms.
Proof.
  intros Hb Hms Hne.
  destruct (join_split b ms Hms Hne) as (Hj & Hs & pre & Hpre & Hpb).
  unfold base_of in Hb. unfold resolve.
  rewrite (proj2 (str_eqb_neq _ "")), Hs, Hpre by done.
  case_str_eqb b "".
  - subst pre. injection Hb as <-. by exists MAXSYMLINKS.
  - unfold resolve in Hb. rewrite (proj2 (str_eqb_neq b "")) in Hb by done.
    assert (namei (lkind (root w)) MAXSYMLINKS true
              (if Py.startswith b Py.sep then [] else cwd w) pre = Found D) as Hp.
    { destruct Hpb as [E|E]; rewrite E in Hb; [done|]. by apply namei_drop_empty. }
    destruct (namei_app _ _ _ _ _ Hp) as (f & Hf & Hrun).
    exists f. split; [done|]. intros follow. by apply Hrun.
Qed.

Lemma concat_one directory n :
  FileTools.concat directory [n] = posixpath.join2 directory n.
Proof. done. Qed.

Lemma resolve_found_not_empty w follow p q : resolve w follow p = Found q → p ≠ "".
Proof. by intros H ->. Qed.

(* ================================================================== *)
(** * The entries of a directory, by any path that leads to it *)
(* ================================================================== *)

Section child_at.

(** A state [w] in which [directory] leads to the directory at [D], and
    a name [n]. *)
Variables (w : world) (directory : string) (D : path) (n : string).
Hypothesis leads : resolve w true directory = Found D.
Hypothesis is_dir : lkind (root w) D = Some KDir.
Hypothesis name : name_ok n = true.

Lemma resolve_child_at :
  ∃ f, (f ≤ MAXSYMLINKS)%nat ∧ ∀ follow,
    resolve w follow (posixpath.join2 directory n)
    = namei (lkind (root w)) f follow D [n].
Proof.
  apply (resolve_join w directory D [n]); [|by apply Forall_singleton|done].
  unfold base_of.
  by rewrite (proj2 (str_eqb_neq directory ""))
    by (by eapply resolve_found_not_empty).
Qed.

Lemma resolve_child_nofollow_at :
  resolve w false (posixpath.join2 directory n)
  = match lkind (root w) (D ++ [n]) with
    | None => Absent D n false
    | Some _ => Found (D ++ [n])
    end.
Proof.
  destruct resolve_child_at as (f & _ & ->). rewrite namei_name by done.
  by destruct (lkind (root w) (D ++ [n])) as [[]|].
Qed.

Lemma resolve_child_follow_at k :
  lkind (root w) (D ++ [n]) = Some k → (∀ t, k ≠ KLink t) →
  resolve w true (posixpath.join2 directory n) = Found (D ++ [n]).
Proof.
  intros Hk Hl. destruct resolve_child_at as (f & _ & ->).
  rewrite namei_name, Hk by done.
  destruct k; try done. by destruct (Hl target).
Qed.

Lemma resolve_child_absent_at follow :
  lkind (root w) (D ++ [n]) = None →
  resolve w follow (posixpath.join2 directory n) = Absent D n false.
Proof.
  intros Hk. destruct resolve_child_at as (f & _ & ->).
  by rewrite namei_name, Hk by done.
Qed.

Lemma child_islink_at :
  os.path_islink w (posixpath.join2 directory n)
  = match lkind (root w) (D ++ [n]) with
    | Some (KLink _) => true
    | _ => false
    end.
Proof.
  unfold os.path_islink, os.stat_kind. rewrite resolve_child_nofollow_at.
  by destruct (lkind (root w) (D ++ [n])) as [[]|] eqn:E; rewrite ?E.
Qed.

Lemma remove_child_at k :
  lkind (root w) (D ++ [n]) = Some k → k ≠ KDir →
  os.remove (posixpath.join2 directory n) w = (Ok tt, set_root w (del (root w) D n)).
Proof.
  intros Hk Hd. unfold os.remove. rewrite resolve_child_nofollow_at, Hk, Hk.
  rewrite del_at_snoc. by destruct k.
Qed.

Lemma final_component_child_at :
  os.final_component (posixpath.join2 directory n) = n.
Proof.
  apply final_component_child; [|done]. by eapply resolve_found_not_empty.
Qed.

(** A link that the path of the entry follows to a directory leads to
    one from the directory itself. *)
Lemma child_link_isdir_at t :
  os.path_isdir w (posixpath.join2 directory n) = true →
  os.entry_is_dir (root w) D n (Link t) = true.
Proof.
  intros (q & Hq & Hqk)%path_isdir_true.
  destruct resolve_child_at as (f & Hf & Hr). rewrite Hr in Hq.
  apply (namei_fuel_mono _ _ MAXSYMLINKS) in Hq; [|done].
  simpl. by rewrite Hq, Hqk.
Qed.

End child_at.

(** [shutil.rmtree] on an entry that is a directory, when the path still
    leads to the directory once the entry is empty. *)
Lemma rmtree_child_at w directory D n :
  resolve w true directory = Found D →
  lkind (root w) D = Some KDir → name_ok n = true →
  lkind (root w) (D ++ [n]) = Some KDir →
  resolve (set_root w (alter_dir (λ _, []) (root w) (D ++ [n]))) true directory
  = Found D →
  shutil.rmtree_ignore_errors (posixpath.join2 directory n) w
  = (Ok tt, set_root w (del (root w) D n)).
Proof.
  intros Hleads HD Hn Hk Hleads1. unfold shutil.rmtree_ignore_errors.
  rewrite (resolve_child_nofollow_at w directory D n Hleads HD Hn), Hk, Hk.
  apply lkind_dir in Hk as [sub Hsub].
  set (w1 := set_root w (alter_dir (λ _, []) (root w) (D ++ [n]))) in *.
  assert (lkind (root w1) D = Some KDir) as HD1.
  { unfold w1. cbn [root set_root]. rewrite lkind_alter_dir; [done|].
    intros k r E. apply (f_equal length) in E. rewrite !length_app in E.
    simpl in E. lia. }
  assert (get (root w1) (D ++ [n]) = Some (Dir [])) as Hg.
  { simpl. by rewrite (get_alter_dir_here _ _ _ sub). }
  unfold os.rmdir.
  rewrite (resolve_child_nofollow_at w1 directory D n Hleads1 HD1 Hn).
  assert (lkind (root w1) (D ++ [n]) = Some KDir) as -> by (apply lkind_dir; eauto).
  rewrite Hg, (final_component_child_at w directory D n Hleads Hn).
  rewrite (name_ok_not_dotdot _ Hn).
  assert (Py.str_eqb n "." = false) as ->.
  { pose proof (name_ok_not_dot _ Hn) as H. unfold is_dot in H.
    by apply orb_false_elim in H as [_ ?]. }
  simpl. assert (is_nil (D ++ [n]) = false) as -> by (by destruct D).
  rewrite del_at_snoc. simpl. unfold set_root. simpl. f_equal. f_equal.
  change (D ++ [n]) with (D ++ n :: []). apply del_alter_dir_below.
Qed.

(* ================================================================== *)
(** * [FileDirectories.clear], by any path that leads to the directory *)
(* ================================================================== *)

Section route.

(** The path [directory] leads to the directory at [D], with the
    entries [es], without going through one of them. *)
Variables (w : world) (directory : string) (D : path) (es : list (string * node)).
Hypothesis outside : route_outside w directory D.
Hypothesis entries : get (root w) D = Some (Dir es).

(** It leads there in every state that differs inside the directory
    only. *)
Lemma route_outside_stable W :
  cwd W = cwd w →
  (∀ q, (∀ n r, q ≠ D ++ n :: r) → lkind (root W) q = lkind (root w) q) →
  resolve W true directory = Found D.
Proof.
  intros Hcwd Hsame. unfold route_outside, resolve in *.
  destruct (Py.str_eqb directory ""); [done|].
  cbn [cwd with_entries set_root] in outside. rewrite Hcwd.
  eapply namei_mono; [|exact outside]. intros q.
  destruct (decide (D `prefix_of` q)) as [[[|n r] ->]|Hn].
  - right. rewrite app_nil_r, Hsame.
    + unfold lkind. by rewrite (with_entries_get w D es entries), entries.
    + intros n r E. apply (f_equal length) in E. rewrite length_app in E.
      simpl in E. lia.
  - left. unfold lkind. by rewrite (with_entries_child w D es entries).
  - right. rewrite Hsame.
    + apply lkind_alter_dir. intros n r ->. apply Hn. by exists (n :: r).
    + intros n r ->. apply Hn. by exists (n :: r).
Qed.

Lemma route_outside_leads : resolve w true directory = Found D.
Proof. by apply route_outside_stable. Qed.

Lemma route_outside_entries es' :
  resolve (with_entries w D es') true directory = Found D
  ∧ lkind (root (with_entries w D es')) D = Some KDir.
Proof.
  split.
  - apply route_outside_stable; [done|]. intros q Hq. by apply lkind_alter_dir.
  - unfold lkind. by rewrite (with_entries_get w D es entries).
Qed.

(** Whatever the entry [n] is, the body of the loop removes it. *)
Lemma clear_child_run_at R n :
  name_ok n = true →
  clear_child (posixpath.join2 directory n) (with_entries w D (keep R es))
  = (Ok tt, with_entries w D (keep (n :: R) es)).
Proof.
  intros Hn. set (W := with_entries w D (keep R es)).
  destruct (route_outside_entries (keep R es)) as [HW HWD]. fold W in HW, HWD.
  unfold FileCheck.is_link, FileCheck.is_file, bind at 1, query.
  rewrite (child_islink_at W directory D n HW HWD Hn).
  destruct (lkind (root W) (D ++ [n])) as [[| |t]|] eqn:Hk.
  - (* a file *)
    unfold bind, os.path_isfile, os.stat_kind.
    rewrite (resolve_child_follow_at W directory D n HW HWD Hn KFile) by done.
    rewrite Hk.
    rewrite (FileIO_delete_file_run W _ D n); try done.
    + unfold W. by rewrite (with_entries_del w D es).
    + by apply (resolve_child_follow_at W directory D n HW HWD Hn KFile).
    + by rewrite (resolve_child_nofollow_at W directory D n HW HWD Hn), Hk.
  - (* a directory *)
    unfold bind, os.path_isfile, os.stat_kind.
    rewrite (resolve_child_follow_at W directory D n HW HWD Hn KDir) by done.
    rewrite Hk. unfold FileDirectories.delete, FileCheck.is_link, FileCheck.is_file,
      bind, query, ret.
    rewrite (child_islink_at W directory D n HW HWD Hn), Hk.
    unfold os.path_isfile, os.stat_kind.
    rewrite (resolve_child_follow_at W directory D n HW HWD Hn KDir) by done.
    rewrite Hk, (rmtree_child_at W directory D n HW HWD Hn Hk).
    + unfold W. by rewrite (with_entries_del w D es).
    + apply route_outside_stable; [done|]. intros q Hq.
      cbn [root set_root]. rewrite lkind_alter_dir.
      * unfold W. cbn [root with_entries set_root]. by apply lkind_alter_dir.
      * intros k r ->. apply (Hq n (k :: r)). by rewrite <-app_assoc.
  - (* a link *)
    unfold FileIO.unlink, os.unlink.
    rewrite (remove_child_at W directory D n HW HWD Hn (KLink t)) by done.
    unfold W. by rewrite (with_entries_del w D es).
  - (* nothing *)
    unfold bind, os.path_isfile, os.stat_kind.
    rewrite (resolve_child_absent_at W directory D n HW HWD Hn true Hk).
    unfold FileDirectories.delete, FileCheck.is_link, FileCheck.is_file,
      bind, query, ret.
    rewrite (child_islink_at W directory D n HW HWD Hn), Hk.
    unfold os.path_isfile, os.stat_kind.
    rewrite (resolve_child_absent_at W directory D n HW HWD Hn true Hk).
    unfold shutil.rmtree_ignore_errors.
    rewrite (resolve_child_absent_at W directory D n HW HWD Hn false Hk).
    unfold W. rewrite (keep_absent es R n); [done|].
    unfold W, lkind in Hk. rewrite (with_entries_child w D es entries) in Hk.
    simpl in Hk. by destruct (find_entry n (keep R es)).
Qed.

Lemma clear_children_run_at L R :
  Forall (λ n, name_ok n = true) L →
  for_ (map (λ x, FileTools.concat directory [x]) L) clear_child
    (with_entries w D (keep R es))
  = (Ok tt, with_entries w D (keep (rev L ++ R) es)).
Proof.
  revert R. induction L as [|n L IH]; intros R HL; [done|].
  apply Forall_cons in HL as [Hn HL]. simpl.
  unfold bind at 1.
  change (FileTools.concat directory [n]) with (posixpath.join2 directory n).
  rewrite (clear_child_run_at R n Hn). rewrite IH by done.
  by rewrite <-app_assoc.
Qed.

End route.

Section any_route.

(** The path [directory] leads to the directory at [D], with the
    entries [es]. *)
Variables (w : world) (directory : string) (D : path) (es : list (string * node)).
Hypothesis leads : resolve w true directory = Found D.
Hypothesis entries : get (root w) D = Some (Dir es).

(** It still does once entries that [os.walk] lists as no directories
    are removed: a path does not lead to a directory through them. *)
Lemma listed_files_removed_leads R :
  (∀ n, n ∈ R →
     name_ok n = true
     ∧ ∃ x, find_entry n es = Some x ∧ os.entry_is_dir (root w) D n x = false) →
  resolve (with_entries w D (keep R es)) true directory = Found D.
Proof.
  intros HR.
  assert (lkind (root w) D = Some KDir) as HD by (apply lkind_dir; eauto).
  unfold resolve in *. destruct (Py.str_eqb directory ""); [done|].
  cbn [cwd root with_entries set_root].
  apply (namei_weak_removed (lkind (root w))); [|done|done|done].
  intros q. destruct (decide (D `prefix_of` q)) as [[[|n r] ->]|Hn].
  - left. rewrite app_nil_r. unfold lkind.
    by rewrite (get_alter_dir_here _ _ _ es), entries.
  - destruct (decide (n ∈ R)) as [HnR|HnR].
    + destruct (HR n HnR) as (Hn & x & Hx & Hnd).
      assert (lkind (alter_dir (λ _, keep R es) (root w) D) (D ++ n :: r) = None)
        as Hnone.
      { unfold lkind. rewrite (get_alter_dir_child _ _ _ es) by done.
        by rewrite find_entry_keep, bool_decide_eq_true_2. }
      destruct r as [|c r].
      * right. split; [done|]. split.
        { unfold lkind. rewrite (get_child w D es entries), Hx. simpl.
          by destruct x. }
        intros d n' D' E HD'. apply app_inj_tail in E as [<- <-].
        assert (lkind (root w) (D ++ [n]) = Some (kind_of x)) as Hk.
        { unfold lkind. by rewrite (get_child w D es entries), Hx. }
        destruct x as [data|sub|t]; [|done|].
        -- rewrite namei_name, Hk in HD' by done. injection HD' as <-.
           by rewrite Hk.
        -- simpl in Hnd. rewrite HD' in Hnd.
           by destruct (lkind (root w) D') as [[]|].
      * left. rewrite Hnone. unfold lkind.
        rewrite (get_child w D es entries), Hx. simpl. by destruct x.
    + left. unfold lkind. rewrite (get_alter_dir_child _ _ _ es) by done.
      rewrite (get_child w D es entries), find_entry_keep.
      by rewrite bool_decide_eq_false_2.
  - left. apply lkind_alter_dir. intros n r ->. apply Hn. by exists (n :: r).
Qed.

(** [FileIO.delete] on an entry that [os.walk] listed as no directory:
    it does not raise, and it removes the entry when it is a file. *)
Lemma delete_listed_file_at R n x :
  (∀ n, n ∈ R →
     name_ok n = true
     ∧ ∃ x, find_entry n es = Some x ∧ os.entry_is_dir (root w) D n x = false) →
  name_ok n = true → find_entry n es = Some x →
  os.entry_is_dir (root w) D n x = false →
  ∃ R', FileIO.delete (posixpath.join2 directory n) (with_entries w D (keep R es))
        = (Ok tt, with_entries w D (keep R' es))
        ∧ (R' = R ∨ R' = n :: R)
        ∧ (∀ data, x = File data → n ∈ R').
Proof.
  intros HR Hn Hx Hnd. set (W := with_entries w D (keep R es)).
  pose proof (listed_files_removed_leads R HR) as HW. fold W in HW.
  assert (lkind (root W) D = Some KDir) as HWD.
  { unfold lkind, W. by rewrite (with_entries_get w D es entries). }
  assert (lkind (root w) (D ++ [n]) = Some (kind_of x)) as Hkw.
  { unfold lkind. rewrite (get_child w D es entries), Hx. done. }
  pose proof (with_entries_lkind_child w D es entries R n) as HkW. fold W in HkW.
  destruct (decide (n ∈ R)) as [HnR|HnR].
  - (* already removed *)
    rewrite bool_decide_eq_true_2 in HkW by done.
    exists R. split; [|by auto].
    pose proof (resolve_child_absent_at W directory D n HW HWD Hn true HkW) as Ha.
    rewrite FileIO_delete_not_dir by (by eapply absent_not_isdir).
    by rewrite (absent_not_exists _ _ _ _ _ Ha).
  - rewrite bool_decide_eq_false_2, Hkw in HkW by done.
    destruct x as [data|sub|t]; cbn [kind_of] in HkW; [| done |].
    + (* a file *)
      exists (n :: R). split; [|split; [by right|intros; by left]].
      rewrite (FileIO_delete_file_run W _ D n); try done.
      * unfold W. by rewrite (with_entries_del w D es).
      * by apply (resolve_child_follow_at W directory D n HW HWD Hn KFile).
      * by rewrite (resolve_child_nofollow_at W directory D n HW HWD Hn), HkW.
    + (* a link that led to no directory when it was listed *)
      assert (os.path_isdir W (posixpath.join2 directory n) = false) as Hnotdir.
      { destruct (os.path_isdir W _) eqn:E; [|done].
        pose proof (child_link_isdir_at W directory D n HW Hn t E) as Hd.
        unfold os.entry_is_dir in Hd, Hnd.
        destruct (namei (lkind (root W)) MAXSYMLINKS true D [n]) as [q| |] eqn:Hq;
          try done.
        destruct (lkind (root W) q) as [[]|] eqn:Hqk; try done.
        apply (namei_mono (lkind (root w))) in Hq;
          [|intros q'; apply (with_entries_lost w D es entries)].
        destruct (with_entries_lost w D es entries R q) as [E1|E1];
          fold W in E1; rewrite E1 in Hqk; [done|].
        by rewrite Hq, Hqk in Hnd. }
      rewrite FileIO_delete_not_dir by done. destruct (os.path_exists W _).
      * exists (n :: R). split; [|split; [by right|done]].
        rewrite (remove_child_at W directory D n HW HWD Hn (KLink t)) by done.
        unfold W. by rewrite (with_entries_del w D es).
      * exists R. split; [done|]. split; [by left|done].
Qed.

Lemma clear_files_loop_at names R :
  (∀ n, n ∈ R →
     name_ok n = true
     ∧ ∃ x, find_entry n es = Some x ∧ os.entry_is_dir (root w) D n x = false) →
  (∀ n, n ∈ names →
     name_ok n = true
     ∧ ∃ x, find_entry n es = Some x ∧ os.entry_is_dir (root w) D n x = false) →
  ∃ R',
    for_ names (λ file_name,
      let full_path := FileTools.concat directory [file_name] in
      FileIO.delete full_path) (with_entries w D (keep R es))
    = (Ok tt, with_entries w D (keep R' es))
    ∧ (∀ n, n ∈ R' → n ∈ R ∨ n ∈ names)
    ∧ (∀ n, n ∈ R → n ∈ R')
    ∧ (∀ n data, n ∈ names → find_entry n es = Some (File data) → n ∈ R').
Proof.
  revert R. induction names as [|n names IH]; intros R HR Hnames.
  { exists R. split; [done|]. split; [by left|]. split; [done|].
    intros n data Hin. by apply elem_of_nil in Hin. }
  destruct (Hnames n ltac:(by left)) as (Hn & x & Hx & Hnd).
  destruct (delete_listed_file_at R n x HR Hn Hx Hnd) as (R1 & Hrun & HR1 & Hfile).
  destruct (IH R1) as (R' & Hloop & Hsub & Hmono & Hfiles).
  { intros m Hm. destruct HR1 as [->| ->]; [by apply HR|].
    apply elem_of_cons in Hm as [->|Hm]; [by eauto|by apply HR]. }
  { intros m Hm. apply Hnames. by right. }
  exists R'. split; [|split; [|split]].
  - simpl. unfold bind at 1.
    change (FileTools.concat directory [n]) with (posixpath.join2 directory n).
    by rewrite Hrun.
  - intros m Hm. destruct (Hsub m Hm) as [H1|H1]; [|right; by right].
    destruct HR1 as [->| ->]; [by left|].
    apply elem_of_cons in H1 as [->|H1]; [right; by left|by left].
  - intros m Hm. apply Hmono. destruct HR1 as [->| ->]; [done|by right].
  - intros m data [->|Hm]%elem_of_cons Hfind.
    + apply Hmono. apply (Hfile data). congruence.
    + by apply (Hfiles m data).
Qed.

End any_route.

Lemma found_dir_queries w directory D :
  resolve w true directory = Found D → lkind (root w) D = Some KDir →
  os.path_isfile w directory = false
  ∧ os.path_exists w directory = true
  ∧ os.path_isdir w directory = true.
Proof.
  intros Hr HD.
  unfold os.path_isfile, os.path_exists, os.path_isdir, os.stat_kind.
  by rewrite Hr, HD.
Qed.

Lemma children_first_level_at w directory D es :
  resolve w true directory = Found D → get (root w) D = Some (Dir es) →
  FileDirectories.children directory false true None w
  = (Ok (map (λ x, FileTools.concat directory [x])
           ((List.filter (λ e, os.entry_is_dir (root w) D e.1 e.2) es).*1
            ++ (List.filter (λ e, negb (os.entry_is_dir (root w) D e.1 e.2)) es).*1)),
     w).
Proof.
  intros Hr Hes.
  assert (lkind (root w) D = Some KDir) as HD by (apply lkind_dir; eauto).
  destruct (found_dir_queries _ _ _ Hr HD) as (Hf & _ & _).
  unfold FileDirectories.children, bind. rewrite raise_error_if_file_run, Hf.
  unfold os.walk, query. rewrite Hr, Hes.
  unfold ret. simpl. by rewrite map_app.
Qed.

(** A plain path does not go through an entry of the directory it leads
    to. *)
Lemma plain_dir_route_outside w directory D :
  plain_dir w directory = Some D → route_outside w directory D.
Proof.
  intros H. unfold route_outside. apply plain_dir_resolve.
  unfold with_entries. by apply plain_dir_alter.
Qed.

(** A path that leads to a directory does not go through an entry of it
    exactly when it names a directory once that directory is empty. *)
Lemma route_outside_iff w directory D es :
  resolve w true directory = Found D → get (root w) D = Some (Dir es) →
  route_outside w directory D
  ↔ os.path_isdir (with_entries w D []) directory = true.
Proof.
  intros Hr Hes. split.
  - intros Hout. apply path_isdir_true. exists D.
    by apply (route_outside_entries w directory D es Hout Hes).
  - intros (q & Hq & _)%path_isdir_true. unfold route_outside.
    rewrite Hq. f_equal.
    assert (resolve w true directory = Found q) as Hq'; [|congruence].
    unfold resolve in *. destruct (Py.str_eqb directory ""); [done|].
    cbn [cwd with_entries set_root] in Hq.
    eapply namei_mono; [|exact Hq]. intros q'.
    pose proof (with_entries_lost w D es Hes (es.*1) q') as Hl.
    rewrite keep_all in Hl; [done|].
    intros e He. apply list_elem_of_fmap. by exists e.
Qed.



(** The path [/dir/sub/..] leads to [/dir] through its entry [sub]: it
    does not lead there once the directory is empty. *)
Example route_through_an_entry : ¬ route_outside world_dir "/dir/sub/.." ["dir"].
Proof. unfold route_outside. by vm_compute. Qed.

(** When the entry the path goes through is the only one, [clear] with
    [recursive] does empty the directory, and the path names nothing
    afterwards. *)
Example clear_all_of_the_entry_on_the_path :
  let w := {| root := Dir [("dir", Dir [("sub", Dir [])])];
              cwd := []; open_files := [] |} in
  FileDirectories.clear "/dir/sub/.." true w = (Ok tt, with_entries w ["dir"] [])
  ∧ os.path_exists (with_entries w ["dir"] []) "/dir/sub/.." = false.
Proof. by vm_compute. Qed.

(* ================================================================== *)
(** * [os.mkdir] and [os.makedirs], for every path *)
(* ================================================================== *)

Lemma only_adds_refl w : only_adds w w.
Proof. split; [done|]. split; [done|]. intros q. by left. Qed.

Lemma only_adds_trans w w1 w2 : only_adds w w1 → only_adds w1 w2 → only_adds w w2.
Proof.
  intros (Hc1 & Ho1 & H1) (Hc2 & Ho2 & H2).
  split; [congruence|]. split; [congruence|]. intros q.
  destruct (H2 q) as [E2|[E2 E2']], (H1 q) as [E1|[E1 E1']].
  - left. congruence.
  - right. split; [done|]. congruence.
  - right. split; [congruence|done].
  - congruence.
Qed.

Lemma resolve_Absent_inv w follow p d n s :
  resolve w follow p = Absent d n s →
  lkind (root w) d = Some KDir ∧ lkind (root w) (d ++ [n]) = None.
Proof.
  unfold resolve. destruct (Py.str_eqb p ""); [done|]. apply namei_Absent_inv.
Qed.

(** [os.mkdir] either raises an [OSError] and changes nothing, or adds
    one directory, and the path then names a directory. *)
Lemma mkdir_post p w res w' :
  os.mkdir p w = (res, w') →
  only_adds w w'
  ∧ match res with
    | Ok _ => os.path_isdir w' p = true
    | Raise e => w' = w ∧ ∃ en, e = OSError en
    end.
Proof.
  unfold os.mkdir. destruct (resolve w false p) as [q|d n s|e] eqn:Hr.
  - intros [= <- <-]. split; [apply only_adds_refl|]. eauto.
  - intros [= <- <-]. destruct (resolve_Absent_inv _ _ _ _ _ _ Hr) as [Hd Hn].
    assert (∀ q, lkind (put (root w) d n (Dir [])) q
                 = if bool_decide (q = d ++ [n]) then Some KDir else lkind (root w) q)
      as Hput.
    { intros q. rewrite lkind_put_new; [done|done|done|]. by intros [|]. }
    split.
    + split; [done|]. split; [done|]. intros q. cbn [root set_root].
      rewrite Hput. case_bool_decide as Hq; [|by left].
      subst q. by right.
    + apply resolve_absent_nofollow in Hr.
      apply path_isdir_true. exists (d ++ [n]). split.
      * rewrite (resolve_created w p true d n s (Dir [])); [| done | by intros [|] | by right].
        unfold created_result. simpl. by rewrite andb_false_r.
      * cbn [root set_root]. by rewrite Hput, bool_decide_eq_true_2.
  - intros [= <- <-]. split; [apply only_adds_refl|]. eauto.
Qed.

(** The tail of a path, as [posixpath.split] gives it, is its last
    component. *)
Lemma split_fst p : (posixpath.split p).1 = posixpath.dirname p.
Proof. done. Qed.

Lemma split_tail_last p :
  (posixpath.split p).2 ≠ "" → last (components p) = Some (posixpath.split p).2.
Proof.
  unfold posixpath.split. cbn [snd].
  destruct (rfind_cases Py.sep p) as [[Hr Ho]|(a & b & -> & Hb & Hr)]; rewrite Hr.
  - change (Py.slice_from p (-1 + 1)) with p. intros Hp.
    rewrite components_no_sep by done.
    by rewrite (proj2 (str_eqb_neq p "")).
  - rewrite slice_from_last. intros Hne.
    rewrite components_app_sep, (components_no_sep b) by done.
    rewrite (proj2 (str_eqb_neq b "")) by done. by rewrite last_snoc.
Qed.

Lemma split_tail_empty p :
  (posixpath.split p).2 = "" → components (posixpath.dirname p) = components p.
Proof.
  unfold posixpath.split. cbn [snd]. rewrite components_dirname.
  destruct (rfind_cases Py.sep p) as [[Hr Ho]|(a & b & -> & Hb & Hr)]; rewrite Hr.
  - change (Py.slice_from p (-1 + 1)) with p. by intros ->.
  - rewrite slice_from_last. intros ->. by rewrite endswith_sep_snoc.
Qed.

Lemma makedirs_tail_final name :
  let ht := posixpath.split name in
  let ht := if Py.str_eqb ht.2 "" then posixpath.split ht.1 else ht in
  ht.2 ≠ "" → os.final_component name = ht.2.
Proof.
  cbn zeta. unfold os.final_component. fold (components name).
  case_str_eqb (posixpath.split name).2 "".
  - intros Ht. rewrite <-(split_tail_empty name) by done.
    change (posixpath.dirname name) with (posixpath.split name).1.
    by rewrite (split_tail_last _ Ht).
  - intros Ht. by rewrite (split_tail_last _ Ht).
Qed.

(** [os.makedirs] either raises an [OSError], or the path names a
    directory afterwards, unless its last component is [.]; and it only
    adds directories. *)
Lemma makedirs_rec_post fuel name w res w' :
  os.makedirs_rec fuel name w = (res, w') →
  only_adds w w'
  ∧ match res with
    | Ok _ => os.final_component name ≠ "." → os.path_isdir w' name = true
    | Raise e => ∃ en, e = OSError en
    end.
Proof.
  revert name w res w'. induction fuel as [|k IH]; intros name w res w'.
  { intros [= <- <-]. split; [apply only_adds_refl|]. eauto. }
  cbn [os.makedirs_rec].
  pose proof (makedirs_tail_final name) as Hfinal. cbn zeta in Hfinal.
  set (ht := if Py.str_eqb (posixpath.split name).2 ""
             then posixpath.split (posixpath.split name).1
             else posixpath.split name) in *.
  assert (∀ w0 res w', os.mkdir name w0 = (res, w') →
            only_adds w0 w'
            ∧ match res with
              | Ok _ => os.final_component name ≠ "." → os.path_isdir w' name = true
              | Raise e => ∃ en, e = OSError en
              end) as Hmk.
  { intros w0 res0 w0' H. destruct (mkdir_post _ _ _ _ H) as [Ha Hb].
    split; [done|]. destruct res0; [done|]. by destruct Hb. }
  destruct (negb (Py.str_eqb ht.1 "") && negb (Py.str_eqb ht.2 "")
            && negb (os.path_exists w ht.1)) eqn:Hc; [|by apply Hmk].
  apply andb_prop in Hc as [[_ Ht%negb_true_iff%str_eqb_neq]%andb_prop _].
  destruct (os.makedirs_rec k ht.1 w) as [res1 w1] eqn:Hrec.
  destruct (IH _ _ _ _ Hrec) as [Hadds Hres1].
  assert (∀ res w', (if Py.str_eqb ht.2 "." then (Ok tt, w1) else os.mkdir name w1)
                    = (res, w') →
            only_adds w w'
            ∧ match res with
              | Ok _ => os.final_component name ≠ "." → os.path_isdir w' name = true
              | Raise e => ∃ en, e = OSError en
              end) as Hstep.
  { intros res0 w0'. case_str_eqb ht.2 ".".
    - intros [= <- <-]. split; [done|]. intros Hn. destruct Hn.
      by rewrite Hfinal.
    - intros H. destruct (Hmk _ _ _ H) as [Ha Hb]. split; [|done].
      by eapply only_adds_trans. }
  destruct res1 as [[]|e]; [by apply Hstep|].
  destruct e as [?|?|en|?|?|]; try (intros [= <- <-]; by split).
  destruct en; try (intros [= <- <-]; by split). by apply Hstep.
Qed.

(** ** The fuel of [os.makedirs] *)

Lemma len_rstrip c s : Py.len (Py.rstrip c s) ≤ Py.len s.
Proof.
  destruct (rstrip_decomp c s) as (t & Hs & _). rewrite Hs at 2.
  rewrite len_app. pose proof (len_nonneg t). lia.
Qed.

(** The head of a path is shorter than the path, unless the tail is
    empty. *)
Lemma split_len p :
  Py.len (posixpath.split p).1 + Py.len (posixpath.split p).2 ≤ Py.len p.
Proof.
  unfold posixpath.split. cbn [fst snd].
  set (i := Z.to_nat (Py.rfind Py.sep p + 1)).
  pose proof (take_drop_string i p) as Hp. apply (f_equal Py.len) in Hp.
  rewrite len_app in Hp. unfold Py.slice_to, Py.slice_from. fold i.
  pose proof (len_rstrip Py.sep (Py.take i p)).
  destruct (negb _ && negb _); lia.
Qed.

Lemma len_empty s : Py.len s = 0 → s = "".
Proof. destruct s; [done|]. simpl. pose proof (len_nonneg s). lia. Qed.

(** [os.makedirs] calls itself on a shorter name each time: it does not
    depend on the fuel, once that is more than the length of the name. *)
Lemma makedirs_rec_fuel k k' name w :
  (Z.to_nat (Py.len name) < k)%nat → (Z.to_nat (Py.len name) < k')%nat →
  os.makedirs_rec k name w = os.makedirs_rec k' name w.
Proof.
  revert k' name w. induction k as [|k IH]; intros k' name w Hk Hk'; [lia|].
  destruct k' as [|k']; [lia|]. cbn [os.makedirs_rec].
  set (ht := if Py.str_eqb (posixpath.split name).2 ""
             then posixpath.split (posixpath.split name).1
             else posixpath.split name).
  destruct (negb (Py.str_eqb ht.1 "") && negb (Py.str_eqb ht.2 "")
            && negb (os.path_exists w ht.1)) eqn:Hc; [|done].
  apply andb_prop in Hc as [[_ Ht%negb_true_iff%str_eqb_neq]%andb_prop _].
  assert (Py.len ht.1 < Py.len name) as Hlt.
  { assert (0 < Py.len ht.2).
    { pose proof (len_nonneg ht.2). destruct (decide (Py.len ht.2 = 0)) as [E|]; [|lia].
      by apply len_empty in E. }
    pose proof (split_len name) as H1.
    pose proof (split_len (posixpath.split name).1) as H2.
    pose proof (len_nonneg (posixpath.split name).2).
    unfold ht in *. destruct (Py.str_eqb (posixpath.split name).2 ""); lia. }
  pose proof (len_nonneg ht.1).
  by rewrite (IH k') by lia.
Qed.

(* ================================================================== *)
(** * [os.makedirs] on names that follow a path to a directory *)
(* ================================================================== *)

Lemma join_snoc b l m :
  posixpath.join b (l ++ [m]) = posixpath.join2 (posixpath.join b l) m.
Proof. unfold posixpath.join. by rewrite fold_left_app. Qed.

Lemma name_no_sep m : name_ok m = true → occurs Py.sep m = false.
Proof. intros H. apply occurs_split_on. by apply name_ok_split. Qed.

Lemma join2_names x m :
  name_ok m = true →
  posixpath.join2 x m
  = if Py.str_eqb x "" || Py.endswith x Py.sep then x +:+ m
    else x +:+ String Py.sep m.
Proof. intros Hm. unfold posixpath.join2. by rewrite (name_ok_startswith _ Hm). Qed.

(** A path that ends with a name does not end with a separator. *)
Lemma join_names_end b l :
  Forall (λ n, name_ok n = true) l → l ≠ [] →
  posixpath.join b l ≠ "" ∧ Py.endswith (posixpath.join b l) Py.sep = false.
Proof.
  intros Hl Hne. destruct l as [|m l _] using rev_ind; [done|].
  apply Forall_app in Hl as [_ Hm%Forall_inv].
  pose proof (name_ok_not_empty _ Hm) as Hm'.
  pose proof (endswith_no_sep _ (name_no_sep _ Hm)) as He.
  rewrite join_snoc, join2_names by done.
  destruct (Py.str_eqb _ "" || Py.endswith _ Py.sep).
  - split; [|by rewrite endswith_app]. by destruct (posixpath.join b l), m.
  - split; [by destruct (posixpath.join b l)|].
    rewrite endswith_app by done. by destruct m.
Qed.

Lemma not_all_char c x : x ≠ "" → Py.endswith x c = false → Py.all_char c x = false.
Proof.
  induction x as [|y x IH]; [done|]. intros _ He. simpl.
  destruct x as [|z x].
  - simpl in *. by rewrite He.
  - rewrite IH; [by rewrite andb_false_r|done|done].
Qed.

Lemma split_last a b :
  occurs Py.sep b = false →
  posixpath.split (a +:+ String Py.sep b)
  = (posixpath.dirname (a +:+ String Py.sep b), b).
Proof.
  intros Hb.
  change (posixpath.split (a +:+ String Py.sep b))
    with (posixpath.dirname (a +:+ String Py.sep b),
          Py.slice_from (a +:+ String Py.sep b)
            (Py.rfind Py.sep (a +:+ String Py.sep b) + 1)).
  by rewrite rfind_last, slice_from_last.
Qed.

(** [split] of a path and a name gives the path and the name. *)
Lemma split_join2 x m :
  x ≠ "" → Py.endswith x Py.sep = false → name_ok m = true →
  posixpath.split (posixpath.join2 x m) = (x, m).
Proof.
  intros Hx He Hm. rewrite join2_names by done.
  rewrite (proj2 (str_eqb_neq x "")), He by done. cbn [orb].
  rewrite split_last, dirname_last by (by apply name_no_sep).
  by rewrite not_all_char, rstrip_id.
Qed.

Lemma split_on_all_sep t :
  Py.all_char Py.sep t = true → Forall (λ c, c = "") (Py.split_on Py.sep t).
Proof.
  induction t as [|x t IH]; simpl; [by repeat constructor|].
  intros [->%ch_eqb_eq Ht]%andb_prop.
  unfold Py.ch_eqb. rewrite bool_decide_eq_true_2 by done.
  constructor; [done|by apply IH].
Qed.

Lemma namei_empties lk f follow D ys q :
  Forall (λ c, c = "") ys → namei lk f follow D ys = Found q → q = D.
Proof.
  intros Hys. rewrite namei_unfold. revert Hys.
  induction ys as [|y ys IH]; simpl; [by intros _ [= ->]|].
  intros [-> Hys]%Forall_cons. destruct (lk D) as [[]|]; try done.
  simpl. by apply IH.
Qed.

(** Separators at the end of a path that leads somewhere can be left
    out. *)
Lemma resolve_strip_seps w x t D :
  x ≠ "" → Py.all_char Py.sep t = true →
  resolve w true (x +:+ t) = Found D → resolve w true x = Found D.
Proof.
  intros Hx Ht. destruct t as [|c t]; [by rewrite str_app_nil_r|].
  simpl in Ht. apply andb_prop in Ht as [->%ch_eqb_eq Ht].
  unfold resolve. rewrite (proj2 (str_eqb_neq x "")) by done.
  rewrite (proj2 (str_eqb_neq (x +:+ _) "")) by (by destruct x).
  rewrite startswith_app, split_on_app_sep by done. intros H.
  destruct (namei_app_found _ _ _ _ _ (Py.split_on Py.sep t) _
              (split_on_not_nil _ _) H) as (D' & f' & _ & HD' & Hrest).
  apply namei_empties in Hrest; [by subst|]. by apply split_on_all_sep.
Qed.

(** The head that [os.makedirs] looks at for the first name after a
    path that leads to a directory is empty or exists. *)
Lemma split_join2_base w b D m :
  base_of w b = Found D → lkind (root w) D = Some KDir → name_ok m = true →
  ∃ h, posixpath.split (posixpath.join2 b m) = (h, m)
       ∧ (h = "" ∨ os.path_exists w h = true).
Proof.
  intros Hb HD Hm. pose proof (name_no_sep _ Hm) as Ho.
  unfold base_of in Hb. rewrite join2_names by done.
  case_str_eqb b "".
  - subst b. exists "". split; [|by left]. cbn [orb String.append].
    unfold posixpath.split. rewrite (rfind_none _ _ Ho). done.
  - assert (∀ h, resolve w true h = Found D → os.path_exists w h = true) as Hex.
    { intros h Hh. unfold os.path_exists, os.stat_kind. by rewrite Hh, HD. }
    cbn [orb]. destruct (Py.endswith b Py.sep) eqn:He.
    + apply endswith_snoc in He as [a ->]. rewrite str_app_assoc.
      change (String Py.sep "" +:+ m) with (String Py.sep m).
      rewrite split_last, dirname_last by done.
      eexists. split; [done|]. right. apply Hex.
      destruct (Py.all_char Py.sep a) eqn:Ea; [done|].
      destruct (rstrip_decomp Py.sep a) as (t & Ha & Ht).
      apply (resolve_strip_seps w _ (t +:+ String Py.sep "")).
      * by apply rstrip_not_all_char.
      * by rewrite all_char_snoc.
      * by rewrite <-str_app_assoc, <-Ha.
    + exists b. rewrite split_last, dirname_last by done.
      rewrite not_all_char, rstrip_id by done. split; [done|]. right. by apply Hex.
Qed.

Lemma len_join b l :
  Forall (λ n, name_ok n = true) l →
  Z.of_nat (length l) ≤ Py.len (posixpath.join b l).
Proof.
  intros Hl. induction l as [|m l IH] using rev_ind.
  { simpl. apply len_nonneg. }
  apply Forall_app in Hl as [Hl Hm%Forall_inv].
  rewrite join_snoc, join2_names, length_app by done. specialize (IH Hl).
  assert (1 ≤ Py.len m).
  { pose proof (name_ok_not_empty _ Hm). destruct m; [done|].
    simpl. pose proof (len_nonneg m). lia. }
  simpl length.
  destruct (Py.str_eqb _ "" || Py.endswith _ Py.sep); rewrite len_app.
  - lia.
  - change (Py.len (String Py.sep m)) with (1 + Py.len m). lia.
Qed.

Section chain_at.

(** The path [b] leads to the directory at [D], which has no entry
    [m1]. *)
Variables (w : world) (b : string) (D : path) (m1 : string).
Hypothesis base : base_of w b = Found D.
Hypothesis is_dir : lkind (root w) D = Some KDir.
Hypothesis m1_ok : name_ok m1 = true.
Hypothesis missing : lkind (root w) (D ++ [m1]) = None.

Lemma made_lkind_at r r1 :
  lkind (root (with_chain w D m1 r)) (D ++ m1 :: r1) = lkind (chain r) r1.
Proof.
  apply lkind_dir in is_dir as [es Hes].
  unfold with_chain, lkind. cbn [root set_root].
  by rewrite (get_put_eq _ _ _ _ es).
Qed.

Lemma made_dir_at r : lkind (root (with_chain w D m1 r)) D = Some KDir.
Proof.
  unfold with_chain. cbn [root set_root]. rewrite lkind_put by done.
  rewrite bool_decide_eq_false_2; [done|].
  intros [k E]. apply (f_equal length) in E. rewrite !length_app in E.
  simpl in E. lia.
Qed.

(** What was there is there. *)
Lemma made_lost r q :
  lkind (root w) q = None
  ∨ lkind (root w) q = lkind (root (with_chain w D m1 r)) q.
Proof.
  unfold with_chain. cbn [root set_root]. rewrite lkind_put by done.
  case_bool_decide as Hp; [|by right]. left.
  destruct Hp as [k ->]. destruct k as [|c k]; [by rewrite app_nil_r|].
  apply lkind_below_not_dir; [done|]. by rewrite missing.
Qed.

Lemma made_base_at r : base_of (with_chain w D m1 r) b = Found D.
Proof.
  unfold base_of, resolve in *. destruct (Py.str_eqb b ""); [done|].
  eapply namei_mono; [|exact base]. apply made_lost.
Qed.

Lemma made_walk_at r ms1 :
  Forall (λ n, name_ok n = true) r → ms1 `prefix_of` (m1 :: r) →
  plain_walk (lkind (root (with_chain w D m1 r))) D ms1 = Some (D ++ ms1).
Proof.
  intros Hr Hp. apply plain_walk_names; [apply made_dir_at| |].
  - destruct Hp as [k Hk].
    assert (Forall (λ n, name_ok n = true) (ms1 ++ k)) as HF.
    { rewrite <-Hk. by apply Forall_cons. }
    by apply Forall_app in HF as [? _].
  - intros ms2 Hp2 Hne. destruct ms2 as [|a r2]; [done|].
    assert ((a :: r2) `prefix_of` (m1 :: r)) as [k Hk] by (by etrans).
    injection Hk as Ha Hk. subst a. rewrite made_lkind_at.
    apply lkind_chain_prefix. by exists k.
Qed.

(** Every directory of the chain is there once it is made. *)
Lemma made_isdir_at r ms1 :
  Forall (λ n, name_ok n = true) r → ms1 `prefix_of` (m1 :: r) → ms1 ≠ [] →
  os.path_isdir (with_chain w D m1 r) (posixpath.join b ms1) = true.
Proof.
  intros Hr Hp Hne.
  assert (Forall (λ n, name_ok n = true) ms1) as Hms1.
  { destruct Hp as [k Hk].
    assert (Forall (λ n, name_ok n = true) (ms1 ++ k)) as HF.
    { rewrite <-Hk. by apply Forall_cons. }
    by apply Forall_app in HF as [? _]. }
  destruct (resolve_join _ _ _ ms1 (made_base_at r) Hms1 Hne) as (f & _ & Hres).
  apply path_isdir_true. exists (D ++ ms1). split.
  - rewrite Hres. apply namei_plain. by apply made_walk_at.
  - destruct ms1 as [|a r1]; [done|].
    destruct Hp as [k Hk]. injection Hk as Ha Hk. subst a.
    rewrite made_lkind_at. apply lkind_chain_prefix. by exists k.
Qed.

(** A path below the missing name does not exist. *)
Lemma missing_not_exists_at r :
  Forall (λ n, name_ok n = true) r →
  os.path_exists w (posixpath.join b (m1 :: r)) = false.
Proof.
  intros Hr.
  destruct (resolve_join _ _ _ (m1 :: r) base) as (f & _ & Hres);
    [by apply Forall_cons|done|].
  unfold os.path_exists, os.stat_kind. rewrite Hres, namei_unfold. simpl.
  rewrite is_dir, (name_ok_not_dot _ m1_ok), (name_ok_not_dotdot _ m1_ok), missing.
  by destruct (forallb (Py.str_eqb "") r).
Qed.

Lemma mkdir_first_at :
  os.mkdir (posixpath.join b [m1]) w = (Ok tt, with_chain w D m1 []).
Proof.
  destruct (resolve_join _ _ _ [m1] base) as (f & _ & Hres);
    [by apply Forall_singleton|done|].
  unfold os.mkdir. by rewrite Hres, namei_name, missing.
Qed.

Lemma mkdir_next_at r m :
  Forall (λ n, name_ok n = true) r → name_ok m = true →
  os.mkdir (posixpath.join b (m1 :: r ++ [m])) (with_chain w D m1 r)
  = (Ok tt, with_chain w D m1 (r ++ [m])).
Proof.
  intros Hr Hm.
  destruct (resolve_join _ _ _ (m1 :: r ++ [m]) (made_base_at r))
    as (f & _ & Hres); [|done|].
  { apply Forall_cons. split; [done|]. apply Forall_app. split; [done|].
    by apply Forall_singleton. }
  unfold os.mkdir. rewrite Hres.
  change (m1 :: r ++ [m]) with ((m1 :: r) ++ [m]).
  rewrite (namei_plain_app _ _ _ _ _ (D ++ m1 :: r)) by (by apply made_walk_at).
  rewrite namei_name; [| |done].
  - rewrite <-app_assoc. cbn [app]. rewrite made_lkind_at, lkind_chain_beyond.
    f_equal. unfold with_chain, set_root. cbn [root cwd open_files].
    by rewrite put_below, put_chain.
  - rewrite made_lkind_at. by apply lkind_chain_prefix.
Qed.

Lemma makedirs_rec_chain_at r :
  Forall (λ n, name_ok n = true) r →
  ∀ fuel, (S (length r) ≤ fuel)%nat →
    os.makedirs_rec fuel (posixpath.join b (m1 :: r)) w
    = (Ok tt, with_chain w D m1 r).
Proof.
  induction r as [|m r0 IH] using rev_ind; intros Hr fuel Hfuel.
  - destruct fuel as [|k]; [lia|].
    destruct (split_join2_base w b D m1 base is_dir m1_ok) as (h & Hsplit & Hh).
    rewrite (makedirs_rec_S k _ w h m1);
      [|done|by apply name_ok_not_empty].
    assert (negb (Py.str_eqb h "") && negb (Py.str_eqb m1 "")
            && negb (os.path_exists w h) = false) as ->.
    { destruct Hh as [->| ->]; [done|]. by rewrite andb_false_r. }
    apply mkdir_first_at.
  - apply Forall_app in Hr as [Hr0 Hm%Forall_inv].
    rewrite length_app in Hfuel. simpl in Hfuel.
    destruct fuel as [|k]; [lia|].
    destruct (join_names_end b (m1 :: r0)) as [Hne He];
      [by apply Forall_cons|done|].
    change (m1 :: r0 ++ [m]) with ((m1 :: r0) ++ [m]).
    rewrite (makedirs_rec_S k _ w (posixpath.join b (m1 :: r0)) m).
    + rewrite (proj2 (str_eqb_neq _ "") Hne).
      rewrite (proj2 (str_eqb_neq m "")) by (by apply name_ok_not_empty).
      rewrite (missing_not_exists_at r0) by done.
      cbn [negb andb]. rewrite IH by (done || lia).
      assert (Py.str_eqb m "." = false) as ->.
      { pose proof (name_ok_not_dot _ Hm) as Hd. unfold is_dot in Hd.
        by apply orb_false_iff in Hd as [_ ?]. }
      by apply mkdir_next_at.
    + rewrite join_snoc. by apply split_join2.
    + by apply name_ok_not_empty.
Qed.

Lemma makedirs_chain_at r :
  Forall (λ n, name_ok n = true) r →
  os.makedirs (posixpath.join b (m1 :: r)) w = (Ok tt, with_chain w D m1 r).
Proof.
  intros Hr. unfold os.makedirs. apply makedirs_rec_chain_at; [done|].
  pose proof (len_join b (m1 :: r) ltac:(by apply Forall_cons)) as Hl.
  cbn [length] in Hl. lia.
Qed.

End chain_at.

(** ** A last component [.] *)

Lemma resolve_dot w x q :
  resolve w true x = Found q → lkind (root w) q = Some KDir →
  resolve w true (x +:+ String Py.sep ".") = Found q.
Proof.
  intros Hx Hq. pose proof (resolve_found_not_empty _ _ _ _ Hx) as Hne.
  unfold resolve in *. rewrite (proj2 (str_eqb_neq x "")) in Hx by done.
  rewrite (proj2 (str_eqb_neq (x +:+ _) "")) by (by destruct x).
  rewrite startswith_app, split_on_app_sep by done.
  destruct (namei_app _ _ _ _ _ Hx) as (f & _ & ->); [|done].
  rewrite namei_unfold. simpl. by rewrite Hq.
Qed.

Lemma not_exists_dot w x :
  x ≠ "" → os.path_exists w x = false →
  os.path_exists w (x +:+ String Py.sep ".") = false.
Proof.
  intros Hne Hx. destruct (os.path_exists w (x +:+ _)) eqn:E; [|done].
  apply path_exists_true in E as (q & k & Hq & _).
  unfold resolve in Hq.
  rewrite (proj2 (str_eqb_neq (x +:+ _) "")) in Hq by (by destruct x).
  rewrite startswith_app, split_on_app_sep in Hq by done.
  destruct (namei_app_found _ _ _ _ _ ["."] _ ltac:(done) Hq)
    as (D' & f' & _ & HD' & Hlast).
  apply namei_cons_dir in Hlast.
  assert (os.path_exists w x = true); [|congruence].
  apply path_exists_true. exists D', KDir. split; [|done].
  unfold resolve. by rewrite (proj2 (str_eqb_neq x "")).
Qed.

Lemma split_dot x :
  x ≠ "" → Py.endswith x Py.sep = false →
  posixpath.split (x +:+ String Py.sep ".") = (x, ".").
Proof.
  intros Hx He. rewrite split_last, dirname_last by done.
  by rewrite not_all_char, rstrip_id.
Qed.

(** [os.makedirs] makes the same chain when [.] follows the names. *)
Lemma makedirs_chain_dot_at w b D m1 r :
  base_of w b = Found D → lkind (root w) D = Some KDir →
  name_ok m1 = true → lkind (root w) (D ++ [m1]) = None →
  Forall (λ n, name_ok n = true) r →
  os.makedirs (posixpath.join b (m1 :: r) +:+ String Py.sep ".") w
  = (Ok tt, with_chain w D m1 r).
Proof.
  intros Hb HD Hm1 Hmiss Hr.
  destruct (join_names_end b (m1 :: r)) as [Hne He]; [by apply Forall_cons|done|].
  pose proof (len_join b (m1 :: r) ltac:(by apply Forall_cons)) as Hl.
  cbn [length] in Hl.
  unfold os.makedirs. rewrite len_app. change (Py.len (String Py.sep ".")) with 2.
  replace (Z.to_nat (Py.len (posixpath.join b (m1 :: r)) + 2))
    with (S (Z.to_nat (Py.len (posixpath.join b (m1 :: r)) + 1))) by lia.
  rewrite (makedirs_rec_S _ _ w (posixpath.join b (m1 :: r)) ".")
    by (by apply split_dot || done).
  rewrite (proj2 (str_eqb_neq _ "") Hne).
  rewrite (missing_not_exists_at w b D m1 Hb HD Hm1 Hmiss r Hr).
  cbn [negb andb].
  rewrite (makedirs_rec_chain_at w b D m1 Hb HD Hm1 Hmiss r Hr) by lia.
  done.
Qed.

(** ** A separator after the names *)

Lemma resolve_join_slash w b D ms :
  base_of w b = Found D →
  Forall (λ n, name_ok n = true) ms → ms ≠ [] →
  ∃ f, (f ≤ MAXSYMLINKS)%nat ∧ ∀ follow,
    resolve w follow (posixpath.join b ms +:+ String Py.sep "")
    = namei (lkind (root w)) f follow D (ms ++ [""]).
Proof.
  intros Hb Hms Hne.
  destruct (join_split b ms Hms Hne) as (Hj & Hs & pre & Hpre & Hpb).
  unfold base_of in Hb. unfold resolve.
  rewrite (proj2 (str_eqb_neq (_ +:+ _) ""))
    by (by destruct (posixpath.join b ms)).
  rewrite startswith_app, split_on_app_sep, Hs, Hpre by done.
  simpl Py.split_on. rewrite <-app_assoc.
  case_str_eqb b "".
  - subst pre. injection Hb as <-. by exists MAXSYMLINKS.
  - unfold resolve in Hb. rewrite (proj2 (str_eqb_neq b "")) in Hb by done.
    assert (namei (lkind (root w)) MAXSYMLINKS true
              (if Py.startswith b Py.sep then [] else cwd w) pre = Found D) as Hp.
    { destruct Hpb as [E|E]; rewrite E in Hb; [done|]. by apply namei_drop_empty. }
    destruct (namei_app _ _ _ _ _ Hp) as (f & Hf & Hrun).
    exists f. split; [done|]. intros follow. apply Hrun. by destruct ms.
Qed.

Lemma split_slash x :
  x ≠ "" → Py.endswith x Py.sep = false →
  posixpath.split (x +:+ String Py.sep "") = (x, "").
Proof.
  intros Hx He. rewrite split_last, dirname_last by done.
  by rewrite not_all_char, rstrip_id.
Qed.

(** [os.makedirs] of a name that ends with a separator splits what is
    before it. *)
Lemma makedirs_rec_S_slash k x w head tail :
  x ≠ "" → Py.endswith x Py.sep = false →
  posixpath.split x = (head, tail) → tail ≠ "" →
  os.makedirs_rec (S k) (x +:+ String Py.sep "") w
  = if negb (Py.str_eqb head "") && negb (Py.str_eqb tail "")
       && negb (os.path_exists w head)
    then
      match os.makedirs_rec k head w with
      | (Ok _, w1) | (Raise (OSError EEXIST), w1) =>
          if Py.str_eqb tail "." then (Ok tt, w1)
          else os.mkdir (x +:+ String Py.sep "") w1
      | (Raise e, w1) => (Raise e, w1)
      end
    else os.mkdir (x +:+ String Py.sep "") w.
Proof.
  intros Hx He Hs Ht. cbn [os.makedirs_rec].
  rewrite (split_slash x Hx He). cbn [fst snd].
  change (Py.str_eqb "" "") with true. cbv iota.
  rewrite Hs. by cbn [fst snd].
Qed.

(** The last name, missing from its directory, with a separator after
    it. *)
Lemma namei_missing_slash lk f follow q m :
  lk q = Some KDir → name_ok m = true → lk (q ++ [m]) = None →
  namei lk f follow q [m; ""] = Absent q m true.
Proof.
  intros Hq Hm Hnone. rewrite namei_unfold. simpl.
  by rewrite Hq, (name_ok_not_dot _ Hm), (name_ok_not_dotdot _ Hm), Hnone.
Qed.

Lemma namei_empty_comp lk f follow q :
  lk q = Some KDir → namei lk f follow q [""] = Found q.
Proof. intros Hq. rewrite namei_unfold. simpl. by rewrite Hq. Qed.

Section chain_slash.

Variables (w : world) (b : string) (D : path) (m1 : string).
Hypothesis base : base_of w b = Found D.
Hypothesis is_dir : lkind (root w) D = Some KDir.
Hypothesis m1_ok : name_ok m1 = true.
Hypothesis missing : lkind (root w) (D ++ [m1]) = None.

Lemma missing_not_exists_slash r :
  Forall (λ n, name_ok n = true) r →
  os.path_exists w (posixpath.join b (m1 :: r) +:+ String Py.sep "") = false.
Proof.
  intros Hr.
  destruct (resolve_join_slash _ _ _ (m1 :: r) base) as (f & _ & Hres);
    [by apply Forall_cons|done|].
  unfold os.path_exists, os.stat_kind. rewrite Hres, namei_unfold. simpl.
  rewrite is_dir, (name_ok_not_dot _ m1_ok), (name_ok_not_dotdot _ m1_ok), missing.
  by destruct (forallb (Py.str_eqb "") (r ++ [""])).
Qed.

Lemma made_isdir_slash r :
  Forall (λ n, name_ok n = true) r →
  os.path_isdir (with_chain w D m1 r)
    (posixpath.join b (m1 :: r) +:+ String Py.sep "") = true.
Proof.
  intros Hr.
  destruct (resolve_join_slash _ _ _ (m1 :: r)
              (made_base_at w b D m1 base is_dir missing r))
    as (f & _ & Hres); [by apply Forall_cons|done|].
  apply path_isdir_true. exists (D ++ m1 :: r).
  assert (lkind (root (with_chain w D m1 r)) (D ++ m1 :: r) = Some KDir) as Hk.
  { rewrite (made_lkind_at w D m1 is_dir). by apply lkind_chain_prefix. }
  split; [|done]. rewrite Hres.
  rewrite (namei_plain_app _ _ _ _ _ (D ++ m1 :: r))
    by (by apply (made_walk_at w D m1 is_dir m1_ok)).
  by apply namei_empty_comp.
Qed.

Lemma mkdir_first_slash :
  os.mkdir (posixpath.join b [m1] +:+ String Py.sep "") w
  = (Ok tt, with_chain w D m1 []).
Proof.
  destruct (resolve_join_slash _ _ _ [m1] base) as (f & _ & Hres);
    [by apply Forall_singleton|done|].
  unfold os.mkdir. rewrite Hres. simpl app.
  by rewrite namei_missing_slash.
Qed.

Lemma mkdir_next_slash r m :
  Forall (λ n, name_ok n = true) r → name_ok m = true →
  os.mkdir (posixpath.join b (m1 :: r ++ [m]) +:+ String Py.sep "")
    (with_chain w D m1 r)
  = (Ok tt, with_chain w D m1 (r ++ [m])).
Proof.
  intros Hr Hm.
  destruct (resolve_join_slash _ _ _ (m1 :: r ++ [m])
              (made_base_at w b D m1 base is_dir missing r))
    as (f & _ & Hres); [|done|].
  { apply Forall_cons. split; [done|]. apply Forall_app. split; [done|].
    by apply Forall_singleton. }
  unfold os.mkdir. rewrite Hres.
  replace ((m1 :: r ++ [m]) ++ [""]) with ((m1 :: r) ++ [m; ""])
    by (simpl; by rewrite <-app_assoc).
  rewrite (namei_plain_app _ _ _ _ _ (D ++ m1 :: r))
    by (by apply (made_walk_at w D m1 is_dir m1_ok)).
  rewrite namei_missing_slash; [| |done|].
  - f_equal. unfold with_chain, set_root. cbn [root cwd open_files].
    by rewrite put_below, put_chain.
  - rewrite (made_lkind_at w D m1 is_dir). by apply lkind_chain_prefix.
  - rewrite <-app_assoc. cbn [app]. rewrite (made_lkind_at w D m1 is_dir).
    apply lkind_chain_beyond.
Qed.

Lemma makedirs_chain_slash r :
  Forall (λ n, name_ok n = true) r →
  os.makedirs (posixpath.join b (m1 :: r) +:+ String Py.sep "") w
  = (Ok tt, with_chain w D m1 r).
Proof.
  intros Hr.
  destruct (join_names_end b (m1 :: r)) as [Hne He]; [by apply Forall_cons|done|].
  pose proof (len_join b (m1 :: r) ltac:(by apply Forall_cons)) as Hl.
  cbn [length] in Hl.
  unfold os.makedirs. rewrite len_app. change (Py.len (String Py.sep "")) with 1.
  set (k := Z.to_nat (Py.len (posixpath.join b (m1 :: r)) + 1)).
  assert (S (length r) ≤ k)%nat as Hk by lia.
  revert Hne He. destruct r as [|m r0 _] using rev_ind; intros Hne He.
  - destruct (split_join2_base w b D m1 base is_dir m1_ok) as (h & Hsplit & Hh).
    rewrite (makedirs_rec_S_slash k _ w h m1);
      [|done|done|done|by apply name_ok_not_empty].
    assert (negb (Py.str_eqb h "") && negb (Py.str_eqb m1 "")
            && negb (os.path_exists w h) = false) as ->.
    { destruct Hh as [->| ->]; [done|]. by rewrite andb_false_r. }
    apply mkdir_first_slash.
  - apply Forall_app in Hr as [Hr0 Hm%Forall_inv].
    rewrite length_app in Hk. simpl in Hk.
    destruct (join_names_end b (m1 :: r0)) as [Hne0 He0];
      [by apply Forall_cons|done|].
    change (m1 :: r0 ++ [m]) with ((m1 :: r0) ++ [m]) in *.
    rewrite (makedirs_rec_S_slash k _ w (posixpath.join b (m1 :: r0)) m);
      [|done|done| |by apply name_ok_not_empty].
    + rewrite (proj2 (str_eqb_neq _ "") Hne0).
      rewrite (proj2 (str_eqb_neq m "")) by (by apply name_ok_not_empty).
      rewrite (missing_not_exists_at w b D m1 base is_dir m1_ok missing r0) by done.
      cbn [negb andb].
      rewrite (makedirs_rec_chain_at w b D m1 base is_dir m1_ok missing r0)
        by (done || lia).
      assert (Py.str_eqb m "." = false) as ->.
      { pose proof (name_ok_not_dot _ Hm) as Hd. unfold is_dot in Hd.
        by apply orb_false_iff in Hd as [_ ?]. }
      by apply mkdir_next_slash.
    + rewrite join_snoc. by apply split_join2.
Qed.

End chain_slash.

(* ================================================================== *)
(** * [FileDirectories.create], for every path *)
(* ================================================================== *)



